(** * Descriptor-ring engine of the PIC32 Ethernet MAC driver

    A shallow embedding of [drv_ethmac_lib.c]: descriptor nodes live in a
    pointer-indexed memory, the four descriptor lists are head/tail pairs
    into that memory, and every driver routine is a computation in a small
    state-and-fault monad over the machine (memory, lists, registers). *)

From Stdlib Require Import ZArith Bool Lia.
From stdpp Require Import base option list gmap.

Local Open Scope Z_scope.

(** ** Descriptor header word *)

(** Modelled from the spec: the header [drv_ethmac_lib.h] (descriptor
    header layout, masks, result and flag enumerations, the inline list
    helpers) is not among the sources.  The spec names the flags of a
    descriptor node (ownership, start/end of packet, sticky, rxNoAck,
    rxReported, addressSpace) and its byteCount; the bit positions below are
    those of the PIC32 Ethernet descriptor format the masks of the source
    ([_SDCPT_HDR_NPV_MASK_], [_SDCPT_HDR_EOWN_MASK_],
    [_SDCPT_HDR_BCOUNT_POS_]) refer to. *)
Module Hdr.

Definition EOWN_POS : Z := 7.
Definition NPV_POS : Z := 8.
Definition sticky_POS : Z := 9.
Definition kv0_POS : Z := 10.
Definition rx_wack_POS : Z := 11.
Definition rx_nack_POS : Z := 12.
Definition EOP_POS : Z := 30.
Definition SOP_POS : Z := 31.

Definition _SDCPT_HDR_EOWN_MASK_ : Z := Z.shiftl 1 EOWN_POS.
Definition _SDCPT_HDR_NPV_MASK_ : Z := Z.shiftl 1 NPV_POS.
Definition _SDCPT_HDR_BCOUNT_POS_ : Z := 16.
Definition _SDCPT_HDR_BCOUNT_MASK_ : Z := 0x07ff0000.

(** Reading and writing a one-bit field of the header union. *)
Definition get (pos : Z) (w : Z) : bool := Z.testbit w pos.
Definition set (pos : Z) (b : bool) (w : Z) : Z :=
  if b then Z.setbit w pos else Z.clearbit w pos.

Definition EOWN := get EOWN_POS.
Definition NPV := get NPV_POS.
Definition sticky := get sticky_POS.
Definition kv0 := get kv0_POS.
Definition rx_wack := get rx_wack_POS.
Definition rx_nack := get rx_nack_POS.
Definition EOP := get EOP_POS.
Definition SOP := get SOP_POS.
Definition bCount (w : Z) : Z :=
  Z.shiftr (Z.land w _SDCPT_HDR_BCOUNT_MASK_) _SDCPT_HDR_BCOUNT_POS_.

(** A 32-bit store into [hdr.w]. *)
Definition word (z : Z) : Z := Z.land z 0xFFFFFFFF.

End Hdr.

Arguments Hdr.get : simpl never.
Arguments Hdr.set : simpl never.

(** ** Data model *)

(** Pointers are machine addresses; [0] is [NULL]. *)
Abbreviation ptr := Z.

Record DRV_ETHMAC_HW_DCPT : Type := mkHwDcpt {
  hdr : Z;        (* header word, see [Hdr] *)
  pEDBuff : Z;    (* physical address of the data buffer, 0 if none *)
  stat : Z;       (* status block written by the hardware *)
  next_ed : Z     (* physical address of the next hardware descriptor *)
}.

Record DRV_ETHMAC_DCPT_NODE : Type := mkNode {
  next : ptr;                    (* software link *)
  hwDcpt : DRV_ETHMAC_HW_DCPT
}.

Record DRV_ETHMAC_DCPT_LIST : Type := mkList {
  head : ptr;
  tail : ptr
}.

(** Modelled from the spec: the hardware register facade (section 6: get/set
    TX and RX head descriptor address, enable TX/RX, decrement the RX
    pending-buffer counter); the register layer is not among the sources.
    [BUFCDEC] counts the decrement requests written so far. *)
Record DRV_ETHERNET_REGISTERS : Type := mkRegs {
  ETHRXST : Z;
  ETHTXST : Z;
  RXEN : bool;
  TXRTS : bool;
  BUFCDEC : nat
}.

(** The machine: node memory, the [mData] lists of the MAC instance and
    the registers behind [pEthReg]. *)
Record machine : Type := mkMachine {
  mem : gmap Z DRV_ETHMAC_DCPT_NODE;
  _EnetTxFreeList : DRV_ETHMAC_DCPT_LIST;
  _EnetTxBusyList : DRV_ETHMAC_DCPT_LIST;
  _EnetRxFreeList : DRV_ETHMAC_DCPT_LIST;
  _EnetRxBusyList : DRV_ETHMAC_DCPT_LIST;
  pEthReg : DRV_ETHERNET_REGISTERS
}.

Inductive DRV_ETHMAC_RESULT : Type :=
| DRV_ETHMAC_RES_OK
| DRV_ETHMAC_RES_PACKET_QUEUED
| DRV_ETHMAC_RES_NO_PACKET
| DRV_ETHMAC_RES_NO_DESCRIPTORS
| DRV_ETHMAC_RES_USPACE_ERR
| DRV_ETHMAC_RES_RX_PKT_SPLIT_ERR.

#[global] Instance DRV_ETHMAC_RESULT_eq_dec : EqDecision DRV_ETHMAC_RESULT.
Proof. solve_decision. Defined.

(** Modelled from the spec: the values of [DRV_ETHMAC_DCPT_TYPE] and
    [DRV_ETHMAC_BUFF_FLAGS] come from the missing header; the source tests
    the former with [==] (pool add/remove) and the latter as bit flags. *)
Definition DRV_ETHMAC_DCPT_TYPE_RX : Z := 1.
Definition DRV_ETHMAC_DCPT_TYPE_TX : Z := 2.
Definition DRV_ETHMAC_BUFF_FLAG_RX_STICKY : Z := 1.
Definition DRV_ETHMAC_BUFF_FLAG_RX_UNACK : Z := 2.

(** Modelled from the spec: the address-translation facade (section 6:
    virtual to physical, physical to virtual per cache window, and the
    window-membership predicates).  The toolchain macros are not among the
    sources, so the driver is parametrised over them. *)
Class KMem : Type := mkKMem {
  KVA_TO_PA : Z -> Z;
  PA_TO_KVA0 : Z -> Z;
  PA_TO_KVA1 : Z -> Z;
  IS_KVA : Z -> bool;
  IS_KVA0 : Z -> bool
}.

(** The PIC32 windows: KSEG0 at [0x80000000], KSEG1 at [0xA0000000]. *)
Definition pic32_kmem : KMem := {|
  KVA_TO_PA v := Z.land v 0x1FFFFFFF;
  PA_TO_KVA0 pa := Z.lor pa 0x80000000;
  PA_TO_KVA1 pa := Z.lor pa 0xA0000000;
  IS_KVA v := (0x80000000 <=? v) && (v <? 0x100000000);
  IS_KVA0 v := (0x80000000 <=? v) && (v <? 0xA0000000)
|}.

(** ** Field updates *)

Definition with_next (v : ptr) (n : DRV_ETHMAC_DCPT_NODE) : DRV_ETHMAC_DCPT_NODE :=
  mkNode v (hwDcpt n).
Definition with_hw (f : DRV_ETHMAC_HW_DCPT -> DRV_ETHMAC_HW_DCPT)
    (n : DRV_ETHMAC_DCPT_NODE) : DRV_ETHMAC_DCPT_NODE :=
  mkNode (next n) (f (hwDcpt n)).
Definition hw_hdr (f : Z -> Z) (d : DRV_ETHMAC_HW_DCPT) : DRV_ETHMAC_HW_DCPT :=
  mkHwDcpt (f (hdr d)) (pEDBuff d) (stat d) (next_ed d).
Definition hw_pEDBuff (v : Z) (d : DRV_ETHMAC_HW_DCPT) : DRV_ETHMAC_HW_DCPT :=
  mkHwDcpt (hdr d) v (stat d) (next_ed d).
Definition hw_next_ed (v : Z) (d : DRV_ETHMAC_HW_DCPT) : DRV_ETHMAC_HW_DCPT :=
  mkHwDcpt (hdr d) (pEDBuff d) (stat d) v.

Definition with_hdr (f : Z -> Z) := with_hw (hw_hdr f).
Definition with_pEDBuff (v : Z) := with_hw (hw_pEDBuff v).
Definition with_next_ed (v : Z) := with_hw (hw_next_ed v).

Definition set_mem (m : gmap Z DRV_ETHMAC_DCPT_NODE) (s : machine) : machine :=
  mkMachine m (_EnetTxFreeList s) (_EnetTxBusyList s) (_EnetRxFreeList s)
    (_EnetRxBusyList s) (pEthReg s).
Definition set_TxFree (l : DRV_ETHMAC_DCPT_LIST) (s : machine) : machine :=
  mkMachine (mem s) l (_EnetTxBusyList s) (_EnetRxFreeList s)
    (_EnetRxBusyList s) (pEthReg s).
Definition set_TxBusy (l : DRV_ETHMAC_DCPT_LIST) (s : machine) : machine :=
  mkMachine (mem s) (_EnetTxFreeList s) l (_EnetRxFreeList s)
    (_EnetRxBusyList s) (pEthReg s).
Definition set_RxFree (l : DRV_ETHMAC_DCPT_LIST) (s : machine) : machine :=
  mkMachine (mem s) (_EnetTxFreeList s) (_EnetTxBusyList s) l
    (_EnetRxBusyList s) (pEthReg s).
Definition set_RxBusy (l : DRV_ETHMAC_DCPT_LIST) (s : machine) : machine :=
  mkMachine (mem s) (_EnetTxFreeList s) (_EnetTxBusyList s) (_EnetRxFreeList s)
    l (pEthReg s).
Definition set_regs (r : DRV_ETHERNET_REGISTERS) (s : machine) : machine :=
  mkMachine (mem s) (_EnetTxFreeList s) (_EnetTxBusyList s) (_EnetRxFreeList s)
    (_EnetRxBusyList s) r.

Arguments set_mem m s /.
Arguments set_TxFree l s /.
Arguments set_TxBusy l s /.
Arguments set_RxFree l s /.
Arguments set_RxBusy l s /.
Arguments set_regs r s /.

(** ** The state-and-fault monad

    [None] is a fault: a dereference of [NULL] or of an address that holds no
    node, a wait on the ownership bit that software alone never leaves, or a
    loop that outran its fuel. *)
Definition M (A : Type) : Type := machine -> option (A * machine).

Definition ret {A} (a : A) : M A := fun s => Some (a, s).
Definition bind {A B} (c : M A) (k : A -> M B) : M B :=
  fun s => match c s with
           | Some (a, s') => k a s'
           | None => None
           end.
Definition fault {A} : M A := fun _ => None.
Definition gets {A} (f : machine -> A) : M A := fun s => Some (f s, s).
Definition modify (f : machine -> machine) : M unit := fun s => Some (tt, f s).

Declare Scope eth_scope.
Delimit Scope eth_scope with eth.
Notation "'let*' x := c 'in' k" := (bind c (fun x => k))
  (at level 10, x name, c at level 100, k at level 200) : eth_scope.
Notation "'let*' ' pat := c 'in' k" := (bind c (fun x => match x with pat => k end))
  (at level 10, pat pattern, c at level 100, k at level 200) : eth_scope.
Notation "c1 ;; c2" := (bind c1 (fun _ => c2))
  (at level 100, c2 at level 200, right associativity) : eth_scope.
Local Open Scope eth_scope.

(** [*p] as an rvalue and as an lvalue. *)
Definition load (p : ptr) : M DRV_ETHMAC_DCPT_NODE :=
  fun s => if p =? 0 then None
           else match mem s !! p with
                | Some n => Some (n, s)
                | None => None
                end.
Definition store (p : ptr) (n : DRV_ETHMAC_DCPT_NODE) : M unit :=
  fun s => if p =? 0 then None
           else match mem s !! p with
                | Some _ => Some (tt, set_mem (<[p := n]> (mem s)) s)
                | None => None
                end.
(** [p->field = ...] *)
Definition update (p : ptr) (f : DRV_ETHMAC_DCPT_NODE -> DRV_ETHMAC_DCPT_NODE) : M unit :=
  let* n := load p in store p (f n).

(** [&pN->hwDcpt]: the hardware descriptor follows the software link. *)
Definition hwDcpt_addr (p : ptr) : Z := p + 4.

Definition DRV_ETH_RxBufferCountDecrement : M unit :=
  modify (fun s => let r := pEthReg s in
    set_regs (mkRegs (ETHRXST r) (ETHTXST r) (RXEN r) (TXRTS r) (S (BUFCDEC r))) s).
Definition DRV_ETH_RxPacketDescAddrGet : M Z := gets (fun s => ETHRXST (pEthReg s)).
Definition DRV_ETH_RxPacketDescAddrSet (a : Z) : M unit :=
  modify (fun s => let r := pEthReg s in
    set_regs (mkRegs a (ETHTXST r) (RXEN r) (TXRTS r) (BUFCDEC r)) s).
Definition DRV_ETH_TxPacketDescAddrGet : M Z := gets (fun s => ETHTXST (pEthReg s)).
Definition DRV_ETH_TxPacketDescAddrSet (a : Z) : M unit :=
  modify (fun s => let r := pEthReg s in
    set_regs (mkRegs (ETHRXST r) a (RXEN r) (TXRTS r) (BUFCDEC r)) s).
Definition DRV_ETH_RxEnable : M unit :=
  modify (fun s => let r := pEthReg s in
    set_regs (mkRegs (ETHRXST r) (ETHTXST r) true (TXRTS r) (BUFCDEC r)) s).
Definition DRV_ETH_TxRTSEnable : M unit :=
  modify (fun s => let r := pEthReg s in
    set_regs (mkRegs (ETHRXST r) (ETHTXST r) (RXEN r) true (BUFCDEC r)) s).

Section Driver.
Context {K : KMem}.

(** ** Descriptor list helpers

    Modelled from the spec: the inline helpers [DRV_ETHMAC_LIB_List*] of the
    missing header, for the spec's "singly linked, head/tail-tracked
    sequence of nodes"; they follow the generic [DRV_ETHMAC_SingleList*]
    routines at the end of the source, and keep the hardware link [next_ed]
    of a node in step with its software link. A list passed by pointer is
    taken and given back by value. *)

Definition DRV_ETHMAC_LIB_ListInit : DRV_ETHMAC_DCPT_LIST := mkList 0 0.

Definition DRV_ETHMAC_LIB_ListIsEmpty (pL : DRV_ETHMAC_DCPT_LIST) : bool :=
  head pL =? 0.

Definition DRV_ETHMAC_LIB_ListRemoveHead (pL : DRV_ETHMAC_DCPT_LIST)
    : M (ptr * DRV_ETHMAC_DCPT_LIST) :=
  let pN := head pL in
  if pN =? 0 then ret (pN, pL)
  else if head pL =? tail pL then ret (pN, mkList 0 0)
  else let* n := load pN in ret (pN, mkList (next n) (tail pL)).

Definition DRV_ETHMAC_LIB_ListAddTail (pL : DRV_ETHMAC_DCPT_LIST) (pN : ptr)
    : M DRV_ETHMAC_DCPT_LIST :=
  update pN (with_next 0) ;;
  update pN (with_next_ed 0) ;;
  if tail pL =? 0 then ret (mkList pN pN)
  else
    update (tail pL) (with_next pN) ;;
    update (tail pL) (with_next_ed (KVA_TO_PA (hwDcpt_addr pN))) ;;
    ret (mkList (head pL) pN).

Definition DRV_ETHMAC_LIB_ListAddHead (pL : DRV_ETHMAC_DCPT_LIST) (pN : ptr)
    : M DRV_ETHMAC_DCPT_LIST :=
  update pN (with_next (head pL)) ;;
  update pN (with_next_ed (KVA_TO_PA (hwDcpt_addr (head pL)))) ;;
  ret (mkList pN (if tail pL =? 0 then pN else tail pL)).

Fixpoint DRV_ETHMAC_LIB_ListAppendTail (fuel : nat)
    (pL pAList : DRV_ETHMAC_DCPT_LIST)
    : M (DRV_ETHMAC_DCPT_LIST * DRV_ETHMAC_DCPT_LIST) :=
  match fuel with
  | O => fault
  | S fuel' =>
    let* '(pN, pAList) := DRV_ETHMAC_LIB_ListRemoveHead pAList in
    if pN =? 0 then ret (pL, pAList)
    else
      let* pL := DRV_ETHMAC_LIB_ListAddTail pL pN in
      DRV_ETHMAC_LIB_ListAppendTail fuel' pL pAList
  end.

(** ** [_EthAppendBusyList] *)

(** The [while((pN=DRV_ETHMAC_LIB_ListRemoveHead(pNewList)))] loop. *)
Fixpoint _EthAppendBusyList_loop (fuel : nat)
    (pBusyList pNewList : DRV_ETHMAC_DCPT_LIST) (rxAck : bool)
    : M (DRV_ETHMAC_DCPT_LIST * DRV_ETHMAC_DCPT_LIST) :=
  match fuel with
  | O => fault
  | S fuel' =>
    let* '(pN, pNewList) := DRV_ETHMAC_LIB_ListRemoveHead pNewList in
    if pN =? 0 then ret (pBusyList, pNewList)
    else
      let* pBusyList := DRV_ETHMAC_LIB_ListAddTail pBusyList pN in
      let* n := load pN in
      (if rxAck && negb (Hdr.rx_nack (hdr (hwDcpt n)))
       then DRV_ETH_RxBufferCountDecrement else ret tt) ;;
      _EthAppendBusyList_loop fuel' pBusyList pNewList rxAck
  end.

(** Lines 90-110: everything up to and including the append of the new
    sentinel; the chain is fully linked when this returns. *)
Definition _EthAppendBusyList_link (fuel : nat)
    (pBusyList pNewList : DRV_ETHMAC_DCPT_LIST) (rxAck : bool)
    : M (ptr * DRV_ETHMAC_DCPT_LIST * DRV_ETHMAC_DCPT_LIST) :=
  let tail_ := tail pBusyList in
  let* '(head_, pNewList) := DRV_ETHMAC_LIB_ListRemoveHead pNewList in
  update head_ (with_hdr (Hdr.set Hdr.EOWN_POS false)) ;;
  let* '(pBusyList, pNewList) := _EthAppendBusyList_loop fuel pBusyList pNewList rxAck in
  let* t := load tail_ in
  update head_ (with_next (next t)) ;;
  update head_ (with_next_ed (next_ed (hwDcpt t))) ;;
  let* h := load head_ in
  store tail_ h ;;
  update head_ (with_hdr (fun _ => 0)) ;;
  update head_ (with_pEDBuff 0) ;;
  let* pBusyList := DRV_ETHMAC_LIB_ListAddTail pBusyList head_ in
  ret (tail_, pBusyList, pNewList).

(** Lines 111-115: hand the old sentinel slot to the hardware, then
    acknowledge it. *)
Definition _EthAppendBusyList_go (tail_ : ptr) (rxAck : bool) : M unit :=
  update tail_ (with_hdr (Hdr.set Hdr.EOWN_POS true)) ;;
  let* t := load tail_ in
  if rxAck && negb (Hdr.rx_nack (hdr (hwDcpt t)))
  then DRV_ETH_RxBufferCountDecrement else ret tt.

Definition _EthAppendBusyList (fuel : nat)
    (pBusyList pNewList : DRV_ETHMAC_DCPT_LIST) (rxAck : bool)
    : M (DRV_ETHMAC_DCPT_LIST * DRV_ETHMAC_DCPT_LIST) :=
  let* '(tail_, pBusyList, pNewList) := _EthAppendBusyList_link fuel pBusyList pNewList rxAck in
  _EthAppendBusyList_go tail_ rxAck ;;
  ret (pBusyList, pNewList).

(** ** Descriptor pool *)

(** The four lists of the MAC instance, as the [pMacD->mData._Enet*Ptr]
    pointers select them. *)
Inductive list_sel : Type := TxFree | TxBusy | RxFree | RxBusy.

Definition get_list (l : list_sel) (s : machine) : DRV_ETHMAC_DCPT_LIST :=
  match l with
  | TxFree => _EnetTxFreeList s
  | TxBusy => _EnetTxBusyList s
  | RxFree => _EnetRxFreeList s
  | RxBusy => _EnetRxBusyList s
  end.

Definition set_list (l : list_sel) (v : DRV_ETHMAC_DCPT_LIST) (s : machine) : machine :=
  match l with
  | TxFree => set_TxFree v s
  | TxBusy => set_TxBusy v s
  | RxFree => set_RxFree v s
  | RxBusy => set_RxBusy v s
  end.

(** Modelled from the spec: the injected functions of section 6,
    [allocate(count, size, context) -> pointer-or-null] and
    [free(node, context)], are computations of the caller; the driver only
    ever asks for one node at a time. *)
Definition DRV_ETHMAC_DCPT_AllocF : Type := M ptr.
Definition DRV_ETHMAC_DCPT_FreeF : Type := ptr -> M unit.

(** The [while(nDescriptors--)] loop of [DRV_ETHMAC_LibDescriptorsPoolAdd]. *)
Fixpoint PoolAdd_loop (fuel : nat) (nDescriptors : Z) (pFList : list_sel)
    (fAlloc : DRV_ETHMAC_DCPT_AllocF) (nCreated : Z) : M Z :=
  match fuel with
  | O => fault
  | S fuel' =>
    if nDescriptors =? 0 then ret nCreated
    else
      let nDescriptors := nDescriptors - 1 in
      let* pDcpt := fAlloc in
      if pDcpt =? 0 then ret nCreated
      else
        let* l := gets (get_list pFList) in
        let* l := DRV_ETHMAC_LIB_ListAddTail l pDcpt in
        modify (set_list pFList l) ;;
        PoolAdd_loop fuel' nDescriptors pFList fAlloc (nCreated + 1)
  end.

Definition DRV_ETHMAC_LibDescriptorsPoolAdd (fuel : nat) (nDescriptors : Z)
    (dType : Z) (fAlloc : option DRV_ETHMAC_DCPT_AllocF) : M Z :=
  match fAlloc with
  | None => ret 0
  | Some fAlloc =>
    let lists :=
      if dType =? DRV_ETHMAC_DCPT_TYPE_TX then Some (TxFree, TxBusy)
      else if dType =? DRV_ETHMAC_DCPT_TYPE_RX then Some (RxFree, RxBusy)
      else None in
    match lists with
    | None => ret 0
    | Some (pFList, pBList) =>
      let* b := gets (get_list pBList) in
      if DRV_ETHMAC_LIB_ListIsEmpty b then
        let* pDcpt := fAlloc in
        if pDcpt =? 0 then ret 0
        else
          let* b := DRV_ETHMAC_LIB_ListAddHead b pDcpt in
          modify (set_list pBList b) ;;
          PoolAdd_loop fuel nDescriptors pFList fAlloc 0
      else PoolAdd_loop fuel nDescriptors pFList fAlloc 0
    end
  end.

(** The [while(nDescriptors--)] loop of
    [DRV_ETHMAC_LibDescriptorsPoolRemove]. *)
Fixpoint PoolRemove_loop (fuel : nat) (nDescriptors : Z) (pList : list_sel)
    (fFree : option DRV_ETHMAC_DCPT_FreeF) (removed : Z) : M Z :=
  match fuel with
  | O => fault
  | S fuel' =>
    if nDescriptors =? 0 then ret removed
    else
      let nDescriptors := nDescriptors - 1 in
      let* l := gets (get_list pList) in
      let* '(pN, l) := DRV_ETHMAC_LIB_ListRemoveHead l in
      modify (set_list pList l) ;;
      if pN =? 0 then ret removed
      else
        match fFree with Some fFree => fFree pN | None => ret tt end ;;
        PoolRemove_loop fuel' nDescriptors pList fFree (removed + 1)
  end.

Definition DRV_ETHMAC_LibDescriptorsPoolRemove (fuel : nat) (nDescriptors : Z)
    (dType : Z) (fFree : option DRV_ETHMAC_DCPT_FreeF) : M Z :=
  if dType =? DRV_ETHMAC_DCPT_TYPE_TX then PoolRemove_loop fuel nDescriptors TxFree fFree 0
  else if dType =? DRV_ETHMAC_DCPT_TYPE_RX then PoolRemove_loop fuel nDescriptors RxFree fFree 0
  else ret 0.

(** ** RX buffer supply *)

(** The [for] loop of [DRV_ETHMAC_LibRxBuffersAppend].  [ppBuff] is the
    array the caller points at, [i] the position of the cursor; the loop
    yields the values [pBuff], [nBuffs], [pNewList] and [res] hold on exit. *)
Fixpoint RxBuffersAppend_loop (fuel : nat) (ppBuff : nat -> Z) (i : nat)
    (pBuff : Z) (nBuffs : Z) (rxFlags : Z) (pNewList : DRV_ETHMAC_DCPT_LIST)
    (res : DRV_ETHMAC_RESULT)
    : M (Z * Z * DRV_ETHMAC_DCPT_LIST * DRV_ETHMAC_RESULT) :=
  match fuel with
  | O => fault
  | S fuel' =>
    if negb (pBuff =? 0) && negb (nBuffs =? 0) then
      let* f := gets _EnetRxFreeList in
      let* '(pEDcpt, f) := DRV_ETHMAC_LIB_ListRemoveHead f in
      modify (set_RxFree f) ;;
      if pEDcpt =? 0 then ret (pBuff, nBuffs, pNewList, DRV_ETHMAC_RES_NO_DESCRIPTORS)
      else
        update pEDcpt (with_pEDBuff (KVA_TO_PA pBuff)) ;;
        update pEDcpt (with_hdr (fun _ =>
          Hdr.word (Z.lor Hdr._SDCPT_HDR_NPV_MASK_ Hdr._SDCPT_HDR_EOWN_MASK_))) ;;
        (if negb (Z.land rxFlags DRV_ETHMAC_BUFF_FLAG_RX_STICKY =? 0)
         then update pEDcpt (with_hdr (Hdr.set Hdr.sticky_POS true)) else ret tt) ;;
        (if negb (Z.land rxFlags DRV_ETHMAC_BUFF_FLAG_RX_UNACK =? 0)
         then update pEDcpt (with_hdr (Hdr.set Hdr.rx_nack_POS true)) else ret tt) ;;
        let continue :=
          let* l := DRV_ETHMAC_LIB_ListAddTail pNewList pEDcpt in
          RxBuffersAppend_loop fuel' ppBuff (S i) (ppBuff (S i)) (nBuffs - 1)
            rxFlags l res in
        if IS_KVA0 pBuff then
          update pEDcpt (with_hdr (Hdr.set Hdr.kv0_POS true)) ;; continue
        else if negb (IS_KVA pBuff) then
          ret (pBuff, nBuffs, pNewList, DRV_ETHMAC_RES_USPACE_ERR)
        else continue
    else ret (pBuff, nBuffs, pNewList, res)
  end.

Definition DRV_ETHMAC_LibRxBuffersAppend (fuel : nat) (ppBuff : nat -> Z)
    (nBuffs : Z) (rxFlags : Z) : M DRV_ETHMAC_RESULT :=
  let nBuffs := if nBuffs =? 0 then 0x7fffffff else nBuffs in
  let pNewList := DRV_ETHMAC_LIB_ListInit in
  let* '(pBuff, nBuffs, pNewList, res) :=
    RxBuffersAppend_loop fuel ppBuff 0 (ppBuff 0%nat) nBuffs rxFlags pNewList
      DRV_ETHMAC_RES_OK in
  if negb (pBuff =? 0) && negb (nBuffs =? 0) then
    let* f := gets _EnetRxFreeList in
    let* '(f, _) := DRV_ETHMAC_LIB_ListAppendTail fuel f pNewList in
    modify (set_RxFree f) ;;
    ret res
  else
    (if negb (DRV_ETHMAC_LIB_ListIsEmpty pNewList) then
       let* b := gets _EnetRxBusyList in
       let* '(b, _) := _EthAppendBusyList fuel b pNewList true in
       modify (set_RxBusy b) ;;
       let* a := DRV_ETH_RxPacketDescAddrGet in
       (if a =? 0 then
          let* b := gets _EnetRxBusyList in
          DRV_ETH_RxPacketDescAddrSet (KVA_TO_PA (hwDcpt_addr (head b)))
        else ret tt) ;;
       DRV_ETH_RxEnable
     else ret tt) ;;
    ret DRV_ETHMAC_RES_OK.

(** ** TX scheduling *)

Definition _EthTxSchedBuffer (pBuff : Z) (nBytes : Z)
    (pList : DRV_ETHMAC_DCPT_LIST)
    : M (DRV_ETHMAC_RESULT * DRV_ETHMAC_DCPT_LIST) :=
  if negb (IS_KVA pBuff) then ret (DRV_ETHMAC_RES_USPACE_ERR, pList)
  else
    let* f := gets _EnetTxFreeList in
    let* '(pEDcpt, f) := DRV_ETHMAC_LIB_ListRemoveHead f in
    modify (set_TxFree f) ;;
    if negb (pEDcpt =? 0) then
      update pEDcpt (with_pEDBuff (KVA_TO_PA pBuff)) ;;
      update pEDcpt (with_hdr (fun _ =>
        Hdr.word (Z.lor (Z.lor Hdr._SDCPT_HDR_NPV_MASK_ Hdr._SDCPT_HDR_EOWN_MASK_)
                        (Z.shiftl nBytes Hdr._SDCPT_HDR_BCOUNT_POS_)))) ;;
      (if IS_KVA0 pBuff
       then update pEDcpt (with_hdr (Hdr.set Hdr.kv0_POS true)) else ret tt) ;;
      let* pList := DRV_ETHMAC_LIB_ListAddTail pList pEDcpt in
      ret (DRV_ETHMAC_RES_OK, pList)
    else ret (DRV_ETHMAC_RES_NO_DESCRIPTORS, pList).

Definition _EthTxSchedList (fuel : nat) (pList : DRV_ETHMAC_DCPT_LIST) : M unit :=
  if negb (DRV_ETHMAC_LIB_ListIsEmpty pList) then
    update (head pList) (with_hdr (Hdr.set Hdr.SOP_POS true)) ;;
    update (tail pList) (with_hdr (Hdr.set Hdr.EOP_POS true)) ;;
    let* b := gets _EnetTxBusyList in
    let* '(b, _) := _EthAppendBusyList fuel b pList false in
    modify (set_TxBusy b) ;;
    let* a := DRV_ETH_TxPacketDescAddrGet in
    (if a =? 0 then
       let* b := gets _EnetTxBusyList in
       DRV_ETH_TxPacketDescAddrSet (KVA_TO_PA (hwDcpt_addr (head b)))
     else ret tt) ;;
    DRV_ETH_TxRTSEnable
  else ret tt.

(** The tail shared by both send routines: schedule on success, otherwise
    put back the removed nodes. *)
Definition TxSend_finish (fuel : nat) (res : DRV_ETHMAC_RESULT)
    (pNewList : DRV_ETHMAC_DCPT_LIST) : M DRV_ETHMAC_RESULT :=
  (if decide (res = DRV_ETHMAC_RES_OK) then _EthTxSchedList fuel pNewList
   else if negb (DRV_ETHMAC_LIB_ListIsEmpty pNewList) then
     let* f := gets _EnetTxFreeList in
     let* '(f, _) := DRV_ETHMAC_LIB_ListAppendTail fuel f pNewList in
     modify (set_TxFree f)
   else ret tt) ;;
  ret res.

Definition DRV_ETHMAC_LibTxSendBuffer (fuel : nat) (pBuff : Z) (nBytes : Z)
    : M DRV_ETHMAC_RESULT :=
  let pNewList := DRV_ETHMAC_LIB_ListInit in
  let* '(res, pNewList) := _EthTxSchedBuffer pBuff nBytes pNewList in
  TxSend_finish fuel res pNewList.

(** One element of the caller's packet chain ([DRV_ETHMAC_PKT_DCPT] without
    its link); the chain itself is the list of its elements. *)
Record DRV_ETHMAC_PKT_DCPT : Type := mkPkt {
  pBuff : Z;
  nBytes : Z
}.

(** The [while] loop of [DRV_ETHMAC_LibTxSendPacket]. *)
Fixpoint TxSendPacket_loop (pPkt : list DRV_ETHMAC_PKT_DCPT)
    (pNewList : DRV_ETHMAC_DCPT_LIST) (res : DRV_ETHMAC_RESULT)
    : M (DRV_ETHMAC_RESULT * DRV_ETHMAC_DCPT_LIST) :=
  match pPkt with
  | [] => ret (res, pNewList)
  | d :: pPkt' =>
    if negb (pBuff d =? 0) && negb (nBytes d =? 0)
       && bool_decide (res = DRV_ETHMAC_RES_OK) then
      let* '(res, pNewList) := _EthTxSchedBuffer (pBuff d) (nBytes d) pNewList in
      TxSendPacket_loop pPkt' pNewList res
    else ret (res, pNewList)
  end.

Definition DRV_ETHMAC_LibTxSendPacket (fuel : nat)
    (pPkt : list DRV_ETHMAC_PKT_DCPT) : M DRV_ETHMAC_RESULT :=
  let pNewList := DRV_ETHMAC_LIB_ListInit in
  let* '(res, pNewList) := TxSendPacket_loop pPkt pNewList DRV_ETHMAC_RES_OK in
  TxSend_finish fuel res pNewList.

(** ** TX status query *)

(** [&pN->hwDcpt.stat] *)
Definition stat_addr (p : ptr) : Z := hwDcpt_addr p + 8.

Fixpoint _EnetFindPacket_loop (fuel : nat) (pPhysPkt : Z) (pEDcpt : ptr) : M ptr :=
  match fuel with
  | O => fault
  | S fuel' =>
    if pEDcpt =? 0 then ret pEDcpt
    else
      let* n := load pEDcpt in
      if Hdr.SOP (hdr (hwDcpt n)) && (pPhysPkt =? pEDBuff (hwDcpt n)) then ret pEDcpt
      else _EnetFindPacket_loop fuel' pPhysPkt (next n)
  end.

Definition _EnetFindPacket (fuel : nat) (pBuff : Z) (pList : DRV_ETHMAC_DCPT_LIST)
    : M ptr :=
  let pPhysPkt := KVA_TO_PA pBuff in
  _EnetFindPacket_loop fuel pPhysPkt (head pList).

(** [pTxStat] is [None] for a null pointer, otherwise the word it points
    at; the word is given back with the result. *)
Definition DRV_ETHMAC_LibTxGetBufferStatus (fuel : nat) (pBuff : Z)
    (pTxStat : option Z) : M (DRV_ETHMAC_RESULT * option Z) :=
  let pTxStat := match pTxStat with Some _ => Some 0 | None => None end in
  let* b := gets _EnetTxBusyList in
  let* pHead := _EnetFindPacket fuel pBuff b in
  if negb (pHead =? 0) then
    let* n := load pHead in
    if Hdr.EOWN (hdr (hwDcpt n)) then ret (DRV_ETHMAC_RES_PACKET_QUEUED, pTxStat)
    else
      ret (DRV_ETHMAC_RES_OK,
           match pTxStat with Some _ => Some (stat_addr pHead) | None => None end)
  else ret (DRV_ETHMAC_RES_NO_PACKET, pTxStat).

(** ** Acknowledgment *)

(** The [do ... while(!pEDcpt->hwDcpt.hdr.EOP)] loop of
    [_EthGetAckedPacket]; it yields [next] and the grown [pAddList].  The
    wait [while(pEDcpt->hwDcpt.hdr.EOWN);] never ends without the hardware
    and is a fault here. *)
Fixpoint _EthGetAckedPacket_chain (fuel : nat) (next_ : ptr)
    (pAddList : DRV_ETHMAC_DCPT_LIST) : M (ptr * DRV_ETHMAC_DCPT_LIST) :=
  match fuel with
  | O => fault
  | S fuel' =>
    let pEDcpt := next_ in
    let* n := load pEDcpt in
    let next_ := next n in
    if Hdr.EOWN (hdr (hwDcpt n)) then fault
    else
      let* pAddList := DRV_ETHMAC_LIB_ListAddTail pAddList pEDcpt in
      let* n := load pEDcpt in
      if negb (Hdr.EOP (hdr (hwDcpt n)))
      then _EthGetAckedPacket_chain fuel' next_ pAddList
      else ret (next_, pAddList)
  end.

(** The [for] loop of [_EthGetAckedPacket]. *)
Fixpoint _EthGetAckedPacket_loop (fuel : nat) (pPkt : Z) (pEDcpt prev : ptr)
    (pRemList pAddList : DRV_ETHMAC_DCPT_LIST) (nAcks : Z) (pktFound : bool)
    : M (DRV_ETHMAC_DCPT_LIST * DRV_ETHMAC_DCPT_LIST * Z * bool) :=
  match fuel with
  | O => fault
  | S fuel' =>
    if pEDcpt =? 0 then ret (pRemList, pAddList, nAcks, pktFound)
    else
      let* n := load pEDcpt in
      if Hdr.SOP (hdr (hwDcpt n))
         && ((pPkt =? 0) || (pEDBuff (hwDcpt n) =? KVA_TO_PA pPkt)) then
        let pktFound := true in
        if Hdr.EOWN (hdr (hwDcpt n)) then ret (pRemList, pAddList, nAcks, pktFound)
        else
          let* '(next_, pAddList) := _EthGetAckedPacket_chain fuel' pEDcpt pAddList in
          let nAcks := nAcks + 1 in
          let* pRemList :=
            (if negb (prev =? 0)
             then update prev (with_next next_) ;; ret pRemList
             else ret (mkList next_ (tail pRemList))) in
          if negb (pPkt =? 0) then ret (pRemList, pAddList, nAcks, pktFound)
          else _EthGetAckedPacket_loop fuel' pPkt next_ prev pRemList pAddList
                 nAcks pktFound
      else
        _EthGetAckedPacket_loop fuel' pPkt (next n) pEDcpt pRemList pAddList
          nAcks pktFound
  end.

Definition _EthGetAckedPacket (fuel : nat) (pPkt : Z)
    (pRemList pAddList : DRV_ETHMAC_DCPT_LIST)
    : M (DRV_ETHMAC_RESULT * DRV_ETHMAC_DCPT_LIST * DRV_ETHMAC_DCPT_LIST) :=
  let* '(pRemList, pAddList, nAcks, pktFound) :=
    _EthGetAckedPacket_loop fuel pPkt (head pRemList) 0 pRemList pAddList 0 false in
  ret (if negb (nAcks =? 0) then DRV_ETHMAC_RES_OK
       else if pktFound then DRV_ETHMAC_RES_PACKET_QUEUED
       else DRV_ETHMAC_RES_NO_PACKET,
       pRemList, pAddList).

(** The [while((pEDcpt=DRV_ETHMAC_LIB_ListRemoveHead(pAckList)))] loop of
    [_EthRxAckBuffer]. *)
Fixpoint _EthRxAckBuffer_loop (fuel : nat)
    (pAckList pStickyList : DRV_ETHMAC_DCPT_LIST)
    : M (DRV_ETHMAC_DCPT_LIST * DRV_ETHMAC_DCPT_LIST) :=
  match fuel with
  | O => fault
  | S fuel' =>
    let* '(pEDcpt, pAckList) := DRV_ETHMAC_LIB_ListRemoveHead pAckList in
    if pEDcpt =? 0 then ret (pAckList, pStickyList)
    else
      let* n := load pEDcpt in
      if Hdr.sticky (hdr (hwDcpt n)) then
        update pEDcpt (with_hdr (Hdr.set Hdr.rx_wack_POS false)) ;;
        update pEDcpt (with_hdr (Hdr.set Hdr.EOP_POS false)) ;;
        update pEDcpt (with_hdr (Hdr.set Hdr.SOP_POS false)) ;;
        update pEDcpt (with_hdr (Hdr.set Hdr.EOWN_POS true)) ;;
        let* pStickyList := DRV_ETHMAC_LIB_ListAddTail pStickyList pEDcpt in
        _EthRxAckBuffer_loop fuel' pAckList pStickyList
      else
        let* f := gets _EnetRxFreeList in
        let* f := DRV_ETHMAC_LIB_ListAddTail f pEDcpt in
        modify (set_RxFree f) ;;
        update pEDcpt (with_pEDBuff 0) ;;
        let* n := load pEDcpt in
        (if negb (Hdr.rx_nack (hdr (hwDcpt n)))
         then DRV_ETH_RxBufferCountDecrement else ret tt) ;;
        _EthRxAckBuffer_loop fuel' pAckList pStickyList
  end.

Definition _EthRxAckBuffer (fuel : nat) (pBuff : Z) : M DRV_ETHMAC_RESULT :=
  let pAckList := DRV_ETHMAC_LIB_ListInit in
  let pStickyList := DRV_ETHMAC_LIB_ListInit in
  let* b := gets _EnetRxBusyList in
  let* '(res, b, pAckList) := _EthGetAckedPacket fuel pBuff b pAckList in
  modify (set_RxBusy b) ;;
  let* '(_, pStickyList) := _EthRxAckBuffer_loop fuel pAckList pStickyList in
  (if negb (DRV_ETHMAC_LIB_ListIsEmpty pStickyList) then
     let* b := gets _EnetRxBusyList in
     let* '(b, _) := _EthAppendBusyList fuel b pStickyList true in
     modify (set_RxBusy b)
   else ret tt) ;;
  ret res.

Definition DRV_ETHMAC_LibRxAcknowledgeBuffer (fuel : nat) (pBuff : Z)
    : M DRV_ETHMAC_RESULT :=
  _EthRxAckBuffer fuel pBuff.

(** ** RX packet retrieval *)

(** The caller's output arguments after the call: the packet chain, the
    word behind [pnBuffs] and the word behind [pRxStat] ([None] for a null
    pointer). *)
Record RxGetPacket_out : Type := mkOut {
  out_pPkt : list DRV_ETHMAC_PKT_DCPT;
  out_pnBuffs : option Z;
  out_pRxStat : option Z
}.

(** The [while(pBuffDcpt || pnBuffs)] loop of [DRV_ETHMAC_LibRxGetPacket].
    [pBuffDcpt] is the position of the cursor in the chain [pPkt]; it is
    null once it has run off the chain. *)
Fixpoint RxGetPacket_parse (fuel : nat) (pHead pEDcpt : ptr)
    (pPkt : list DRV_ETHMAC_PKT_DCPT) (pBuffDcpt : nat) (pnBuffs : option Z)
    (nBuffs reportBuffs : Z) (res : DRV_ETHMAC_RESULT)
    : M (DRV_ETHMAC_RESULT * list DRV_ETHMAC_PKT_DCPT * option Z) :=
  match fuel with
  | O => fault
  | S fuel' =>
    if (pBuffDcpt <? length pPkt)%nat || bool_decide (is_Some pnBuffs) then
      let* n := load pEDcpt in
      let w := hdr (hwDcpt n) in
      let '(pPkt, pBuffDcpt, reportBuffs) :=
        if (pBuffDcpt <? length pPkt)%nat then
          (<[pBuffDcpt := mkPkt (if Hdr.kv0 w then PA_TO_KVA0 (pEDBuff (hwDcpt n))
                                 else PA_TO_KVA1 (pEDBuff (hwDcpt n)))
                                (Hdr.bCount w)]> pPkt,
           S pBuffDcpt, reportBuffs + 1)
        else (pPkt, pBuffDcpt, reportBuffs) in
      let nBuffs := nBuffs + 1 in
      if Hdr.EOWN w then fault
      else if Hdr.EOP w then
        let pnBuffs := match pnBuffs with Some _ => Some nBuffs | None => None end in
        let pPkt :=
          if (pBuffDcpt <? length pPkt)%nat
          then <[pBuffDcpt := mkPkt 0 0]> pPkt else pPkt in
        match pPkt with
        | _ :: _ =>
          if negb (reportBuffs =? nBuffs)
          then ret (DRV_ETHMAC_RES_RX_PKT_SPLIT_ERR, pPkt, pnBuffs)
          else
            update pHead (with_hdr (Hdr.set Hdr.rx_wack_POS true)) ;;
            ret (res, pPkt, pnBuffs)
        | [] => ret (res, pPkt, pnBuffs)
        end
      else
        RxGetPacket_parse fuel' pHead (next n) pPkt pBuffDcpt pnBuffs
          nBuffs reportBuffs res
    else ret (res, pPkt, pnBuffs)
  end.

(** The [for] loop over the RX busy list. *)
Fixpoint RxGetPacket_scan (fuel : nat) (pEDcpt : ptr) (o : RxGetPacket_out)
    (res : DRV_ETHMAC_RESULT) : M (DRV_ETHMAC_RESULT * RxGetPacket_out) :=
  match fuel with
  | O => fault
  | S fuel' =>
    if pEDcpt =? 0 then ret (res, o)
    else
      let* n := load pEDcpt in
      let w := hdr (hwDcpt n) in
      if Hdr.EOWN w then ret (DRV_ETHMAC_RES_PACKET_QUEUED, o)
      else if Hdr.SOP w && negb (Hdr.rx_wack w) then
        let pRxStat :=
          match out_pRxStat o with
          | Some _ => Some (stat_addr pEDcpt)
          | None => None
          end in
        let* '(res, pPkt, pnBuffs) :=
          RxGetPacket_parse fuel' pEDcpt pEDcpt (out_pPkt o) 0 (out_pnBuffs o)
            0 0 DRV_ETHMAC_RES_OK in
        ret (res, mkOut pPkt pnBuffs pRxStat)
      else RxGetPacket_scan fuel' (next n) o res
  end.

(** [pPkt] is the caller's chain ([[]] for a null pointer); [pnBuffs] and
    [pRxStat] are [None] for a null pointer and otherwise hold the word
    pointed at. *)
Definition DRV_ETHMAC_LibRxGetPacket (fuel : nat)
    (pPkt : list DRV_ETHMAC_PKT_DCPT) (pnBuffs pRxStat : option Z)
    : M (DRV_ETHMAC_RESULT * RxGetPacket_out) :=
  let res := DRV_ETHMAC_RES_NO_PACKET in
  let pPkt := match pPkt with _ :: _ => <[0%nat := mkPkt 0 0]> pPkt | [] => pPkt end in
  let* b := gets _EnetRxBusyList in
  RxGetPacket_scan fuel (head b) (mkOut pPkt pnBuffs pRxStat) res.

End Driver.


(** ** The rest of the driver library *)

Section DriverRest.
Context {K : KMem}.

(** ** Descriptor counts *)

(** The [for] loop of [_EnetDescriptorsCount]: it stops at the node whose
    [next] is null, so the ending dummy descriptor is not counted. *)
Fixpoint _EnetDescriptorsCount_loop (fuel : nat) (pEDcpt : ptr) (isHwCtrl : bool)
    (nDcpts : Z) : M Z :=
  match fuel with
  | O => fault
  | S fuel' =>
    if pEDcpt =? 0 then ret nDcpts
    else
      let* n := load pEDcpt in
      if next n =? 0 then ret nDcpts
      else
        let nDcpts :=
          if Bool.eqb (Hdr.EOWN (hdr (hwDcpt n))) isHwCtrl then nDcpts + 1
          else nDcpts in
        _EnetDescriptorsCount_loop fuel' (next n) isHwCtrl nDcpts
  end.

Definition _EnetDescriptorsCount (fuel : nat) (pList : DRV_ETHMAC_DCPT_LIST)
    (isHwCtrl : bool) : M Z :=
  _EnetDescriptorsCount_loop fuel (head pList) isHwCtrl 0.

(** The three counters.  [pnBuffs] is [None] for a null pointer, otherwise
    the word it points at; the word is given back with the result. *)
Definition BuffersGet (fuel : nat) (pList : list_sel) (isHwCtrl : bool)
    (pnBuffs : option Z) : M (DRV_ETHMAC_RESULT * option Z) :=
  match pnBuffs with
  | Some _ =>
    let* l := gets (get_list pList) in
    let* c := _EnetDescriptorsCount fuel l isHwCtrl in
    ret (DRV_ETHMAC_RES_OK, Some c)
  | None => ret (DRV_ETHMAC_RES_OK, None)
  end.

Definition DRV_ETHMAC_LibRxPendingBuffersGet (fuel : nat) (pnBuffs : option Z) :=
  BuffersGet fuel RxBusy false pnBuffs.
Definition DRV_ETHMAC_LibRxScheduledBuffersGet (fuel : nat) (pnBuffs : option Z) :=
  BuffersGet fuel RxBusy true pnBuffs.
Definition DRV_ETHMAC_LibTxPendingBuffersGet (fuel : nat) (pnBuffs : option Z) :=
  BuffersGet fuel TxBusy false pnBuffs.

(** ** Pool clean-up *)

(** The loop of [_EnetPoolFreeDcptList]. *)
Fixpoint _EnetPoolFreeDcptList (fuel : nat) (pList : list_sel)
    (fFree : option DRV_ETHMAC_DCPT_FreeF) : M unit :=
  match fuel with
  | O => fault
  | S fuel' =>
    let* l := gets (get_list pList) in
    let* '(pN, l) := DRV_ETHMAC_LIB_ListRemoveHead l in
    modify (set_list pList l) ;;
    if pN =? 0 then ret tt
    else
      match fFree with Some fFree => fFree pN | None => ret tt end ;;
      _EnetPoolFreeDcptList fuel' pList fFree
  end.

(** [dType] is tested as a bit mask here, not with [==]. *)
Definition DRV_ETHMAC_LibDescriptorsPoolCleanUp (fuel : nat) (dType : Z)
    (fFree : option DRV_ETHMAC_DCPT_FreeF) : M unit :=
  (if negb (Z.land dType DRV_ETHMAC_DCPT_TYPE_TX =? 0) then
     _EnetPoolFreeDcptList fuel TxFree fFree ;;
     _EnetPoolFreeDcptList fuel TxBusy fFree
   else ret tt) ;;
  (if negb (Z.land dType DRV_ETHMAC_DCPT_TYPE_RX =? 0) then
     _EnetPoolFreeDcptList fuel RxFree fFree ;;
     _EnetPoolFreeDcptList fuel RxBusy fFree
   else ret tt).

(** ** TX acknowledgment *)

(** The virtual address of the buffer a descriptor carries, as the driver
    computes it from the [kv0] flag. *)
Definition dcpt_kva (n : DRV_ETHMAC_DCPT_NODE) : Z :=
  if Hdr.kv0 (hdr (hwDcpt n)) then PA_TO_KVA0 (pEDBuff (hwDcpt n))
  else PA_TO_KVA1 (pEDBuff (hwDcpt n)).

(** Modelled from the spec: the acknowledge callback of section 6,
    [(bufferPointer, context) -> void], is code of the caller and releases
    resources of the application; it is taken not to touch the descriptor
    lists.  [calls] records the buffer address of each call, in order.

    The [for] loop of [DRV_ETHMAC_LibTxAcknowledgeBuffer] that calls
    [ackFnc] for each start-of-packet node of the acknowledged list. *)
Fixpoint TxAck_notify (fuel : nat) (pEDcpt : ptr) (calls : list Z) : M (list Z) :=
  match fuel with
  | O => fault
  | S fuel' =>
    if pEDcpt =? 0 then ret calls
    else
      let* n := load pEDcpt in
      let calls := if Hdr.SOP (hdr (hwDcpt n)) then calls ++ [dcpt_kva n] else calls in
      TxAck_notify fuel' (next n) calls
  end.

(** The [while((pEDcpt=DRV_ETHMAC_LIB_ListRemoveHead(pAckList)))] loop that
    reinserts the acknowledged nodes. *)
Fixpoint TxAck_reinsert (fuel : nat) (pAckList : DRV_ETHMAC_DCPT_LIST)
    : M DRV_ETHMAC_DCPT_LIST :=
  match fuel with
  | O => fault
  | S fuel' =>
    let* '(pEDcpt, pAckList) := DRV_ETHMAC_LIB_ListRemoveHead pAckList in
    if pEDcpt =? 0 then ret pAckList
    else
      update pEDcpt (with_pEDBuff 0) ;;
      let* f := gets _EnetTxFreeList in
      let* f := DRV_ETHMAC_LIB_ListAddTail f pEDcpt in
      modify (set_TxFree f) ;;
      TxAck_reinsert fuel' pAckList
  end.

(** [ackFnc] tells whether a callback was passed; the calls it received
    come back with the result.  The TX lock and unlock around the list
    operations are those of the missing header and guard against other
    threads; there is one thread here. *)
Definition DRV_ETHMAC_LibTxAcknowledgeBuffer (fuel : nat) (pBuff : Z)
    (ackFnc : bool) : M (DRV_ETHMAC_RESULT * list Z) :=
  let pAckList := DRV_ETHMAC_LIB_ListInit in
  let* b := gets _EnetTxBusyList in
  let* '(res, b, pAckList) := _EthGetAckedPacket fuel pBuff b pAckList in
  modify (set_TxBusy b) ;;
  let* calls :=
    (if ackFnc then TxAck_notify fuel (head pAckList) [] else ret []) in
  let* _ := TxAck_reinsert fuel pAckList in
  ret (res, calls).

(** ** RX single-buffer retrieval *)

(** [pktDcpt] and [nBuffs] are the locals of the source, whose [pBuff],
    [nBytes] and value are not initialised: they come in as arguments.
    The result carries what the call leaves behind [ppBuff] and
    [pRxStat]. *)
Definition DRV_ETHMAC_LibRxGetBuffer (fuel : nat) (pktDcpt : DRV_ETHMAC_PKT_DCPT)
    (nBuffs : Z) (pRxStat : option Z) : M (DRV_ETHMAC_RESULT * Z * option Z) :=
  let* '(res, out) := DRV_ETHMAC_LibRxGetPacket fuel [pktDcpt] (Some nBuffs) pRxStat in
  let ppBuff := match out_pPkt out with d :: _ => pBuff d | [] => 0 end in
  ret (res, ppBuff, out_pRxStat out).

(** [DRV_ETHMAC_LibDescriptorGetBuffer]: the virtual address of the buffer a
    descriptor carries, [0] when it carries none. *)
Definition DRV_ETHMAC_LibDescriptorGetBuffer (pDcpt : ptr) : M Z :=
  let* n := load pDcpt in
  ret (if negb (pEDBuff (hwDcpt n) =? 0) then dcpt_kva n else 0).

End DriverRest.

(** ** Generic single linked lists

    [DRV_ETHMAC_SGL_LIST] is a list header with a node count; a
    [DRV_ETHMAC_SGL_LIST_NODE] is known to these functions by its [next]
    field alone.  Headers and nodes live at addresses, so that two pointers
    may name the same list. *)

Record DRV_ETHMAC_SGL_LIST := mkSglList {
  sgl_head : ptr;
  sgl_tail : ptr;
  nNodes : Z
}.

Record sgl_heap := mkSglHeap {
  sgl_lists : gmap Z DRV_ETHMAC_SGL_LIST;
  sgl_next : gmap Z ptr
}.

Definition sgl_set_list (pL : ptr) (L : DRV_ETHMAC_SGL_LIST) (s : sgl_heap) : sgl_heap :=
  mkSglHeap (<[pL := L]> (sgl_lists s)) (sgl_next s).

(** [pN->next = v]; a null or unmapped [pN] is a fault. *)
Definition sgl_set_next (pN : ptr) (v : ptr) (s : sgl_heap) : option sgl_heap :=
  if pN =? 0 then None
  else _ ← sgl_next s !! pN; Some (mkSglHeap (sgl_lists s) (<[pN := v]> (sgl_next s))).

Definition DRV_ETHMAC_SingleListHeadRemove (pL : ptr) (s : sgl_heap)
    : option (ptr * sgl_heap) :=
  L ← sgl_lists s !! pL;
  let pN := sgl_head L in
  if negb (pN =? 0) then
    if sgl_head L =? sgl_tail L then
      Some (pN, sgl_set_list pL (mkSglList 0 0 (nNodes L - 1)) s)
    else
      nx ← sgl_next s !! pN;
      Some (pN, sgl_set_list pL (mkSglList nx (sgl_tail L) (nNodes L - 1)) s)
  else Some (pN, s).

Definition DRV_ETHMAC_SingleListTailAdd (pL : ptr) (pN : ptr) (s : sgl_heap)
    : option sgl_heap :=
  s ← sgl_set_next pN 0 s;
  L ← sgl_lists s !! pL;
  if sgl_tail L =? 0 then
    Some (sgl_set_list pL (mkSglList pN pN (nNodes L + 1)) s)
  else
    s ← sgl_set_next (sgl_tail L) pN s;
    Some (sgl_set_list pL (mkSglList (sgl_head L) pN (nNodes L + 1)) s).

(** How a run of the [while] loop of [DRV_ETHMAC_SingleListAppend] ends:
    the loop is left, a null or unmapped pointer is followed, or the
    iterations allowed are used up. *)
Inductive sgl_outcome :=
  | SglDone (s : sgl_heap)
  | SglFault
  | SglOutOfFuel.

Fixpoint DRV_ETHMAC_SingleListAppend (fuel : nat) (pDstL pAList : ptr) (s : sgl_heap)
    : sgl_outcome :=
  match fuel with
  | O => SglOutOfFuel
  | S fuel' =>
    match DRV_ETHMAC_SingleListHeadRemove pAList s with
    | None => SglFault
    | Some (pN, s) =>
      if negb (pN =? 0) then
        match DRV_ETHMAC_SingleListTailAdd pDstL pN s with
        | None => SglFault
        | Some s => DRV_ETHMAC_SingleListAppend fuel' pDstL pAList s
        end
      else SglDone s
    end
  end.

(** ** Shape of a descriptor list in memory *)

(** [lseg m p l q]: following [next] from [p] visits exactly the nodes
    [l], in order, and arrives at [q]. *)
Fixpoint lseg (m : gmap Z DRV_ETHMAC_DCPT_NODE) (p : ptr) (l : list ptr) (q : ptr)
    : Prop :=
  match l with
  | [] => p = q
  | a :: l' =>
    p = a /\ a <> 0 /\
    match m !! a with
    | Some n => lseg m (next n) l' q
    | None => False
    end
  end.

(** [is_list m L l]: the list structure [L] holds the nodes [l], each once,
    null-terminated, with [tail] at the last of them. *)
Definition is_list (m : gmap Z DRV_ETHMAC_DCPT_NODE) (L : DRV_ETHMAC_DCPT_LIST)
    (l : list ptr) : Prop :=
  lseg m (head L) l 0 /\ tail L = default 0 (last l) /\ NoDup l.

(** What a node carries apart from its links. *)
Definition payload (n : DRV_ETHMAC_DCPT_NODE) : Z * Z * Z :=
  (hdr (hwDcpt n), pEDBuff (hwDcpt n), stat (hwDcpt n)).

Definition payload_at (m : gmap Z DRV_ETHMAC_DCPT_NODE) (a : ptr) : option (Z * Z * Z) :=
  payload <$> m !! a.
Definition hdr_at (m : gmap Z DRV_ETHMAC_DCPT_NODE) (a : ptr) : option Z :=
  (fun n => hdr (hwDcpt n)) <$> m !! a.
Definition pEDBuff_at (m : gmap Z DRV_ETHMAC_DCPT_NODE) (a : ptr) : option Z :=
  (fun n => pEDBuff (hwDcpt n)) <$> m !! a.

(** A flag of the node at [a]; [false] where there is no node. *)
Definition flag_at (pos : Z) (m : gmap Z DRV_ETHMAC_DCPT_NODE) (a : ptr) : bool :=
  match m !! a with
  | Some n => Hdr.get pos (hdr (hwDcpt n))
  | None => false
  end.

#[global] Instance lseg_dec m p l q : Decision (lseg m p l q).
Proof.
  revert p; induction l as [|a l IH]; intros p; simpl.
  - apply _.
  - destruct (m !! a); apply _.
Defined.

#[global] Instance is_list_dec m L l : Decision (is_list m L l).
Proof. unfold is_list. apply _. Defined.

(** Weakest precondition of a computation: it returns, and the result and
    final machine satisfy [Q]. *)
Definition wp {A} (c : M A) (Q : A -> machine -> Prop) (s : machine) : Prop :=
  exists a s', c s = Some (a, s') /\ Q a s'.

Ltac msimpl :=
  cbn [mem _EnetTxFreeList _EnetTxBusyList _EnetRxFreeList _EnetRxBusyList pEthReg
       set_mem set_TxFree set_TxBusy set_RxFree set_RxBusy set_regs
       get_list set_list head tail next hwDcpt hdr pEDBuff stat next_ed
       with_next with_hw with_hdr with_pEDBuff with_next_ed
       hw_hdr hw_pEDBuff hw_next_ed fst snd
       ETHRXST ETHTXST RXEN TXRTS BUFCDEC] in *.

(** ** Notions the claims are stated with *)

Section Notions.
Context {K : KMem}.

Definition add_BUFCDEC (k : nat) (r : DRV_ETHERNET_REGISTERS) : DRV_ETHERNET_REGISTERS :=
  mkRegs (ETHRXST r) (ETHTXST r) (RXEN r) (TXRTS r) (k + BUFCDEC r).

(** The nodes of [l] whose [rx_nack] flag is clear. *)
Definition acked (m : gmap Z DRV_ETHMAC_DCPT_NODE) (l : list ptr) : list ptr :=
  filter (fun a => flag_at Hdr.rx_nack_POS m a = false) l.

(** How many decrement requests an append of [l] owes. *)
Definition ack_count (rxAck : bool) (m : gmap Z DRV_ETHMAC_DCPT_NODE) (l : list ptr)
    : nat :=
  if rxAck then length (acked m l) else 0%nat.

(** The state in which [_EthAppendBusyList_link] leaves busy list [B]
    (nodes [lb ++ [t]]) and new list (nodes [h :: ln]): the chain is
    complete, the old sentinel slot [t] carries the head's descriptor with
    EOWN still clear, and [h] is the new, empty sentinel. *)
Definition linked (m m' : gmap Z DRV_ETHMAC_DCPT_NODE)
    (B B' : DRV_ETHMAC_DCPT_LIST) (lb : list ptr) (t h : ptr) (ln : list ptr)
    : Prop :=
  is_list m' B' (lb ++ [t] ++ ln ++ [h]) /\
  head B' = head B /\
  payload_at m' t =
    (fun n => (Hdr.set Hdr.EOWN_POS false (hdr (hwDcpt n)), pEDBuff (hwDcpt n),
               stat (hwDcpt n))) <$> m !! h /\
  hdr_at m' h = Some 0 /\ pEDBuff_at m' h = Some 0 /\
  (forall a, a <> t -> a <> h -> payload_at m' a = payload_at m a) /\
  (forall a, a ∉ lb ++ [t] ++ h :: ln -> m' !! a = m !! a).

(** The state after the whole of [_EthAppendBusyList]. *)
Definition appended (m m' : gmap Z DRV_ETHMAC_DCPT_NODE)
    (B B' : DRV_ETHMAC_DCPT_LIST) (lb : list ptr) (t h : ptr) (ln : list ptr)
    : Prop :=
  is_list m' B' (lb ++ [t] ++ ln ++ [h]) /\
  head B' = head B /\
  payload_at m' t =
    (fun n => (Hdr.set Hdr.EOWN_POS true (hdr (hwDcpt n)), pEDBuff (hwDcpt n),
               stat (hwDcpt n))) <$> m !! h /\
  hdr_at m' h = Some 0 /\ pEDBuff_at m' h = Some 0 /\
  (forall a, a <> t -> a <> h -> payload_at m' a = payload_at m a) /\
  (forall a, a ∉ lb ++ [t] ++ h :: ln -> m' !! a = m !! a).

(** The header word [_EthTxSchedBuffer] writes. *)
Definition tx_hdr (pBuff nBytes : Z) : Z :=
  let w := Hdr.word (Z.lor (Z.lor Hdr._SDCPT_HDR_NPV_MASK_ Hdr._SDCPT_HDR_EOWN_MASK_)
                           (Z.shiftl nBytes Hdr._SDCPT_HDR_BCOUNT_POS_)) in
  if IS_KVA0 pBuff then Hdr.set Hdr.kv0_POS true w else w.

(** The test [_EnetFindPacket] applies to a node: start of packet, and the
    attached buffer is the one looked for. *)
Definition starts_packet (m : gmap Z DRV_ETHMAC_DCPT_NODE) (pPhysPkt : Z) (a : ptr)
    : bool :=
  match m !! a with
  | Some n => Hdr.SOP (hdr (hwDcpt n)) && (pPhysPkt =? pEDBuff (hwDcpt n))
  | None => false
  end.

Definition zero_node : DRV_ETHMAC_DCPT_NODE := mkNode 0 (mkHwDcpt 0 0 0 0).

(** Modelled from the spec: what the driver relies on from the injected
    allocator (section 6, [allocate(count, size, context) ->
    pointer-or-null]): a call either fails and returns null, or returns the
    address of a fresh, zero-filled node; nothing else changes. *)
Definition calloc_like (f : DRV_ETHMAC_DCPT_AllocF) : Prop :=
  forall s,
    f s = Some (0, s) \/
    exists p, p <> 0 /\ mem s !! p = None /\
              f s = Some (p, set_mem (<[p := zero_node]> (mem s)) s).

(** Modelled from the spec: the injected [free(node, context)] releases the
    node and changes nothing else. *)
Definition free_like (g : DRV_ETHMAC_DCPT_FreeF) : Prop :=
  forall p s, g p s = Some (tt, set_mem (delete p (mem s)) s).

(** One call of a pool sequence on a fixed direction. *)
Inductive pool_op : Type :=
| PoolAdd (nDescriptors : Z) (fAlloc : DRV_ETHMAC_DCPT_AllocF)
| PoolRemove (nDescriptors : Z) (fFree : option DRV_ETHMAC_DCPT_FreeF).

Definition run_pool_op (fuel : nat) (dType : Z) (op : pool_op) : M Z :=
  match op with
  | PoolAdd n fAlloc => DRV_ETHMAC_LibDescriptorsPoolAdd fuel n dType (Some fAlloc)
  | PoolRemove n fFree => DRV_ETHMAC_LibDescriptorsPoolRemove fuel n dType fFree
  end.

(** A sequence of calls; the result is the list of the return values. *)
Fixpoint run_pool (fuel : nat) (dType : Z) (ops : list pool_op) : M (list Z) :=
  match ops with
  | [] => ret []
  | op :: ops' =>
    let* r := run_pool_op fuel dType op in
    let* rs := run_pool fuel dType ops' in
    ret (r :: rs)
  end.

(** The free-list count along a sequence with return values [rets],
    started at count [c]: an add raises it by what the call returned, a
    removal returns [min n c] and lowers it to [max 0 (c - n)]. *)
Inductive pool_trace : Z -> list pool_op -> list Z -> Z -> Prop :=
| pool_trace_nil c : pool_trace c [] [] c
| pool_trace_add c n f r ops rets c' :
    0 <= r <= n ->
    pool_trace (c + r) ops rets c' ->
    pool_trace c (PoolAdd n f :: ops) (r :: rets) c'
| pool_trace_remove c n g ops rets c' :
    0 <= n ->
    pool_trace (Z.max 0 (c - n)) ops rets c' ->
    pool_trace c (PoolRemove n g :: ops) (Z.min n c :: rets) c'.

(** The requirements of a sequence: counts are not negative and within the
    fuel, allocators and free functions behave. *)
Definition pool_op_ok (fuel : nat) (op : pool_op) : Prop :=
  match op with
  | PoolAdd n f => 0 <= n /\ (Z.to_nat n < fuel)%nat /\ calloc_like f
  | PoolRemove n g =>
    0 <= n /\ (Z.to_nat n < fuel)%nat /\
    match g with Some g => free_like g | None => True end
  end.

(** Sum of the return values of the adds, and of the removals. *)
Fixpoint sum_adds (ops : list pool_op) (rets : list Z) : Z :=
  match ops, rets with
  | PoolAdd _ _ :: ops', r :: rets' => r + sum_adds ops' rets'
  | PoolRemove _ _ :: ops', _ :: rets' => sum_adds ops' rets'
  | _, _ => 0
  end.
Fixpoint sum_removes (ops : list pool_op) (rets : list Z) : Z :=
  match ops, rets with
  | PoolAdd _ _ :: ops', _ :: rets' => sum_removes ops' rets'
  | PoolRemove _ _ :: ops', r :: rets' => r + sum_removes ops' rets'
  | _, _ => 0
  end.
Fixpoint sum_requested_removes (ops : list pool_op) : Z :=
  match ops with
  | PoolAdd _ _ :: ops' => sum_requested_removes ops'
  | PoolRemove n _ :: ops' => n + sum_requested_removes ops'
  | [] => 0
  end.

(** The free and busy list of one direction, well formed and disjoint. *)
Definition pool_wf (F G : list_sel) (s : machine) (lf lbz : list ptr) : Prop :=
  is_list (mem s) (get_list F s) lf /\ is_list (mem s) (get_list G s) lbz /\
  NoDup (lf ++ lbz).

(** The lists [dType] selects in pool add and remove. *)
Definition dir_lists (dType : Z) (F G : list_sel) : Prop :=
  (dType = DRV_ETHMAC_DCPT_TYPE_TX /\ F = TxFree /\ G = TxBusy) \/
  (dType = DRV_ETHMAC_DCPT_TYPE_RX /\ F = RxFree /\ G = RxBusy).

(** What a pool add with the allocator [f] leaves in the busy list:
    untouched if it was not empty.  If it was empty, the allocator is called
    for the sentinel before anything else: when that call fails the add
    gives up and the machine is the one it was given; when it succeeds the
    busy list holds that one fresh node, zero filled. *)
Definition seated_sentinel (f : DRV_ETHMAC_DCPT_AllocF) (s s' : machine)
    (lbz lbz' : list ptr) : Prop :=
  match lbz with
  | _ :: _ => lbz' = lbz
  | [] =>
    (f s = Some (0, s) /\ lbz' = [] /\ s' = s) \/
    exists p, f s = Some (p, set_mem (<[p := zero_node]> (mem s)) s) /\
              p <> 0 /\ lbz' = [p] /\ mem s !! p = None /\
              payload_at (mem s') p = Some (0, 0, 0)
  end.

(** The allocator of an add has memory left in every machine: it never
    returns null.  A removal allocates nothing. *)
Definition never_fails (op : pool_op) : Prop :=
  match op with
  | PoolAdd _ f => forall s, f s <> Some (0, s)
  | PoolRemove _ _ => True
  end.

(** The return values of a sequence started at the free-list count [c]
    when no allocation fails: an add returns the count asked for, a removal
    what the free list can give. *)
Fixpoint pool_returns (c : Z) (ops : list pool_op) : list Z :=
  match ops with
  | [] => []
  | PoolAdd n _ :: ops' => n :: pool_returns (c + n) ops'
  | PoolRemove n _ :: ops' => Z.min n c :: pool_returns (Z.max 0 (c - n)) ops'
  end.

(** A node the scan of [DRV_ETHMAC_LibRxGetPacket] steps over: done with
    by the hardware, and not the start of an unreported packet. *)
Definition passed_over (m : gmap Z DRV_ETHMAC_DCPT_NODE) (a : ptr) : Prop :=
  flag_at Hdr.EOWN_POS m a = false /\
  flag_at Hdr.SOP_POS m a && negb (flag_at Hdr.rx_wack_POS m a) = false.

(** A complete received packet [body ++ [e]] in memory: unreported start,
    all nodes released by the hardware, end of packet on [e] alone. *)
Definition rx_packet (m : gmap Z DRV_ETHMAC_DCPT_NODE) (body : list ptr) (e : ptr)
    : Prop :=
  flag_at Hdr.SOP_POS m (hd e body) = true /\
  flag_at Hdr.rx_wack_POS m (hd e body) = false /\
  Forall (fun a => flag_at Hdr.EOWN_POS m a = false) (body ++ [e]) /\
  Forall (fun a => flag_at Hdr.EOP_POS m a = false) body /\
  flag_at Hdr.EOP_POS m e = true.

(** The header word [DRV_ETHMAC_LibRxBuffersAppend] leaves on a node it
    hands on. *)
Definition rx_hdr (rxFlags pBuff : Z) : Z :=
  let w0 := Hdr.word (Z.lor Hdr._SDCPT_HDR_NPV_MASK_ Hdr._SDCPT_HDR_EOWN_MASK_) in
  let w1 := if negb (Z.land rxFlags DRV_ETHMAC_BUFF_FLAG_RX_STICKY =? 0)
            then Hdr.set Hdr.sticky_POS true w0 else w0 in
  let w2 := if negb (Z.land rxFlags DRV_ETHMAC_BUFF_FLAG_RX_UNACK =? 0)
            then Hdr.set Hdr.rx_nack_POS true w1 else w1 in
  if IS_KVA0 pBuff then Hdr.set Hdr.kv0_POS true w2 else w2.

(** A buffer address the RX append accepts. *)
Definition rx_buffer_ok (b : Z) : Prop :=
  b <> 0 /\ IS_KVA0 b || IS_KVA b = true.

(** The test [_EthGetAckedPacket] applies to a node outside a packet:
    start of packet, and either every packet is wanted ([pPkt] null) or
    the node carries the buffer asked for. *)
Definition ack_match (m : gmap Z DRV_ETHMAC_DCPT_NODE) (pPkt : Z) (a : ptr) : bool :=
  match m !! a with
  | Some n =>
    Hdr.SOP (hdr (hwDcpt n))
    && ((pPkt =? 0) || (pEDBuff (hwDcpt n) =? KVA_TO_PA pPkt))
  | None => false
  end.

(** The nodes of the packet that starts at the head of [l], up to and
    including the first end-of-packet node, and what follows them.  There
    is none if a node is still Hardware-owned or the chain ends first:
    there the source waits for ever or runs off the chain. *)
Fixpoint take_packet (m : gmap Z DRV_ETHMAC_DCPT_NODE) (l : list ptr)
    : option (list ptr * list ptr) :=
  match l with
  | [] => None
  | a :: l' =>
    if flag_at Hdr.EOWN_POS m a then None
    else if flag_at Hdr.EOP_POS m a then Some ([a], l')
    else match take_packet m l' with
         | Some (pk, rest) => Some (a :: pk, rest)
         | None => None
         end
  end.

(** What [_EthGetAckedPacket] does to a list, read off the nodes in
    order: the detached nodes, the nodes that stay, the number of packets
    acknowledged and whether a wanted packet was met.  [inpkt] tells
    whether the walk is inside a packet being detached. *)
Fixpoint ack_scan (m : gmap Z DRV_ETHMAC_DCPT_NODE) (pPkt : Z) (inpkt : bool)
    (l : list ptr) : option (list ptr * list ptr * Z * bool) :=
  match l with
  | [] => if inpkt then None else Some ([], [], 0, false)
  | a :: l' =>
    if inpkt || ack_match m pPkt a then
      if flag_at Hdr.EOWN_POS m a then
        if inpkt then None else Some ([], a :: l', 0, true)
      else if flag_at Hdr.EOP_POS m a then
        if negb (pPkt =? 0) then Some ([a], l', 1, true)
        else match ack_scan m pPkt false l' with
             | Some (la, kept, n, _) => Some (a :: la, kept, n + 1, true)
             | None => None
             end
      else match ack_scan m pPkt true l' with
           | Some (la, kept, n, _) => Some (a :: la, kept, n, true)
           | None => None
           end
    else match ack_scan m pPkt false l' with
         | Some (la, kept, n, f) => Some (la, a :: kept, n, f)
         | None => None
         end
  end.

(** The result of [_EthGetAckedPacket]. *)
Definition ack_result (nAcks : Z) (pktFound : bool) : DRV_ETHMAC_RESULT :=
  if negb (nAcks =? 0) then DRV_ETHMAC_RES_OK
  else if pktFound then DRV_ETHMAC_RES_PACKET_QUEUED
  else DRV_ETHMAC_RES_NO_PACKET.

(** What [_EthRxAckBuffer] makes of the header of a sticky node. *)
Definition recycle_hdr (w : Z) : Z :=
  Hdr.set Hdr.EOWN_POS true
    (Hdr.set Hdr.SOP_POS false
       (Hdr.set Hdr.EOP_POS false (Hdr.set Hdr.rx_wack_POS false w))).

Definition recycle (d : Z * Z * Z) : Z * Z * Z :=
  let '(w, b, st) := d in (recycle_hdr w, b, st).

Definition sticky_nodes (m : gmap Z DRV_ETHMAC_DCPT_NODE) (l : list ptr) : list ptr :=
  filter (fun a => flag_at Hdr.sticky_POS m a = true) l.
Definition plain_nodes (m : gmap Z DRV_ETHMAC_DCPT_NODE) (l : list ptr) : list ptr :=
  filter (fun a => flag_at Hdr.sticky_POS m a = false) l.

(** A node given back to the free list loses its buffer and nothing
    else. *)
Definition unbuffer (d : Z * Z * Z) : Z * Z * Z :=
  let '(w, _, st) := d in (w, 0, st).

(** The machine after [DRV_ETHMAC_LibRxAcknowledgeBuffer] has detached the
    nodes [la] and kept [kept' ++ [t]] on the RX busy list. *)
Definition rx_acknowledged (s s' : machine) (lf la kept' : list ptr) (t : ptr) : Prop :=
  is_list (mem s') (_EnetRxFreeList s') (lf ++ plain_nodes (mem s) la) /\
  Forall (fun a => payload_at (mem s') a = unbuffer <$> payload_at (mem s) a)
    (plain_nodes (mem s) la) /\
  match sticky_nodes (mem s) la with
  | [] => is_list (mem s') (_EnetRxBusyList s') (kept' ++ [t])
  | hs :: sts =>
    is_list (mem s') (_EnetRxBusyList s') (kept' ++ [t] ++ sts ++ [hs]) /\
    map (payload_at (mem s')) (t :: sts)
      = map (fun a => recycle <$> payload_at (mem s) a) (hs :: sts) /\
    hdr_at (mem s') hs = Some 0 /\ pEDBuff_at (mem s') hs = Some 0
  end /\
  BUFCDEC (pEthReg s') =
    (length (acked (mem s) (plain_nodes (mem s) la))
     + length (acked (mem s) (sticky_nodes (mem s) la))
     + BUFCDEC (pEthReg s))%nat.

End Notions.


(** ** Notions the further properties are stated with *)

(** The nodes of [l] whose ownership bit is [isHwCtrl]. *)
Definition owned (m : gmap Z DRV_ETHMAC_DCPT_NODE) (isHwCtrl : bool) (l : list ptr)
    : list ptr :=
  filter (fun a => flag_at Hdr.EOWN_POS m a = isHwCtrl) l.

(** The memory once [fFree] has seen the nodes [l]: released by a
    [free_like] function, left alone where [fFree] is null. *)
Definition released (g : option DRV_ETHMAC_DCPT_FreeF) (l : list ptr)
    (m : gmap Z DRV_ETHMAC_DCPT_NODE) : gmap Z DRV_ETHMAC_DCPT_NODE :=
  match g with Some _ => foldr delete m l | None => m end.

(** The machine after one list has been cleaned up. *)
Definition cleaned (F : list_sel) (g : option DRV_ETHMAC_DCPT_FreeF) (l : list ptr)
    (s : machine) : machine :=
  set_list F (mkList 0 0) (set_mem (released g l (mem s)) s).

Section NotionsRest.
Context {K : KMem}.

(** The virtual address of the buffer of the node at [a]. *)
Definition buffer_kva (m : gmap Z DRV_ETHMAC_DCPT_NODE) (a : ptr) : Z :=
  match m !! a with
  | Some n => dcpt_kva n
  | None => 0
  end.

(** The nodes of [l] that start a packet. *)
Definition packet_heads (m : gmap Z DRV_ETHMAC_DCPT_NODE) (l : list ptr) : list ptr :=
  filter (fun a => flag_at Hdr.SOP_POS m a = true) l.

(** A packet element [DRV_ETHMAC_LibTxSendPacket] goes on to schedule. *)
Definition tx_buffer_ok (d : DRV_ETHMAC_PKT_DCPT) : Prop :=
  pBuff d <> 0 /\ nBytes d <> 0 /\ IS_KVA (pBuff d) = true.

(** The descriptor [_EthTxSchedBuffer] writes for element [d] into a node
    that held [n]. *)
Definition tx_dcpt (d : DRV_ETHMAC_PKT_DCPT) (n : DRV_ETHMAC_DCPT_NODE) : Z * Z * Z :=
  (tx_hdr (pBuff d) (nBytes d), KVA_TO_PA (pBuff d), stat (hwDcpt n)).

(** The packet-boundary marks [_EthTxSchedList] puts on the header of the
    first and of the last node of a packet. *)
Definition tx_marked (first last : bool) (w : Z) : Z :=
  let w := if first then Hdr.set Hdr.SOP_POS true w else w in
  if last then Hdr.set Hdr.EOP_POS true w else w.

Definition mark_dcpt (first last : bool) (d : Z * Z * Z) : Z * Z * Z :=
  let '(w, b, st) := d in (tx_marked first last w, b, st).

(** What [DRV_ETH_TxPacketDescAddrSet] and [DRV_ETH_TxRTSEnable] leave in
    the registers when a packet goes out on a busy list whose first node is
    [hd_]. *)
Definition tx_started (hd_ : ptr) (r : DRV_ETHERNET_REGISTERS) : DRV_ETHERNET_REGISTERS :=
  mkRegs (ETHRXST r)
    (if ETHTXST r =? 0 then KVA_TO_PA (hwDcpt_addr hd_) else ETHTXST r)
    (RXEN r) true (BUFCDEC r).

(** The caller's chain ends here: at a null link, a null buffer or a zero
    size. *)
Definition chain_ends (rest : list DRV_ETHMAC_PKT_DCPT) : Prop :=
  match rest with
  | [] => True
  | d :: _ => pBuff d = 0 \/ nBytes d = 0
  end.

(** What [DRV_ETHMAC_LibRxGetPacket] writes into a chain element for the
    descriptor [n]: the virtual address of its buffer and its byte count. *)
Definition fragment (n : DRV_ETHMAC_DCPT_NODE) : DRV_ETHMAC_PKT_DCPT :=
  mkPkt (dcpt_kva n) (Hdr.bCount (hdr (hwDcpt n))).

Definition fragments (m : gmap Z DRV_ETHMAC_DCPT_NODE) (l : list ptr)
    : list DRV_ETHMAC_PKT_DCPT :=
  map (fun a => match m !! a with Some n => fragment n | None => mkPkt 0 0 end) l.

(** The caller's chain once the fragments [frs] have been written into it
    from position [i] on, as far as it has room, and the element after the
    last fragment zeroed if there is one. *)
Fixpoint chain_fill (pPkt : list DRV_ETHMAC_PKT_DCPT) (i : nat)
    (frs : list DRV_ETHMAC_PKT_DCPT) : list DRV_ETHMAC_PKT_DCPT :=
  if (i <? length pPkt)%nat then
    match frs with
    | [] => <[i := mkPkt 0 0]> pPkt
    | f :: frs' => chain_fill (<[i := f]> pPkt) (S i) frs'
    end
  else pPkt.

(** The limit [DRV_ETHMAC_LibRxBuffersAppend] works with. *)
Definition rx_limit (nBuffs : Z) : Z := if nBuffs =? 0 then 0x7fffffff else nBuffs.

(** What [DRV_ETH_RxPacketDescAddrSet] and [DRV_ETH_RxEnable] leave in the
    registers after an RX append of [k] decrement requests on a busy list
    whose first node is [hd_]. *)
Definition rx_started (hd_ : ptr) (k : nat) (r : DRV_ETHERNET_REGISTERS)
    : DRV_ETHERNET_REGISTERS :=
  mkRegs (if ETHRXST r =? 0 then KVA_TO_PA (hwDcpt_addr hd_) else ETHRXST r)
    (ETHTXST r) true (TXRTS r) (k + BUFCDEC r).

(** The address translation brings [b] back from its physical address
    through the window [b] lies in, and that physical address is not null. *)
Definition kva_round_trip (b : Z) : Prop :=
  KVA_TO_PA b <> 0 /\
  (if IS_KVA0 b then PA_TO_KVA0 (KVA_TO_PA b) else PA_TO_KVA1 (KVA_TO_PA b)) = b.

End NotionsRest.

(** The nodes [l] are linked in this order. *)
Fixpoint sgl_chain (nx : gmap Z ptr) (l : list ptr) : Prop :=
  match l with
  | [] => True
  | a :: l' =>
    a <> 0 /\
    match l' with
    | [] => is_Some (nx !! a)
    | b :: _ => nx !! a = Some b
    end /\ sgl_chain nx l'
  end.

(** The header at [pL] describes the list of the nodes [l]. *)
Definition sgl_is_list (s : sgl_heap) (pL : ptr) (l : list ptr) : Prop :=
  exists L, sgl_lists s !! pL = Some L /\
    sgl_head L = hd 0 l /\ sgl_tail L = default 0 (last l) /\
    nNodes L = Z.of_nat (length l) /\
    sgl_chain (sgl_next s) l /\ NoDup l.

#[global] Instance sgl_chain_dec nx l : Decision (sgl_chain nx l).
Proof.
  induction l as [|a l IH]; simpl; [apply _|]. destruct l; apply _.
Defined.

#[global] Instance sgl_is_list_dec s pL l : Decision (sgl_is_list s pL l).
Proof.
  unfold sgl_is_list. destruct (sgl_lists s !! pL) as [L|].
  - destruct (decide (sgl_head L = hd 0 l /\ sgl_tail L = default 0 (last l) /\
                      nNodes L = Z.of_nat (length l) /\
                      sgl_chain (sgl_next s) l /\ NoDup l)) as [H|H].
    + left. by exists L.
    + right. intros (L' & [= <-] & H'). by apply H.
  - right. by intros (L' & ? & _).
Defined.

(** [k] calls of [DRV_ETHMAC_SingleListHeadRemove], with the pointers they
    return. *)
Fixpoint sgl_drain (k : nat) (pL : ptr) (s : sgl_heap) : option (list ptr * sgl_heap) :=
  match k with
  | O => Some ([], s)
  | S k' =>
    '(pN, s) ← DRV_ETHMAC_SingleListHeadRemove pL s;
    '(l, s) ← sgl_drain k' pL s;
    Some (pN :: l, s)
  end.

(** ** Concrete machines *)

(** An allocator over a fixed arena: the first slot that holds no node, zero
    filled; null when the arena is full. *)
Definition arena_calloc (slots : list ptr) : DRV_ETHMAC_DCPT_AllocF :=
  fun s =>
    match List.find (fun p => negb (p =? 0) && bool_decide (mem s !! p = None)) slots with
    | Some p => Some (p, set_mem (<[p := zero_node]> (mem s)) s)
    | None => Some (0, s)
    end.

(** An allocator that never runs out: the first address, in the
    enumeration of the integers, that is neither null nor in use. *)
Definition bump_calloc : DRV_ETHMAC_DCPT_AllocF :=
  fun s =>
    let p := fresh ({[0]} ∪ dom (mem s) : gset Z) in
    Some (p, set_mem (<[p := zero_node]> (mem s)) s).

Definition arena_free : DRV_ETHMAC_DCPT_FreeF :=
  fun p s => Some (tt, set_mem (delete p (mem s)) s).

Definition no_regs : DRV_ETHERNET_REGISTERS := mkRegs 0 0 false false 0.
Definition no_list : DRV_ETHMAC_DCPT_LIST := mkList 0 0.

Definition empty_machine : machine :=
  mkMachine ∅ no_list no_list no_list no_list no_regs.

Definition node (nx hd buf : Z) : DRV_ETHMAC_DCPT_NODE := mkNode nx (mkHwDcpt hd buf 0 0).

(** A busy list holding only its sentinel [0x100], and a prepared list
    [0x200; 0x300] whose second node has [rx_nack] set. *)
Definition append_mem (hdr300 : Z) : gmap Z DRV_ETHMAC_DCPT_NODE :=
  <[0x100 := node 0 0 0]>
    (<[0x200 := node 0x300 0x180 0x1000]> (<[0x300 := node 0 hdr300 0x2000]> ∅)).
Definition append_machine (hdr300 : Z) : machine :=
  mkMachine (append_mem hdr300) no_list no_list no_list (mkList 0x100 0x100) no_regs.

(** TX: sentinel [0x100] on the busy list, one free node [0x200]. *)
Definition tx_machine : machine :=
  mkMachine (<[0x100 := node 0 0 0]> (<[0x200 := node 0 0 0]> ∅))
    (mkList 0x200 0x200) (mkList 0x100 0x100) no_list no_list no_regs.

(** TX: a completed packet on [0x100], then a queued one on [0x120], then the
    sentinel. *)
Definition tx_busy_machine : machine :=
  mkMachine
    (<[0x100 := node 0x120 0xC0000100 0x1000]>
       (<[0x120 := node 0x140 0xC0000180 0x2000]> (<[0x140 := node 0 0 0]> ∅)))
    no_list (mkList 0x100 0x140) no_list no_list no_regs.

(** RX: sentinel [0x100] on the busy list, free nodes [0x120; 0x140]. *)
Definition rx_machine : machine :=
  mkMachine
    (<[0x100 := node 0 0 0]>
       (<[0x120 := node 0x140 0 0]> (<[0x140 := node 0 0 0]> ∅)))
    no_list no_list (mkList 0x120 0x140) (mkList 0x100 0x100) no_regs.

(** RX: a received packet of two fragments on [0x100; 0x120], then the
    sentinel [0x140]. *)
Definition rx_packet_machine : machine :=
  mkMachine
    (<[0x100 := node 0x120 0x80400500 0x1000]>
       (<[0x120 := node 0x140 0x40200500 0x2000]> (<[0x140 := node 0 0 0]> ∅)))
    no_list no_list no_list (mkList 0x100 0x140) no_regs.

(** RX: a reported one-fragment packet in a sticky buffer on [0x100], one in
    a plain buffer on [0x120], the sentinel [0x140], and a free node
    [0x160]. *)
Definition rx_ack_machine : machine :=
  mkMachine
    (<[0x100 := node 0x120 0xC0400F00 0x1000]>
       (<[0x120 := node 0x140 0xC0400D00 0x2000]>
          (<[0x140 := node 0 0 0]> (<[0x160 := node 0 0 0]> ∅))))
    no_list no_list (mkList 0x160 0x160) (mkList 0x100 0x140) no_regs.

Definition buffers (l : list Z) : nat -> Z := fun i => nth i l 0.

(** All four lists in use.  TX: free node [0x200]; busy list with a
    completed packet on [0x100] and the sentinel [0x120].  RX: free node
    [0x160]; busy list with a Hardware-owned node [0x300], a received,
    unreported packet on [0x320] and the sentinel [0x340]. *)
Definition pool_machine : machine :=
  mkMachine
    (<[0x100 := node 0x120 0xC0000100 0x1000]>
       (<[0x120 := node 0 0 0]>
          (<[0x200 := node 0 0 0]>
             (<[0x160 := node 0 0 0]>
                (<[0x300 := node 0x320 0x180 0x3000]>
                   (<[0x320 := node 0x340 0xC0400100 0x4000]>
                      (<[0x340 := node 0 0 0]> ∅)))))))
    (mkList 0x200 0x200) (mkList 0x100 0x120) (mkList 0x160 0x160) (mkList 0x300 0x340)
    no_regs.

(** Two list headers, [0x10] over the nodes [0x100; 0x120] and [0x20] over
    [0x200], and a node [0x300] on no list. *)
Definition sgl_example : sgl_heap :=
  mkSglHeap
    (<[0x10 := mkSglList 0x100 0x120 2]> (<[0x20 := mkSglList 0x200 0x200 1]> ∅))
    (<[0x100 := 0x120]> (<[0x120 := 0]> (<[0x200 := 0]> (<[0x300 := 7]> ∅)))).

Ltac by_compute := apply (bool_decide_unpack _); vm_compute; exact I.

Section Logic.

Lemma wp_ret {A} (a : A) Q s : Q a s -> wp (ret a) Q s.
Proof. intros H; exists a, s; auto. Qed.

Lemma wp_bind {A B} (c : M A) (k : A -> M B) Q s :
  wp c (fun a s' => wp (k a) Q s') s -> wp (bind c k) Q s.
Proof.
  intros (a & s' & Hc & b & s'' & Hk & HQ).
  exists b, s''. unfold bind. rewrite Hc. auto.
Qed.

Lemma wp_mono {A} (c : M A) (Q Q' : A -> machine -> Prop) s :
  wp c Q s -> (forall a s', Q a s' -> Q' a s') -> wp c Q' s.
Proof. intros (a & s' & Hc & HQ) H. exists a, s'. auto. Qed.

Lemma wp_gets {A} (f : machine -> A) Q s : Q (f s) s -> wp (gets f) Q s.
Proof. intros H; exists (f s), s; auto. Qed.

Lemma wp_modify f Q s : Q tt (f s) -> wp (modify f) Q s.
Proof. intros H; exists tt, (f s); auto. Qed.

Lemma wp_load p n Q s :
  p <> 0 -> mem s !! p = Some n -> Q n s -> wp (load p) Q s.
Proof.
  intros Hp Hn HQ. exists n, s. split; [|done].
  unfold load. destruct (Z.eqb_spec p 0); [done|]. by rewrite Hn.
Qed.

Lemma wp_store p n n0 Q s :
  p <> 0 -> mem s !! p = Some n0 ->
  Q tt (set_mem (<[p := n]> (mem s)) s) -> wp (store p n) Q s.
Proof.
  intros Hp Hn HQ. eexists tt, _. split; [|exact HQ].
  unfold store. destruct (Z.eqb_spec p 0); [done|]. by rewrite Hn.
Qed.

Lemma wp_update p f n Q s :
  p <> 0 -> mem s !! p = Some n ->
  Q tt (set_mem (<[p := f n]> (mem s)) s) -> wp (update p f) Q s.
Proof.
  intros Hp Hn HQ. unfold update. apply wp_bind.
  eapply wp_load; [done..|]. by eapply wp_store.
Qed.

Lemma wp_update_if (b : bool) p f n Q s :
  p <> 0 -> mem s !! p = Some n ->
  Q tt (set_mem (<[p := if b then f n else n]> (mem s)) s) ->
  wp (if b then update p f else ret tt) Q s.
Proof.
  intros Hp Hn HQ. destruct b.
  - by eapply wp_update.
  - apply wp_ret. rewrite insert_id in HQ by done. by destruct s.
Qed.

Lemma wp_elim {A} (c : M A) Q s :
  wp c Q s -> exists a s', c s = Some (a, s') /\ Q a s'.
Proof. done. Qed.

End Logic.

Section ListShape.
Implicit Types (m : gmap Z DRV_ETHMAC_DCPT_NODE) (l : list ptr) (p q a : ptr).

Lemma lseg_ext m m' p l q :
  lseg m p l q ->
  (forall a, a ∈ l -> next <$> m' !! a = next <$> m !! a) ->
  lseg m' p l q.
Proof.
  revert p; induction l as [|a l IH]; intros p; simpl; [done|].
  intros (-> & Ha & H) Hext. split; [done|]. split; [done|].
  pose proof (Hext a (list_elem_of_here _ _)) as Hn.
  destruct (m !! a) as [n|] eqn:E; [|done].
  destruct (m' !! a) as [n'|] eqn:E'; simpl in Hn; [|done].
  injection Hn as ->. apply IH; [done|].
  intros b Hb. apply Hext. by apply list_elem_of_further.
Qed.

Lemma lseg_app m p l1 l2 q :
  lseg m p (l1 ++ l2) q <-> exists r, lseg m p l1 r /\ lseg m r l2 q.
Proof.
  revert p; induction l1 as [|a l1 IH]; intros p; simpl.
  - split; [intros H; by exists p|]. by intros (r & -> & H).
  - split.
    + intros (-> & Ha & H). destruct (m !! a) as [n|]; [|done].
      apply IH in H as (r & H1 & H2). by exists r.
    + intros (r & (-> & Ha & H1) & H2). split; [done|]. split; [done|].
      destruct (m !! a) as [n|]; [|done]. apply IH. by exists r.
Qed.

Lemma lseg_snoc m p l a q :
  lseg m p (l ++ [a]) q <->
  lseg m p l a /\ a <> 0 /\ exists n, m !! a = Some n /\ next n = q.
Proof.
  rewrite lseg_app. simpl. split.
  - intros (r & H1 & -> & Ha & H). destruct (m !! a) as [n|]; [|done].
    split; [done|]. split; [done|]. by exists n.
  - intros (H1 & Ha & n & Hn & Hq). exists a. split; [done|].
    split; [done|]. split; [done|]. by rewrite Hn.
Qed.

Lemma lseg_nonnull m p l q a : lseg m p l q -> a ∈ l -> a <> 0.
Proof.
  revert p; induction l as [|b l IH]; intros p; simpl.
  - intros _ H. by apply elem_of_nil in H.
  - intros (-> & Hb & H) Ha. apply elem_of_cons in Ha as [->|Ha]; [done|].
    destruct (m !! b); [|done]. by eapply IH.
Qed.

Lemma lseg_is_Some m p l q a : lseg m p l q -> a ∈ l -> is_Some (m !! a).
Proof.
  revert p; induction l as [|b l IH]; intros p; simpl.
  - intros _ H. by apply elem_of_nil in H.
  - intros (-> & Hb & H) Ha. destruct (m !! b) eqn:E; [|done].
    apply elem_of_cons in Ha as [->|Ha]; [by rewrite E|]. by eapply IH.
Qed.

Lemma is_list_nil m L : is_list m L [] <-> L = mkList 0 0.
Proof.
  unfold is_list. simpl. destruct L as [h t]; simpl. split.
  - by intros (-> & -> & _).
  - intros [= -> ->]. repeat split. constructor.
Qed.

Lemma is_list_nonnull m L l a : is_list m L l -> a ∈ l -> a <> 0.
Proof. intros (H & _) Ha. by eapply lseg_nonnull. Qed.

Lemma is_list_is_Some m L l a : is_list m L l -> a ∈ l -> is_Some (m !! a).
Proof. intros (H & _) Ha. by eapply lseg_is_Some. Qed.

Lemma is_list_ext m m' L l :
  is_list m L l ->
  (forall a, a ∈ l -> next <$> m' !! a = next <$> m !! a) ->
  is_list m' L l.
Proof. intros (H & Ht & Hnd) Hext. split; [by eapply lseg_ext|done]. Qed.

Lemma is_list_head_null m L l : is_list m L l -> head L = 0 -> l = [].
Proof.
  intros (H & _) Hh. destruct l as [|a l]; [done|].
  simpl in H. destruct H as (E & Ha & _). congruence.
Qed.

Lemma is_list_tail_null m L l : is_list m L l -> tail L = 0 -> l = [].
Proof.
  intros (H & Ht & _) Hz. destruct l as [|a l] using rev_ind; [done|].
  rewrite last_snoc in Ht. simpl in Ht.
  apply lseg_snoc in H as (_ & Ha & _). congruence.
Qed.

End ListShape.

Section Helpers.
Context {K : KMem}.
Implicit Types (m : gmap Z DRV_ETHMAC_DCPT_NODE) (l : list ptr) (p q a : ptr).
Implicit Types (s : machine) (L : DRV_ETHMAC_DCPT_LIST).

Lemma wp_ListRemoveHead_nil L Q s :
  is_list (mem s) L [] ->
  Q (0, mkList 0 0) s ->
  wp (DRV_ETHMAC_LIB_ListRemoveHead L) Q s.
Proof.
  intros ->%is_list_nil HQ. unfold DRV_ETHMAC_LIB_ListRemoveHead. simpl.
  by apply wp_ret.
Qed.

Lemma wp_ListRemoveHead_cons L a l Q s :
  is_list (mem s) L (a :: l) ->
  (forall L', is_list (mem s) L' l -> Q (a, L') s) ->
  wp (DRV_ETHMAC_LIB_ListRemoveHead L) Q s.
Proof.
  intros (Hseg & Ht & Hnd) HQ. unfold DRV_ETHMAC_LIB_ListRemoveHead.
  simpl in Hseg. destruct Hseg as (Hh & Ha & Hseg).
  destruct (mem s !! a) as [n|] eqn:En; [|done].
  rewrite Hh. destruct (Z.eqb_spec a 0) as [|_]; [done|].
  apply NoDup_cons in Hnd as [Hnotin Hnd].
  destruct (Z.eqb_spec a (tail L)) as [Heq|Hne].
  - apply wp_ret. apply HQ.
    assert (l = []) as ->.
    { destruct l as [|b l] using rev_ind; [done|]. exfalso.
      rewrite app_comm_cons, last_snoc in Ht. simpl in Ht.
      apply Hnotin. rewrite Ht in Heq. subst b. set_solver. }
    by apply is_list_nil.
  - apply wp_bind. eapply wp_load; [done..|]. apply wp_ret. apply HQ.
    split; [done|]. split; [|done]. simpl. rewrite Ht.
    destruct l as [|b l]; [by simpl in Ht, Hne|].
    by rewrite last_cons_cons.
Qed.

Lemma wp_ListAddTail L pN l Q s :
  is_list (mem s) L l -> pN ∉ l -> pN <> 0 -> is_Some (mem s !! pN) ->
  (forall m' L',
      is_list m' L' (l ++ [pN]) ->
      head L' = (if decide (l = []) then pN else head L) ->
      (forall a, payload_at m' a = payload_at (mem s) a) ->
      (forall a, a <> pN -> a ∉ l -> m' !! a = mem s !! a) ->
      Q L' (set_mem m' s)) ->
  wp (DRV_ETHMAC_LIB_ListAddTail L pN) Q s.
Proof.
  intros HL Hnotin HpN [n Hn] HQ. unfold DRV_ETHMAC_LIB_ListAddTail.
  apply wp_bind. eapply wp_update; [done..|].
  apply wp_bind. eapply wp_update; [done|msimpl; apply lookup_insert_eq|].
  msimpl. rewrite insert_insert_eq.
  set (n1 := mkNode 0 (hw_next_ed 0 (hwDcpt n))).
  destruct (Z.eqb_spec (tail L) 0) as [Ht|Ht].
  - apply wp_ret. pose proof (is_list_tail_null _ _ _ HL Ht) as ->.
    apply HQ.
    + split; [|split; [done|apply NoDup_singleton]]. simpl.
      rewrite lookup_insert_eq. done.
    + done.
    + intros a. unfold payload_at. destruct (decide (a = pN)) as [->|Hne].
      * by rewrite lookup_insert_eq, Hn.
      * by rewrite lookup_insert_ne.
    + intros a Hne _. by rewrite lookup_insert_ne.
  - destruct HL as (Hseg & Htl & Hnd).
    destruct l as [|t l0 _] using rev_ind; [done|].
    rewrite last_snoc in Htl. simpl in Htl. rewrite Htl in *.
    apply lseg_snoc in Hseg as (Hseg & _ & nt & Hnt & Hnext).
    assert (t <> pN) as Htp by set_solver.
    apply NoDup_app in Hnd as (Hnd0 & Hdisj & _).
    assert (t ∉ l0) as Htl0 by (intros Hin; eapply Hdisj; [done|set_solver]).
    apply wp_bind. eapply wp_update; [done|msimpl; by rewrite lookup_insert_ne|].
    apply wp_bind. eapply wp_update; [done|msimpl; apply lookup_insert_eq|].
    apply wp_ret. msimpl. rewrite insert_insert_eq. apply HQ.
    + split; [|split].
      * simpl. apply lseg_snoc. split.
        -- apply lseg_snoc. split.
           ++ eapply lseg_ext; [exact Hseg|]. intros a Ha.
              rewrite !lookup_insert_ne; [done|set_solver..].
           ++ split; [done|]. eexists. by rewrite lookup_insert_eq.
        -- split; [done|]. exists n1.
           rewrite lookup_insert_ne, lookup_insert_eq by done. done.
      * by rewrite last_snoc.
      * apply NoDup_app. split; [|split; [|apply NoDup_singleton]].
        -- apply NoDup_app. split; [done|]. split; [done|apply NoDup_singleton].
        -- intros x Hx. set_solver.
    + simpl. destruct (decide (l0 ++ [t] = [])) as [E|_]; [|done].
      by destruct l0.
    + intros a. unfold payload_at.
      destruct (decide (a = t)) as [->|Hne1].
      { by rewrite lookup_insert_eq, Hnt. }
      rewrite lookup_insert_ne by done.
      destruct (decide (a = pN)) as [->|Hne2].
      { by rewrite lookup_insert_eq, Hn. }
      by rewrite lookup_insert_ne.
    + intros a Hne1 Hne2. rewrite !lookup_insert_ne; [done|set_solver..].
Qed.

Lemma wp_ListAppendTail fuel L A l la Q s :
  is_list (mem s) L l -> is_list (mem s) A la -> NoDup (l ++ la) ->
  (length la < fuel)%nat ->
  (forall m' L',
      is_list m' L' (l ++ la) ->
      (forall a, payload_at m' a = payload_at (mem s) a) ->
      (forall a, a ∉ l -> a ∉ la -> m' !! a = mem s !! a) ->
      Q (L', mkList 0 0) (set_mem m' s)) ->
  wp (DRV_ETHMAC_LIB_ListAppendTail fuel L A) Q s.
Proof.
  revert L A l la s Q. induction fuel as [|fuel IH]; intros L A l la s Q HL HA Hnd Hf HQ;
    [lia|].
  simpl. apply wp_bind. destruct la as [|a la].
  - eapply wp_ListRemoveHead_nil; [done|]. simpl. apply wp_ret.
    replace s with (set_mem (mem s) s) by by destruct s. apply HQ; try done.
    by rewrite app_nil_r.
  - eapply wp_ListRemoveHead_cons; [done|]. intros A' HA'.
    assert (a <> 0) as Ha by (eapply is_list_nonnull; [exact HA|set_solver]).
    destruct (Z.eqb_spec a 0) as [|_]; [done|].
    apply NoDup_app in Hnd as (Hndl & Hdisj & Hndla).
    apply NoDup_cons in Hndla as [Hala Hndla].
    apply wp_bind. eapply wp_ListAddTail; [done| | done | |].
    + intros Hin. eapply Hdisj; [done|set_solver].
    + eapply is_list_is_Some; [exact HA|set_solver].
    + intros m' L' HL' _ Hpay Hframe. msimpl.
      eapply IH with (l := l ++ [a]) (la := la).
      * done.
      * msimpl. eapply is_list_ext; [exact HA'|]. intros b Hb.
        rewrite Hframe; [done| |]; [set_solver|].
        intros Hin. eapply Hdisj; [done|set_solver].
      * rewrite <- app_assoc. simpl. apply NoDup_app. split; [done|].
        split; [done|]. by apply NoDup_cons.
      * simpl in Hf. lia.
      * intros m'' L'' HL'' Hpay' Hframe'. msimpl.
        apply HQ.
        -- by rewrite <- app_assoc in HL''.
        -- intros b. by rewrite Hpay', Hpay.
        -- intros b Hb1 Hb2. rewrite Hframe' by set_solver.
           apply Hframe; set_solver.
Qed.

End Helpers.

(** ** The append protocol *)

Section Bits.

Lemma Hdr_get_set pos pos' b w :
  0 <= pos' ->
  Hdr.get pos (Hdr.set pos' b w) = if decide (pos = pos') then b else Hdr.get pos w.
Proof.
  intros Hpos. unfold Hdr.get, Hdr.set. destruct (decide (pos = pos')) as [->|Hne].
  - destruct b; [by apply Z.setbit_eq|apply Z.clearbit_eq].
  - destruct b; [apply Z.setbit_neq|apply Z.clearbit_neq]; done.
Qed.

Lemma Hdr_get_0 pos : Hdr.get pos 0 = false.
Proof. apply Z.testbit_0_l. Qed.

Lemma Hdr_set_set pos b b' w :
  0 <= pos -> Hdr.set pos b (Hdr.set pos b' w) = Hdr.set pos b w.
Proof.
  intros Hpos. apply Z.bits_inj'. intros i Hi.
  fold (Hdr.get i (Hdr.set pos b (Hdr.set pos b' w))).
  fold (Hdr.get i (Hdr.set pos b w)).
  rewrite !Hdr_get_set by done. by destruct (decide (i = pos)).
Qed.

End Bits.

Section Append.
Context {K : KMem}.
Implicit Types (m : gmap Z DRV_ETHMAC_DCPT_NODE) (l : list ptr) (p q a : ptr).
Implicit Types (s : machine) (L : DRV_ETHMAC_DCPT_LIST).

Lemma flag_at_payload pos m m' a :
  payload_at m' a = payload_at m a -> flag_at pos m' a = flag_at pos m a.
Proof.
  unfold payload_at, flag_at, payload.
  destruct (m' !! a) as [n'|], (m !! a) as [n|]; simpl; congruence.
Qed.

Lemma hdr_at_payload m m' a :
  payload_at m' a = payload_at m a -> hdr_at m' a = hdr_at m a.
Proof.
  unfold payload_at, hdr_at, payload.
  destruct (m' !! a) as [n'|], (m !! a) as [n|]; simpl; congruence.
Qed.

Lemma pEDBuff_at_payload m m' a :
  payload_at m' a = payload_at m a -> pEDBuff_at m' a = pEDBuff_at m a.
Proof.
  unfold payload_at, pEDBuff_at, payload.
  destruct (m' !! a) as [n'|], (m !! a) as [n|]; simpl; congruence.
Qed.

Lemma acked_payload m m' l :
  (forall a, a ∈ l -> payload_at m' a = payload_at m a) -> acked m' l = acked m l.
Proof.
  unfold acked. induction l as [|a l IH]; intros H; [done|].
  rewrite !filter_cons. rewrite (flag_at_payload _ m m' a) by (apply H; set_solver).
  rewrite IH; [done|]. intros b Hb. apply H. set_solver.
Qed.

Lemma ack_count_payload rxAck m m' l :
  (forall a, a ∈ l -> payload_at m' a = payload_at m a) ->
  ack_count rxAck m' l = ack_count rxAck m l.
Proof. intros H. unfold ack_count. by rewrite (acked_payload m m'). Qed.

Lemma ack_count_cons rxAck m a l :
  ack_count rxAck m (a :: l) =
  ((if rxAck && negb (flag_at Hdr.rx_nack_POS m a) then 1 else 0)
   + ack_count rxAck m l)%nat.
Proof.
  unfold ack_count, acked. destruct rxAck; [|done]. rewrite filter_cons.
  simpl. destruct (flag_at Hdr.rx_nack_POS m a); simpl; done.
Qed.

Lemma add_BUFCDEC_0 r : add_BUFCDEC 0 r = r.
Proof. by destruct r. Qed.

Lemma add_BUFCDEC_add j k r : add_BUFCDEC j (add_BUFCDEC k r) = add_BUFCDEC (k + j) r.
Proof. unfold add_BUFCDEC. simpl. f_equal. lia. Qed.

Lemma set_regs_id s : set_regs (pEthReg s) s = s.
Proof. by destruct s. Qed.

Lemma set_mem_id s : set_mem (mem s) s = s.
Proof. by destruct s. Qed.

(** The conditional decrement that follows each linked node. *)
Lemma wp_decrement_if (b : bool) Q s :
  Q tt (set_regs (add_BUFCDEC (if b then 1 else 0) (pEthReg s)) s) ->
  wp (if b then DRV_ETH_RxBufferCountDecrement else ret tt) Q s.
Proof.
  destruct b; intros HQ.
  - by apply wp_modify.
  - apply wp_ret. by rewrite add_BUFCDEC_0, set_regs_id in HQ.
Qed.

Lemma wp_AppendBusyList_loop fuel B N lB ln rxAck Q s :
  is_list (mem s) B lB -> is_list (mem s) N ln -> lB <> [] ->
  NoDup (lB ++ ln) -> (length ln < fuel)%nat ->
  (forall m' B',
      is_list m' B' (lB ++ ln) ->
      head B' = head B ->
      (forall a, payload_at m' a = payload_at (mem s) a) ->
      (forall a, a ∉ lB -> a ∉ ln -> m' !! a = mem s !! a) ->
      Q (B', mkList 0 0)
        (set_regs (add_BUFCDEC (ack_count rxAck (mem s) ln) (pEthReg s))
           (set_mem m' s))) ->
  wp (_EthAppendBusyList_loop fuel B N rxAck) Q s.
Proof.
  revert B N lB ln s Q.
  induction fuel as [|fuel IH]; intros B N lB ln s Q HB HN HlB Hnd Hf HQ; [lia|].
  simpl. apply wp_bind. destruct ln as [|a ln].
  - eapply wp_ListRemoveHead_nil; [done|]. simpl. apply wp_ret.
    specialize (HQ (mem s) B). rewrite app_nil_r in HQ.
    replace (ack_count rxAck (mem s) []) with 0%nat in HQ by by destruct rxAck.
    rewrite add_BUFCDEC_0, set_mem_id, set_regs_id in HQ. by apply HQ.
  - eapply wp_ListRemoveHead_cons; [done|]. intros N' HN'.
    assert (a <> 0) as Ha by (eapply is_list_nonnull; [exact HN|set_solver]).
    destruct (Z.eqb_spec a 0) as [|_]; [done|].
    apply NoDup_app in Hnd as (HndB & Hdisj & Hndln).
    apply NoDup_cons in Hndln as [Hala Hndln].
    destruct (is_list_is_Some _ _ _ a HN) as [n Hn]; [set_solver|].
    apply wp_bind. eapply wp_ListAddTail; [done| |done|by rewrite Hn|].
    { intros Hin. eapply Hdisj; [done|set_solver]. }
    intros m1 B1 HB1 Hhd Hpay Hframe. rewrite decide_False in Hhd by done.
    destruct (m1 !! a) as [n1|] eqn:En1.
    2:{ specialize (Hpay a). unfold payload_at in Hpay. by rewrite En1, Hn in Hpay. }
    apply wp_bind. eapply wp_load; [done|msimpl; done|].
    apply wp_bind. apply wp_decrement_if. msimpl.
    eapply IH with (lB := lB ++ [a]) (ln := ln); msimpl.
    + done.
    + eapply is_list_ext; [exact HN'|]. intros b Hb.
      rewrite Hframe; [done|set_solver|].
      intros Hin. eapply Hdisj; [done|set_solver].
    + by destruct lB.
    + rewrite <- app_assoc. simpl. apply NoDup_app. split; [done|].
      split; [done|]. by apply NoDup_cons.
    + simpl in Hf. lia.
    + intros m2 B2 HB2 Hhd2 Hpay2 Hframe2. rewrite add_BUFCDEC_add.
      replace (_ + _)%nat with (ack_count rxAck (mem s) (a :: ln)).
      * apply HQ.
        -- by rewrite <- app_assoc in HB2.
        -- congruence.
        -- intros b. by rewrite Hpay2, Hpay.
        -- intros b Hb1 Hb2. rewrite Hframe2 by set_solver.
           apply Hframe; set_solver.
      * rewrite ack_count_cons. f_equal.
        -- unfold flag_at. rewrite Hn.
           specialize (Hpay a). unfold payload_at, payload in Hpay.
           rewrite En1, Hn in Hpay. simpl in Hpay. unfold Hdr.rx_nack.
           by injection Hpay as -> _ _.
        -- symmetry. apply ack_count_payload. intros b _. apply Hpay.
Qed.

Lemma wp_AppendBusyList_link fuel B N lb t h ln rxAck Q s :
  is_list (mem s) B (lb ++ [t]) -> is_list (mem s) N (h :: ln) ->
  NoDup ((lb ++ [t]) ++ h :: ln) -> (length ln < fuel)%nat ->
  (forall m' B',
      linked (mem s) m' B B' lb t h ln ->
      Q (t, B', mkList 0 0)
        (set_regs (add_BUFCDEC (ack_count rxAck (mem s) ln) (pEthReg s))
           (set_mem m' s))) ->
  wp (_EthAppendBusyList_link fuel B N rxAck) Q s.
Proof.
  intros HB HN Hnd Hf HQ. unfold _EthAppendBusyList_link.
  destruct s as [m0 tf tb rf rb r]. msimpl.
  assert (tail B = t) as Ht.
  { destruct HB as (_ & Ht & _). by rewrite last_snoc in Ht. }
  rewrite Ht.
  assert (h <> 0) as Hh by (eapply is_list_nonnull; [exact HN|set_solver]).
  assert (t <> 0) as Ht0 by (eapply is_list_nonnull; [exact HB|set_solver]).
  destruct (is_list_is_Some _ _ _ h HN) as [nh Hnh]; [set_solver|].
  pose proof Hnd as Hnd0.
  apply NoDup_app in Hnd as (HndB & Hdisj & Hndln).
  apply NoDup_cons in Hndln as [Hhln Hndln].
  assert (h ∉ lb ++ [t]) as HhB.
  { intros Hin. eapply Hdisj; [done|set_solver]. }
  assert (t <> h) as Hth by set_solver.
  apply wp_bind. eapply wp_ListRemoveHead_cons; [done|]. intros N1 HN1.
  apply wp_bind. eapply wp_update; [done..|]. msimpl.
  set (m1 := <[h := _]> m0).
  assert (Hpay1 : forall a, a <> h -> m1 !! a = m0 !! a).
  { intros a Ha. unfold m1. by rewrite lookup_insert_ne. }
  apply wp_bind. eapply wp_AppendBusyList_loop with (lB := lb ++ [t]) (ln := ln); msimpl.
  { eapply is_list_ext; [exact HB|]. intros a Ha. rewrite Hpay1; [done|set_solver]. }
  { eapply is_list_ext; [exact HN1|]. intros a Ha. rewrite Hpay1; [done|set_solver]. }
  { by destruct lb. }
  { apply NoDup_app. split; [done|]. split; [|done].
    intros x Hx Hx'. eapply Hdisj; [done|set_solver]. }
  { done. }
  intros m2 B2 HB2 Hhd2 Hpay2 Hframe2. msimpl.
  destruct (is_list_is_Some _ _ _ t HB2) as [nt Hnt]; [set_solver|].
  assert (Hh2 : m2 !! h = m1 !! h) by (apply Hframe2; set_solver).
  unfold m1 in Hh2. rewrite lookup_insert_eq in Hh2.
  apply wp_bind. eapply wp_load; [done..|].
  apply wp_bind. eapply wp_update; [done..|]. msimpl.
  apply wp_bind. eapply wp_update; [done|apply lookup_insert_eq|]. msimpl.
  rewrite insert_insert_eq.
  apply wp_bind. eapply wp_load; [done|msimpl; apply lookup_insert_eq|].
  apply wp_bind. eapply wp_store; [done|msimpl; by rewrite lookup_insert_ne|]. msimpl.
  apply wp_bind. eapply wp_update;
    [done|msimpl; rewrite lookup_insert_ne by done; apply lookup_insert_eq|]. msimpl.
  apply wp_bind. eapply wp_update; [done|msimpl; apply lookup_insert_eq|]. msimpl.
  rewrite insert_insert_eq.
  set (m5 := <[h := _]> (<[t := _]> (<[h := _]> m2))).
  assert (Hm5h : exists n5, m5 !! h = Some n5 /\ hdr (hwDcpt n5) = 0
                            /\ pEDBuff (hwDcpt n5) = 0).
  { eexists. unfold m5. rewrite lookup_insert_eq. done. }
  destruct Hm5h as (n5 & Hn5 & Hn5h & Hn5b).
  assert (Hm5t : exists n5t, m5 !! t = Some n5t /\ next n5t = next nt /\
     payload n5t = (Hdr.set Hdr.EOWN_POS false (hdr (hwDcpt nh)), pEDBuff (hwDcpt nh),
                    stat (hwDcpt nh))).
  { eexists. unfold m5. rewrite lookup_insert_ne, lookup_insert_eq by done. done. }
  destruct Hm5t as (n5t & Hn5t & Hn5tn & Hn5tp).
  assert (Hm5o : forall a, a <> t -> a <> h -> m5 !! a = m2 !! a).
  { intros a Ha1 Ha2. unfold m5. by rewrite !lookup_insert_ne. }
  clearbody m5.
  apply wp_bind. eapply wp_ListAddTail with (l := (lb ++ [t]) ++ ln); msimpl.
  { eapply is_list_ext; [exact HB2|]. intros a Ha.
    destruct (decide (a = t)) as [->|Hat].
    - rewrite Hn5t, Hnt. simpl. by rewrite Hn5tn.
    - rewrite Hm5o; [done..|]. intros ->. apply elem_of_app in Ha as [Ha|Ha]; done. }
  { intros Hin. apply elem_of_app in Hin as [Hin|Hin]; done. }
  { done. }
  { by rewrite Hn5. }
  intros m6 B6 HB6 Hhd6 Hpay6 Hframe6. rewrite decide_False in Hhd6 by by destruct lb.
  apply wp_ret. msimpl. rewrite (ack_count_payload rxAck m0 m1).
  2:{ intros a Ha. unfold payload_at. rewrite Hpay1; [done|]. by intros ->. }
  apply HQ. unfold linked. split; [|split; [|split; [|split; [|split; [|split]]]]].
  - by rewrite <- !app_assoc in HB6.
  - congruence.
  - rewrite Hpay6. unfold payload_at. rewrite Hn5t, Hnh. simpl. by rewrite Hn5tp.
  - rewrite (hdr_at_payload m5) by done. unfold hdr_at. rewrite Hn5. simpl.
    by rewrite Hn5h.
  - rewrite (pEDBuff_at_payload m5) by done. unfold pEDBuff_at. rewrite Hn5. simpl.
    by rewrite Hn5b.
  - intros a Hat Hah. rewrite Hpay6. unfold payload_at at 1. rewrite Hm5o by done.
    fold (payload_at m2 a). rewrite Hpay2. unfold payload_at. by rewrite Hpay1.
  - intros a Ha. rewrite Hframe6, Hm5o, Hframe2, Hpay1; [done|set_solver..].
Qed.

Lemma wp_AppendBusyList_go t rxAck n Q s :
  t <> 0 -> mem s !! t = Some n ->
  Q tt (set_regs
          (add_BUFCDEC (if rxAck && negb (Hdr.rx_nack (hdr (hwDcpt n))) then 1 else 0)
             (pEthReg s))
          (set_mem (<[t := with_hdr (Hdr.set Hdr.EOWN_POS true) n]> (mem s)) s)) ->
  wp (_EthAppendBusyList_go t rxAck) Q s.
Proof.
  intros Ht Hn HQ. unfold _EthAppendBusyList_go.
  apply wp_bind. eapply wp_update; [done..|].
  apply wp_bind. eapply wp_load; [done|msimpl; apply lookup_insert_eq|].
  msimpl. apply wp_decrement_if. msimpl.
  unfold Hdr.rx_nack at 1. rewrite Hdr_get_set by done.
  rewrite decide_False by done. exact HQ.
Qed.

Lemma linked_go m m' B B' lb t h ln n :
  linked m m' B B' lb t h ln -> m' !! t = Some n -> t <> h ->
  appended m (<[t := with_hdr (Hdr.set Hdr.EOWN_POS true) n]> m') B B' lb t h ln.
Proof.
  intros (HB & Hhd & Hpt & Hh & Hb & Hpay & Hframe) Hn Hth.
  assert (Hne : forall a, a <> t ->
    <[t := with_hdr (Hdr.set Hdr.EOWN_POS true) n]> m' !! a = m' !! a).
  { intros a Ha. by rewrite lookup_insert_ne. }
  split; [|split; [|split; [|split; [|split; [|split]]]]].
  - eapply is_list_ext; [exact HB|]. intros a _.
    destruct (decide (a = t)) as [->|Ha]; [|by rewrite Hne].
    by rewrite lookup_insert_eq, Hn.
  - done.
  - unfold payload_at in *. rewrite lookup_insert_eq. rewrite Hn in Hpt.
    destruct (m !! h) as [nh|]; simpl in *; [|done].
    injection Hpt as E1 E2 E3. unfold payload. simpl.
    by rewrite E1, E2, E3, Hdr_set_set.
  - unfold hdr_at. by rewrite Hne.
  - unfold pEDBuff_at. by rewrite Hne.
  - intros a Ha1 Ha2. unfold payload_at at 1. rewrite Hne by done. by apply Hpay.
  - intros a Ha. rewrite Hne; [by apply Hframe|]. set_solver.
Qed.

Lemma wp_AppendBusyList fuel B N lb t h ln rxAck Q s :
  is_list (mem s) B (lb ++ [t]) -> is_list (mem s) N (h :: ln) ->
  NoDup ((lb ++ [t]) ++ h :: ln) -> (length ln < fuel)%nat ->
  (forall m' B',
      appended (mem s) m' B B' lb t h ln ->
      Q (B', mkList 0 0)
        (set_regs (add_BUFCDEC (ack_count rxAck (mem s) (h :: ln)) (pEthReg s))
           (set_mem m' s))) ->
  wp (_EthAppendBusyList fuel B N rxAck) Q s.
Proof.
  intros HB HN Hnd Hf HQ. unfold _EthAppendBusyList.
  assert (t <> h) as Hth.
  { apply NoDup_app in Hnd as (_ & Hdisj & _). intros ->.
    eapply (Hdisj h); set_solver. }
  assert (t <> 0) as Ht0 by (eapply is_list_nonnull; [exact HB|set_solver]).
  destruct (is_list_is_Some _ _ _ h HN) as [nh Hnh]; [set_solver|].
  apply wp_bind. eapply wp_AppendBusyList_link; [done..|].
  intros m1 B1 Hlinked.
  destruct (is_list_is_Some m1 B1 _ t (proj1 Hlinked)) as [nt Hnt]; [set_solver|].
  apply wp_bind. eapply wp_AppendBusyList_go; [done|msimpl; done|]. msimpl.
  apply wp_ret. rewrite add_BUFCDEC_add.
  replace (_ + _)%nat with (ack_count rxAck (mem s) (h :: ln)).
  - apply HQ. by apply linked_go.
  - rewrite ack_count_cons, Nat.add_comm. f_equal. unfold flag_at. rewrite Hnh.
    destruct Hlinked as (_ & _ & Hpt & _). unfold payload_at in Hpt.
    rewrite Hnt, Hnh in Hpt. simpl in Hpt. injection Hpt as E _ _.
    unfold Hdr.rx_nack. rewrite E, Hdr_get_set by done. by rewrite decide_False.
Qed.

Lemma AppendBusyList_link_run fuel B N lb t h ln rxAck s :
  is_list (mem s) B (lb ++ [t]) -> is_list (mem s) N (h :: ln) ->
  NoDup ((lb ++ [t]) ++ h :: ln) -> (length ln < fuel)%nat ->
  exists B' m',
    _EthAppendBusyList_link fuel B N rxAck s =
      Some ((t, B', mkList 0 0),
            set_regs (add_BUFCDEC (ack_count rxAck (mem s) ln) (pEthReg s))
              (set_mem m' s)) /\
    linked (mem s) m' B B' lb t h ln.
Proof.
  intros HB HN Hnd Hf.
  destruct (wp_AppendBusyList_link fuel B N lb t h ln rxAck
    (fun r s' => exists B' m',
       r = (t, B', mkList 0 0) /\
       s' = set_regs (add_BUFCDEC (ack_count rxAck (mem s) ln) (pEthReg s))
              (set_mem m' s) /\
       linked (mem s) m' B B' lb t h ln) s) as (r & s' & Hrun & HQ); [done..| |].
  - intros m' B' Hl. by exists B', m'.
  - destruct HQ as (B' & m' & -> & -> & Hl). by exists B', m'.
Qed.

Lemma AppendBusyList_run fuel B N lb t h ln rxAck s :
  is_list (mem s) B (lb ++ [t]) -> is_list (mem s) N (h :: ln) ->
  NoDup ((lb ++ [t]) ++ h :: ln) -> (length ln < fuel)%nat ->
  exists B' m',
    _EthAppendBusyList fuel B N rxAck s =
      Some ((B', mkList 0 0),
            set_regs (add_BUFCDEC (ack_count rxAck (mem s) (h :: ln)) (pEthReg s))
              (set_mem m' s)) /\
    appended (mem s) m' B B' lb t h ln.
Proof.
  intros HB HN Hnd Hf.
  destruct (wp_AppendBusyList fuel B N lb t h ln rxAck
    (fun r s' => exists B' m',
       r = (B', mkList 0 0) /\
       s' = set_regs (add_BUFCDEC (ack_count rxAck (mem s) (h :: ln)) (pEthReg s))
              (set_mem m' s) /\
       appended (mem s) m' B B' lb t h ln) s) as (r & s' & Hrun & HQ); [done..| |].
  - intros m' B' Hl. by exists B', m'.
  - destruct HQ as (B' & m' & -> & -> & Hl). by exists B', m'.
Qed.

End Append.

(** ** Claims about the append protocol *)

Section AppendClaims.
Context {K : KMem}.
Implicit Types (m : gmap Z DRV_ETHMAC_DCPT_NODE) (l : list ptr) (p q a : ptr).
Implicit Types (s : machine) (L : DRV_ETHMAC_DCPT_LIST).

Lemma flag_at_hdr_at pos m a w :
  hdr_at m a = Some w -> flag_at pos m a = Hdr.get pos w.
Proof.
  unfold hdr_at, flag_at. destruct (m !! a); simpl; [|done]. by intros [= ->].
Qed.

Lemma payload_at_hdr_at m a w b st :
  payload_at m a = Some (w, b, st) -> hdr_at m a = Some w.
Proof.
  unfold hdr_at, payload_at, payload. destruct (m !! a); simpl; [|done].
  by intros [= -> _ _].
Qed.

Lemma payload_at_pEDBuff_at m a w b st :
  payload_at m a = Some (w, b, st) -> pEDBuff_at m a = Some b.
Proof.
  unfold pEDBuff_at, payload_at, payload. destruct (m !! a); simpl; [|done].
  by intros [= _ -> _].
Qed.

(** C2 (amended): on a busy list [lb ++ [t]] and a non-empty new list
    [h :: ln] whose nodes after the head arrive Hardware-owned,
    [_EthAppendBusyList] returns; the busy list is then
    [lb ++ [t] ++ ln ++ [h]], its tail [h] has a zero header word, no
    buffer and Software ownership, and every node from the old sentinel
    slot [t] up to, not including, the new tail is Hardware-owned. *)
Theorem EthAppendBusyList_sentinel fuel B N lb t h ln rxAck s :
  is_list (mem s) B (lb ++ [t]) -> is_list (mem s) N (h :: ln) ->
  NoDup ((lb ++ [t]) ++ h :: ln) -> (length ln < fuel)%nat ->
  Forall (fun a => flag_at Hdr.EOWN_POS (mem s) a = true) ln ->
  exists B' s',
    _EthAppendBusyList fuel B N rxAck s = Some ((B', mkList 0 0), s') /\
    is_list (mem s') B' (lb ++ [t] ++ ln ++ [h]) /\
    tail B' = h /\
    hdr_at (mem s') h = Some 0 /\
    pEDBuff_at (mem s') h = Some 0 /\
    flag_at Hdr.EOWN_POS (mem s') h = false /\
    Forall (fun a => flag_at Hdr.EOWN_POS (mem s') a = true) (t :: ln).
Proof.
  intros HB HN Hnd Hf Hown.
  assert (Hth : t <> h).
  { apply NoDup_app in Hnd as (_ & Hdisj & _). intros ->.
    eapply (Hdisj h); set_solver. }
  assert (Hhln : h ∉ ln).
  { apply NoDup_app in Hnd as (_ & _ & Hn). by apply NoDup_cons in Hn as []. }
  assert (Htln : t ∉ ln).
  { apply NoDup_app in Hnd as (_ & Hdisj & _). intros Hin.
    eapply (Hdisj t); set_solver. }
  destruct (is_list_is_Some _ _ _ h HN) as [nh Hnh]; [set_solver|].
  destruct (AppendBusyList_run fuel B N lb t h ln rxAck s) as
    (B' & m' & Hrun & HB' & Hhd & Hpt & Hh & Hb & Hpay & Hframe); [done..|].
  eexists B', _. split; [exact Hrun|]. msimpl. split; [done|]. split.
  { destruct HB' as (_ & Ht & _).
    by rewrite !app_assoc, last_snoc in Ht. }
  do 2 (split; [done|]). split.
  { by rewrite (flag_at_hdr_at _ _ _ 0). }
  apply Forall_cons. split.
  - rewrite Hnh in Hpt. simpl in Hpt.
    rewrite (flag_at_hdr_at _ _ _ _ (payload_at_hdr_at _ _ _ _ _ Hpt)).
    rewrite Hdr_get_set by done. by rewrite decide_True.
  - rewrite Forall_forall in Hown |- *. intros a Ha.
    rewrite (flag_at_payload _ (mem s)); [by apply Hown|].
    apply Hpay; by intros ->.
Qed.

(** C4: an RX append ([rxAck] true) of the new list [h :: ln] raises the
    count of decrement requests by exactly the number of nodes of the new
    list whose [rx_nack] flag is clear: one per such node, the head (whose
    descriptor moves into the old sentinel slot) included, and none for the
    new sentinel. *)
Theorem EthAppendBusyList_rx_decrements fuel B N lb t h ln s :
  is_list (mem s) B (lb ++ [t]) -> is_list (mem s) N (h :: ln) ->
  NoDup ((lb ++ [t]) ++ h :: ln) -> (length ln < fuel)%nat ->
  exists B' s',
    _EthAppendBusyList fuel B N true s = Some ((B', mkList 0 0), s') /\
    BUFCDEC (pEthReg s') =
      (length (filter (fun a => flag_at Hdr.rx_nack_POS (mem s) a = false) (h :: ln))
       + BUFCDEC (pEthReg s))%nat /\
    last (lb ++ [t] ++ ln ++ [h]) = Some h /\
    is_list (mem s') B' (lb ++ [t] ++ ln ++ [h]) /\
    flag_at Hdr.rx_nack_POS (mem s') h = false.
Proof.
  intros HB HN Hnd Hf.
  destruct (AppendBusyList_run fuel B N lb t h ln true s) as
    (B' & m' & Hrun & HB' & Hhd & Hpt & Hh & Hb & _); [done..|].
  eexists B', _. split; [exact Hrun|]. msimpl. split; [reflexivity|]. split.
  { by rewrite !app_assoc, last_snoc. }
  split; [done|]. by rewrite (flag_at_hdr_at _ _ _ 0).
Qed.

End AppendClaims.

(** ** TX scheduling of one buffer *)

Section TxSched.
Context {K : KMem}.
Implicit Types (m : gmap Z DRV_ETHMAC_DCPT_NODE) (l : list ptr) (p q a : ptr).
Implicit Types (s : machine) (L : DRV_ETHMAC_DCPT_LIST).

Lemma tx_hdr_EOWN pBuff nBytes : Hdr.EOWN (tx_hdr pBuff nBytes) = true.
Proof.
  unfold tx_hdr, Hdr.EOWN.
  assert (Hdr.get Hdr.EOWN_POS
            (Hdr.word (Z.lor (Z.lor Hdr._SDCPT_HDR_NPV_MASK_ Hdr._SDCPT_HDR_EOWN_MASK_)
                             (Z.shiftl nBytes Hdr._SDCPT_HDR_BCOUNT_POS_))) = true) as H.
  { unfold Hdr.get, Hdr.word. rewrite Z.land_spec, !Z.lor_spec. done. }
  destruct (IS_KVA0 pBuff); [|done].
  rewrite Hdr_get_set by done. by rewrite decide_False.
Qed.

Lemma wp_EthTxSchedBuffer_ok pBuff nBytes pList a lf l Q s :
  is_list (mem s) (_EnetTxFreeList s) (a :: lf) -> is_list (mem s) pList l ->
  NoDup ((a :: lf) ++ l) -> IS_KVA pBuff = true ->
  (forall m' F' L',
      is_list m' F' lf -> is_list m' L' (l ++ [a]) ->
      payload_at m' a =
        (fun n => (tx_hdr pBuff nBytes, KVA_TO_PA pBuff, stat (hwDcpt n)))
          <$> mem s !! a ->
      (forall b, b <> a -> payload_at m' b = payload_at (mem s) b) ->
      (forall b, b <> a -> b ∉ l -> m' !! b = mem s !! b) ->
      Q (DRV_ETHMAC_RES_OK, L') (set_TxFree F' (set_mem m' s))) ->
  wp (_EthTxSchedBuffer pBuff nBytes pList) Q s.
Proof.
  intros HF HL Hnd Hkva HQ. unfold _EthTxSchedBuffer. rewrite Hkva. simpl negb.
  destruct s as [m0 tf tb rf rb r]. msimpl.
  assert (a <> 0) as Ha by (eapply is_list_nonnull; [exact HF|set_solver]).
  destruct (is_list_is_Some _ _ _ a HF) as [n Hn]; [set_solver|].
  apply NoDup_app in Hnd as (HndF & Hdisj & Hndl).
  assert (a ∉ l) as Hal by (apply Hdisj; set_solver).
  assert (a ∉ lf) as Half by (by apply NoDup_cons in HndF as []).
  apply wp_bind, wp_gets. msimpl.
  apply wp_bind. eapply wp_ListRemoveHead_cons; [done|]. intros F' HF'. msimpl.
  apply wp_bind, wp_modify. msimpl.
  destruct (Z.eqb_spec a 0) as [|_]; [done|]. simpl negb.
  apply wp_bind. eapply wp_update; [done..|]. msimpl.
  apply wp_bind. eapply wp_update; [done|msimpl; apply lookup_insert_eq|]. msimpl.
  rewrite insert_insert_eq.
  apply wp_bind. eapply wp_update_if; [done|msimpl; apply lookup_insert_eq|]. msimpl.
  rewrite insert_insert_eq.
  set (n2 := if IS_KVA0 pBuff then _ else _).
  assert (Hn2 : next n2 = next n /\
                payload n2 = (tx_hdr pBuff nBytes, KVA_TO_PA pBuff, stat (hwDcpt n))).
  { unfold n2, tx_hdr, payload. by destruct (IS_KVA0 pBuff). }
  destruct Hn2 as [Hn2n Hn2p]. clearbody n2.
  assert (Hext : forall b, b <> a -> <[a := n2]> m0 !! b = m0 !! b).
  { intros b Hb. by rewrite lookup_insert_ne. }
  apply wp_bind. eapply wp_ListAddTail with (l := l); msimpl.
  { eapply is_list_ext; [exact HL|]. intros b Hb. rewrite Hext; [done|]. by intros ->. }
  { done. }
  { done. }
  { by rewrite lookup_insert_eq. }
  intros m' L' HL' _ Hpay Hframe. apply wp_ret. msimpl. apply (HQ m' F' L').
  - eapply is_list_ext; [exact HF'|]. intros b Hb.
    rewrite Hframe, Hext; [done|by intros ->|by intros ->|].
    intros Hbl. eapply Hdisj; [|exact Hbl]. set_solver.
  - done.
  - rewrite Hpay. unfold payload_at. rewrite lookup_insert_eq, Hn. simpl.
    by rewrite Hn2p.
  - intros b Hb. rewrite Hpay. unfold payload_at. by rewrite Hext.
  - intros b Hb1 Hb2. by rewrite Hframe, Hext.
Qed.

Lemma EthTxSchedBuffer_ok_run pBuff nBytes pList a lf l s :
  is_list (mem s) (_EnetTxFreeList s) (a :: lf) -> is_list (mem s) pList l ->
  NoDup ((a :: lf) ++ l) -> IS_KVA pBuff = true ->
  exists m' F' L',
    _EthTxSchedBuffer pBuff nBytes pList s =
      Some ((DRV_ETHMAC_RES_OK, L'), set_TxFree F' (set_mem m' s)) /\
    is_list m' F' lf /\ is_list m' L' (l ++ [a]) /\
    payload_at m' a =
      (fun n => (tx_hdr pBuff nBytes, KVA_TO_PA pBuff, stat (hwDcpt n)))
        <$> mem s !! a /\
    (forall b, b <> a -> payload_at m' b = payload_at (mem s) b) /\
    (forall b, b <> a -> b ∉ l -> m' !! b = mem s !! b).
Proof.
  intros HF HL Hnd Hkva.
  destruct (wp_EthTxSchedBuffer_ok pBuff nBytes pList a lf l
    (fun r s' => exists m' F' L',
       r = (DRV_ETHMAC_RES_OK, L') /\ s' = set_TxFree F' (set_mem m' s) /\
       is_list m' F' lf /\ is_list m' L' (l ++ [a]) /\
       payload_at m' a =
         (fun n => (tx_hdr pBuff nBytes, KVA_TO_PA pBuff, stat (hwDcpt n)))
           <$> mem s !! a /\
       (forall b, b <> a -> payload_at m' b = payload_at (mem s) b) /\
       (forall b, b <> a -> b ∉ l -> m' !! b = mem s !! b)) s)
    as (r & s' & Hrun & HQ); [done..| |].
  - intros m' F' L' ? ? ? ? ?. by exists m', F', L'.
  - destruct HQ as (m' & F' & L' & -> & -> & H). by exists m', F', L'.
Qed.

(** C3 (amended): [_EthTxSchedBuffer] prepares every node of the new list
    Hardware-owned (it writes EOWN with NPV and the byte count), so the
    nodes do not reach the append protocol Software-owned.  The protocol
    clears EOWN on the head alone; once [_EthAppendBusyList_link] has
    returned the whole chain [lb ++ [t] ++ ln ++ [h]] is linked, new
    sentinel included, with the old sentinel slot [t] and the new sentinel
    [h] Software-owned and the other new nodes as they came; what remains
    of [_EthAppendBusyList] is the one ownership write that sets EOWN on
    [t]. *)
Theorem EthTxSched_ownership_order :
  (forall pBuff nBytes pList a lf l s,
      is_list (mem s) (_EnetTxFreeList s) (a :: lf) -> is_list (mem s) pList l ->
      NoDup ((a :: lf) ++ l) -> IS_KVA pBuff = true ->
      exists L' s',
        _EthTxSchedBuffer pBuff nBytes pList s = Some ((DRV_ETHMAC_RES_OK, L'), s') /\
        is_list (mem s') L' (l ++ [a]) /\
        flag_at Hdr.EOWN_POS (mem s') a = true) /\
  (forall fuel B N lb t h ln rxAck s,
      is_list (mem s) B (lb ++ [t]) -> is_list (mem s) N (h :: ln) ->
      NoDup ((lb ++ [t]) ++ h :: ln) -> (length ln < fuel)%nat ->
      exists B' s1 s2 nt,
        _EthAppendBusyList_link fuel B N rxAck s = Some ((t, B', mkList 0 0), s1) /\
        is_list (mem s1) B' (lb ++ [t] ++ ln ++ [h]) /\
        flag_at Hdr.EOWN_POS (mem s1) t = false /\
        flag_at Hdr.EOWN_POS (mem s1) h = false /\
        Forall (fun a => flag_at Hdr.EOWN_POS (mem s1) a
                         = flag_at Hdr.EOWN_POS (mem s) a) ln /\
        mem s1 !! t = Some nt /\
        _EthAppendBusyList fuel B N rxAck s = Some ((B', mkList 0 0), s2) /\
        mem s2 = <[t := with_hdr (Hdr.set Hdr.EOWN_POS true) nt]> (mem s1)).
Proof.
  split.
  - intros pBuff nBytes pList a lf l s HF HL Hnd Hkva.
    destruct (EthTxSchedBuffer_ok_run pBuff nBytes pList a lf l s)
      as (m' & F' & L' & Hrun & HF' & HL' & Hpa & _); [done..|].
    eexists L', _. split; [exact Hrun|]. msimpl. split; [done|].
    destruct (is_list_is_Some _ _ _ a HF) as [n Hn]; [set_solver|].
    rewrite Hn in Hpa. simpl in Hpa.
    rewrite (flag_at_hdr_at _ _ _ _ (payload_at_hdr_at _ _ _ _ _ Hpa)).
    apply tx_hdr_EOWN.
  - intros fuel B N lb t h ln rxAck s HB HN Hnd Hf.
    assert (Hth : t <> h).
    { apply NoDup_app in Hnd as (_ & Hdisj & _). intros ->.
      eapply (Hdisj h); set_solver. }
    assert (Hhln : h ∉ ln).
    { apply NoDup_app in Hnd as (_ & _ & Hn). by apply NoDup_cons in Hn as []. }
    assert (Htln : t ∉ ln).
    { apply NoDup_app in Hnd as (_ & Hdisj & _). intros Hin.
      eapply (Hdisj t); set_solver. }
    assert (t <> 0) as Ht0 by (eapply is_list_nonnull; [exact HB|set_solver]).
    destruct (is_list_is_Some _ _ _ h HN) as [nh Hnh]; [set_solver|].
    destruct (AppendBusyList_link_run fuel B N lb t h ln rxAck s)
      as (B' & m1 & Hrun & HB' & Hhd & Hpt & Hh & Hb & Hpay & Hframe); [done..|].
    destruct (is_list_is_Some m1 B' _ t HB') as [nt Hnt]; [set_solver|].
    destruct (wp_AppendBusyList_go t rxAck nt
      (fun _ s2 => mem s2 = <[t := with_hdr (Hdr.set Hdr.EOWN_POS true) nt]> m1)
      (set_regs (add_BUFCDEC (ack_count rxAck (mem s) ln) (pEthReg s)) (set_mem m1 s)))
      as ([] & s2 & Hgo & Hs2); [done|done|done|].
    eexists B', _, s2, nt. split; [exact Hrun|]. msimpl.
    split; [done|]. split.
    { rewrite Hnh in Hpt. simpl in Hpt.
      rewrite (flag_at_hdr_at _ _ _ _ (payload_at_hdr_at _ _ _ _ _ Hpt)).
      rewrite Hdr_get_set by done. by rewrite decide_True. }
    split; [by rewrite (flag_at_hdr_at _ _ _ 0)|]. split.
    { apply Forall_forall. intros a Ha. apply flag_at_payload.
      apply Hpay; by intros ->. }
    split; [done|]. split; [|done].
    unfold _EthAppendBusyList, bind. rewrite Hrun. by rewrite Hgo.
Qed.

End TxSched.

(** ** TX status query *)

Section TxStatus.
Context {K : KMem}.
Implicit Types (m : gmap Z DRV_ETHMAC_DCPT_NODE) (l : list ptr) (p q a : ptr).
Implicit Types (s : machine) (L : DRV_ETHMAC_DCPT_LIST).

Lemma EnetFindPacket_loop_run fuel pPhysPkt p l s :
  lseg (mem s) p l 0 -> (length l < fuel)%nat ->
  _EnetFindPacket_loop fuel pPhysPkt p s =
    Some (default 0 (List.find (starts_packet (mem s) pPhysPkt) l), s).
Proof.
  revert p l. induction fuel as [|fuel IH]; intros p l Hseg Hf; [lia|].
  simpl. destruct l as [|a l]; simpl in Hseg.
  - subst p. done.
  - destruct Hseg as (-> & Ha & Hseg).
    destruct (Z.eqb_spec a 0) as [|_]; [done|].
    destruct (mem s !! a) as [n|] eqn:En; [|done].
    unfold bind, load. destruct (Z.eqb_spec a 0) as [|_]; [done|]. rewrite En.
    simpl. unfold starts_packet at 1. rewrite En.
    destruct (Hdr.SOP (hdr (hwDcpt n)) && (pPhysPkt =? pEDBuff (hwDcpt n))); [done|].
    apply IH; [done|]. simpl in Hf. lia.
Qed.

(** C7: [DRV_ETHMAC_LibTxGetBufferStatus] returns the machine it was given
    (lists, nodes and registers), and its result is decided by the first
    node of the TX busy list that starts a packet and carries the queried
    buffer's physical address: [PACKET_QUEUED] if that node is
    Hardware-owned, [OK] with the address of its status block if it is
    Software-owned, [NO_PACKET] if there is no such node. *)
Theorem TxGetBufferStatus_pure_query fuel pBuff pTxStat lb s :
  is_list (mem s) (_EnetTxBusyList s) lb -> (length lb < fuel)%nat ->
  exists res st,
    DRV_ETHMAC_LibTxGetBufferStatus fuel pBuff pTxStat s = Some ((res, st), s) /\
    match List.find (starts_packet (mem s) (KVA_TO_PA pBuff)) lb with
    | Some a =>
      if flag_at Hdr.EOWN_POS (mem s) a
      then res = DRV_ETHMAC_RES_PACKET_QUEUED /\ st = (fun _ => 0) <$> pTxStat
      else res = DRV_ETHMAC_RES_OK /\ st = (fun _ => stat_addr a) <$> pTxStat
    | None => res = DRV_ETHMAC_RES_NO_PACKET /\ st = (fun _ => 0) <$> pTxStat
    end.
Proof.
  intros HL Hf. unfold DRV_ETHMAC_LibTxGetBufferStatus, _EnetFindPacket.
  unfold bind at 1. unfold gets at 1. unfold bind at 1.
  rewrite (EnetFindPacket_loop_run fuel _ _ lb) by (done || apply HL).
  destruct (List.find _ lb) as [a|] eqn:Efind; simpl.
  - apply find_some in Efind as [Hin Hsp]. apply list_elem_of_In in Hin.
    pose proof (is_list_nonnull _ _ _ a HL Hin) as Ha.
    destruct (is_list_is_Some _ _ _ a HL Hin) as [n Hn].
    destruct (Z.eqb_spec a 0) as [|_]; [done|]. simpl.
    unfold bind, load. destruct (Z.eqb_spec a 0) as [|_]; [done|]. rewrite Hn.
    unfold flag_at. rewrite Hn. fold (Hdr.EOWN (hdr (hwDcpt n))).
    destruct (Hdr.EOWN (hdr (hwDcpt n))); eexists _, _; (split; [reflexivity|]);
      by destruct pTxStat.
  - eexists _, _. split; [reflexivity|]. by destruct pTxStat.
Qed.

End TxStatus.

(** ** Descriptor pool *)

Section Pool.
Context {K : KMem}.
Implicit Types (m : gmap Z DRV_ETHMAC_DCPT_NODE) (l : list ptr) (p q a : ptr).
Implicit Types (s : machine) (L : DRV_ETHMAC_DCPT_LIST) (F G : list_sel).

Lemma get_set_list_eq F L s : get_list F (set_list F L s) = L.
Proof. by destruct F. Qed.

Lemma get_set_list_ne F G L s : F <> G -> get_list G (set_list F L s) = get_list G s.
Proof. by destruct F, G. Qed.

Lemma mem_set_list F L s : mem (set_list F L s) = mem s.
Proof. by destruct F. Qed.

Lemma regs_set_list F L s : pEthReg (set_list F L s) = pEthReg s.
Proof. by destruct F. Qed.

Lemma get_list_set_mem F m s : get_list F (set_mem m s) = get_list F s.
Proof. by destruct F. Qed.

Lemma mem_set_mem m s : mem (set_mem m s) = m.
Proof. done. Qed.

Lemma set_mem_set_mem m m' s : set_mem m (set_mem m' s) = set_mem m s.
Proof. done. Qed.

Lemma wp_PoolAdd_loop fuel n F f c lf Q s :
  calloc_like f -> is_list (mem s) (get_list F s) lf ->
  0 <= n -> (Z.to_nat n < fuel)%nat ->
  (forall s' lnew,
      is_list (mem s') (get_list F s') (lf ++ lnew) ->
      Z.of_nat (length lnew) <= n ->
      (Z.of_nat (length lnew) < n -> f s' = Some (0, s')) ->
      (forall a, a ∈ lnew -> mem s !! a = None) ->
      (forall a, a ∈ lnew -> payload_at (mem s') a = Some (0, 0, 0)) ->
      (forall a, a ∉ lnew -> payload_at (mem s') a = payload_at (mem s) a) ->
      (forall a, a ∉ lf -> a ∉ lnew -> mem s' !! a = mem s !! a) ->
      (forall G, G <> F -> get_list G s' = get_list G s) ->
      pEthReg s' = pEthReg s ->
      Q (c + Z.of_nat (length lnew)) s') ->
  wp (PoolAdd_loop fuel n F f c) Q s.
Proof.
  intros Hf. revert n c lf s Q.
  induction fuel as [|fuel IH]; intros n c lf s Q HL Hn Hfuel HQ; [lia|].
  simpl. destruct (Z.eqb_spec n 0) as [->|Hn0].
  { apply wp_ret. specialize (HQ s []). rewrite app_nil_r, Z.add_0_r in HQ.
    apply HQ; try done; try (simpl; lia); intros a Ha; by apply elem_of_nil in Ha. }
  apply wp_bind. destruct (Hf s) as [Hfail|(p & Hp & Hfresh & Hok)].
  { exists 0, s. split; [done|]. simpl. apply wp_ret.
    specialize (HQ s []). rewrite app_nil_r, Z.add_0_r in HQ.
    apply HQ; try done; intros a Ha; by apply elem_of_nil in Ha. }
  eexists p, _. split; [exact Hok|].
  destruct (Z.eqb_spec p 0) as [|_]; [done|].
  assert (Hplf : p ∉ lf).
  { intros Hin. destruct (is_list_is_Some _ _ _ p HL Hin) as [? E]. congruence. }
  apply wp_bind, wp_gets. rewrite get_list_set_mem.
  apply wp_bind. eapply wp_ListAddTail with (l := lf); msimpl.
  { eapply is_list_ext; [exact HL|]. intros a Ha. rewrite lookup_insert_ne; [done|].
    by intros ->. }
  { done. }
  { done. }
  { by rewrite lookup_insert_eq. }
  intros m1 L1 HL1 _ Hpay1 Hframe1.
  apply wp_bind, wp_modify.
  eapply IH with (lf := lf ++ [p]).
  - by rewrite mem_set_list, get_set_list_eq.
  - lia.
  - lia.
  - intros s' lnew HL' Hlen Hstop Hfresh' Hzero' Hpay' Hframe' Hother Hregs.
    rewrite mem_set_list in Hfresh', Hframe', Hpay'. msimpl.
    replace (c + 1 + Z.of_nat (length lnew)) with (c + Z.of_nat (length (p :: lnew)))
      by (simpl length; lia).
    assert (Hpnew : p ∉ lnew).
    { destruct HL' as (_ & _ & Hnd). apply NoDup_app in Hnd as (_ & Hd & _).
      apply Hd. set_solver. }
    assert (Hp0 : payload_at (mem s') p = Some (0, 0, 0)).
    { rewrite Hpay' by done. rewrite Hpay1. unfold payload_at.
      by rewrite lookup_insert_eq. }
    apply HQ.
    + by rewrite <- app_assoc in HL'.
    + simpl length. lia.
    + intros Hlt. apply Hstop. simpl length in Hlt. lia.
    + intros a Ha. apply elem_of_cons in Ha as [->|Ha]; [done|].
      specialize (Hfresh' a Ha).
      assert (a ∉ lf ++ [p]) as Hnin.
      { destruct HL' as (_ & _ & Hnd). apply NoDup_app in Hnd as (_ & Hd & _).
        intros Hin. by apply (Hd a). }
      rewrite Hframe1, lookup_insert_ne in Hfresh'; [done|set_solver..].
    + intros a Ha. apply elem_of_cons in Ha as [->|Ha]; [done|]. by apply Hzero'.
    + intros a Ha. rewrite Hpay' by set_solver. rewrite Hpay1. unfold payload_at.
      rewrite lookup_insert_ne; [done|set_solver].
    + intros a Ha1 Ha2. rewrite Hframe' by set_solver.
      rewrite Hframe1; [|set_solver..]. rewrite lookup_insert_ne; [done|set_solver].
    + intros G HG. rewrite Hother by done. rewrite get_set_list_ne by done.
      by destruct G.
    + rewrite Hregs. by rewrite regs_set_list.
Qed.

Lemma dir_lists_ne dType F G : dir_lists dType F G -> G <> F.
Proof. by intros [(_ & -> & ->)|(_ & -> & ->)]. Qed.

Lemma wp_PoolAdd fuel n dType f F G lf lbz Q s :
  dir_lists dType F G -> pool_wf F G s lf lbz -> calloc_like f ->
  0 <= n -> (Z.to_nat n < fuel)%nat ->
  (forall s' lnew lbz',
      pool_wf F G s' (lf ++ lnew) lbz' ->
      Z.of_nat (length lnew) <= n ->
      (Z.of_nat (length lnew) < n -> f s' = Some (0, s')) ->
      seated_sentinel f s s' lbz lbz' ->
      (lbz' = [] -> lnew = []) ->
      Forall (fun a => mem s !! a = None /\ payload_at (mem s') a = Some (0, 0, 0))
        lnew ->
      (forall a, is_Some (mem s !! a) -> payload_at (mem s') a = payload_at (mem s) a) ->
      pEthReg s' = pEthReg s ->
      Q (Z.of_nat (length lnew)) s') ->
  wp (DRV_ETHMAC_LibDescriptorsPoolAdd fuel n dType (Some f)) Q s.
Proof.
  intros Hdir (HF & HG & Hnd) Hf Hn Hfuel HQ.
  pose proof (dir_lists_ne _ _ _ Hdir) as HGF.
  unfold DRV_ETHMAC_LibDescriptorsPoolAdd.
  assert ((if dType =? DRV_ETHMAC_DCPT_TYPE_TX then Some (TxFree, TxBusy)
           else if dType =? DRV_ETHMAC_DCPT_TYPE_RX then Some (RxFree, RxBusy)
           else None) = Some (F, G)) as ->.
  { by destruct Hdir as [(-> & -> & ->)|(-> & -> & ->)]. }
  apply wp_bind, wp_gets. unfold DRV_ETHMAC_LIB_ListIsEmpty.
  destruct (Z.eqb_spec (head (get_list G s)) 0) as [Hhd|Hhd].
  - pose proof (is_list_head_null _ _ _ HG Hhd) as ->.
    apply is_list_nil in HG. rewrite app_nil_r in Hnd.
    apply wp_bind. destruct (Hf s) as [Hfail|(p & Hp & Hfresh & Hok)].
    { exists 0, s. split; [done|]. simpl. apply wp_ret.
      specialize (HQ s [] []). rewrite app_nil_r in HQ. apply HQ; try done.
      - split; [done|]. split; [by apply is_list_nil|by rewrite app_nil_r].
      - simpl. by left. }
    eexists p, _. split; [exact Hok|].
    destruct (Z.eqb_spec p 0) as [|_]; [done|].
    rewrite HG. unfold DRV_ETHMAC_LIB_ListAddHead.
    apply wp_bind. apply wp_bind.
    eapply wp_update; [done|rewrite mem_set_mem; apply lookup_insert_eq|].
    rewrite !mem_set_mem, set_mem_set_mem, insert_insert_eq.
    apply wp_bind.
    eapply wp_update; [done|rewrite mem_set_mem; apply lookup_insert_eq|].
    rewrite !mem_set_mem, set_mem_set_mem, insert_insert_eq. apply wp_ret.
    apply wp_bind, wp_modify.
    set (ns := with_next_ed _ _).
    assert (Hplf : p ∉ lf).
    { intros Hin. destruct (is_list_is_Some _ _ _ p HF Hin) as [? E]. congruence. }
    eapply wp_PoolAdd_loop with (lf := lf); [done| | done | done |].
    { rewrite mem_set_list, get_set_list_ne, get_list_set_mem, mem_set_mem by done.
      eapply is_list_ext; [exact HF|]. intros a Ha.
      rewrite lookup_insert_ne; [done|by intros ->]. }
    intros s' lnew HL' Hlen Hstop Hfresh' Hzero' Hpay' Hframe' Hother Hregs.
    rewrite mem_set_list, mem_set_mem in Hfresh', Hframe', Hpay'.
    rewrite Z.add_0_l.
    assert (Hpnew : p ∉ lnew).
    { intros Hin. specialize (Hfresh' p Hin). by rewrite lookup_insert_eq in Hfresh'. }
    assert (Hs'p : mem s' !! p = Some ns).
    { rewrite Hframe' by done. apply lookup_insert_eq. }
    apply (HQ s' lnew [p]).
    + split; [done|]. split.
      * rewrite Hother by done. rewrite get_set_list_eq.
        split; [|split; [done|apply NoDup_singleton]]. simpl.
        by rewrite Hs'p.
      * destruct HL' as (_ & _ & HndL). apply NoDup_app. split; [done|].
        split; [|apply NoDup_singleton]. intros x Hx. set_solver.
    + done.
    + done.
    + simpl. right. exists p. split; [done|]. split; [done|]. split; [done|].
      split; [done|]. unfold payload_at. by rewrite Hs'p.
    + done.
    + apply Forall_forall. intros a Ha. split; [|by apply Hzero'].
      specialize (Hfresh' a Ha). rewrite lookup_insert_ne in Hfresh'; [done|].
      by intros ->.
    + intros a [na Hna]. rewrite Hpay'.
      * unfold payload_at. rewrite lookup_insert_ne; [done|]. intros ->. congruence.
      * intros Hin. specialize (Hfresh' a Hin).
        rewrite lookup_insert_ne in Hfresh'; [congruence|]. intros ->. congruence.
    + rewrite Hregs. by rewrite regs_set_list.
  - assert (lbz <> []) as Hne.
    { intros ->. apply is_list_nil in HG. by rewrite HG in Hhd. }
    eapply wp_PoolAdd_loop with (lf := lf); [done..|].
    intros s' lnew HL' Hlen Hstop Hfresh' Hzero' Hpay' Hframe' Hother Hregs.
    rewrite Z.add_0_l.
    apply (HQ s' lnew lbz).
    + split; [done|]. apply NoDup_app in Hnd as (Hndf & Hdisj & Hndb). split.
      * rewrite Hother by done. eapply is_list_ext; [exact HG|]. intros a Ha.
        rewrite Hframe'; [done| |].
        -- intros Hin. by apply (Hdisj a).
        -- intros Hin. destruct (is_list_is_Some _ _ _ a HG Ha) as [? E].
           specialize (Hfresh' a Hin). congruence.
      * destruct HL' as (_ & _ & HndL). apply NoDup_app. split; [done|].
        split; [|done]. intros x Hx Hxb.
        apply elem_of_app in Hx as [Hx|Hx]; [by apply (Hdisj x)|].
        destruct (is_list_is_Some _ _ _ x HG Hxb) as [? E].
        specialize (Hfresh' x Hx). congruence.
    + done.
    + done.
    + by destruct lbz.
    + done.
    + apply Forall_forall. intros a Ha. split; [by apply Hfresh'|by apply Hzero'].
    + intros a [na Hna]. apply Hpay'. intros Hin. specialize (Hfresh' a Hin). congruence.
    + done.
Qed.

Lemma wp_PoolRemove_loop fuel n F G g c lf lbz Q s :
  G <> F -> pool_wf F G s lf lbz ->
  match g with Some g => free_like g | None => True end ->
  0 <= n -> (Z.to_nat n < fuel)%nat ->
  (forall s',
      pool_wf F G s' (drop (Z.to_nat n) lf) lbz ->
      Q (c + Z.min n (Z.of_nat (length lf))) s') ->
  wp (PoolRemove_loop fuel n F g c) Q s.
Proof.
  intros HGF. revert n c lf s Q.
  induction fuel as [|fuel IH]; intros n c lf s Q (HF & HG & Hnd) Hg Hn Hfuel HQ; [lia|].
  simpl. destruct (Z.eqb_spec n 0) as [->|Hn0].
  { apply wp_ret. replace (c + _) with c in * by lia.
    specialize (HQ s). simpl in HQ. by apply HQ. }
  apply wp_bind, wp_gets. apply wp_bind. destruct lf as [|a lf].
  - eapply wp_ListRemoveHead_nil; [done|]. apply wp_bind, wp_modify. simpl.
    apply wp_ret. replace (c + _) with c in * by (simpl; lia).
    rewrite drop_nil in HQ. apply HQ. apply is_list_nil in HF.
    split; [|split; [|done]].
    + rewrite mem_set_list, get_set_list_eq. by apply is_list_nil.
    + by rewrite mem_set_list, get_set_list_ne.
  - eapply wp_ListRemoveHead_cons; [done|]. intros F' HF'.
    apply wp_bind, wp_modify.
    assert (a <> 0) as Ha by (eapply is_list_nonnull; [exact HF|set_solver]).
    destruct (Z.eqb_spec a 0) as [|_]; [done|].
    apply NoDup_app in Hnd as (Hndf & Hdisj & Hndb).
    apply NoDup_cons in Hndf as [Half Hndf].
    assert (Halb : a ∉ lbz) by (apply Hdisj; set_solver).
    assert (Hnd' : NoDup (lf ++ lbz)).
    { apply NoDup_app. split; [done|]. split; [|done].
      intros x Hx. apply Hdisj. set_solver. }
    assert (Hcnt : c + Z.min n (Z.of_nat (length (a :: lf)))
                   = c + 1 + Z.min (n - 1) (Z.of_nat (length lf))).
    { simpl length. lia. }
    assert (Hdrop : drop (Z.to_nat n) (a :: lf) = drop (Z.to_nat (n - 1)) lf).
    { replace (Z.to_nat n) with (S (Z.to_nat (n - 1))) by lia. done. }
    rewrite Hcnt, Hdrop in HQ.
    apply wp_bind. destruct g as [g|].
    + eexists tt, _. split; [apply Hg|].
      eapply IH; [| done | lia | lia | exact HQ].
      rewrite mem_set_list in *.
      split; [|split; [|done]]; rewrite mem_set_mem.
      * rewrite get_list_set_mem, get_set_list_eq.
        eapply is_list_ext; [exact HF'|]. intros b Hb.
        rewrite lookup_delete_ne; [done|by intros ->].
      * rewrite get_list_set_mem, get_set_list_ne by done.
        eapply is_list_ext; [exact HG|]. intros b Hb.
        rewrite lookup_delete_ne; [done|by intros ->].
    + apply wp_ret. eapply IH; [| done | lia | lia | exact HQ].
      split; [|split; [|done]]; rewrite mem_set_list.
      * by rewrite get_set_list_eq.
      * by rewrite get_set_list_ne.
Qed.

Lemma wp_PoolRemove fuel n dType g F G lf lbz Q s :
  dir_lists dType F G -> pool_wf F G s lf lbz ->
  match g with Some g => free_like g | None => True end ->
  0 <= n -> (Z.to_nat n < fuel)%nat ->
  (forall s',
      pool_wf F G s' (drop (Z.to_nat n) lf) lbz ->
      Q (Z.min n (Z.of_nat (length lf))) s') ->
  wp (DRV_ETHMAC_LibDescriptorsPoolRemove fuel n dType g) Q s.
Proof.
  intros Hdir Hwf Hg Hn Hfuel HQ.
  pose proof (dir_lists_ne _ _ _ Hdir) as HGF.
  unfold DRV_ETHMAC_LibDescriptorsPoolRemove.
  destruct Hdir as [(-> & -> & ->)|(-> & -> & ->)]; simpl;
    (eapply wp_PoolRemove_loop; [done..|]); intros s' Hwf';
    rewrite Z.add_0_l; by apply HQ.
Qed.

Lemma pool_trace_sums c ops rets c' :
  0 <= c -> pool_trace c ops rets c' ->
  0 <= c' /\ c' = c + sum_adds ops rets - sum_removes ops rets /\
  0 <= sum_adds ops rets /\ 0 <= sum_removes ops rets.
Proof.
  intros Hc H. revert Hc.
  induction H as [c|c n f r ops rets c' Hr H IH|c n g ops rets c' Hn H IH];
    intros Hc; simpl.
  - lia.
  - destruct IH as (? & ? & ? & ?); lia.
  - destruct IH as (? & ? & ? & ?); lia.
Qed.

Lemma PoolAdd_run fuel n dType f F G lf lbz s :
  dir_lists dType F G -> pool_wf F G s lf lbz -> calloc_like f ->
  0 <= n -> (Z.to_nat n < fuel)%nat ->
  exists s' lnew lbz',
    DRV_ETHMAC_LibDescriptorsPoolAdd fuel n dType (Some f) s
      = Some (Z.of_nat (length lnew), s') /\
    pool_wf F G s' (lf ++ lnew) lbz' /\
    Z.of_nat (length lnew) <= n /\
    (Z.of_nat (length lnew) < n -> f s' = Some (0, s')) /\
    seated_sentinel f s s' lbz lbz' /\
    (lbz' = [] -> lnew = []) /\
    Forall (fun a => mem s !! a = None /\ payload_at (mem s') a = Some (0, 0, 0)) lnew /\
    (forall a, is_Some (mem s !! a) -> payload_at (mem s') a = payload_at (mem s) a) /\
    pEthReg s' = pEthReg s.
Proof.
  intros Hdir Hwf Hf Hn Hfuel.
  destruct (wp_PoolAdd fuel n dType f F G lf lbz
    (fun r s' => exists lnew lbz',
       r = Z.of_nat (length lnew) /\
       pool_wf F G s' (lf ++ lnew) lbz' /\
       Z.of_nat (length lnew) <= n /\
       (Z.of_nat (length lnew) < n -> f s' = Some (0, s')) /\
       seated_sentinel f s s' lbz lbz' /\
       (lbz' = [] -> lnew = []) /\
       Forall (fun a => mem s !! a = None /\ payload_at (mem s') a = Some (0, 0, 0))
         lnew /\
       (forall a, is_Some (mem s !! a) -> payload_at (mem s') a = payload_at (mem s) a) /\
       pEthReg s' = pEthReg s) s)
    as (r & s' & Hrun & lnew & lbz' & -> & H); [done..| |].
  - intros s' lnew lbz' ? ? ? ? ? ? ? ?. by exists lnew, lbz'.
  - by exists s', lnew, lbz'.
Qed.

Lemma PoolRemove_run fuel n dType g F G lf lbz s :
  dir_lists dType F G -> pool_wf F G s lf lbz ->
  match g with Some g => free_like g | None => True end ->
  0 <= n -> (Z.to_nat n < fuel)%nat ->
  exists s',
    DRV_ETHMAC_LibDescriptorsPoolRemove fuel n dType g s
      = Some (Z.min n (Z.of_nat (length lf)), s') /\
    pool_wf F G s' (drop (Z.to_nat n) lf) lbz.
Proof.
  intros Hdir Hwf Hg Hn Hfuel.
  destruct (wp_PoolRemove fuel n dType g F G lf lbz
    (fun r s' => r = Z.min n (Z.of_nat (length lf)) /\
                 pool_wf F G s' (drop (Z.to_nat n) lf) lbz) s)
    as (r & s' & Hrun & -> & H); [done..| |].
  - by intros s' ?.
  - by exists s'.
Qed.

(** C8 (amended).  The requested counts are not negative, the lists of
    the direction are well formed, and the allocator and the free function
    behave like [calloc] and [free].

    A pool add appends fresh, zero-filled nodes to the tail of the free
    list and returns their number.  That number is the count asked for
    unless an allocation fails: the add stops at the first failure, so
    whenever it returns less the allocator fails in the machine the add
    leaves.  If the busy list was empty the add first allocates one more
    node and seats it alone in the busy list, outside the returned count;
    if that allocation fails it returns [0] and changes nothing.  A busy
    list that was not empty, the descriptors there were and the registers
    are left alone.

    A pool removal of [n] nodes takes the first [min n count] nodes off the
    free list and returns that number.

    Along any sequence of adds and removals the free-list count follows
    the calls step by step: an add raises it by its return value, a removal
    of [n] returns [min n count] and leaves [max 0 (count - n)].  So the
    final count is the initial count plus the returns of the adds minus the
    returns of the removals, and never exceeds what was added.  When no
    allocation can fail the return values are those of [pool_returns]:
    every add returns the count asked for. *)
Theorem pool_add_remove_count :
  (forall fuel n dType f F G lf lbz s,
      dir_lists dType F G -> pool_wf F G s lf lbz -> calloc_like f ->
      0 <= n -> (Z.to_nat n < fuel)%nat ->
      exists s' lnew lbz',
        DRV_ETHMAC_LibDescriptorsPoolAdd fuel n dType (Some f) s
          = Some (Z.of_nat (length lnew), s') /\
        pool_wf F G s' (lf ++ lnew) lbz' /\
        Z.of_nat (length lnew) <= n /\
        (Z.of_nat (length lnew) < n -> f s' = Some (0, s')) /\
        seated_sentinel f s s' lbz lbz' /\
        (lbz' = [] -> lnew = []) /\
        Forall (fun a => mem s !! a = None /\ payload_at (mem s') a = Some (0, 0, 0))
          lnew /\
        (forall a, is_Some (mem s !! a) ->
           payload_at (mem s') a = payload_at (mem s) a) /\
        pEthReg s' = pEthReg s) /\
  (forall fuel n dType g F G lf lbz s,
      dir_lists dType F G -> pool_wf F G s lf lbz ->
      match g with Some g => free_like g | None => True end ->
      0 <= n -> (Z.to_nat n < fuel)%nat ->
      exists s',
        DRV_ETHMAC_LibDescriptorsPoolRemove fuel n dType g s
          = Some (Z.min n (Z.of_nat (length lf)), s') /\
        pool_wf F G s' (drop (Z.to_nat n) lf) lbz) /\
  (forall fuel dType F G ops lf lbz s,
      dir_lists dType F G -> pool_wf F G s lf lbz ->
      Forall (pool_op_ok fuel) ops ->
      exists rets s' lf' lbz',
        run_pool fuel dType ops s = Some (rets, s') /\
        pool_wf F G s' lf' lbz' /\
        pool_trace (Z.of_nat (length lf)) ops rets (Z.of_nat (length lf')) /\
        Z.of_nat (length lf')
          = Z.of_nat (length lf) + sum_adds ops rets - sum_removes ops rets /\
        Z.of_nat (length lf') <= Z.of_nat (length lf) + sum_adds ops rets /\
        (Forall never_fails ops -> rets = pool_returns (Z.of_nat (length lf)) ops)).
Proof.
  split; [intros; by eapply PoolAdd_run|].
  split; [intros; by eapply PoolRemove_run|].
  intros fuel dType F G ops lf lbz s Hdir Hwf Hops.
  cut (exists rets s' lf' lbz',
        run_pool fuel dType ops s = Some (rets, s') /\
        pool_wf F G s' lf' lbz' /\
        pool_trace (Z.of_nat (length lf)) ops rets (Z.of_nat (length lf')) /\
        (Forall never_fails ops -> rets = pool_returns (Z.of_nat (length lf)) ops)).
  { intros (rets & s' & lf' & lbz' & Hrun & Hwf' & Htr & Hnf).
    exists rets, s', lf', lbz'. do 3 (split; [done|]).
    apply pool_trace_sums in Htr as (? & ? & ? & ?); [|lia].
    split; [lia|]. split; [lia|done]. }
  revert lf lbz s Hwf. induction Hops as [|op ops Hop Hops IH]; intros lf lbz s Hwf.
  - exists [], s, lf, lbz. split; [done|]. split; [done|]. split; [constructor|done].
  - destruct op as [n f|n g]; simpl in Hop; destruct Hop as (Hn & Hfuel & Hfg).
    + destruct (PoolAdd_run fuel n dType f F G lf lbz s)
        as (s1 & lnew & lbz1 & Hrun & Hwf1 & Hle & Hstop & _); [done..|].
      destruct (IH _ _ _ Hwf1) as (rets & s' & lf' & lbz' & Hrun' & Hwf' & Htr & Hnf).
      exists (Z.of_nat (length lnew) :: rets), s', lf', lbz'.
      split; [|split; [done|split]].
      * cbn [run_pool run_pool_op]. unfold bind at 1. rewrite Hrun.
        unfold bind. by rewrite Hrun'.
      * constructor; [lia|]. by rewrite length_app, Nat2Z.inj_add in Htr.
      * intros Hall. apply Forall_cons in Hall as [Hf1 Hall]. simpl in Hf1.
        assert (Z.of_nat (length lnew) = n) as Hfull.
        { destruct (Z.lt_ge_cases (Z.of_nat (length lnew)) n) as [Hlt|?]; [|lia].
          by destruct (Hf1 s1 (Hstop Hlt)). }
        simpl. rewrite Hfull. f_equal.
        rewrite (Hnf Hall), length_app, Nat2Z.inj_add. by rewrite Hfull.
    + destruct (PoolRemove_run fuel n dType g F G lf lbz s)
        as (s1 & Hrun & Hwf1); [done..|].
      destruct (IH _ _ _ Hwf1) as (rets & s' & lf' & lbz' & Hrun' & Hwf' & Htr & Hnf).
      exists (Z.min n (Z.of_nat (length lf)) :: rets), s', lf', lbz'.
      assert (Hcnt : Z.of_nat (length (drop (Z.to_nat n) lf))
                     = Z.max 0 (Z.of_nat (length lf) - n)).
      { rewrite length_drop. lia. }
      split; [|split; [done|split]].
      * cbn [run_pool run_pool_op]. unfold bind at 1. rewrite Hrun.
        unfold bind. by rewrite Hrun'.
      * constructor; [done|]. by rewrite Hcnt in Htr.
      * intros Hall. apply Forall_cons in Hall as [_ Hall]. simpl. f_equal.
        by rewrite (Hnf Hall), Hcnt.
Qed.

(** C10: with a null allocator, or a direction that is neither TX nor RX,
    pool add returns 0 and the machine (memory, the four lists, the
    registers) is the one it was given; so does pool remove with such a
    direction.  The allocator and the free function are never run. *)
Theorem pool_rejects_bad_arguments :
  (forall fuel n dType s,
      DRV_ETHMAC_LibDescriptorsPoolAdd fuel n dType None s = Some (0, s)) /\
  (forall fuel n dType fAlloc s,
      dType <> DRV_ETHMAC_DCPT_TYPE_TX -> dType <> DRV_ETHMAC_DCPT_TYPE_RX ->
      DRV_ETHMAC_LibDescriptorsPoolAdd fuel n dType fAlloc s = Some (0, s)) /\
  (forall fuel n dType fFree s,
      dType <> DRV_ETHMAC_DCPT_TYPE_TX -> dType <> DRV_ETHMAC_DCPT_TYPE_RX ->
      DRV_ETHMAC_LibDescriptorsPoolRemove fuel n dType fFree s = Some (0, s)).
Proof.
  split; [done|]. split.
  - intros fuel n dType fAlloc s Htx Hrx. unfold DRV_ETHMAC_LibDescriptorsPoolAdd.
    destruct fAlloc; [|done].
    destruct (Z.eqb_spec dType DRV_ETHMAC_DCPT_TYPE_TX); [done|].
    destruct (Z.eqb_spec dType DRV_ETHMAC_DCPT_TYPE_RX); done.
  - intros fuel n dType fFree s Htx Hrx. unfold DRV_ETHMAC_LibDescriptorsPoolRemove.
    destruct (Z.eqb_spec dType DRV_ETHMAC_DCPT_TYPE_TX); [done|].
    destruct (Z.eqb_spec dType DRV_ETHMAC_DCPT_TYPE_RX); done.
Qed.

End Pool.

(** ** RX packet retrieval *)

Section RxGet.
Context {K : KMem}.
Implicit Types (m : gmap Z DRV_ETHMAC_DCPT_NODE) (l : list ptr) (p q a : ptr).
Implicit Types (s : machine) (L : DRV_ETHMAC_DCPT_LIST).
Implicit Types (pPkt : list DRV_ETHMAC_PKT_DCPT).

(** The walk over the nodes [body ++ [e]] of one packet, entered with the
    chain cursor at [i] and as many buffers reported; with [pnBuffs]
    supplied the walk always reaches the end of the packet. *)
Lemma RxGetPacket_parse_run fuel pHead nH res v body e :
  forall pEDcpt q pPkt (i : nat) nb rb s,
    (length body < fuel)%nat ->
    lseg (mem s) pEDcpt (body ++ [e]) q ->
    Forall (fun a => flag_at Hdr.EOWN_POS (mem s) a = false) (body ++ [e]) ->
    Forall (fun a => flag_at Hdr.EOP_POS (mem s) a = false) body ->
    flag_at Hdr.EOP_POS (mem s) e = true ->
    rb = Z.of_nat i -> (i <= length pPkt)%nat -> rb <= nb ->
    ((i < length pPkt)%nat -> nb = rb) ->
    pPkt <> [] -> pHead <> 0 -> mem s !! pHead = Some nH ->
    exists pPkt',
      length pPkt' = length pPkt /\
      RxGetPacket_parse fuel pHead pEDcpt pPkt i (Some v) nb rb res s =
        (if (i + length body + 1 <=? length pPkt)%nat
        then Some ((res, pPkt', Some (nb + Z.of_nat (length body + 1))),
                   set_mem (<[pHead := with_hdr (Hdr.set Hdr.rx_wack_POS true) nH]>
                              (mem s)) s)
        else Some ((DRV_ETHMAC_RES_RX_PKT_SPLIT_ERR, pPkt',
                    Some (nb + Z.of_nat (length body + 1))), s)).
Proof.
  revert fuel. induction body as [|a body IH];
    intros fuel pEDcpt q pPkt i nb rb s Hfuel Hseg Hown Heop Hlast Hrb Hi Hle Heq
      Hne HpH HnH;
    (destruct fuel as [|fuel]; [simpl in Hfuel; lia|]); simpl in Hseg.
  - destruct Hseg as (-> & He & Hseg).
    destruct (mem s !! e) as [n|] eqn:En; [|done].
    apply Forall_cons in Hown as [Heown _].
    unfold flag_at in Heown, Hlast. rewrite En in Heown, Hlast.
    cbn [RxGetPacket_parse]. rewrite orb_true_r.
    unfold bind at 1. unfold load. destruct (Z.eqb_spec e 0) as [|_]; [done|].
    rewrite En.
    fold (Hdr.EOWN (hdr (hwDcpt n))) in Heown. fold (Hdr.EOP (hdr (hwDcpt n))) in Hlast.
    simpl length. rewrite Nat.add_0_r.
    destruct (Nat.ltb_spec i (length pPkt)) as [Hlt|Hge].
    + rewrite Heown, Hlast. rewrite !length_insert.
      set (pPkt1 := <[i := _]> pPkt).
      set (pPkt2 := if (S i <? length pPkt)%nat then _ else pPkt1).
      assert (Hlen2 : length pPkt2 = length pPkt).
      { unfold pPkt2, pPkt1. destruct (S i <? length pPkt)%nat;
          by rewrite ?length_insert. }
      exists pPkt2. split; [done|].
      destruct pPkt2 as [|d pPkt2']; [by destruct pPkt|].
      destruct (Nat.leb_spec (i + 1) (length pPkt)) as [_|?]; [|lia].
      assert ((rb + 1 =? nb + 1) = true) as -> by (apply Z.eqb_eq; rewrite Heq; lia).
      cbn [negb]. unfold bind, update, load, store, bind, ret. cbv beta.
      destruct (Z.eqb_spec pHead 0) as [|_]; [done|].
      repeat (rewrite HnH; cbv beta iota).
      by replace (Z.of_nat (0 + 1)) with 1 by lia.
    + rewrite Heown, Hlast.
      assert ((i <? length pPkt)%nat = false) as Hf by (apply Nat.ltb_ge; lia).
      rewrite ?Hf. exists pPkt. split; [done|].
      destruct pPkt as [|d pPkt']; [done|].
      destruct (Nat.leb_spec (i + 1) (length (d :: pPkt'))) as [?|_]; [lia|].
      assert ((rb =? nb + 1) = false) as -> by (apply Z.eqb_neq; lia).
      cbn [negb]. unfold ret.
      by replace (Z.of_nat (0 + 1)) with 1 by lia.
  - destruct Hseg as (-> & Ha & Hseg).
    destruct (mem s !! a) as [n|] eqn:En; [|done].
    apply Forall_cons in Hown as [Haown Hown].
    apply Forall_cons in Heop as [Haeop Heop].
    unfold flag_at in Haown, Haeop. rewrite En in Haown, Haeop.
    cbn [RxGetPacket_parse]. rewrite orb_true_r.
    unfold bind at 1. unfold load. destruct (Z.eqb_spec a 0) as [|_]; [done|].
    rewrite En.
    fold (Hdr.EOWN (hdr (hwDcpt n))) in Haown. fold (Hdr.EOP (hdr (hwDcpt n))) in Haeop.
    simpl in Hfuel.
    destruct (Nat.ltb_spec i (length pPkt)) as [Hlt|Hge].
    + rewrite Haown, Haeop.
      set (pPkt1 := <[i := _]> pPkt).
      destruct (IH fuel (next n) q pPkt1 (S i) (nb + 1) (rb + 1) s)
        as (pPkt' & Hlen' & Hrun); try done.
      * lia.
      * lia.
      * unfold pPkt1. rewrite length_insert. lia.
      * lia.
      * intros _. rewrite Heq by done. lia.
      * unfold pPkt1. intros E. apply (f_equal length) in E.
        rewrite length_insert in E. by destruct pPkt.
      * exists pPkt'. unfold pPkt1 in Hlen'. rewrite length_insert in Hlen'.
        split; [done|]. rewrite Hrun. unfold pPkt1. rewrite length_insert.
        simpl length.
        replace (S i + length body + 1)%nat with (i + S (length body) + 1)%nat by lia.
        replace (nb + 1 + Z.of_nat (length body + 1))
          with (nb + Z.of_nat (S (length body) + 1)) by lia.
        done.
    + rewrite Haown, Haeop.
      destruct (IH fuel (next n) q pPkt i (nb + 1) rb s)
        as (pPkt' & Hlen' & Hrun); try done.
      * lia.
      * lia.
      * lia.
      * exists pPkt'. split; [done|]. rewrite Hrun. simpl length.
        destruct (Nat.leb_spec (i + length body + 1) (length pPkt)) as [?|_]; [lia|].
        destruct (Nat.leb_spec (i + S (length body) + 1) (length pPkt)) as [?|_]; [lia|].
        do 3 f_equal. f_equal. lia.
Qed.

Lemma RxGetPacket_scan_skip pre :
  forall fuel p q o res s,
    lseg (mem s) p pre q -> Forall (passed_over (mem s)) pre ->
    RxGetPacket_scan (length pre + fuel) p o res s = RxGetPacket_scan fuel q o res s.
Proof.
  induction pre as [|a pre IH]; intros fuel p q o res s Hseg Hpre; simpl in Hseg.
  - by subst.
  - destruct Hseg as (-> & Ha & Hseg).
    destruct (mem s !! a) as [n|] eqn:En; [|done].
    apply Forall_cons in Hpre as [[Hown Hsop] Hpre].
    unfold flag_at in Hown, Hsop. rewrite En in Hown, Hsop.
    simpl length. cbn [Nat.add RxGetPacket_scan].
    destruct (Z.eqb_spec a 0) as [|_]; [done|].
    unfold bind at 1. unfold load. destruct (Z.eqb_spec a 0) as [|_]; [done|].
    rewrite En.
    fold (Hdr.EOWN (hdr (hwDcpt n))) in Hown. fold (Hdr.SOP (hdr (hwDcpt n))) in Hsop.
    fold (Hdr.rx_wack (hdr (hwDcpt n))) in Hsop.
    rewrite Hown, Hsop. by apply IH.
Qed.

Lemma RxGetPacket_run fuel pPkt v pRxStat pre body e rest s :
  is_list (mem s) (_EnetRxBusyList s) (pre ++ (body ++ [e]) ++ rest) ->
  (length (pre ++ (body ++ [e]) ++ rest) < fuel)%nat ->
  Forall (passed_over (mem s)) pre -> rx_packet (mem s) body e ->
  pPkt <> [] ->
  exists out nH,
    mem s !! hd e body = Some nH /\
    out_pnBuffs out = Some (Z.of_nat (length (body ++ [e]))) /\
    length (out_pPkt out) = length pPkt /\
    DRV_ETHMAC_LibRxGetPacket fuel pPkt (Some v) pRxStat s =
      (if (length (body ++ [e]) <=? length pPkt)%nat
       then Some ((DRV_ETHMAC_RES_OK, out),
                  set_mem (<[hd e body := with_hdr (Hdr.set Hdr.rx_wack_POS true) nH]>
                             (mem s)) s)
       else Some ((DRV_ETHMAC_RES_RX_PKT_SPLIT_ERR, out), s)).
Proof.
  intros HL Hfuel Hpre (Hsop & Hwack & Hown & Heop & Hlast) Hne.
  set (a1 := hd e body) in *.
  assert (Ha1 : a1 ∈ pre ++ (body ++ [e]) ++ rest).
  { unfold a1. destruct body; set_solver. }
  pose proof (is_list_nonnull _ _ _ _ HL Ha1) as Ha10.
  destruct (is_list_is_Some _ _ _ _ HL Ha1) as [nH HnH].
  destruct HL as (Hseg & _ & _).
  apply lseg_app in Hseg as (p1 & Hseg1 & Hseg2).
  apply lseg_app in Hseg2 as (p2 & Hseg2 & _).
  assert (p1 = a1) as ->.
  { unfold a1. destruct body; simpl in Hseg2; by destruct Hseg2 as (-> & _). }
  rewrite !length_app in Hfuel. simpl in Hfuel.
  unfold DRV_ETHMAC_LibRxGetPacket. unfold bind, gets.
  set (pPkt0 := match pPkt with [] => pPkt | _ => _ end).
  assert (Hlen0 : length pPkt0 = length pPkt).
  { unfold pPkt0. destruct pPkt; [done|]. by rewrite length_insert. }
  assert (Hne0 : pPkt0 <> []).
  { intros E. rewrite E in Hlen0. by destruct pPkt. }
  clearbody pPkt0.
  replace fuel with (length pre + (fuel - length pre))%nat by lia.
  rewrite (RxGetPacket_scan_skip pre _ _ a1) by done.
  destruct (fuel - length pre)%nat as [|fuel'] eqn:Ef; [lia|].
  cbn [RxGetPacket_scan]. destruct (Z.eqb_spec a1 0) as [|_]; [done|].
  unfold bind at 1. unfold load. destruct (Z.eqb_spec a1 0) as [|_]; [done|].
  rewrite HnH.
  assert (Hown1 : flag_at Hdr.EOWN_POS (mem s) a1 = false).
  { rewrite Forall_forall in Hown. apply Hown. unfold a1. destruct body; set_solver. }
  unfold flag_at in Hown1, Hsop, Hwack. rewrite HnH in Hown1, Hsop, Hwack.
  fold (Hdr.EOWN (hdr (hwDcpt nH))) in Hown1. fold (Hdr.SOP (hdr (hwDcpt nH))) in Hsop.
  fold (Hdr.rx_wack (hdr (hwDcpt nH))) in Hwack.
  rewrite Hown1, Hsop, Hwack. cbn [andb negb out_pPkt out_pnBuffs out_pRxStat].
  destruct (RxGetPacket_parse_run fuel' a1 nH DRV_ETHMAC_RES_OK v body e
              a1 p2 pPkt0 0 0 0 s) as (pPkt' & Hlen' & Hrun); try done; try lia.
  unfold bind. rewrite Hrun. rewrite Hlen0. simpl Nat.add.
  rewrite length_app. simpl length.
  exists (mkOut pPkt' (Some (Z.of_nat (length body + 1)))
            (match pRxStat with Some _ => Some (stat_addr a1) | None => None end)), nH.
  split; [done|]. split; [done|]. split; [simpl; congruence|].
  by destruct (length body + 1 <=? length pPkt)%nat.
Qed.

(** C5: a complete, unreported packet of [length (body ++ [e])] fragments
    is first in line on the RX busy list; the caller passes a chain with
    at least one but fewer slots, and a [pnBuffs] to write to.  Then
    [DRV_ETHMAC_LibRxGetPacket] returns [RX_PKT_SPLIT_ERR], stores the true
    fragment count through [pnBuffs], and leaves the machine exactly as it
    was, [rx_wack] of the packet clear; a call with a chain long enough
    gets the same packet with [OK] and only then marks it reported. *)
Theorem RxGetPacket_split_error fuel pPkt v pRxStat pre body e rest s :
  is_list (mem s) (_EnetRxBusyList s) (pre ++ (body ++ [e]) ++ rest) ->
  (length (pre ++ (body ++ [e]) ++ rest) < fuel)%nat ->
  Forall (passed_over (mem s)) pre -> rx_packet (mem s) body e ->
  pPkt <> [] -> (length pPkt < length (body ++ [e]))%nat ->
  exists out,
    DRV_ETHMAC_LibRxGetPacket fuel pPkt (Some v) pRxStat s
      = Some ((DRV_ETHMAC_RES_RX_PKT_SPLIT_ERR, out), s) /\
    out_pnBuffs out = Some (Z.of_nat (length (body ++ [e]))) /\
    length (out_pPkt out) = length pPkt /\
    flag_at Hdr.rx_wack_POS (mem s) (hd e body) = false /\
    forall pPkt2 v2 pRxStat2,
      (length (body ++ [e]) <= length pPkt2)%nat ->
      exists out2 s2,
        DRV_ETHMAC_LibRxGetPacket fuel pPkt2 (Some v2) pRxStat2 s
          = Some ((DRV_ETHMAC_RES_OK, out2), s2) /\
        out_pnBuffs out2 = Some (Z.of_nat (length (body ++ [e]))) /\
        flag_at Hdr.rx_wack_POS (mem s2) (hd e body) = true.
Proof.
  intros HL Hfuel Hpre Hpk Hne Hshort.
  destruct (RxGetPacket_run fuel pPkt v pRxStat pre body e rest s)
    as (out & nH & HnH & Hcnt & Hlen & Hrun); try done.
  destruct (Nat.leb_spec (length (body ++ [e])) (length pPkt)) as [?|_]; [lia|].
  exists out. do 3 (split; [done|]). split; [by destruct Hpk as (_ & ? & _)|].
  intros pPkt2 v2 pRxStat2 Hlong.
  destruct (RxGetPacket_run fuel pPkt2 v2 pRxStat2 pre body e rest s)
    as (out2 & nH2 & HnH2 & Hcnt2 & Hlen2 & Hrun2); try done.
  { intros ->. rewrite length_app in Hlong. simpl in Hlong. lia. }
  destruct (Nat.leb_spec (length (body ++ [e])) (length pPkt2)) as [_|?]; [|lia].
  eexists out2, _. split; [exact Hrun2|]. split; [done|].
  msimpl. unfold flag_at. rewrite lookup_insert_eq. msimpl.
  rewrite Hdr_get_set by done. by rewrite decide_True.
Qed.

End RxGet.

(** ** RX buffer supply *)

Section RxAppend.
Context {K : KMem}.
Implicit Types (m : gmap Z DRV_ETHMAC_DCPT_NODE) (l : list ptr) (p q a : ptr).
Implicit Types (s : machine) (L : DRV_ETHMAC_DCPT_LIST).

Lemma wp_RxBuffersAppend_loop fuel ppBuff rxFlags res used :
  forall (i : nat) nBuffs N ln lf' Q s,
    is_list (mem s) (_EnetRxFreeList s) (used ++ lf') -> is_list (mem s) N ln ->
    NoDup ((used ++ lf') ++ ln) ->
    (forall j, (j < length used)%nat -> rx_buffer_ok (ppBuff (i + j)%nat)) ->
    ppBuff (i + length used)%nat = 0 ->
    Z.of_nat (length used) <= nBuffs -> (length used < fuel)%nat ->
    (forall m' F' N',
        is_list m' F' lf' -> is_list m' N' (ln ++ used) ->
        (forall j a, used !! j = Some a ->
           payload_at m' a =
             (fun n => (rx_hdr rxFlags (ppBuff (i + j)%nat),
                        KVA_TO_PA (ppBuff (i + j)%nat), stat (hwDcpt n)))
               <$> mem s !! a) ->
        (forall a, a ∉ used -> payload_at m' a = payload_at (mem s) a) ->
        (forall a, a ∉ used -> a ∉ ln -> m' !! a = mem s !! a) ->
        Q (0, nBuffs - Z.of_nat (length used), N', res)
          (set_RxFree F' (set_mem m' s))) ->
    wp (RxBuffersAppend_loop fuel ppBuff i (ppBuff i) nBuffs rxFlags N res) Q s.
Proof.
  revert fuel. induction used as [|a used IH];
    intros fuel i nBuffs N ln lf' Q s HF HN Hnd Hbufs Hnull Hcnt Hfuel HQ;
    (destruct fuel as [|fuel]; [simpl in Hfuel; lia|]).
  - simpl in Hnull. rewrite Nat.add_0_r in Hnull. cbn [RxBuffersAppend_loop].
    rewrite Hnull. simpl. apply wp_ret.
    specialize (HQ (mem s) (_EnetRxFreeList s) N). rewrite app_nil_r in HQ.
    simpl in HQ. rewrite Z.sub_0_r in HQ. destruct s. by apply HQ.
  - destruct s as [m0 tf tb rf rb r]. msimpl.
    destruct (Hbufs 0%nat) as [Hb0 Hkva]; [simpl; lia|]. rewrite Nat.add_0_r in Hb0, Hkva.
    cbn [RxBuffersAppend_loop].
    destruct (Z.eqb_spec (ppBuff i) 0) as [|_]; [done|].
    destruct (Z.eqb_spec nBuffs 0) as [Hz|_]; [simpl in Hcnt; lia|].
    cbn [negb andb].
    assert (a <> 0) as Ha by (eapply is_list_nonnull; [exact HF|set_solver]).
    destruct (is_list_is_Some _ _ _ a HF) as [n Hn]; [set_solver|].
    pose proof Hnd as Hnd0.
    apply NoDup_app in Hnd as (HndF & Hdisj & Hndl).
    assert (a ∉ ln) as Hal by (apply Hdisj; set_solver).
    simpl in HndF. apply NoDup_cons in HndF as [HaF HndF].
    apply wp_bind, wp_gets. msimpl.
    apply wp_bind. eapply wp_ListRemoveHead_cons; [done|]. intros F1 HF1. msimpl.
    apply wp_bind, wp_modify. msimpl.
    destruct (Z.eqb_spec a 0) as [|_]; [done|].
    apply wp_bind. eapply wp_update; [done..|]. msimpl.
    apply wp_bind. eapply wp_update; [done|msimpl; apply lookup_insert_eq|]. msimpl.
    rewrite insert_insert_eq.
    apply wp_bind. eapply wp_update_if; [done|msimpl; apply lookup_insert_eq|]. msimpl.
    rewrite insert_insert_eq.
    apply wp_bind. eapply wp_update_if; [done|msimpl; apply lookup_insert_eq|]. msimpl.
    rewrite insert_insert_eq.
    set (n3 := if negb (Z.land rxFlags DRV_ETHMAC_BUFF_FLAG_RX_UNACK =? 0) then _ else _).
    set (continue := bind (DRV_ETHMAC_LIB_ListAddTail N a) _).
    set (n4 := if IS_KVA0 (ppBuff i) then with_hdr (Hdr.set Hdr.kv0_POS true) n3 else n3).
    assert (Hn4 : next n4 = next n /\
              payload n4 = (rx_hdr rxFlags (ppBuff i), KVA_TO_PA (ppBuff i),
                            stat (hwDcpt n))).
    { unfold n4, n3, rx_hdr, payload.
      destruct (IS_KVA0 (ppBuff i)),
        (negb (Z.land rxFlags DRV_ETHMAC_BUFF_FLAG_RX_UNACK =? 0)),
        (negb (Z.land rxFlags DRV_ETHMAC_BUFF_FLAG_RX_STICKY =? 0)); done. }
    destruct Hn4 as [Hn4n Hn4p].
    cut (wp continue Q (mkMachine (<[a := n4]> m0) tf tb F1 rb r)).
    { intros Hcont. unfold n4 in Hcont. destruct (IS_KVA0 (ppBuff i)) eqn:E0.
      - apply wp_bind. eapply wp_update; [done|msimpl; apply lookup_insert_eq|].
        msimpl. by rewrite insert_insert_eq.
      - simpl in Hkva. rewrite Hkva. simpl negb. cbv iota. exact Hcont. }
    clearbody n4. clear n3.
    assert (Hext : forall b, b <> a -> <[a := n4]> m0 !! b = m0 !! b).
    { intros b Hb. by rewrite lookup_insert_ne. }
    unfold continue. apply wp_bind. eapply wp_ListAddTail with (l := ln); msimpl.
    { eapply is_list_ext; [exact HN|]. intros b Hb. rewrite Hext; [done|by intros ->]. }
    { done. }
    { done. }
    { by rewrite lookup_insert_eq. }
    intros m1 N1 HN1 _ Hpay1 Hframe1. msimpl.
    replace (S i) with (i + 1)%nat by lia.
    eapply IH with (ln := ln ++ [a]) (lf' := lf'); msimpl.
    + eapply is_list_ext; [exact HF1|]. intros b Hb.
      assert (b <> a) by (intros ->; set_solver).
      rewrite Hframe1, Hext; [done..|].
      intros Hbl. eapply (Hdisj b); [set_solver|done].
    + done.
    + rewrite app_assoc. apply NoDup_app. split; [|split; [|apply NoDup_singleton]].
      * apply NoDup_app. split; [done|]. split; [|done].
        intros x Hx. apply Hdisj. set_solver.
      * intros x Hx. apply elem_of_app in Hx as [Hx|Hx]; set_solver.
    + intros j Hj. replace (i + 1 + j)%nat with (i + S j)%nat by lia.
      apply Hbufs. simpl. lia.
    + replace (i + 1 + length used)%nat with (i + length (a :: used))%nat
        by (simpl; lia). done.
    + simpl length in Hcnt. lia.
    + simpl in Hfuel. lia.
    + intros m' F' N' HF' HN' Hused Hother Hframe.
      replace (nBuffs - 1 - Z.of_nat (length used))
        with (nBuffs - Z.of_nat (length (a :: used))) by (simpl length; lia).
      apply (HQ m' F' N').
      * done.
      * by rewrite <- app_assoc in HN'.
      * intros j a' E. destruct j as [|j]; simpl in E.
        -- injection E as <-. rewrite Hother by set_solver. rewrite Hpay1.
           unfold payload_at. rewrite lookup_insert_eq, Hn, Nat.add_0_r. simpl.
           by rewrite Hn4p.
        -- rewrite (Hused j a' E). replace (i + 1 + j)%nat with (i + S j)%nat by lia.
           assert (a' ∈ used) as Hin by (by eapply list_elem_of_lookup_2).
           assert (a' <> a) by (intros ->; set_solver).
           rewrite Hframe1, Hext; [done|done|done|].
           intros Hbl. eapply (Hdisj a'); [set_solver|done].
      * intros b Hb. rewrite Hother by set_solver. rewrite Hpay1.
        unfold payload_at. rewrite Hext; [done|set_solver].
      * intros b Hb1 Hb2. rewrite Hframe by set_solver.
        rewrite Hframe1, Hext; [done|set_solver..].
Qed.

Lemma map_lookup_seq {A} (f : ptr -> A) (g : nat -> A) (l : list ptr) (i : nat) :
  (forall j a, l !! j = Some a -> f a = g (i + j)%nat) ->
  map f l = map g (seq i (length l)).
Proof.
  revert i. induction l as [|a l IH]; intros i H; [done|]. simpl. f_equal.
  - rewrite (H 0%nat a) by done. by rewrite Nat.add_0_r.
  - apply IH. intros j b Hb. rewrite (H (S j) b) by done. f_equal. lia.
Qed.

(** C9: called with [nBuffs = 0], [DRV_ETHMAC_LibRxBuffersAppend] does not
    stop at zero buffers.  With [k = S (length used)] acceptable buffers in
    the array before the first null pointer and as many free
    descriptors, it returns [OK] having taken the [k] nodes [u :: used]
    off the free list and appended them all: the busy chain from
    the old sentinel slot [t] on carries the [k] buffers of the array in
    order, and ends in the new empty sentinel [u]. *)
Theorem RxBuffersAppend_zero_is_unlimited fuel ppBuff rxFlags u used lf' lb t s :
  is_list (mem s) (_EnetRxFreeList s) ((u :: used) ++ lf') ->
  is_list (mem s) (_EnetRxBusyList s) (lb ++ [t]) ->
  NoDup (((u :: used) ++ lf') ++ lb ++ [t]) ->
  (forall j, (j < S (length used))%nat -> rx_buffer_ok (ppBuff j)) ->
  ppBuff (S (length used)) = 0 ->
  Z.of_nat (S (length used)) <= 0x7fffffff -> (S (length used) < fuel)%nat ->
  exists s',
    DRV_ETHMAC_LibRxBuffersAppend fuel ppBuff 0 rxFlags s
      = Some (DRV_ETHMAC_RES_OK, s') /\
    is_list (mem s') (_EnetRxFreeList s') lf' /\
    is_list (mem s') (_EnetRxBusyList s') (lb ++ [t] ++ used ++ [u]) /\
    map (pEDBuff_at (mem s')) (t :: used)
      = map (fun j => Some (KVA_TO_PA (ppBuff j))) (seq 0 (S (length used))) /\
    pEDBuff_at (mem s') u = Some 0 /\
    RXEN (pEthReg s') = true.
Proof.
  intros HF HB Hnd Hbufs Hnull Hcnt Hfuel.
  cut (wp (DRV_ETHMAC_LibRxBuffersAppend fuel ppBuff 0 rxFlags)
         (fun r s' => r = DRV_ETHMAC_RES_OK /\
            is_list (mem s') (_EnetRxFreeList s') lf' /\
            is_list (mem s') (_EnetRxBusyList s') (lb ++ [t] ++ used ++ [u]) /\
            map (pEDBuff_at (mem s')) (t :: used)
              = map (fun j => Some (KVA_TO_PA (ppBuff j))) (seq 0 (S (length used))) /\
            pEDBuff_at (mem s') u = Some 0 /\
            RXEN (pEthReg s') = true) s).
  { intros (r & s' & Hrun & -> & H). by exists s'. }
  unfold DRV_ETHMAC_LibRxBuffersAppend. simpl (0 =? 0).
  destruct s as [m0 tf tb rf rb r]. msimpl.
  pose proof Hnd as Hnd0.
  apply NoDup_app in Hnd as (HndF & Hdisj & HndB).
  apply wp_bind.
  eapply wp_RxBuffersAppend_loop with (used := u :: used) (ln := []) (lf' := lf');
    msimpl.
  { done. }
  { by apply is_list_nil. }
  { by rewrite app_nil_r. }
  { intros j Hj. apply Hbufs. simpl in Hj. lia. }
  { done. }
  { done. }
  { simpl. lia. }
  intros m1 F1 N1 HF1 HN1 Hused Hother Hframe. simpl in HN1.
  simpl (0 =? 0). cbn [negb andb].
  assert (head N1 <> 0) as HN1h.
  { destruct HN1 as (Hs & _). simpl in Hs. destruct Hs as (-> & ? & _). done. }
  unfold DRV_ETHMAC_LIB_ListIsEmpty.
  destruct (Z.eqb_spec (head N1) 0) as [|_]; [done|]. cbn [negb].
  assert (HB1 : is_list m1 rb (lb ++ [t])).
  { eapply is_list_ext; [exact HB|]. intros a Ha. rewrite Hframe; [done| |set_solver].
    intros Hin. eapply (Hdisj a); [set_solver|done]. }
  assert (Hnd1 : NoDup ((lb ++ [t]) ++ u :: used)).
  { apply NoDup_app. split; [done|]. split.
    - intros x Hx Hx'. eapply (Hdisj x); [set_solver|done].
    - apply NoDup_app in HndF as (? & _). done. }
  apply wp_bind. apply wp_bind, wp_gets. msimpl.
  apply wp_bind. eapply wp_AppendBusyList with (lb := lb) (t := t) (h := u) (ln := used);
    msimpl; [done..|lia|].
  intros m2 B2 (HB2 & Hhd2 & Hpt2 & Hh2 & Hb2 & Hpay2 & Hframe2). msimpl.
  apply wp_bind, wp_modify. msimpl.
  assert (Hfinal :
    is_list m2 F1 lf' /\ is_list m2 B2 (lb ++ [t] ++ used ++ [u]) /\
    map (pEDBuff_at m2) (t :: used)
      = map (fun j => Some (KVA_TO_PA (ppBuff j))) (seq 0 (S (length used))) /\
    pEDBuff_at m2 u = Some 0).
  { split; [|split; [done|split; [|done]]].
    - eapply is_list_ext; [exact HF1|]. intros a Ha. rewrite Hframe2; [done|].
      apply NoDup_app in HndF as (_ & HdF & _).
      intros Hin. apply elem_of_app in Hin as [Hin|Hin].
      + eapply (Hdisj a); set_solver.
      + apply elem_of_app in Hin as [Hin|Hin]; [eapply (Hdisj a); set_solver|].
        eapply (HdF a); [exact Hin|done].
    - assert (Hut : t <> u).
      { intros ->. eapply (Hdisj u); set_solver. }
      assert (Huu : u ∉ used).
      { apply NoDup_app in HndF as (HndU & _). by apply NoDup_cons in HndU as []. }
      cbn [map seq]. f_equal.
      + destruct (is_list_is_Some _ _ _ u HN1) as [nu Hnu]; [set_solver|].
        rewrite Hnu in Hpt2. simpl in Hpt2.
        rewrite (payload_at_pEDBuff_at _ _ _ _ _ Hpt2).
        specialize (Hused 0%nat u eq_refl). simpl in Hused.
        unfold payload_at in Hused. rewrite Hnu in Hused.
        destruct (m0 !! u) as [nu0|]; simpl in Hused; [|done].
        injection Hused as _ -> _. done.
      + apply (map_lookup_seq _ (fun j => Some (KVA_TO_PA (ppBuff j))) used 1).
        intros j a Ha.
        assert (a ∈ used) as Hin by (by eapply list_elem_of_lookup_2).
        assert (a <> t) by (intros ->; eapply (Hdisj t); set_solver).
        assert (a <> u) by (intros ->; done).
        rewrite (pEDBuff_at_payload m1) by (by apply Hpay2).
        specialize (Hused (S j) a Ha). simpl in Hused.
        destruct (m0 !! a) as [na|] eqn:Ena; simpl in Hused.
        * by rewrite (payload_at_pEDBuff_at _ _ _ _ _ Hused).
        * exfalso. destruct (is_list_is_Some _ _ _ a HF) as [? E]; [set_solver|].
          congruence. }
  destruct Hfinal as (Hf1 & Hf2 & Hf3 & Hf4).
  apply wp_bind, wp_gets. msimpl. cbn [ETHRXST add_BUFCDEC].
  apply wp_bind. destruct (ETHRXST r =? 0).
  - apply wp_bind, wp_gets. apply wp_modify. msimpl.
    apply wp_modify. msimpl. by apply wp_ret.
  - apply wp_ret. apply wp_modify. msimpl. by apply wp_ret.
Qed.

End RxAppend.

(** ** RX acknowledgment *)

Section AckScan.
Context {K : KMem}.
Implicit Types (m : gmap Z DRV_ETHMAC_DCPT_NODE) (l : list ptr) (p q a : ptr).

Lemma ack_match_payload m m' pPkt a :
  payload_at m' a = payload_at m a -> ack_match m' pPkt a = ack_match m pPkt a.
Proof.
  unfold payload_at, ack_match, payload.
  destruct (m' !! a) as [n'|], (m !! a) as [n|]; simpl; try done.
  by intros [= -> -> _].
Qed.

Lemma take_packet_payload m m' l :
  (forall a, a ∈ l -> payload_at m' a = payload_at m a) ->
  take_packet m' l = take_packet m l.
Proof.
  induction l as [|a l IH]; intros H; [done|]. simpl.
  rewrite !(flag_at_payload _ m m' a) by (apply H; set_solver).
  rewrite IH; [done|]. intros b Hb. apply H. set_solver.
Qed.

Lemma ack_scan_payload m m' pPkt l :
  (forall a, a ∈ l -> payload_at m' a = payload_at m a) ->
  forall inpkt, ack_scan m' pPkt inpkt l = ack_scan m pPkt inpkt l.
Proof.
  induction l as [|a l IH]; intros H inpkt; [done|]. simpl.
  rewrite !(flag_at_payload _ m m' a) by (apply H; set_solver).
  rewrite (ack_match_payload m m') by (apply H; set_solver).
  rewrite !IH; [done|..]; intros b Hb; apply H; set_solver.
Qed.

(** Inside a packet the scan detaches the packet and goes on behind it. *)
Lemma ack_scan_in m pPkt l :
  ack_scan m pPkt true l =
    match take_packet m l with
    | None => None
    | Some (pk, rest) =>
      if negb (pPkt =? 0) then Some (pk, rest, 1, true)
      else match ack_scan m pPkt false rest with
           | Some (la, kept, n, _) => Some (pk ++ la, kept, n + 1, true)
           | None => None
           end
    end.
Proof.
  induction l as [|a l IH]; [done|]. simpl.
  destruct (flag_at Hdr.EOWN_POS m a); [done|].
  destruct (flag_at Hdr.EOP_POS m a); [done|].
  rewrite IH. destruct (take_packet m l) as [[pk rest]|]; [|done].
  destruct (negb (pPkt =? 0)); [done|].
  by destruct (ack_scan m pPkt false rest) as [[[[la kept] n] f]|].
Qed.

Lemma ack_scan_start m pPkt a l :
  ack_match m pPkt a = true -> flag_at Hdr.EOWN_POS m a = false ->
  ack_scan m pPkt false (a :: l) = ack_scan m pPkt true (a :: l).
Proof. intros Hm Ho. simpl. by rewrite Hm, Ho. Qed.

Lemma take_packet_app m l pk rest :
  take_packet m l = Some (pk, rest) ->
  l = pk ++ rest /\ pk <> [] /\
  Forall (fun a => flag_at Hdr.EOWN_POS m a = false) pk.
Proof.
  revert pk rest. induction l as [|a l IH]; intros pk rest; [done|]. simpl.
  destruct (flag_at Hdr.EOWN_POS m a) eqn:Eo; [done|].
  destruct (flag_at Hdr.EOP_POS m a).
  - intros [= <- <-]. split; [done|]. split; [done|]. by apply Forall_singleton.
  - destruct (take_packet m l) as [[pk' rest']|]; [|done]. intros [= <- <-].
    destruct (IH pk' rest' eq_refl) as (-> & _ & Hf).
    split; [done|]. split; [done|]. by apply Forall_cons.
Qed.

(** What the counters of a scan say about the list. *)
Lemma ack_scan_unwanted m pPkt l :
  Forall (fun a => ack_match m pPkt a = false) l ->
  ack_scan m pPkt false l = Some ([], l, 0, false).
Proof.
  induction l as [|a l IH]; intros H; simpl; [done|].
  apply Forall_cons in H as [-> H]. simpl. by rewrite (IH H).
Qed.

Lemma ack_scan_queued m pPkt pre a post :
  Forall (fun a => ack_match m pPkt a = false) pre ->
  ack_match m pPkt a = true -> flag_at Hdr.EOWN_POS m a = true ->
  ack_scan m pPkt false (pre ++ a :: post) = Some ([], pre ++ a :: post, 0, true).
Proof.
  intros Hpre Ha Ho. induction pre as [|b pre IH]; simpl.
  - by rewrite Ha, Ho.
  - apply Forall_cons in Hpre as [-> Hpre]. simpl. by rewrite (IH Hpre).
Qed.

Lemma ack_scan_counts m pPkt l :
  forall inpkt la kept n f,
    ack_scan m pPkt inpkt l = Some (la, kept, n, f) ->
    0 <= n /\ (n = 0 <-> la = []) /\ (inpkt = true -> 0 < n) /\
    (inpkt = false -> f = false ->
       n = 0 /\ kept = l /\ Forall (fun a => ack_match m pPkt a = false) l) /\
    (inpkt = false -> f = true -> n = 0 ->
       kept = l /\
       exists pre a post,
         l = pre ++ a :: post /\
         Forall (fun a => ack_match m pPkt a = false) pre /\
         ack_match m pPkt a = true /\ flag_at Hdr.EOWN_POS m a = true).
Proof.
  induction l as [|a l IH]; intros inpkt la kept n f; simpl.
  - destruct inpkt; [done|]. intros [= <- <- <- <-].
    split; [done|]. split; [done|]. split; [done|]. split; [by auto|]. done.
  - destruct (inpkt || ack_match m pPkt a) eqn:Ecase.
    + destruct (flag_at Hdr.EOWN_POS m a) eqn:Eo.
      * destruct inpkt; [done|]. simpl in Ecase. intros [= <- <- <- <-].
        split; [done|]. split; [done|]. split; [done|]. split; [done|].
        intros _ _ _. split; [done|]. exists [], a, l. by repeat split.
      * destruct (flag_at Hdr.EOP_POS m a).
        -- destruct (negb (pPkt =? 0)).
           ++ intros [= <- <- <- <-]. split; [done|]. split; [done|].
              split; [done|]. split; [done|]. done.
           ++ destruct (ack_scan m pPkt false l) as [[[[la' kept'] n'] f']|] eqn:E;
                [|done].
              intros [= <- <- <- <-]. destruct (IH _ _ _ _ _ E) as (Hn & _).
              split; [lia|]. split; [split; [lia|done]|].
              split; [intros _; lia|]. split; [done|]. intros _ _ ?. lia.
        -- destruct (ack_scan m pPkt true l) as [[[[la' kept'] n'] f']|] eqn:E;
             [|done].
           intros [= <- <- <- <-]. destruct (IH _ _ _ _ _ E) as (Hn & _ & Hpos & _).
           specialize (Hpos eq_refl).
           split; [lia|]. split; [split; [lia|done]|].
           split; [intros _; lia|]. split; [done|]. intros _ _ ?. lia.
    + apply orb_false_iff in Ecase as [-> Hm].
      destruct (ack_scan m pPkt false l) as [[[[la' kept'] n'] f']|] eqn:E; [|done].
      intros [= <- <- <- <-].
      destruct (IH _ _ _ _ _ E) as (Hn & Hz & _ & Hnf & Hq).
      split; [done|]. split; [done|]. split; [done|]. split.
      * intros _ Hf. destruct (Hnf eq_refl Hf) as (? & -> & ?).
        split; [done|]. split; [done|]. by apply Forall_cons.
      * intros _ Hf Hn0.
        destruct (Hq eq_refl Hf Hn0) as (-> & pre & b & post & -> & Hpre & Hb & Hbo).
        split; [done|]. exists (a :: pre), b, post. split; [done|].
        split; [by apply Forall_cons|done].
Qed.

End AckScan.

Section AckHeap.
Context {K : KMem}.
Implicit Types (m : gmap Z DRV_ETHMAC_DCPT_NODE) (l : list ptr) (p q a : ptr).
Implicit Types (s : machine) (L : DRV_ETHMAC_DCPT_LIST).

Lemma wp_GetAcked_chain l :
  forall fuel p A la0 pk rest Q s,
    take_packet (mem s) l = Some (pk, rest) ->
    lseg (mem s) p l 0 -> is_list (mem s) A la0 -> NoDup (l ++ la0) ->
    (length pk <= fuel)%nat ->
    (forall m' A' nx,
        lseg m' nx rest 0 -> is_list m' A' (la0 ++ pk) ->
        (forall a, payload_at m' a = payload_at (mem s) a) ->
        (forall a, a ∉ pk -> a ∉ la0 -> m' !! a = mem s !! a) ->
        Q (nx, A') (set_mem m' s)) ->
    wp (_EthGetAckedPacket_chain fuel p A) Q s.
Proof.
  induction l as [|a l IH]; intros fuel p A la0 pk rest Q s Htake Hseg HA Hnd Hfuel HQ;
    [done|].
  simpl in Htake, Hseg. destruct Hseg as (-> & Ha & Hseg).
  destruct (mem s !! a) as [n|] eqn:En; [|done].
  destruct (flag_at Hdr.EOWN_POS (mem s) a) eqn:Eo; [done|].
  assert (Hpk1 : (1 <= length pk)%nat).
  { destruct (flag_at Hdr.EOP_POS (mem s) a).
    - by injection Htake as <- <-.
    - destruct (take_packet (mem s) l) as [[pk' rest']|]; [|done].
      injection Htake as <- <-. simpl. lia. }
  destruct fuel as [|fuel]; [lia|]. cbn [_EthGetAckedPacket_chain].
  apply wp_bind. eapply wp_load; [done..|].
  unfold flag_at in Eo. rewrite En in Eo. fold (Hdr.EOWN (hdr (hwDcpt n))) in Eo.
  rewrite Eo.
  apply NoDup_app in Hnd as (Hndl & Hdisj & Hnda).
  apply NoDup_cons in Hndl as [Hal Hndl].
  assert (a ∉ la0) as Hala by (apply Hdisj; set_solver).
  apply wp_bind. eapply wp_ListAddTail with (l := la0); [done..|by rewrite En|].
  intros m1 A1 HA1 _ Hpay1 Hframe1.
  destruct (m1 !! a) as [n1|] eqn:En1.
  2:{ specialize (Hpay1 a). unfold payload_at in Hpay1. by rewrite En1, En in Hpay1. }
  apply wp_bind. eapply wp_load; [done|msimpl; done|].
  assert (Heop : Hdr.EOP (hdr (hwDcpt n1)) = flag_at Hdr.EOP_POS (mem s) a).
  { rewrite <- (flag_at_payload _ _ m1 a) by done. unfold flag_at. by rewrite En1. }
  rewrite Heop.
  assert (Hseg1 : lseg m1 (next n) l 0).
  { eapply lseg_ext; [exact Hseg|]. intros b Hb. rewrite Hframe1; [done| |].
    - by intros ->.
    - apply Hdisj. set_solver. }
  destruct (flag_at Hdr.EOP_POS (mem s) a) eqn:Ee; cbn [negb].
  - injection Htake as <- <-. apply wp_ret. apply HQ; try done.
    intros b Hb1 Hb2. apply Hframe1; [set_solver|done].
  - destruct (take_packet (mem s) l) as [[pk' rest']|] eqn:Et; [|done].
    injection Htake as <- <-.
    eapply IH with (la0 := la0 ++ [a]) (pk := pk') (rest := rest'); msimpl.
    + rewrite <- Et. apply take_packet_payload. intros b _. apply Hpay1.
    + done.
    + done.
    + apply NoDup_app. split; [done|]. split.
      * intros x Hx Hx'. apply elem_of_app in Hx' as [Hx'|Hx'].
        -- eapply (Hdisj x); [set_solver|done].
        -- apply list_elem_of_singleton in Hx' as ->. done.
      * apply NoDup_app. split; [done|]. split; [|apply NoDup_singleton].
        intros x Hx Hx'. apply list_elem_of_singleton in Hx' as ->. done.
    + simpl in Hfuel. lia.
    + intros m' A' nx Hrest HA' Hpay' Hframe'. msimpl. apply HQ.
      * done.
      * by rewrite <- app_assoc in HA'.
      * intros b. by rewrite Hpay', Hpay1.
      * intros b Hb1 Hb2. rewrite Hframe' by set_solver.
        apply Hframe1; set_solver.
Qed.

Lemma wp_GetAcked_loop fuel pPkt :
  forall l lk la0 pEDcpt prev R A nAcks found la kept n f Q s,
    (length l < fuel)%nat ->
    lseg (mem s) (head R) lk pEDcpt -> prev = default 0 (last lk) ->
    lseg (mem s) pEDcpt l 0 -> is_list (mem s) A la0 ->
    NoDup (lk ++ l ++ la0) ->
    ack_scan (mem s) pPkt false l = Some (la, kept, n, f) ->
    (forall m' R' A',
        lseg m' (head R') (lk ++ kept) 0 -> tail R' = tail R ->
        is_list m' A' (la0 ++ la) ->
        (forall a, payload_at m' a = payload_at (mem s) a) ->
        (forall a, a ∉ lk ++ l ++ la0 -> m' !! a = mem s !! a) ->
        Q (R', A', nAcks + n, found || f) (set_mem m' s)) ->
    wp (_EthGetAckedPacket_loop fuel pPkt pEDcpt prev R A nAcks found) Q s.
Proof.
  induction fuel as [|fuel IH];
    intros l lk la0 pEDcpt prev R A nAcks found la kept n f Q s
      Hfuel Hlk Hprev Hl HA Hnd Hscan HQ; [lia|].
  cbn [_EthGetAckedPacket_loop]. destruct l as [|a l]; simpl in Hl, Hscan.
  { subst pEDcpt. injection Hscan as <- <- <- <-. simpl. apply wp_ret.
    specialize (HQ (mem s) R A). rewrite !app_nil_r, Z.add_0_r, orb_false_r in HQ.
    rewrite set_mem_id in HQ. by apply HQ. }
  destruct Hl as (-> & Ha & Hl).
  destruct (mem s !! a) as [na|] eqn:Ena; [|done].
  destruct (Z.eqb_spec a 0) as [|_]; [done|].
  apply wp_bind. eapply wp_load; [done..|].
  assert (Hm : Hdr.SOP (hdr (hwDcpt na))
               && ((pPkt =? 0) || (pEDBuff (hwDcpt na) =? KVA_TO_PA pPkt))
               = ack_match (mem s) pPkt a).
  { unfold ack_match. by rewrite Ena. }
  rewrite Hm.
  assert (Ho : Hdr.EOWN (hdr (hwDcpt na)) = flag_at Hdr.EOWN_POS (mem s) a).
  { unfold flag_at. by rewrite Ena. }
  rewrite Ho.
  pose proof Hnd as Hnd0.
  apply NoDup_app in Hnd as (Hndk & Hdisjk & Hnd).
  pose proof Hnd as Hndl0.
  apply NoDup_app in Hnd as (Hndl & Hdisjl & Hnda).
  destruct (ack_match (mem s) pPkt a) eqn:Em.
  - destruct (flag_at Hdr.EOWN_POS (mem s) a) eqn:Eo.
    + injection Hscan as <- <- <- <-. apply wp_ret.
      specialize (HQ (mem s) R A).
      rewrite app_nil_r, Z.add_0_r, orb_true_r, set_mem_id in HQ.
      apply HQ; try done. apply lseg_app. exists a. split; [done|]. simpl.
      by rewrite Ena.
    + destruct (take_packet (mem s) (a :: l)) as [[pk rest]|] eqn:Etake.
      2:{ exfalso. pose proof (ack_scan_in (mem s) pPkt (a :: l)) as Hin.
          rewrite Etake in Hin. simpl in Hin. rewrite Eo in Hin.
          simpl in Hscan. by rewrite Hin in Hscan. }
      assert (Hscan' : ack_scan (mem s) pPkt true (a :: l) = Some (la, kept, n, f)).
      { simpl. by rewrite Eo. }
      rewrite ack_scan_in, Etake in Hscan'.
      destruct (take_packet_app _ _ _ _ Etake) as (Hsplit & Hpkne & _).
      assert (Hlenpk : (length pk + length rest = S (length l))%nat).
      { apply (f_equal length) in Hsplit. rewrite length_app in Hsplit.
        simpl in Hsplit. lia. }
      assert (Hsub : forall x, x ∈ pk ++ rest <-> x ∈ a :: l) by (by rewrite Hsplit).
      apply wp_bind.
      eapply wp_GetAcked_chain with (l := a :: l) (la0 := la0) (pk := pk) (rest := rest).
      { done. }
      { simpl. by rewrite Ena. }
      { done. }
      { done. }
      { simpl in Hfuel. lia. }
      intros m1 A1 nx Hrest1 HA1 Hpay1 Hframe1. msimpl.
      assert (Hlkm1 : forall b, b ∈ lk -> m1 !! b = mem s !! b).
      { intros b Hb. apply Hframe1.
        - intros Hin. eapply (Hdisjk b); [done|]. apply elem_of_app. left.
          apply Hsub. set_solver.
        - intros Hin. eapply (Hdisjk b); [done|set_solver]. }
      (* the relink of the list around the detached packet *)
      cut (exists m2 R2,
             (forall Q',
                Q' R2 (set_mem m2 s) ->
                wp (if negb (prev =? 0)
                    then update prev (with_next nx) ;; ret R
                    else ret (mkList nx (tail R))) Q' (set_mem m1 s)) /\
             lseg m2 (head R2) lk nx /\ tail R2 = tail R /\
             (forall b, payload_at m2 b = payload_at m1 b) /\
             (forall b, b ∉ lk -> m2 !! b = m1 !! b)).
      { intros (m2 & R2 & Hrun & Hlk2 & Htl2 & Hpay2 & Hframe2).
        apply wp_bind. apply Hrun.
        assert (Hrest2 : lseg m2 nx rest 0).
        { eapply lseg_ext; [exact Hrest1|]. intros b Hb. rewrite Hframe2; [done|].
          intros Hin. eapply (Hdisjk b); [done|]. apply elem_of_app. left.
          apply Hsub. set_solver. }
        assert (HA2 : is_list m2 A1 (la0 ++ pk)).
        { eapply is_list_ext; [exact HA1|]. intros b Hb. rewrite Hframe2; [done|].
          intros Hin. eapply (Hdisjk b); [done|].
          apply elem_of_app in Hb as [Hb|Hb]; [set_solver|].
          apply elem_of_app. left. apply Hsub. set_solver. }
        destruct (negb (pPkt =? 0)) eqn:Ep.
        - injection Hscan' as <- <- <- <-. apply wp_ret.
          specialize (HQ m2 R2 A1). rewrite orb_true_r in HQ. apply HQ; try done.
          + apply lseg_app. by exists nx.
          + intros b. by rewrite Hpay2, Hpay1.
          + intros b Hb. rewrite Hframe2 by set_solver. apply Hframe1.
            * intros Hin. apply Hb. apply elem_of_app. right. apply elem_of_app. left.
              apply Hsub. set_solver.
            * set_solver.
        - destruct (ack_scan (mem s) pPkt false rest) as [[[[la' kept'] n'] f']|] eqn:Er;
            [|done].
          injection Hscan' as <- <- <- <-.
          eapply IH with (l := rest) (lk := lk) (la0 := la0 ++ pk)
                         (la := la') (kept := kept') (n := n') (f := f');
            rewrite ?mem_set_mem.
          + destruct pk; [done|]. simpl in Hlenpk. simpl in Hfuel. lia.
          + done.
          + done.
          + done.
          + done.
          + assert (HP : lk ++ rest ++ la0 ++ pk ≡ₚ lk ++ (a :: l) ++ la0).
            { rewrite Hsplit. apply Permutation_app_head.
              rewrite <- !app_assoc. rewrite (Permutation_app_comm pk).
              by rewrite <- !app_assoc. }
            by rewrite HP.
          + rewrite <- Er. apply ack_scan_payload. intros b _.
            by rewrite Hpay2, Hpay1.
          + intros m' R' A' Hk' Ht' HA' Hpay' Hframe'.
            change (set_mem m' (set_mem m2 s)) with (set_mem m' s).
            specialize (HQ m' R' A'). rewrite orb_true_r in HQ.
            replace (nAcks + (n' + 1)) with (nAcks + 1 + n') in HQ by lia.
            cbn [orb]. apply HQ.
            * done.
            * congruence.
            * by rewrite <- app_assoc in HA'.
            * intros b. by rewrite Hpay', Hpay2, Hpay1.
            * intros b Hb. rewrite Hframe'.
              -- rewrite Hframe2 by set_solver. apply Hframe1.
                 ++ intros Hin. apply Hb. apply elem_of_app. right.
                    apply elem_of_app. left. apply Hsub. set_solver.
                 ++ set_solver.
              -- intros Hin. apply Hb.
                 apply elem_of_app in Hin as [Hin|Hin]; [set_solver|].
                 apply elem_of_app in Hin as [Hin|Hin].
                 ++ apply elem_of_app. right. apply elem_of_app. left.
                    apply Hsub. set_solver.
                 ++ apply elem_of_app in Hin as [Hin|Hin]; [set_solver|].
                    apply elem_of_app. right. apply elem_of_app. left.
                    apply Hsub. set_solver. }
      destruct lk as [|x lk0 _] using rev_ind.
      * simpl in Hprev, Hlk. subst prev. simpl (negb (0 =? 0)).
        exists m1, (mkList nx (tail R)). split; [|by repeat split].
        intros Q' HQ'. by apply wp_ret.
      * rewrite last_snoc in Hprev. simpl in Hprev. subst prev.
        apply lseg_snoc in Hlk as (Hlk0 & Hx & nx0 & Hnx0 & Hnext).
        destruct (Z.eqb_spec x 0) as [|_]; [done|]. simpl negb.
        assert (Hxm1 : m1 !! x = Some nx0).
        { rewrite Hlkm1; [done|set_solver]. }
        apply NoDup_app in Hndk as (Hndk0 & Hdk0 & _).
        assert (x ∉ lk0) as Hxlk0 by (intros Hin; eapply (Hdk0 x); set_solver).
        exists (<[x := with_next nx nx0]> m1), R. split; [|split; [|split; [|split]]].
        -- intros Q' HQ'. apply wp_bind. eapply wp_update; [done|msimpl; done|].
           msimpl. by apply wp_ret.
        -- apply lseg_snoc. split.
           ++ eapply lseg_ext; [exact Hlk0|]. intros b Hb.
              rewrite lookup_insert_ne by (by intros ->).
              rewrite Hlkm1; [done|set_solver].
           ++ split; [done|]. eexists. by rewrite lookup_insert_eq.
        -- done.
        -- intros b. unfold payload_at. destruct (decide (b = x)) as [->|Hne].
           ++ by rewrite lookup_insert_eq, Hxm1.
           ++ by rewrite lookup_insert_ne.
        -- intros b Hb. rewrite lookup_insert_ne; [done|]. intros ->. set_solver.
  - destruct (ack_scan (mem s) pPkt false l) as [[[[la' kept'] n'] f']|] eqn:Er;
      [|done].
    injection Hscan as <- <- <- <-.
    eapply IH with (l := l) (lk := lk ++ [a]) (la0 := la0)
                   (la := la') (kept := kept') (n := n') (f := f').
    + simpl in Hfuel. lia.
    + apply lseg_snoc. split; [done|]. split; [done|]. by exists na.
    + by rewrite last_snoc.
    + done.
    + done.
    + by rewrite <- app_assoc.
    + done.
    + intros m' R' A' Hk' Ht' HA' Hpay' Hframe'. apply (HQ m' R' A'); try done.
      * by rewrite <- app_assoc in Hk'.
      * intros b Hb. apply Hframe'. by rewrite <- app_assoc.
Qed.

Lemma ack_scan_perm m pPkt l :
  forall inpkt la kept n f,
    ack_scan m pPkt inpkt l = Some (la, kept, n, f) -> la ++ kept ≡ₚ l.
Proof.
  induction l as [|a l IH]; intros inpkt la kept n f; simpl.
  - destruct inpkt; [done|]. by intros [= <- <- <- <-].
  - destruct (inpkt || ack_match m pPkt a).
    + destruct (flag_at Hdr.EOWN_POS m a).
      * destruct inpkt; [done|]. by intros [= <- <- <- <-].
      * destruct (flag_at Hdr.EOP_POS m a).
        -- destruct (negb (pPkt =? 0)); [by intros [= <- <- <- <-]|].
           destruct (ack_scan m pPkt false l) as [[[[la' kept'] n'] f']|] eqn:E;
             [|done].
           intros [= <- <- <- <-]. simpl. f_equiv. by eapply IH.
        -- destruct (ack_scan m pPkt true l) as [[[[la' kept'] n'] f']|] eqn:E;
             [|done].
           intros [= <- <- <- <-]. simpl. f_equiv. by eapply IH.
    + destruct (ack_scan m pPkt false l) as [[[[la' kept'] n'] f']|] eqn:E; [|done].
      intros [= <- <- <- <-]. rewrite <- Permutation_middle. f_equiv. by eapply IH.
Qed.

(** A trailing node that neither starts nor ends a packet, as the
    sentinel of a busy list, is never detached. *)
Lemma ack_scan_keeps_sentinel m pPkt t lb :
  flag_at Hdr.SOP_POS m t = false -> flag_at Hdr.EOP_POS m t = false ->
  forall inpkt la kept n f,
    ack_scan m pPkt inpkt (lb ++ [t]) = Some (la, kept, n, f) ->
    exists kept', kept = kept' ++ [t].
Proof.
  intros Hsop Heop.
  assert (Hnm : ack_match m pPkt t = false).
  { unfold ack_match. unfold flag_at in Hsop. destruct (m !! t); [|done].
    fold (Hdr.SOP (hdr (hwDcpt d))) in Hsop. by rewrite Hsop. }
  induction lb as [|a lb IH]; intros inpkt la kept n f; simpl.
  - rewrite Hnm, Heop. destruct inpkt; simpl.
    + by destruct (flag_at Hdr.EOWN_POS m t).
    + intros [= <- <- <- <-]. by exists [].
  - destruct (inpkt || ack_match m pPkt a).
    + destruct (flag_at Hdr.EOWN_POS m a).
      * destruct inpkt; [done|]. intros [= <- <- <- <-]. by exists (a :: lb).
      * destruct (flag_at Hdr.EOP_POS m a).
        -- destruct (negb (pPkt =? 0)); [intros [= <- <- <- <-]; by exists lb|].
           destruct (ack_scan m pPkt false (lb ++ [t]))
             as [[[[la' kept'] n'] f']|] eqn:E; [|done].
           intros [= <- <- <- <-]. by eapply IH.
        -- destruct (ack_scan m pPkt true (lb ++ [t]))
             as [[[[la' kept'] n'] f']|] eqn:E; [|done].
           intros [= <- <- <- <-]. by eapply IH.
    + destruct (ack_scan m pPkt false (lb ++ [t]))
        as [[[[la' kept'] n'] f']|] eqn:E; [|done].
      intros [= <- <- <- <-]. destruct (IH _ _ _ _ _ E) as [k ->].
      by exists (a :: k).
Qed.

Lemma wp_GetAckedPacket fuel pPkt R lb t la kept n f Q s :
  is_list (mem s) R (lb ++ [t]) -> (length (lb ++ [t]) < fuel)%nat ->
  flag_at Hdr.SOP_POS (mem s) t = false -> flag_at Hdr.EOP_POS (mem s) t = false ->
  ack_scan (mem s) pPkt false (lb ++ [t]) = Some (la, kept, n, f) ->
  (forall m' R' A',
      is_list m' R' kept -> is_list m' A' la ->
      (forall a, payload_at m' a = payload_at (mem s) a) ->
      (forall a, a ∉ lb ++ [t] -> m' !! a = mem s !! a) ->
      Q (ack_result n f, R', A') (set_mem m' s)) ->
  wp (_EthGetAckedPacket fuel pPkt R DRV_ETHMAC_LIB_ListInit) Q s.
Proof.
  intros (Hseg & Htl & Hnd) Hfuel Hsop Heop Hscan HQ.
  unfold _EthGetAckedPacket. apply wp_bind.
  pose proof (ack_scan_perm _ _ _ _ _ _ _ _ Hscan) as Hperm.
  destruct (ack_scan_keeps_sentinel _ pPkt t lb Hsop Heop _ _ _ _ _ Hscan) as [kept' ->].
  eapply wp_GetAcked_loop with (l := lb ++ [t]) (lk := []) (la0 := []); try done.
  - by apply is_list_nil.
  - by rewrite app_nil_r.
  - intros m' R' A' Hk' Ht' HA' Hpay' Hframe'. simpl in Hk', HA', Hframe'.
    apply wp_ret. cbn [Z.add orb]. unfold ack_result in HQ.
    apply (HQ m' R' A'); try done.
    + split; [done|]. split.
      * rewrite Ht', Htl. by rewrite !last_snoc.
      * rewrite <- Hperm in Hnd. by apply NoDup_app in Hnd as (_ & _ & ?).
    + intros a Ha. apply Hframe'. by rewrite app_nil_r.
Qed.

Lemma filter_flag_payload pos (v : bool) m m' l :
  (forall a, a ∈ l -> payload_at m' a = payload_at m a) ->
  filter (fun a => flag_at pos m' a = v) l = filter (fun a => flag_at pos m a = v) l.
Proof.
  induction l as [|a l IH]; intros H; [done|].
  rewrite !filter_cons. rewrite (flag_at_payload _ m m' a) by (apply H; set_solver).
  rewrite IH; [done|]. intros b Hb. apply H. set_solver.
Qed.

Lemma sticky_nodes_payload m m' l :
  (forall a, a ∈ l -> payload_at m' a = payload_at m a) ->
  sticky_nodes m' l = sticky_nodes m l.
Proof. apply filter_flag_payload. Qed.

Lemma plain_nodes_payload m m' l :
  (forall a, a ∈ l -> payload_at m' a = payload_at m a) ->
  plain_nodes m' l = plain_nodes m l.
Proof. apply filter_flag_payload. Qed.

Lemma sticky_nodes_cons m a l :
  sticky_nodes m (a :: l) =
  if flag_at Hdr.sticky_POS m a then a :: sticky_nodes m l else sticky_nodes m l.
Proof.
  unfold sticky_nodes. rewrite filter_cons.
  destruct (flag_at Hdr.sticky_POS m a); by case_decide.
Qed.

Lemma plain_nodes_cons m a l :
  plain_nodes m (a :: l) =
  if flag_at Hdr.sticky_POS m a then plain_nodes m l else a :: plain_nodes m l.
Proof.
  unfold plain_nodes. rewrite filter_cons.
  destruct (flag_at Hdr.sticky_POS m a); by case_decide.
Qed.

Lemma sticky_nodes_sub m l a : a ∈ sticky_nodes m l -> a ∈ l.
Proof. unfold sticky_nodes. rewrite list_elem_of_filter. tauto. Qed.

Lemma plain_nodes_sub m l a : a ∈ plain_nodes m l -> a ∈ l.
Proof. unfold plain_nodes. rewrite list_elem_of_filter. tauto. Qed.

Lemma acked_cons m a l :
  acked m (a :: l) = if flag_at Hdr.rx_nack_POS m a then acked m l else a :: acked m l.
Proof.
  unfold acked. rewrite filter_cons.
  destruct (flag_at Hdr.rx_nack_POS m a); by case_decide.
Qed.

Lemma wp_RxAck_loop la :
  forall fuel Ak St lst lf Q s,
    is_list (mem s) Ak la -> is_list (mem s) St lst ->
    is_list (mem s) (_EnetRxFreeList s) lf ->
    NoDup (la ++ lst ++ lf) -> (length la < fuel)%nat ->
    (forall m' F' St',
        is_list m' F' (lf ++ plain_nodes (mem s) la) ->
        is_list m' St' (lst ++ sticky_nodes (mem s) la) ->
        (forall a, a ∈ sticky_nodes (mem s) la ->
                   payload_at m' a = recycle <$> payload_at (mem s) a) ->
        (forall a, a ∈ plain_nodes (mem s) la ->
                   payload_at m' a = unbuffer <$> payload_at (mem s) a) ->
        (forall a, a ∉ la -> payload_at m' a = payload_at (mem s) a) ->
        (forall a, a ∉ la ++ lst ++ lf -> m' !! a = mem s !! a) ->
        Q (mkList 0 0, St')
          (set_regs
             (add_BUFCDEC (length (acked (mem s) (plain_nodes (mem s) la))) (pEthReg s))
             (set_RxFree F' (set_mem m' s)))) ->
    wp (_EthRxAckBuffer_loop fuel Ak St) Q s.
Proof.
  induction la as [|a la IH]; intros fuel Ak St lst lf Q s HAk HSt HF Hnd Hfuel HQ;
    (destruct fuel as [|fuel]; [simpl in Hfuel; lia|]);
    cbn [_EthRxAckBuffer_loop]; apply wp_bind.
  - eapply wp_ListRemoveHead_nil; [done|]. simpl. apply wp_ret.
    specialize (HQ (mem s) (_EnetRxFreeList s) St). rewrite !app_nil_r in HQ.
    unfold acked, plain_nodes, sticky_nodes in HQ. rewrite !filter_nil in HQ.
    simpl in HQ. rewrite add_BUFCDEC_0 in HQ. destruct s.
    apply HQ; try done; intros a Ha; by apply elem_of_nil in Ha.
  - eapply wp_ListRemoveHead_cons; [done|]. intros Ak' HAk'.
    destruct s as [m0 tf tb rf rb r]. msimpl.
    assert (a <> 0) as Ha by (eapply is_list_nonnull; [exact HAk|set_solver]).
    destruct (is_list_is_Some _ _ _ a HAk) as [n Hn]; [set_solver|].
    destruct (Z.eqb_spec a 0) as [|_]; [done|].
    pose proof Hnd as Hnd0.
    apply NoDup_cons in Hnd as [Hnotin Hnd].
    assert (Hala : a ∉ la) by set_solver.
    assert (Halst : a ∉ lst) by set_solver.
    assert (Half : a ∉ lf) by set_solver.
    apply NoDup_app in Hnd as (Hndla & Hdisj & Hnd).
    apply NoDup_app in Hnd as (Hndlst & Hdisj2 & Hndlf).
    apply wp_bind. eapply wp_load; [done..|].
    assert (Hst : Hdr.sticky (hdr (hwDcpt n)) = flag_at Hdr.sticky_POS m0 a).
    { unfold flag_at. by rewrite Hn. }
    rewrite Hst. rewrite (sticky_nodes_cons m0 a la), (plain_nodes_cons m0 a la) in HQ.
    destruct (flag_at Hdr.sticky_POS m0 a) eqn:Es.
    + apply wp_bind. eapply wp_update; [done..|]. msimpl.
      apply wp_bind. eapply wp_update; [done|msimpl; apply lookup_insert_eq|]. msimpl.
      rewrite insert_insert_eq.
      apply wp_bind. eapply wp_update; [done|msimpl; apply lookup_insert_eq|]. msimpl.
      rewrite insert_insert_eq.
      apply wp_bind. eapply wp_update; [done|msimpl; apply lookup_insert_eq|]. msimpl.
      rewrite insert_insert_eq.
      match goal with |- context [<[a := ?x]> m0] => set (n1 := x) end.
      assert (Hext : forall b, b <> a -> <[a := n1]> m0 !! b = m0 !! b).
      { intros b Hb. by rewrite lookup_insert_ne. }
      apply wp_bind. eapply wp_ListAddTail with (l := lst); msimpl.
      { eapply is_list_ext; [exact HSt|]. intros b Hb. rewrite Hext; [done|by intros ->]. }
      { done. }
      { done. }
      { by rewrite lookup_insert_eq. }
      intros m1 St1 HSt1 _ Hpay1 Hframe1. msimpl.
      assert (Hm1 : forall b, b <> a -> b ∉ lst -> m1 !! b = m0 !! b).
      { intros b Hb1 Hb2. by rewrite Hframe1, Hext. }
      assert (Hp1 : forall b, b <> a -> payload_at m1 b = payload_at m0 b).
      { intros b Hb. rewrite Hpay1. unfold payload_at. by rewrite Hext. }
      eapply IH with (lst := lst ++ [a]) (lf := lf); msimpl.
      * eapply is_list_ext; [exact HAk'|]. intros b Hb.
        rewrite Hm1; [done|by intros ->|]. intros Hin. by eapply (Hdisj b); set_solver.
      * done.
      * eapply is_list_ext; [exact HF|]. intros b Hb.
        rewrite Hm1; [done|by intros ->|]. intros Hin. by eapply (Hdisj2 b).
      * rewrite <- app_assoc. simpl.
        assert (HP : la ++ lst ++ a :: lf ≡ₚ a :: la ++ lst ++ lf).
        { rewrite !app_assoc. by rewrite <- Permutation_middle. }
        by rewrite HP.
      * simpl in Hfuel. lia.
      * intros m' F' St' HF' HSt' Hsticky Hplain Hother Hframe.
        rewrite (sticky_nodes_payload m0 m1 la) in HSt', Hsticky
          by (intros b Hb; apply Hp1; by intros ->).
        rewrite (plain_nodes_payload m0 m1 la) in HF', Hplain
          by (intros b Hb; apply Hp1; by intros ->).
        assert (Hacked : acked m1 (plain_nodes m1 la) = acked m0 (plain_nodes m0 la)).
        { rewrite (plain_nodes_payload m0 m1 la)
            by (intros b Hb; apply Hp1; by intros ->).
          apply acked_payload. intros b Hb. apply Hp1. intros ->.
          by apply plain_nodes_sub in Hb. }
        rewrite Hacked.
        apply (HQ m' F' St').
        -- done.
        -- by rewrite <- app_assoc in HSt'.
        -- intros b Hb. apply elem_of_cons in Hb as [->|Hb].
           ++ rewrite Hother by done. rewrite Hpay1. unfold payload_at.
              by rewrite lookup_insert_eq, Hn.
           ++ rewrite Hsticky by done. f_equal. apply Hp1. intros ->.
              by apply sticky_nodes_sub in Hb.
        -- intros b Hb. rewrite Hplain by done. f_equal. apply Hp1. intros ->.
           by apply plain_nodes_sub in Hb.
        -- intros b Hb. rewrite Hother by set_solver. apply Hp1. set_solver.
        -- intros b Hb. rewrite Hframe by set_solver. apply Hm1; set_solver.
    + apply wp_bind, wp_gets. msimpl.
      apply wp_bind. eapply wp_ListAddTail with (l := lf); msimpl; [done..|by rewrite Hn|].
      intros m1 F1 HF1 _ Hpay1 Hframe1. msimpl.
      apply wp_bind, wp_modify. msimpl.
      destruct (m1 !! a) as [n1|] eqn:En1.
      2:{ specialize (Hpay1 a). unfold payload_at in Hpay1. by rewrite En1, Hn in Hpay1. }
      apply wp_bind. eapply wp_update; [done|msimpl; done|]. msimpl.
      apply wp_bind. eapply wp_load; [done|msimpl; apply lookup_insert_eq|]. msimpl.
      apply wp_bind. apply wp_decrement_if. msimpl.
      match goal with |- context [<[a := ?x]> m1] => set (n2 := x) end.
      assert (Hn2 : payload n2 = (hdr (hwDcpt n), 0, stat (hwDcpt n))).
      { specialize (Hpay1 a). unfold payload_at, payload in Hpay1.
        rewrite En1, Hn in Hpay1. simpl in Hpay1. injection Hpay1 as E1 E2 E3.
        unfold n2, payload. simpl. by rewrite E1, E3. }
      assert (Hnack : Hdr.rx_nack (hdr (hwDcpt n1)) = flag_at Hdr.rx_nack_POS m0 a).
      { rewrite <- (flag_at_payload _ m0 m1 a) by done. unfold flag_at. by rewrite En1. }
      rewrite Hnack.
      assert (Hm2 : forall b, b <> a -> b ∉ lf -> <[a := n2]> m1 !! b = m0 !! b).
      { intros b Hb1 Hb2. by rewrite lookup_insert_ne, Hframe1. }
      assert (Hp2 : forall b, b <> a -> payload_at (<[a := n2]> m1) b = payload_at m0 b).
      { intros b Hb. unfold payload_at at 1. rewrite lookup_insert_ne by done.
        apply Hpay1. }
      eapply IH with (lst := lst) (lf := lf ++ [a]); msimpl.
      * eapply is_list_ext; [exact HAk'|]. intros b Hb.
        rewrite Hm2; [done|by intros ->|].
        intros Hin. by eapply (Hdisj b); set_solver.
      * eapply is_list_ext; [exact HSt|]. intros b Hb.
        rewrite Hm2; [done|by intros ->|]. by apply Hdisj2.
      * eapply is_list_ext; [exact HF1|]. intros b Hb.
        destruct (decide (b = a)) as [->|Hne].
        -- by rewrite lookup_insert_eq, En1.
        -- by rewrite lookup_insert_ne.
      * assert (HP : la ++ lst ++ lf ++ [a] ≡ₚ a :: la ++ lst ++ lf).
        { rewrite !app_assoc. by rewrite <- Permutation_cons_append. }
        by rewrite HP.
      * simpl in Hfuel. lia.
      * intros m' F' St' HF' HSt' Hsticky Hplain Hother Hframe.
        rewrite (sticky_nodes_payload m0 (<[a := n2]> m1) la) in HSt', Hsticky
          by (intros b Hb; apply Hp2; by intros ->).
        rewrite (plain_nodes_payload m0 (<[a := n2]> m1) la) in HF', Hplain
          by (intros b Hb; apply Hp2; by intros ->).
        assert (Hacked :
          acked (<[a := n2]> m1) (plain_nodes (<[a := n2]> m1) la)
          = acked m0 (plain_nodes m0 la)).
        { rewrite (plain_nodes_payload m0 (<[a := n2]> m1) la)
            by (intros b Hb; apply Hp2; by intros ->).
          apply acked_payload. intros b Hb. apply Hp2. intros ->.
          by apply plain_nodes_sub in Hb. }
        rewrite Hacked. rewrite add_BUFCDEC_add.
        rewrite acked_cons in HQ.
        replace ((if negb (flag_at Hdr.rx_nack_POS m0 a) then 1 else 0)
                 + length (acked m0 (plain_nodes m0 la)))%nat
          with (length (if flag_at Hdr.rx_nack_POS m0 a
                        then acked m0 (plain_nodes m0 la)
                        else a :: acked m0 (plain_nodes m0 la)))
          by (by destruct (flag_at Hdr.rx_nack_POS m0 a)).
        apply (HQ m' F' St').
        -- by rewrite <- app_assoc in HF'.
        -- done.
        -- intros b Hb. rewrite Hsticky by done. f_equal. apply Hp2. intros ->.
           by apply sticky_nodes_sub in Hb.
        -- intros b Hb. apply elem_of_cons in Hb as [->|Hb].
           ++ rewrite Hother by done. unfold payload_at.
              rewrite lookup_insert_eq, Hn. simpl. by rewrite Hn2.
           ++ rewrite Hplain by done. f_equal. apply Hp2. intros ->.
              by apply plain_nodes_sub in Hb.
        -- intros b Hb. rewrite Hother by set_solver. apply Hp2. set_solver.
        -- intros b Hb. rewrite Hframe by set_solver. apply Hm2; set_solver.
Qed.

Lemma acked_flags m m' l :
  (forall a, a ∈ l -> flag_at Hdr.rx_nack_POS m' a = flag_at Hdr.rx_nack_POS m a) ->
  acked m' l = acked m l.
Proof.
  unfold acked. induction l as [|a l IH]; intros H; [done|].
  rewrite !filter_cons. rewrite (H a) by set_solver.
  rewrite IH; [done|]. intros b Hb. apply H. set_solver.
Qed.

Lemma recycle_hdr_flag pos w :
  pos <> Hdr.EOWN_POS -> pos <> Hdr.SOP_POS -> pos <> Hdr.EOP_POS ->
  pos <> Hdr.rx_wack_POS ->
  Hdr.get pos (recycle_hdr w) = Hdr.get pos w.
Proof.
  intros. unfold recycle_hdr. rewrite !Hdr_get_set by done.
  by rewrite !decide_False by done.
Qed.

Lemma recycle_hdr_cleared w :
  Hdr.EOWN (recycle_hdr w) = true /\ Hdr.SOP (recycle_hdr w) = false /\
  Hdr.EOP (recycle_hdr w) = false /\ Hdr.rx_wack (recycle_hdr w) = false.
Proof.
  unfold recycle_hdr, Hdr.EOWN, Hdr.SOP, Hdr.EOP, Hdr.rx_wack.
  rewrite !Hdr_get_set by done. done.
Qed.

Lemma flag_at_recycle pos m m' a :
  pos <> Hdr.EOWN_POS -> pos <> Hdr.SOP_POS -> pos <> Hdr.EOP_POS ->
  pos <> Hdr.rx_wack_POS ->
  payload_at m' a = recycle <$> payload_at m a ->
  flag_at pos m' a = flag_at pos m a.
Proof.
  intros ? ? ? ?. unfold payload_at, flag_at, payload.
  destruct (m' !! a) as [n'|], (m !! a) as [n|]; simpl; try done.
  intros [= -> _ _]. by apply recycle_hdr_flag.
Qed.

Lemma map_eq_exists {A B C} (f : A -> C) (g : B -> C) (l1 : list A) (l2 : list B) :
  map f l1 = map g l2 -> Forall (fun x => exists y, y ∈ l2 /\ f x = g y) l1.
Proof.
  revert l2. induction l1 as [|x l1 IH]; intros [|y l2] E; try done.
  simpl in E. injection E as E1 E2. apply Forall_cons. split.
  - exists y. split; [set_solver|done].
  - eapply Forall_impl; [by apply IH|]. intros x' (y' & Hy' & E').
    exists y'. split; [set_solver|done].
Qed.

Lemma wp_RxAckBuffer fuel pBuff lb t lf la kept' n f s :
  is_list (mem s) (_EnetRxBusyList s) (lb ++ [t]) ->
  is_list (mem s) (_EnetRxFreeList s) lf ->
  NoDup ((lb ++ [t]) ++ lf) ->
  flag_at Hdr.SOP_POS (mem s) t = false -> flag_at Hdr.EOP_POS (mem s) t = false ->
  ack_scan (mem s) pBuff false (lb ++ [t]) = Some (la, kept' ++ [t], n, f) ->
  (length (lb ++ [t]) < fuel)%nat ->
  wp (_EthRxAckBuffer fuel pBuff)
     (fun r s' => r = ack_result n f /\ rx_acknowledged s s' lf la kept' t) s.
Proof.
  intros HB HF Hnd Hsop Heop Hscan Hfuel.
  pose proof (ack_scan_perm _ _ _ _ _ _ _ _ Hscan) as Hperm.
  assert (Hnd' : NoDup ((la ++ kept' ++ [t]) ++ lf)) by (by rewrite Hperm).
  apply NoDup_app in Hnd' as (Hndlk & Hdlk & Hndlf).
  apply NoDup_app in Hndlk as (Hndla & Hdla & Hndk).
  assert (Hlenla : (length la < fuel)%nat).
  { apply Permutation_length in Hperm. rewrite length_app in Hperm. lia. }
  assert (Hla_lf : forall x, x ∈ la -> x ∉ lf) by (intros x Hx; apply Hdlk; set_solver).
  assert (Hk_lf : forall x, x ∈ kept' ++ [t] -> x ∉ lf)
    by (intros x Hx; apply Hdlk; set_solver).
  assert (Hin_lb : forall x, x ∈ lb ++ [t] <-> x ∈ la ++ kept' ++ [t])
    by (intros x; by rewrite Hperm).
  unfold _EthRxAckBuffer. destruct s as [m0 tf tb rf rb r]. msimpl.
  apply wp_bind, wp_gets. msimpl.
  apply wp_bind. eapply wp_GetAckedPacket; msimpl; [done..|].
  intros m1 R1 A1 HR1 HA1 Hpay1 Hframe1. msimpl.
  apply wp_bind, wp_modify. msimpl.
  apply wp_bind.
  eapply wp_RxAck_loop with (la := la) (lst := []) (lf := lf); msimpl.
  { done. }
  { by apply is_list_nil. }
  { eapply is_list_ext; [exact HF|]. intros a Ha. rewrite Hframe1; [done|].
    intros Hin. apply Hin_lb in Hin. eapply (Hdlk a); done. }
  { simpl. apply NoDup_app. split; [done|]. split; [done|done]. }
  { done. }
  intros m2 F2 St2 HF2 HSt2 Hsticky Hplain Hother Hframe2. simpl in HSt2, Hframe2.
  rewrite (plain_nodes_payload m0 m1 la) in * by (intros; apply Hpay1).
  rewrite (sticky_nodes_payload m0 m1 la) in * by (intros; apply Hpay1).
  rewrite (acked_payload m0 m1) by (intros; apply Hpay1).
  assert (HR2 : is_list m2 R1 (kept' ++ [t])).
  { eapply is_list_ext; [exact HR1|]. intros a Ha. rewrite Hframe2; [done|].
    intros Hin. apply elem_of_app in Hin as [Hin|Hin].
    - eapply (Hdla a); done.
    - eapply (Hk_lf a); done. }
  assert (Hplain0 : Forall (fun a => payload_at m2 a = unbuffer <$> payload_at m0 a)
                      (plain_nodes m0 la)).
  { apply Forall_forall. intros a Ha. rewrite Hplain by done. by rewrite Hpay1. }
  unfold DRV_ETHMAC_LIB_ListIsEmpty.
  destruct (sticky_nodes m0 la) as [|hs sts] eqn:Est.
  - apply is_list_nil in HSt2 as ->. simpl. apply wp_bind. apply wp_ret. apply wp_ret.
    split; [done|]. unfold rx_acknowledged. msimpl. rewrite Est.
    split; [done|]. split; [done|]. split; [done|]. simpl. lia.
  - assert (Hsub_st : forall x, x ∈ hs :: sts -> x ∈ la).
    { intros x Hx. rewrite <- Est in Hx. by apply sticky_nodes_sub in Hx. }
    assert (Hndst : NoDup (hs :: sts)).
    { rewrite <- Est. unfold sticky_nodes. by apply NoDup_filter. }
    assert (Hst_pl : forall x, x ∈ hs :: sts -> x ∉ plain_nodes m0 la).
    { intros x Hx Hx'. rewrite <- Est in Hx. unfold sticky_nodes, plain_nodes in *.
      apply list_elem_of_filter in Hx as [Hx _].
      apply list_elem_of_filter in Hx' as [Hx' _]. congruence. }
    assert (head St2 <> 0) as Hhd.
    { destruct HSt2 as (Hs & _). simpl in Hs. by destruct Hs as (-> & ? & _). }
    destruct (Z.eqb_spec (head St2) 0) as [|_]; [done|]. cbn [negb].
    apply wp_bind. apply wp_bind, wp_gets. msimpl.
    apply wp_bind.
    eapply wp_AppendBusyList with (lb := kept') (t := t) (h := hs) (ln := sts); msimpl.
    { done. }
    { done. }
    { apply NoDup_app. split; [done|]. split; [|done].
      intros x Hx Hx'. eapply (Hdla x); [by apply Hsub_st|done]. }
    { apply NoDup_cons in Hndst as [_ Hndsts].
      assert (length sts <= length la)%nat; [|lia].
      apply (f_equal length) in Est. unfold sticky_nodes in Est.
      pose proof (length_filter (fun a => flag_at Hdr.sticky_POS m0 a = true) la).
      simpl in Est. lia. }
    intros m3 B3 (HB3 & Hhd3 & Hpt3 & Hh3 & Hb3 & Hpay3 & Hframe3). msimpl.
    apply wp_modify. msimpl. apply wp_ret. split; [done|].
    unfold rx_acknowledged. msimpl. rewrite Est.
    assert (Hths : t <> hs).
    { intros ->. eapply (Hdla hs); [apply Hsub_st|]; set_solver. }
    assert (Hhs_sts : hs ∉ sts) by (by apply NoDup_cons in Hndst as []).
    assert (Ht_sts : t ∉ sts).
    { intros Hin. eapply (Hdla t); [apply Hsub_st|]; set_solver. }
    assert (Hnotbusy : forall a, a ∈ lf ++ plain_nodes m0 la ->
              a ∉ kept' ++ [t] ++ hs :: sts).
    { intros a Ha Hin. apply elem_of_app in Ha as [Ha|Ha].
      - rewrite app_assoc in Hin. apply elem_of_app in Hin as [Hin|Hin].
        + by eapply (Hk_lf a).
        + eapply (Hla_lf a); [by apply Hsub_st|done].
      - rewrite app_assoc in Hin. apply elem_of_app in Hin as [Hin|Hin].
        + eapply (Hdla a); [by eapply plain_nodes_sub|done].
        + by eapply (Hst_pl a). }
    split; [|split; [|split]].
    + eapply is_list_ext; [exact HF2|]. intros a Ha. rewrite Hframe3; [done|].
      by apply Hnotbusy.
    + apply Forall_forall. intros a Ha. rewrite Forall_forall in Hplain0.
      rewrite <- (Hplain0 a Ha). apply Hpay3.
      * intros ->. eapply (Hnotbusy t); set_solver.
      * intros ->. eapply (Hnotbusy hs); set_solver.
    + split; [done|]. split; [|done]. cbn [map]. f_equal.
      * destruct (is_list_is_Some _ _ _ hs HSt2) as [nhs Hnhs]; [set_solver|].
        rewrite Hpt3, Hnhs. simpl.
        assert (Hr : payload_at m2 hs = recycle <$> payload_at m0 hs).
        { rewrite Hsticky by set_solver. by rewrite Hpay1. }
        unfold payload_at in Hr. rewrite Hnhs in Hr. simpl in Hr.
        unfold payload_at. destruct (m0 !! hs) as [n0|]; simpl in *; [|done].
        injection Hr as E1 E2 E3. rewrite E1, E2, E3. do 3 f_equal.
        unfold recycle_hdr. by rewrite Hdr_set_set.
      * apply map_ext_in. intros a Ha%list_elem_of_In.
        rewrite Hpay3; [|by intros ->..].
        rewrite Hsticky by set_solver. by rewrite Hpay1.
    + cbn [BUFCDEC add_BUFCDEC]. unfold ack_count.
      rewrite (acked_flags m0 m2 (hs :: sts)); [lia|].
      intros a Ha. apply flag_at_recycle; try done.
      rewrite Hsticky by done. by rewrite Hpay1.
Qed.

(** C6.  The RX busy list is [lb ++ [t]] with sentinel [t]; the scan of
    [_EthGetAckedPacket] over it, [ack_scan], detaches the nodes [la] of
    the completed packets asked for.  Then
    [DRV_ETHMAC_LibRxAcknowledgeBuffer] returns, and
    - the detached nodes without the sticky flag are appended to the RX
      free list, their buffer address cleared and nothing else changed;
    - the descriptors of the detached sticky nodes go back on the RX busy
      list through the append protocol: in order, from the old sentinel
      slot on, each with start, end and reported flags clear, EOWN set
      and its buffer still attached, followed by the new empty sentinel
      (the node that carried the first of them); none is on the free
      list;
    - one decrement is requested for each detached node whose [rx_nack]
      flag is clear;
    - the result is [OK] exactly when a node was detached,
      [PACKET_QUEUED] exactly when the first wanted start-of-packet node
      is still Hardware-owned, and [NO_PACKET] exactly when no node of
      the list is wanted. *)
Theorem RxAcknowledgeBuffer_recycles fuel pBuff lb t lf la kept n f s :
  is_list (mem s) (_EnetRxBusyList s) (lb ++ [t]) ->
  is_list (mem s) (_EnetRxFreeList s) lf ->
  NoDup ((lb ++ [t]) ++ lf) ->
  flag_at Hdr.SOP_POS (mem s) t = false -> flag_at Hdr.EOP_POS (mem s) t = false ->
  ack_scan (mem s) pBuff false (lb ++ [t]) = Some (la, kept, n, f) ->
  (length (lb ++ [t]) < fuel)%nat ->
  exists s' kept',
    DRV_ETHMAC_LibRxAcknowledgeBuffer fuel pBuff s = Some (ack_result n f, s') /\
    kept = kept' ++ [t] /\
    rx_acknowledged s s' lf la kept' t /\
    Forall (fun a => flag_at Hdr.EOWN_POS (mem s') a = true /\
                     flag_at Hdr.SOP_POS (mem s') a = false /\
                     flag_at Hdr.EOP_POS (mem s') a = false /\
                     flag_at Hdr.rx_wack_POS (mem s') a = false)
      (match sticky_nodes (mem s) la with [] => [] | _ :: sts => t :: sts end) /\
    (ack_result n f = DRV_ETHMAC_RES_OK <-> la <> []) /\
    (ack_result n f = DRV_ETHMAC_RES_PACKET_QUEUED <->
       exists pre a post,
         lb ++ [t] = pre ++ a :: post /\
         Forall (fun a => ack_match (mem s) pBuff a = false) pre /\
         ack_match (mem s) pBuff a = true /\
         flag_at Hdr.EOWN_POS (mem s) a = true) /\
    (ack_result n f = DRV_ETHMAC_RES_NO_PACKET <->
       Forall (fun a => ack_match (mem s) pBuff a = false) (lb ++ [t])).
Proof.
  intros HB HF Hnd Hsop Heop Hscan Hfuel.
  destruct (ack_scan_keeps_sentinel _ pBuff t lb Hsop Heop _ _ _ _ _ Hscan)
    as [kept' ->].
  destruct (wp_RxAckBuffer fuel pBuff lb t lf la kept' n f s)
    as (r & s' & Hrun & -> & Hack); [done..|].
  exists s', kept'. split; [exact Hrun|]. split; [done|]. split; [done|].
  destruct (ack_scan_counts _ _ _ _ _ _ _ _ Hscan) as (Hn & Hz & _ & Hnf & Hq).
  split; [|split; [|split]].
  - destruct Hack as (_ & _ & Hst & _).
    destruct (sticky_nodes (mem s) la) as [|hs sts] eqn:Est; [by apply Forall_nil|].
    destruct Hst as (_ & Hmap & _).
    assert (Hsome : forall b, b ∈ hs :: sts -> is_Some (mem s !! b)).
    { intros b Hb. rewrite <- Est in Hb. apply sticky_nodes_sub in Hb.
      eapply (is_list_is_Some _ _ _ b HB).
      rewrite <- (ack_scan_perm _ _ _ _ _ _ _ _ Hscan). set_solver. }
    apply map_eq_exists in Hmap. eapply Forall_impl; [exact Hmap|].
    intros a (b & Hb & Hab). cbv beta in Hab.
    destruct (Hsome b Hb) as [nb Hnb]. unfold payload_at in Hab at 2.
    rewrite Hnb in Hab. simpl in Hab.
    pose proof (payload_at_hdr_at _ _ _ _ _ Hab) as Hh.
    rewrite !(flag_at_hdr_at _ _ _ _ Hh). apply recycle_hdr_cleared.
  - unfold ack_result. destruct (Z.eqb_spec n 0) as [Hn0|Hn0]; simpl.
    + split; [by destruct f|]. intros Hla. by apply Hz in Hn0.
    + split; [|done]. intros _ Hla. by apply Hz in Hla.
  - split.
    + unfold ack_result. destruct (Z.eqb_spec n 0) as [Hn0|Hn0]; simpl; [|done].
      destruct f; [|done]. intros _. by destruct (Hq eq_refl eq_refl Hn0) as (_ & ?).
    + intros (pre & a & post & Hl & Hpre & Ha & Ho).
      rewrite Hl, (ack_scan_queued _ _ _ _ _ Hpre Ha Ho) in Hscan.
      by injection Hscan as <- _ <- <-.
  - split.
    + unfold ack_result. destruct (Z.eqb_spec n 0) as [Hn0|Hn0]; simpl; [|done].
      destruct f; [done|]. intros _. by destruct (Hnf eq_refl eq_refl) as (_ & _ & ?).
    + intros Hall. rewrite (ack_scan_unwanted _ _ _ Hall) in Hscan.
      by injection Hscan as <- _ <- <-.
Qed.

End AckHeap.

(** ** Further properties of the driver library *)

Section Counts.
Context {K : KMem}.
Implicit Types (m : gmap Z DRV_ETHMAC_DCPT_NODE) (l : list ptr) (p q a : ptr).
Implicit Types (s : machine) (L : DRV_ETHMAC_DCPT_LIST).

Lemma EnetDescriptorsCount_loop_run isHw l :
  forall fuel p t c s,
    lseg (mem s) p (l ++ [t]) 0 -> (length l < fuel)%nat ->
    _EnetDescriptorsCount_loop fuel p isHw c s
      = Some (c + Z.of_nat (length (owned (mem s) isHw l)), s).
Proof.
  induction l as [|a l IH]; intros fuel p t c s Hseg Hf.
  - simpl in Hseg. destruct Hseg as (-> & Ht & Hseg).
    destruct (mem s !! t) as [n|] eqn:En; [|done]. simpl in Hseg.
    destruct fuel as [|fuel]; [simpl in Hf; lia|]. simpl.
    destruct (Z.eqb_spec t 0) as [|_]; [done|].
    unfold bind, load. destruct (Z.eqb_spec t 0) as [|_]; [done|]. rewrite En.
    rewrite Hseg. simpl. unfold ret. f_equal. f_equal. unfold owned. simpl. lia.
  - simpl in Hseg. destruct Hseg as (-> & Ha & Hseg).
    destruct (mem s !! a) as [n|] eqn:En; [|done].
    destruct fuel as [|fuel]; [simpl in Hf; lia|]. simpl.
    destruct (Z.eqb_spec a 0) as [|_]; [done|].
    unfold bind, load. destruct (Z.eqb_spec a 0) as [|_]; [done|]. rewrite En.
    assert (Hnz : next n <> 0).
    { destruct l as [|b l]; simpl in Hseg; by destruct Hseg as (-> & ? & _). }
    destruct (Z.eqb_spec (next n) 0) as [|_]; [done|].
    rewrite (IH fuel (next n) t _ s Hseg) by (simpl in Hf; lia).
    f_equal. f_equal. unfold owned. rewrite filter_cons.
    assert (flag_at Hdr.EOWN_POS (mem s) a = Hdr.EOWN (hdr (hwDcpt n))) as ->
      by (unfold flag_at; by rewrite En).
    destruct (Hdr.EOWN (hdr (hwDcpt n))), isHw; case_decide; try done; simpl; lia.
Qed.

Lemma BuffersGet_run fuel F isHw v lb t s :
  is_list (mem s) (get_list F s) (lb ++ [t]) -> (length lb < fuel)%nat ->
  BuffersGet fuel F isHw (Some v) s
    = Some ((DRV_ETHMAC_RES_OK, Some (Z.of_nat (length (owned (mem s) isHw lb)))), s).
Proof.
  intros (Hseg & _) Hf. unfold BuffersGet, _EnetDescriptorsCount, bind, gets.
  by rewrite (EnetDescriptorsCount_loop_run isHw lb fuel _ t 0 s Hseg Hf).
Qed.

Lemma owned_partition m l :
  (length (owned m false l) + length (owned m true l))%nat = length l.
Proof.
  unfold owned. induction l as [|a l IH]; [done|].
  rewrite !filter_cons. destruct (flag_at Hdr.EOWN_POS m a);
    repeat (destruct (decide _); try done); simpl; lia.
Qed.

(** X1: the three counters are queries.  On a busy list [lb ++ [t]] each
    returns [OK] with the machine it was given; [RxPendingBuffersGet] and
    [TxPendingBuffersGet] store the number of Software-owned nodes of [lb],
    [RxScheduledBuffersGet] the number of Hardware-owned ones; the ending
    node [t] is never counted, so pending and scheduled add up to
    [length lb].  With a null [pnBuffs] nothing is computed. *)
Theorem BuffersGet_counts fuel v lrx ltx trx ttx s :
  is_list (mem s) (_EnetRxBusyList s) (lrx ++ [trx]) ->
  is_list (mem s) (_EnetTxBusyList s) (ltx ++ [ttx]) ->
  (length lrx < fuel)%nat -> (length ltx < fuel)%nat ->
  exists pend sched,
    DRV_ETHMAC_LibRxPendingBuffersGet fuel (Some v) s
      = Some ((DRV_ETHMAC_RES_OK, Some pend), s) /\
    DRV_ETHMAC_LibRxScheduledBuffersGet fuel (Some v) s
      = Some ((DRV_ETHMAC_RES_OK, Some sched), s) /\
    DRV_ETHMAC_LibTxPendingBuffersGet fuel (Some v) s
      = Some ((DRV_ETHMAC_RES_OK,
               Some (Z.of_nat (length (owned (mem s) false ltx)))), s) /\
    pend = Z.of_nat (length (owned (mem s) false lrx)) /\
    sched = Z.of_nat (length (owned (mem s) true lrx)) /\
    pend + sched = Z.of_nat (length lrx) /\
    DRV_ETHMAC_LibRxPendingBuffersGet fuel None s = Some ((DRV_ETHMAC_RES_OK, None), s).
Proof.
  intros Hrx Htx Hfr Hft. do 2 eexists.
  split; [exact (BuffersGet_run fuel RxBusy false v lrx trx s Hrx Hfr)|].
  split; [exact (BuffersGet_run fuel RxBusy true v lrx trx s Hrx Hfr)|].
  split; [exact (BuffersGet_run fuel TxBusy false v ltx ttx s Htx Hft)|].
  split; [done|]. split; [done|]. split; [|done].
  pose proof (owned_partition (mem s) lrx). lia.
Qed.

End Counts.

Section CleanUp.
Context {K : KMem}.
Implicit Types (m : gmap Z DRV_ETHMAC_DCPT_NODE) (l : list ptr) (p q a : ptr).
Implicit Types (s : machine) (L : DRV_ETHMAC_DCPT_LIST) (F G : list_sel).

Lemma cleaned_cons F g a l L s :
  match g with Some g => free_like g | None => True end ->
  cleaned F g l
    (match g with
     | Some _ => set_mem (delete a (mem (set_list F L s))) (set_list F L s)
     | None => set_list F L s
     end) = cleaned F g (a :: l) s.
Proof.
  intros _. unfold cleaned, released. destruct g as [g|].
  - simpl foldr. rewrite delete_foldr_delete. by destruct F, s.
  - by destruct F, s.
Qed.

Lemma EnetPoolFreeDcptList_run F g l :
  forall fuel s,
    is_list (mem s) (get_list F s) l -> (length l < fuel)%nat ->
    match g with Some g => free_like g | None => True end ->
    _EnetPoolFreeDcptList fuel F g s = Some (tt, cleaned F g l s).
Proof.
  induction l as [|a l IH]; intros fuel s HF Hf Hg;
    (destruct fuel as [|fuel]; [simpl in Hf; lia|]).
  - apply is_list_nil in HF. simpl. unfold bind, gets. rewrite HF. simpl.
    unfold cleaned, released, ret. f_equal. f_equal.
    by destruct g; destruct F, s.
  - assert (a <> 0) as Ha by (eapply is_list_nonnull; [exact HF|set_solver]).
    destruct (wp_ListRemoveHead_cons (get_list F s) a l
                (fun r s' => s' = s /\ fst r = a /\ is_list (mem s) (snd r) l) s HF)
      as ([a' L'] & s' & Hrun & -> & Ha' & HL'); [by intros L' HL'|].
    simpl in Ha', HL'. subst a'.
    cbn [_EnetPoolFreeDcptList]. unfold bind at 1. unfold gets.
    unfold bind at 1. rewrite Hrun. unfold bind at 1. unfold modify.
    destruct (Z.eqb_spec a 0) as [|_]; [done|].
    unfold bind at 1.
    assert (Hnd : a ∉ l).
    { destruct HF as (_ & _ & Hnd). by apply NoDup_cons in Hnd as [? _]. }
    destruct g as [g|].
    + rewrite Hg. rewrite (IH fuel).
      * by rewrite <- (cleaned_cons F (Some g) a l L' s).
      * rewrite mem_set_mem, get_list_set_mem, get_set_list_eq, mem_set_list.
        eapply is_list_ext; [exact HL'|]. intros b Hb.
        rewrite lookup_delete_ne; [done|by intros ->].
      * simpl in Hf. lia.
      * done.
    + unfold ret at 1. rewrite (IH fuel).
      * by rewrite <- (cleaned_cons F None a l L' s).
      * by rewrite mem_set_list, get_set_list_eq.
      * simpl in Hf. lia.
      * done.
Qed.

Lemma is_list_released g l m L l' :
  is_list m L l' -> (forall a, a ∈ l' -> a ∉ l) -> is_list (released g l m) L l'.
Proof.
  intros HL Hd. destruct g as [g|]; [|done]. simpl.
  eapply is_list_ext; [exact HL|]. intros a Ha.
  by rewrite lookup_foldr_delete_not_elem_of by auto.
Qed.

Lemma lookup_released g l m a :
  released g l m !! a =
    match g with
    | Some _ => if decide (a ∈ l) then None else m !! a
    | None => m !! a
    end.
Proof.
  destruct g as [g|]; [|done]. simpl. destruct (decide (a ∈ l)).
  - by apply lookup_foldr_delete.
  - by apply lookup_foldr_delete_not_elem_of.
Qed.

Lemma CleanUp_direction fuel F G g lf lb s :
  F <> G ->
  is_list (mem s) (get_list F s) lf -> is_list (mem s) (get_list G s) lb ->
  NoDup (lf ++ lb) -> (length lf < fuel)%nat -> (length lb < fuel)%nat ->
  match g with Some g => free_like g | None => True end ->
  (_EnetPoolFreeDcptList fuel F g ;; _EnetPoolFreeDcptList fuel G g) s
    = Some (tt, cleaned G g lb (cleaned F g lf s)).
Proof.
  intros HFG HF HG Hnd Hf Hb Hg. unfold bind.
  rewrite (EnetPoolFreeDcptList_run F g lf fuel s HF Hf Hg).
  apply EnetPoolFreeDcptList_run; [|done..].
  unfold cleaned. rewrite mem_set_list, mem_set_mem.
  rewrite get_set_list_ne, get_list_set_mem by done.
  apply is_list_released; [done|]. intros a Ha Ha'.
  apply NoDup_app in Hnd as (_ & Hd & _). by apply (Hd a).
Qed.

(** X2: [DRV_ETHMAC_LibDescriptorsPoolCleanUp] reads [dType] as a bit mask.
    For each direction whose bit is set it empties the free list and the
    busy list, sentinel included, and hands every node to [fFree]; the
    lists of a direction whose bit is clear, and the registers, are left
    alone.  With a [free_like] function the nodes are gone from memory;
    with a null [fFree] the lists are emptied all the same and the nodes
    stay allocated, on no list. *)
Theorem PoolCleanUp_releases fuel dType g ltf ltb lrf lrb s :
  is_list (mem s) (_EnetTxFreeList s) ltf -> is_list (mem s) (_EnetTxBusyList s) ltb ->
  is_list (mem s) (_EnetRxFreeList s) lrf -> is_list (mem s) (_EnetRxBusyList s) lrb ->
  NoDup ((ltf ++ ltb) ++ lrf ++ lrb) ->
  (length ltf < fuel)%nat -> (length ltb < fuel)%nat ->
  (length lrf < fuel)%nat -> (length lrb < fuel)%nat ->
  match g with Some g => free_like g | None => True end ->
  let tx := negb (Z.land dType DRV_ETHMAC_DCPT_TYPE_TX =? 0) in
  let rx := negb (Z.land dType DRV_ETHMAC_DCPT_TYPE_RX =? 0) in
  let gone := (if tx then ltf ++ ltb else []) ++ (if rx then lrf ++ lrb else []) in
  exists s',
    DRV_ETHMAC_LibDescriptorsPoolCleanUp fuel dType g s = Some (tt, s') /\
    _EnetTxFreeList s' = (if tx then mkList 0 0 else _EnetTxFreeList s) /\
    _EnetTxBusyList s' = (if tx then mkList 0 0 else _EnetTxBusyList s) /\
    _EnetRxFreeList s' = (if rx then mkList 0 0 else _EnetRxFreeList s) /\
    _EnetRxBusyList s' = (if rx then mkList 0 0 else _EnetRxBusyList s) /\
    pEthReg s' = pEthReg s /\
    forall a,
      mem s' !! a =
        match g with
        | Some _ => if decide (a ∈ gone) then None else mem s !! a
        | None => mem s !! a
        end.
Proof.
  intros Htf Htb Hrf Hrb Hnd Hf1 Hf2 Hf3 Hf4 Hg tx rx gone.
  apply NoDup_app in Hnd as (Hndt & Hdisj & Hndr).
  unfold DRV_ETHMAC_LibDescriptorsPoolCleanUp. fold tx rx.
  pose proof (CleanUp_direction fuel TxFree TxBusy g ltf ltb s
                ltac:(done) Htf Htb Hndt Hf1 Hf2 Hg) as Htx.
  destruct tx eqn:Etx, rx eqn:Erx; subst gone; simpl negb; cbv iota.
  - set (s1 := cleaned TxBusy g ltb (cleaned TxFree g ltf s)) in *.
    assert (Hm1 : mem s1 = released g ltb (released g ltf (mem s))) by done.
    assert (Hrf1 : is_list (mem s1) (get_list RxFree s1) lrf).
    { rewrite Hm1. do 2 (apply is_list_released; [|set_solver]). done. }
    assert (Hrb1 : is_list (mem s1) (get_list RxBusy s1) lrb).
    { rewrite Hm1. do 2 (apply is_list_released; [|set_solver]). done. }
    pose proof (CleanUp_direction fuel RxFree RxBusy g lrf lrb s1
                  ltac:(done) Hrf1 Hrb1 Hndr Hf3 Hf4 Hg) as Hrx.
    eexists. split; [unfold bind at 1; rewrite Htx; exact Hrx|].
    repeat (split; [done|]). intros a. cbn [cleaned mem set_list set_mem set_RxBusy
      set_RxFree]. rewrite !lookup_released. fold s1. rewrite Hm1, !lookup_released.
    destruct g as [g|]; [|done].
    repeat case_decide; try done; set_solver.
  - eexists. split; [unfold bind at 1; rewrite Htx; reflexivity|].
    repeat (split; [done|]). intros a.
    cbn [cleaned mem set_list set_mem set_TxBusy set_TxFree].
    rewrite !lookup_released. destruct g as [g|]; [|done].
    repeat case_decide; try done; set_solver.
  - pose proof (CleanUp_direction fuel RxFree RxBusy g lrf lrb s
                  ltac:(done) Hrf Hrb Hndr Hf3 Hf4 Hg) as Hrx.
    eexists. split; [unfold bind at 1; unfold ret at 1; exact Hrx|].
    repeat (split; [done|]). intros a.
    cbn [cleaned mem set_list set_mem set_RxBusy set_RxFree].
    rewrite !lookup_released. destruct g as [g|]; [|done].
    repeat case_decide; try done; set_solver.
  - exists s. split; [done|]. repeat (split; [done|]). intros a.
    destruct g; [|done]. by rewrite decide_False by set_solver.
Qed.

End CleanUp.

Section TxAck.
Context {K : KMem}.
Implicit Types (m : gmap Z DRV_ETHMAC_DCPT_NODE) (l : list ptr) (p q a : ptr).
Implicit Types (s : machine) (L : DRV_ETHMAC_DCPT_LIST).

Lemma buffer_kva_payload m m' a :
  payload_at m' a = payload_at m a -> buffer_kva m' a = buffer_kva m a.
Proof.
  unfold payload_at, buffer_kva, dcpt_kva, payload.
  destruct (m' !! a) as [n'|], (m !! a) as [n|]; simpl; try done.
  by intros [= -> -> _].
Qed.

Lemma TxAck_notify_run l :
  forall fuel p calls s,
    lseg (mem s) p l 0 -> (length l < fuel)%nat ->
    TxAck_notify fuel p calls s
      = Some (calls ++ map (buffer_kva (mem s)) (packet_heads (mem s) l), s).
Proof.
  induction l as [|a l IH]; intros fuel p calls s Hseg Hf;
    (destruct fuel as [|fuel]; [simpl in Hf; lia|]); simpl in Hseg.
  - subst p. simpl. by rewrite app_nil_r.
  - destruct Hseg as (-> & Ha & Hseg).
    destruct (mem s !! a) as [n|] eqn:En; [|done].
    cbn [TxAck_notify]. destruct (Z.eqb_spec a 0) as [|_]; [done|].
    unfold bind, load. destruct (Z.eqb_spec a 0) as [|_]; [done|]. rewrite En.
    rewrite (IH fuel (next n) _ s Hseg) by (simpl in Hf; lia).
    f_equal. f_equal. unfold packet_heads. rewrite filter_cons.
    assert (flag_at Hdr.SOP_POS (mem s) a = Hdr.SOP (hdr (hwDcpt n))) as ->
      by (unfold flag_at; by rewrite En).
    destruct (Hdr.SOP (hdr (hwDcpt n))); case_decide; try done.
    simpl. unfold buffer_kva at 2. rewrite En. by rewrite <- app_assoc.
Qed.

Lemma wp_TxAck_reinsert la :
  forall fuel Ak lf Q s,
    is_list (mem s) Ak la -> is_list (mem s) (_EnetTxFreeList s) lf ->
    NoDup (la ++ lf) -> (length la < fuel)%nat ->
    (forall m' F',
        is_list m' F' (lf ++ la) ->
        (forall a, a ∈ la -> payload_at m' a = unbuffer <$> payload_at (mem s) a) ->
        (forall a, a ∉ la -> payload_at m' a = payload_at (mem s) a) ->
        (forall a, a ∉ la ++ lf -> m' !! a = mem s !! a) ->
        Q (mkList 0 0) (set_TxFree F' (set_mem m' s))) ->
    wp (TxAck_reinsert fuel Ak) Q s.
Proof.
  induction la as [|a la IH]; intros fuel Ak lf Q s HAk HF Hnd Hfuel HQ;
    (destruct fuel as [|fuel]; [simpl in Hfuel; lia|]);
    cbn [TxAck_reinsert]; apply wp_bind.
  - eapply wp_ListRemoveHead_nil; [done|]. simpl. apply wp_ret.
    specialize (HQ (mem s) (_EnetTxFreeList s)). rewrite app_nil_r in HQ.
    destruct s. apply HQ; try done; intros a Ha; by apply elem_of_nil in Ha.
  - eapply wp_ListRemoveHead_cons; [done|]. intros Ak' HAk'.
    destruct s as [m0 tf tb rf rb r]. msimpl.
    assert (a <> 0) as Ha by (eapply is_list_nonnull; [exact HAk|set_solver]).
    destruct (is_list_is_Some _ _ _ a HAk) as [n Hn]; [set_solver|].
    destruct (Z.eqb_spec a 0) as [|_]; [done|].
    apply NoDup_cons in Hnd as [Hnotin Hnd].
    assert (Hala : a ∉ la) by set_solver.
    assert (Half : a ∉ lf) by set_solver.
    apply NoDup_app in Hnd as (Hndla & Hdisj & Hndlf).
    apply wp_bind. eapply wp_update; [done..|]. msimpl.
    match goal with |- context [<[a := ?x]> m0] => set (n1 := x) end.
    assert (Hext : forall b, b <> a -> <[a := n1]> m0 !! b = m0 !! b).
    { intros b Hb. by rewrite lookup_insert_ne. }
    apply wp_bind, wp_gets. msimpl.
    apply wp_bind. eapply wp_ListAddTail with (l := lf); msimpl.
    { eapply is_list_ext; [exact HF|]. intros b Hb. rewrite Hext; [done|by intros ->]. }
    { done. }
    { done. }
    { by rewrite lookup_insert_eq. }
    intros m1 F1 HF1 _ Hpay1 Hframe1. msimpl.
    apply wp_bind, wp_modify. msimpl.
    assert (Hm1 : forall b, b <> a -> b ∉ lf -> m1 !! b = m0 !! b).
    { intros b Hb1 Hb2. by rewrite Hframe1, Hext. }
    assert (Hp1 : forall b, b <> a -> payload_at m1 b = payload_at m0 b).
    { intros b Hb. rewrite Hpay1. unfold payload_at. by rewrite Hext. }
    eapply IH with (lf := lf ++ [a]); msimpl.
    + eapply is_list_ext; [exact HAk'|]. intros b Hb.
      rewrite Hm1; [done|by intros ->|]. intros Hin. by eapply (Hdisj b).
    + done.
    + assert (HP : la ++ lf ++ [a] ≡ₚ a :: la ++ lf).
      { rewrite app_assoc. by rewrite <- Permutation_cons_append. }
      rewrite HP. apply NoDup_cons. split; [set_solver|].
      apply NoDup_app. by repeat split.
    + simpl in Hfuel. lia.
    + intros m' F' HF' Hin Hout Hframe. apply (HQ m' F').
      * by rewrite <- app_assoc in HF'.
      * intros b Hb. apply elem_of_cons in Hb as [->|Hb].
        -- rewrite Hout by done. rewrite Hpay1. unfold payload_at.
           by rewrite lookup_insert_eq, Hn.
        -- rewrite Hin by done. f_equal. apply Hp1. by intros ->.
      * intros b Hb. rewrite Hout by set_solver. apply Hp1. set_solver.
      * intros b Hb. rewrite Hframe by set_solver. apply Hm1; set_solver.
Qed.

Lemma wp_TxAcknowledgeBuffer fuel pBuff ackFnc lb t lf la kept n f s :
  is_list (mem s) (_EnetTxBusyList s) (lb ++ [t]) ->
  is_list (mem s) (_EnetTxFreeList s) lf ->
  NoDup ((lb ++ [t]) ++ lf) ->
  flag_at Hdr.SOP_POS (mem s) t = false -> flag_at Hdr.EOP_POS (mem s) t = false ->
  ack_scan (mem s) pBuff false (lb ++ [t]) = Some (la, kept, n, f) ->
  (length (lb ++ [t]) < fuel)%nat ->
  wp (DRV_ETHMAC_LibTxAcknowledgeBuffer fuel pBuff ackFnc)
     (fun r s' =>
        r = (ack_result n f,
             if ackFnc then map (buffer_kva (mem s)) (packet_heads (mem s) la)
             else []) /\
        is_list (mem s') (_EnetTxBusyList s') kept /\
        is_list (mem s') (_EnetTxFreeList s') (lf ++ la) /\
        (forall a, a ∈ la -> payload_at (mem s') a = unbuffer <$> payload_at (mem s) a) /\
        (forall a, a ∉ la -> payload_at (mem s') a = payload_at (mem s) a) /\
        (forall a, a ∉ (lb ++ [t]) ++ lf -> mem s' !! a = mem s !! a) /\
        _EnetRxFreeList s' = _EnetRxFreeList s /\
        _EnetRxBusyList s' = _EnetRxBusyList s /\
        pEthReg s' = pEthReg s) s.
Proof.
  intros HB HF Hnd Hsop Heop Hscan Hfuel.
  pose proof (ack_scan_perm _ _ _ _ _ _ _ _ Hscan) as Hperm.
  destruct (ack_scan_keeps_sentinel _ pBuff t lb Hsop Heop _ _ _ _ _ Hscan)
    as [kept' ->].
  assert (Hlen : (length la < fuel)%nat).
  { apply Permutation_length in Hperm. rewrite !length_app in Hperm.
    rewrite length_app in Hfuel. simpl in *. lia. }
  assert (Hnd2 : NoDup ((la ++ kept' ++ [t]) ++ lf)) by by rewrite Hperm.
  apply NoDup_app in Hnd2 as (Hnd3 & Hdisj & Hndlf).
  apply NoDup_app in Hnd3 as (Hndla & Hdisj3 & Hndk).
  destruct s as [m0 tf tb rf rb r]. msimpl.
  unfold DRV_ETHMAC_LibTxAcknowledgeBuffer. apply wp_bind, wp_gets. msimpl.
  apply wp_bind. eapply wp_GetAckedPacket; [exact HB|done|done|done|exact Hscan|].
  intros m1 R1 A1 HR1 HA1 Hpay1 Hframe1. msimpl.
  apply wp_bind, wp_modify. msimpl. apply wp_bind.
  assert (Hheads : packet_heads m1 la = packet_heads m0 la).
  { apply filter_flag_payload. intros a _. apply Hpay1. }
  assert (Hcalls : map (buffer_kva m1) (packet_heads m0 la)
                   = map (buffer_kva m0) (packet_heads m0 la)).
  { apply map_ext. intros a. by apply buffer_kva_payload. }
  set (calls := if ackFnc then map (buffer_kva m0) (packet_heads m0 la) else []).
  exists calls, (mkMachine m1 tf R1 rf rb r). split.
  { destruct ackFnc; [|done]. destruct HA1 as (Hseg1 & _).
    rewrite (TxAck_notify_run la fuel (head A1) [] (mkMachine m1 tf R1 rf rb r) Hseg1 Hlen).
    msimpl.
    by rewrite Hheads, Hcalls. }
  apply wp_bind. eapply wp_TxAck_reinsert with (la := la) (lf := lf); msimpl.
  - done.
  - eapply is_list_ext; [exact HF|]. intros a Ha. rewrite Hframe1; [done|].
    rewrite <- Hperm. intros Hin. by eapply (Hdisj a).
  - apply NoDup_app. split; [done|]. split; [|done].
    intros a Ha. apply Hdisj. set_solver.
  - done.
  - intros m2 F2 HF2 Hin2 Hout2 Hframe2. apply wp_ret. msimpl.
    split; [done|]. split; [|split; [done|]].
    { eapply is_list_ext; [exact HR1|]. intros a Ha. rewrite Hframe2; [done|].
      intros Hin. apply elem_of_app in Hin as [Hin|Hin].
      - by eapply (Hdisj3 a).
      - eapply (Hdisj a); [|done]. set_solver. }
    split; [|split; [|split; [|done]]].
    + intros a Ha. rewrite Hin2 by done. by rewrite Hpay1.
    + intros a Ha. rewrite Hout2 by done. by rewrite Hpay1.
    + intros a Ha. rewrite Hframe2, Hframe1; [done|set_solver|].
      rewrite <- Hperm in Ha. set_solver.
Qed.

(** X3: TX acknowledgment.  The TX busy list is [lb ++ [t]] with sentinel
    [t], and the scan of [_EthGetAckedPacket] over it detaches the nodes
    [la] of the completed packets asked for.  Then
    [DRV_ETHMAC_LibTxAcknowledgeBuffer] returns; the busy list keeps the
    other nodes in order, sentinel last; the detached nodes are appended to
    the TX free list in order, their buffer address cleared and header and
    status untouched; no other descriptor, the RX lists and the registers
    change; the callback, if there is one, is called once per detached
    packet, in order, with the virtual address of its first buffer.  The
    result is [OK] exactly when a node was detached. *)
Theorem TxAcknowledgeBuffer_returns_nodes fuel pBuff ackFnc lb t lf la kept n f s :
  is_list (mem s) (_EnetTxBusyList s) (lb ++ [t]) ->
  is_list (mem s) (_EnetTxFreeList s) lf ->
  NoDup ((lb ++ [t]) ++ lf) ->
  flag_at Hdr.SOP_POS (mem s) t = false -> flag_at Hdr.EOP_POS (mem s) t = false ->
  ack_scan (mem s) pBuff false (lb ++ [t]) = Some (la, kept, n, f) ->
  (length (lb ++ [t]) < fuel)%nat ->
  exists s' kept',
    DRV_ETHMAC_LibTxAcknowledgeBuffer fuel pBuff ackFnc s
      = Some ((ack_result n f,
               if ackFnc then map (buffer_kva (mem s)) (packet_heads (mem s) la)
               else []), s') /\
    kept = kept' ++ [t] /\
    is_list (mem s') (_EnetTxBusyList s') kept /\
    is_list (mem s') (_EnetTxFreeList s') (lf ++ la) /\
    Forall (fun a => payload_at (mem s') a = unbuffer <$> payload_at (mem s) a) la /\
    (forall a, a ∉ la -> payload_at (mem s') a = payload_at (mem s) a) /\
    _EnetRxFreeList s' = _EnetRxFreeList s /\
    _EnetRxBusyList s' = _EnetRxBusyList s /\
    pEthReg s' = pEthReg s /\
    (ack_result n f = DRV_ETHMAC_RES_OK <-> la <> []).
Proof.
  intros HB HF Hnd Hsop Heop Hscan Hfuel.
  destruct (ack_scan_keeps_sentinel _ pBuff t lb Hsop Heop _ _ _ _ _ Hscan)
    as [kept' Hk].
  destruct (wp_TxAcknowledgeBuffer fuel pBuff ackFnc lb t lf la kept n f s)
    as (r & s' & Hrun & -> & Hb' & Hf' & Hin & Hout & _ & Hrf & Hrb & Hreg); [done..|].
  exists s', kept'. split; [exact Hrun|]. split; [done|]. split; [done|].
  split; [done|]. split; [by apply Forall_forall|]. split; [done|].
  split; [done|]. split; [done|]. split; [done|].
  destruct (ack_scan_counts _ _ _ _ _ _ _ _ Hscan) as (Hn & Hz & _).
  unfold ack_result. destruct (Z.eqb_spec n 0) as [Hn0|Hn0]; simpl.
  - split; [by destruct f|]. intros Hla. by apply Hz in Hn0.
  - split; [|done]. intros _ Hla. by apply Hz in Hla.
Qed.

End TxAck.

Section TxSend.
Context {K : KMem}.
Implicit Types (m : gmap Z DRV_ETHMAC_DCPT_NODE) (l : list ptr) (p q a : ptr).
Implicit Types (s : machine) (L : DRV_ETHMAC_DCPT_LIST).
Implicit Types (d : DRV_ETHMAC_PKT_DCPT).

Lemma wp_TxSendPacket_loop pkts :
  forall used rest N ln lf' Q s,
    length used = length pkts -> Forall tx_buffer_ok pkts ->
    is_list (mem s) (_EnetTxFreeList s) (used ++ lf') -> is_list (mem s) N ln ->
    NoDup ((used ++ lf') ++ ln) ->
    (forall m' F' N',
        is_list m' F' lf' -> is_list m' N' (ln ++ used) ->
        (forall j a d, used !! j = Some a -> pkts !! j = Some d ->
           payload_at m' a = tx_dcpt d <$> mem s !! a) ->
        (forall a, a ∉ used -> payload_at m' a = payload_at (mem s) a) ->
        (forall a, a ∉ used -> a ∉ ln -> m' !! a = mem s !! a) ->
        wp (TxSendPacket_loop rest N' DRV_ETHMAC_RES_OK) Q
           (set_TxFree F' (set_mem m' s))) ->
    wp (TxSendPacket_loop (pkts ++ rest) N DRV_ETHMAC_RES_OK) Q s.
Proof.
  induction pkts as [|d pkts IH]; intros used rest N ln lf' Q s Hlen Hok HF HN Hnd HQ.
  - destruct used; [|done]. simpl in *. destruct s as [m0 tf tb rf rb r].
    specialize (HQ m0 tf N). msimpl. rewrite app_nil_r in HQ.
    by apply HQ.
  - destruct used as [|a used]; [done|]. simpl in Hlen.
    apply Forall_cons in Hok as [(Hb & Hn & Hkva) Hok].
    cbn [app TxSendPacket_loop].
    destruct (Z.eqb_spec (pBuff d) 0) as [|_]; [done|].
    destruct (Z.eqb_spec (nBytes d) 0) as [|_]; [done|].
    rewrite bool_decide_eq_true_2 by done. simpl andb. cbv iota.
    destruct s as [m0 tf tb rf rb r]. msimpl.
    pose proof Hnd as Hnd0.
    apply NoDup_app in Hnd as (HndF & Hdisj & Hndl).
    simpl in HndF. apply NoDup_cons in HndF as [Hau HndF].
    assert (Haln : a ∉ ln) by (apply Hdisj; set_solver).
    apply wp_bind. eapply wp_EthTxSchedBuffer_ok with (a := a) (lf := used ++ lf') (l := ln);
      msimpl; [done..|].
    intros m1 F1 L1 HF1 HL1 Hpa Hpo Hfr. msimpl.
    eapply (IH used rest L1 (ln ++ [a]) lf'); msimpl.
    + lia.
    + done.
    + done.
    + done.
    + assert (HP : (used ++ lf') ++ ln ++ [a] ≡ₚ a :: (used ++ lf') ++ ln).
      { rewrite app_assoc. by rewrite <- Permutation_cons_append. }
      rewrite HP. apply NoDup_cons. split; [set_solver|].
      apply NoDup_app. split; [done|]. split; [|done].
      intros x Hx. apply Hdisj. set_solver.
    + intros m' F' N' HF' HN' Hused Hother Hframe.
      apply (HQ m' F' N').
      * done.
      * by rewrite <- app_assoc in HN'.
      * intros j b d' Hj Hd. destruct j as [|j]; simpl in Hj, Hd.
        -- injection Hj as <-. injection Hd as <-.
           rewrite Hother by set_solver. exact Hpa.
        -- rewrite (Hused j b d' Hj Hd).
           assert (b <> a).
           { intros ->. apply Hau. apply elem_of_app. left.
             by eapply list_elem_of_lookup_2. }
           assert (b ∉ ln).
           { apply Hdisj. apply elem_of_cons. right. apply elem_of_app. left.
             by eapply list_elem_of_lookup_2. }
           by rewrite Hfr.
      * intros b Hbu. rewrite Hother by set_solver. apply Hpo. set_solver.
      * intros b Hb1 Hb2. rewrite Hframe by set_solver. apply Hfr; set_solver.
Qed.

Lemma TxSendPacket_loop_stop rest N res s :
  res <> DRV_ETHMAC_RES_OK -> TxSendPacket_loop rest N res s = Some ((res, N), s).
Proof.
  intros Hres. destruct rest as [|d rest]; [done|]. simpl.
  rewrite bool_decide_eq_false_2 by done. by rewrite andb_false_r.
Qed.

Lemma is_list_head m L l : is_list m L l -> head L = hd 0 l.
Proof. intros (Hseg & _). destruct l; simpl in *; [done|]. by destruct Hseg. Qed.

Lemma wp_TxSend_restore fuel res N used lf' Q s :
  res <> DRV_ETHMAC_RES_OK ->
  is_list (mem s) (_EnetTxFreeList s) lf' -> is_list (mem s) N used ->
  NoDup (lf' ++ used) -> (length used < fuel)%nat ->
  (forall m' F',
      is_list m' F' (lf' ++ used) ->
      (forall a, payload_at m' a = payload_at (mem s) a) ->
      (forall a, a ∉ lf' -> a ∉ used -> m' !! a = mem s !! a) ->
      Q res (set_TxFree F' (set_mem m' s))) ->
  wp (TxSend_finish fuel res N) Q s.
Proof.
  intros Hres HF HN Hnd Hfuel HQ. unfold TxSend_finish.
  rewrite decide_False by done. apply wp_bind.
  unfold DRV_ETHMAC_LIB_ListIsEmpty. rewrite (is_list_head _ _ _ HN).
  destruct s as [m0 tf tb rf rb r]. msimpl.
  destruct used as [|a used]; simpl hd.
  - simpl. apply wp_ret, wp_ret. specialize (HQ m0 tf). msimpl.
    rewrite app_nil_r in HQ. by apply HQ.
  - assert (a <> 0) as Ha by (eapply is_list_nonnull; [exact HN|set_solver]).
    destruct (Z.eqb_spec a 0) as [|_]; [done|]. simpl negb. cbv iota.
    apply wp_bind, wp_gets. msimpl. apply wp_bind.
    eapply wp_ListAppendTail; [exact HF|exact HN|done|done|].
    intros m' L' HL' Hpay Hframe. msimpl. apply wp_modify. msimpl.
    apply wp_ret. by apply (HQ m' L').
Qed.

Lemma wp_TxSendPacket_failure fuel pkts d rest used lf' s :
  length used = length pkts -> Forall tx_buffer_ok pkts ->
  pBuff d <> 0 -> nBytes d <> 0 ->
  IS_KVA (pBuff d) = false \/ lf' = [] ->
  is_list (mem s) (_EnetTxFreeList s) (used ++ lf') ->
  (length used < fuel)%nat ->
  wp (DRV_ETHMAC_LibTxSendPacket fuel (pkts ++ d :: rest))
     (fun res s' =>
        res = (if IS_KVA (pBuff d) then DRV_ETHMAC_RES_NO_DESCRIPTORS
               else DRV_ETHMAC_RES_USPACE_ERR) /\
        is_list (mem s') (_EnetTxFreeList s') (lf' ++ used) /\
        (forall j a d', used !! j = Some a -> pkts !! j = Some d' ->
           payload_at (mem s') a = tx_dcpt d' <$> mem s !! a) /\
        (forall a, a ∉ used -> payload_at (mem s') a = payload_at (mem s) a) /\
        (forall a, a ∉ used ++ lf' -> mem s' !! a = mem s !! a) /\
        _EnetTxBusyList s' = _EnetTxBusyList s /\
        _EnetRxFreeList s' = _EnetRxFreeList s /\
        _EnetRxBusyList s' = _EnetRxBusyList s /\
        pEthReg s' = pEthReg s) s.
Proof.
  intros Hlen Hok Hb Hn Hbad HF Hfuel.
  assert (Hnd : NoDup (used ++ lf')) by by destruct HF as (_ & _ & ?).
  unfold DRV_ETHMAC_LibTxSendPacket. apply wp_bind.
  destruct s as [m0 tf tb rf rb r]. msimpl.
  eapply wp_TxSendPacket_loop with (used := used) (ln := []) (lf' := lf'); msimpl;
    [done|done|done|by apply is_list_nil|by rewrite app_nil_r|].
  intros m1 F1 N1 HF1 HN1 Hused Hother Hframe. msimpl. simpl in HN1.
  set (res := if IS_KVA (pBuff d) then DRV_ETHMAC_RES_NO_DESCRIPTORS
              else DRV_ETHMAC_RES_USPACE_ERR).
  assert (Hres : res <> DRV_ETHMAC_RES_OK) by (unfold res; by destruct (IS_KVA _)).
  assert (Hnd' : NoDup (lf' ++ used)).
  { assert (HP : lf' ++ used ≡ₚ used ++ lf') by apply Permutation_app_comm.
    by rewrite HP. }
  assert (Hfin : wp (TxSend_finish fuel res N1)
            (fun res0 s' =>
               res0 = res /\
               is_list (mem s') (_EnetTxFreeList s') (lf' ++ used) /\
               (forall j a d', used !! j = Some a -> pkts !! j = Some d' ->
                  payload_at (mem s') a = tx_dcpt d' <$> m0 !! a) /\
               (forall a, a ∉ used -> payload_at (mem s') a = payload_at m0 a) /\
               (forall a, a ∉ used ++ lf' -> mem s' !! a = m0 !! a) /\
               _EnetTxBusyList s' = tb /\ _EnetRxFreeList s' = rf /\
               _EnetRxBusyList s' = rb /\ pEthReg s' = r)
            (mkMachine m1 F1 tb rf rb r)).
  { eapply wp_TxSend_restore with (used := used) (lf' := lf'); msimpl; [done..|].
    intros m2 F2 HF2 Hpay2 Hframe2. msimpl. split; [done|]. split; [done|].
    split; [|split; [|split; [|done]]].
    - intros j a d' Hj Hd. rewrite Hpay2. by eapply Hused.
    - intros a Ha. rewrite Hpay2. by apply Hother.
    - intros a Ha. rewrite Hframe2 by set_solver. apply Hframe; set_solver. }
  eexists (res, N1), (mkMachine m1 F1 tb rf rb r). split; [|exact Hfin].
  cbn [TxSendPacket_loop].
  destruct (Z.eqb_spec (pBuff d) 0) as [|_]; [done|].
  destruct (Z.eqb_spec (nBytes d) 0) as [|_]; [done|].
  rewrite bool_decide_eq_true_2 by done. simpl negb. simpl andb. cbv iota.
  unfold bind at 1. unfold _EthTxSchedBuffer, res.
  destruct (IS_KVA (pBuff d)) eqn:Ekva; simpl negb; cbv iota.
  - destruct Hbad as [Hbad|Hbad]; [done|]. subst lf'. apply is_list_nil in HF1. subst F1.
    unfold bind, gets, modify, ret, DRV_ETHMAC_LIB_ListRemoveHead. simpl.
    by rewrite TxSendPacket_loop_stop.
  - cbn [negb andb]. unfold ret at 1. by rewrite TxSendPacket_loop_stop.
Qed.

(** X4: a TX packet that cannot be scheduled costs no descriptor.  The first
    [length pkts] elements of the chain are schedulable and take the nodes
    [used] off the TX free list; the next element [d] is refused, for a
    buffer outside the kernel windows ([USPACE_ERR]) or because the free
    list has run out ([NO_DESCRIPTORS]).  Then
    [DRV_ETHMAC_LibTxSendPacket] returns that error; the TX free list
    holds the same nodes as before, the ones taken now at its end; the
    restored nodes keep the descriptor written for the abandoned request;
    no node off the free list, no other list and no register has changed:
    nothing was handed to the hardware. *)
Theorem TxSendPacket_failure_restores fuel pkts d rest used lf' s :
  length used = length pkts -> Forall tx_buffer_ok pkts ->
  pBuff d <> 0 -> nBytes d <> 0 ->
  IS_KVA (pBuff d) = false \/ lf' = [] ->
  is_list (mem s) (_EnetTxFreeList s) (used ++ lf') ->
  (length used < fuel)%nat ->
  exists s',
    DRV_ETHMAC_LibTxSendPacket fuel (pkts ++ d :: rest) s
      = Some (if IS_KVA (pBuff d) then DRV_ETHMAC_RES_NO_DESCRIPTORS
              else DRV_ETHMAC_RES_USPACE_ERR, s') /\
    is_list (mem s') (_EnetTxFreeList s') (lf' ++ used) /\
    lf' ++ used ≡ₚ used ++ lf' /\
    (forall j a d', used !! j = Some a -> pkts !! j = Some d' ->
       payload_at (mem s') a = tx_dcpt d' <$> mem s !! a) /\
    (forall a, a ∉ used -> payload_at (mem s') a = payload_at (mem s) a) /\
    (forall a, a ∉ used ++ lf' -> mem s' !! a = mem s !! a) /\
    _EnetTxBusyList s' = _EnetTxBusyList s /\
    _EnetRxFreeList s' = _EnetRxFreeList s /\
    _EnetRxBusyList s' = _EnetRxBusyList s /\
    pEthReg s' = pEthReg s.
Proof.
  intros Hlen Hok Hb Hn Hbad HF Hfuel.
  destruct (wp_TxSendPacket_failure fuel pkts d rest used lf' s)
    as (res & s' & Hrun & -> & HF' & Hused & Hoth & Hframe & Htb & Hrf & Hrb & Hreg);
    [done..|].
  exists s'. split; [exact Hrun|]. split; [done|].
  split; [apply Permutation_app_comm|]. by repeat split.
Qed.

Lemma wp_mark_packet {A} h e nh ne (k : M A) Q s :
  h <> 0 -> e <> 0 -> mem s !! h = Some nh -> mem s !! e = Some ne ->
  (forall m2,
      (forall a, next <$> m2 !! a = next <$> mem s !! a) ->
      (forall a, payload_at m2 a =
                 mark_dcpt (bool_decide (a = h)) (bool_decide (a = e))
                   <$> payload_at (mem s) a) ->
      (forall a, a <> h -> a <> e -> m2 !! a = mem s !! a) ->
      wp k Q (set_mem m2 s)) ->
  wp (update h (with_hdr (Hdr.set Hdr.SOP_POS true)) ;;
      update e (with_hdr (Hdr.set Hdr.EOP_POS true)) ;; k) Q s.
Proof.
  intros Hh He Hnh Hne HQ. destruct s as [m0 tf tb rf rb r]. msimpl.
  apply wp_bind. eapply wp_update; [done..|]. msimpl. apply wp_bind.
  destruct (decide (e = h)) as [->|Hne'].
  - eapply wp_update; [done|msimpl; apply lookup_insert_eq|]. msimpl.
    rewrite insert_insert_eq. apply (HQ _).
    + intros a. destruct (decide (a = h)) as [->|Ha].
      * by rewrite lookup_insert_eq, Hnh.
      * by rewrite lookup_insert_ne.
    + intros a. unfold payload_at. destruct (decide (a = h)) as [->|Ha].
      * rewrite lookup_insert_eq, Hnh. simpl. by rewrite bool_decide_eq_true_2.
      * rewrite lookup_insert_ne by done. rewrite !bool_decide_eq_false_2 by done.
        destruct (m0 !! a) as [n|]; [|done]. simpl. unfold payload. by destruct n as [? []].
    + intros a Ha _. by rewrite lookup_insert_ne.
  - eapply wp_update; [done|msimpl; by rewrite lookup_insert_ne|]. msimpl.
    apply (HQ _).
    + intros a. destruct (decide (a = e)) as [->|Ha].
      * by rewrite lookup_insert_eq, Hne.
      * rewrite lookup_insert_ne by done. destruct (decide (a = h)) as [->|Ha'].
        -- by rewrite lookup_insert_eq, Hnh.
        -- by rewrite lookup_insert_ne.
    + intros a. unfold payload_at. destruct (decide (a = e)) as [->|Ha].
      * rewrite lookup_insert_eq, Hne. simpl.
        rewrite bool_decide_eq_false_2 by done. by rewrite bool_decide_eq_true_2.
      * rewrite lookup_insert_ne by done. destruct (decide (a = h)) as [->|Ha'].
        -- rewrite lookup_insert_eq, Hnh. simpl.
           rewrite bool_decide_eq_true_2 by done. by rewrite bool_decide_eq_false_2.
        -- rewrite lookup_insert_ne by done. rewrite !bool_decide_eq_false_2 by done.
           destruct (m0 !! a) as [n|]; [|done]. simpl. unfold payload.
           by destruct n as [? []].
    + intros a Ha1 Ha2. by rewrite !lookup_insert_ne.
Qed.

Lemma wp_EthTxSchedList fuel N h ln lb t Q s :
  is_list (mem s) N (h :: ln) -> is_list (mem s) (_EnetTxBusyList s) (lb ++ [t]) ->
  NoDup ((lb ++ [t]) ++ h :: ln) -> (length ln < fuel)%nat ->
  (forall m' B',
      is_list m' B' (lb ++ [t] ++ ln ++ [h]) ->
      head B' = head (_EnetTxBusyList s) ->
      payload_at m' t =
        (fun x => let '(w, b, st) := mark_dcpt true (bool_decide (ln = [])) x in
                  (Hdr.set Hdr.EOWN_POS true w, b, st)) <$> payload_at (mem s) h ->
      (forall a, a ∈ ln ->
         payload_at m' a =
           mark_dcpt false (bool_decide (Some a = last ln)) <$> payload_at (mem s) a) ->
      hdr_at m' h = Some 0 -> pEDBuff_at m' h = Some 0 ->
      (forall a, a <> t -> a ∉ h :: ln -> payload_at m' a = payload_at (mem s) a) ->
      (forall a, a ∉ (lb ++ [t]) ++ h :: ln -> m' !! a = mem s !! a) ->
      Q tt (set_regs (tx_started (head B') (pEthReg s))
              (set_TxBusy B' (set_mem m' s)))) ->
  wp (_EthTxSchedList fuel N) Q s.
Proof.
  intros HN HB Hnd Hfuel HQ. unfold _EthTxSchedList, DRV_ETHMAC_LIB_ListIsEmpty.
  rewrite (is_list_head _ _ _ HN). simpl hd.
  assert (h <> 0) as Hh by (eapply is_list_nonnull; [exact HN|set_solver]).
  destruct (Z.eqb_spec h 0) as [|_]; [done|]. simpl negb. cbv iota.
  set (e := default h (last ln)).
  assert (Htl : tail N = e).
  { destruct HN as (_ & -> & _). unfold e. destruct ln as [|x ln] using rev_ind; [done|].
    by rewrite app_comm_cons, !last_snoc. }
  assert (He : e ∈ h :: ln).
  { unfold e. destruct (last ln) as [x|] eqn:El; simpl; [|set_solver].
    apply last_Some in El as [l' ->]. set_solver. }
  assert (e <> 0) as He0 by (eapply is_list_nonnull; [exact HN|done]).
  destruct (is_list_is_Some _ _ _ h HN) as [nh Hnh]; [set_solver|].
  destruct (is_list_is_Some _ _ _ e HN) as [ne Hne]; [done|].
  rewrite Htl.
  pose proof Hnd as Hnd0.
  apply NoDup_app in Hnd as (HndB & Hdisj & HndN).
  assert (Heq : forall a, a ∈ h :: ln ->
            bool_decide (a = e) =
              if decide (a = h) then bool_decide (ln = [])
              else bool_decide (Some a = last ln)).
  { intros a Ha. unfold e. destruct (decide (a = h)) as [->|Hah].
    - destruct ln as [|x ln] using rev_ind; [by rewrite !bool_decide_eq_true_2|].
      rewrite last_snoc. simpl. apply NoDup_cons in HndN as [Hnot _].
      rewrite !bool_decide_eq_false_2; [done| |].
      + by destruct ln.
      + intros ->. set_solver.
    - destruct (last ln) as [x|] eqn:El; simpl.
      + apply bool_decide_ext. split; [by intros ->|by intros [= ->]].
      + by rewrite !bool_decide_eq_false_2. }
  destruct s as [m0 tf tb rf rb r]. msimpl.
  eapply (wp_mark_packet h e nh ne); [done..|]. msimpl.
  intros m2 Hnx2 Hpay2 Hfr2.
  apply wp_bind, wp_gets. msimpl. apply wp_bind.
  eapply wp_AppendBusyList with (lb := lb) (t := t) (h := h) (ln := ln); msimpl.
  { eapply is_list_ext; [exact HB|]. intros a _. apply Hnx2. }
  { eapply is_list_ext; [exact HN|]. intros a _. apply Hnx2. }
  { done. }
  { done. }
  intros m' B' (HB' & Hhd & Hpt & Hh0 & Hb0 & Hpo & Hfr). msimpl.
  unfold ack_count. rewrite add_BUFCDEC_0.
  apply wp_bind, wp_modify. msimpl. apply wp_bind.
  unfold DRV_ETH_TxPacketDescAddrGet. apply wp_gets. msimpl. apply wp_bind.
  assert (Hfin : Q tt (mkMachine m' tf B' rf rb (tx_started (head B') r))).
  { apply (HQ m' B'); try done.
    - rewrite Hpt. specialize (Hpay2 h). unfold payload_at in Hpay2 |- *.
      rewrite Hnh in Hpay2 |- *. destruct (m2 !! h) as [n2|]; [|done].
      simpl in Hpay2 |- *.
      rewrite bool_decide_eq_true_2 in Hpay2 by done.
      rewrite (Heq h) in Hpay2 by set_solver. rewrite decide_True in Hpay2 by done.
      unfold payload in Hpay2 |- *. simpl in Hpay2 |- *.
      injection Hpay2 as Hw Hb Hs. by rewrite Hw, Hb, Hs.
    - intros a Ha. assert (a <> h).
      { intros ->. by apply NoDup_cons in HndN as [? _]. }
      assert (a <> t).
      { intros ->. eapply (Hdisj t); set_solver. }
      rewrite Hpo by done. rewrite Hpay2. rewrite bool_decide_eq_false_2 by done.
      rewrite (Heq a) by set_solver. by rewrite decide_False.
    - intros a Hat Ha. rewrite Hpo by set_solver. rewrite Hpay2.
      rewrite !bool_decide_eq_false_2 by set_solver.
      unfold payload_at. destruct (m0 !! a) as [n|]; [|done]. simpl. unfold payload.
      by destruct n as [? []].
    - intros a Ha. rewrite Hfr by set_solver. apply Hfr2; set_solver. }
  unfold tx_started in Hfin.
  destruct (ETHTXST r =? 0).
  - apply wp_bind, wp_gets. msimpl. unfold DRV_ETH_TxPacketDescAddrSet.
    apply wp_modify. msimpl. unfold DRV_ETH_TxRTSEnable. apply wp_modify. by msimpl.
  - apply wp_ret. unfold DRV_ETH_TxRTSEnable. apply wp_modify. by msimpl.
Qed.

Lemma Hdr_set_id pos b w : 0 <= pos -> Hdr.get pos w = b -> Hdr.set pos b w = w.
Proof.
  intros Hpos Hg. apply Z.bits_inj'. intros i Hi.
  fold (Hdr.get i (Hdr.set pos b w)). fold (Hdr.get i w).
  rewrite Hdr_get_set by done. destruct (decide (i = pos)) as [->|]; [by rewrite Hg|done].
Qed.

Lemma tx_marked_get pos first last w :
  pos <> Hdr.SOP_POS -> pos <> Hdr.EOP_POS ->
  Hdr.get pos (tx_marked first last w) = Hdr.get pos w.
Proof.
  intros H1 H2. unfold tx_marked. destruct first, last;
    rewrite ?Hdr_get_set by done; by rewrite ?decide_False by done.
Qed.

Lemma tx_marked_owned first last w :
  Hdr.EOWN w = true ->
  Hdr.set Hdr.EOWN_POS true (tx_marked first last w) = tx_marked first last w.
Proof.
  intros Ho. apply Hdr_set_id; [done|]. by rewrite tx_marked_get.
Qed.

Lemma last_NoDup_lookup {A} (l : list A) (j : nat) (a : A) :
  NoDup l -> l !! j = Some a -> (Some a = last l <-> S j = length l).
Proof.
  intros Hnd Hj. rewrite last_lookup. split.
  - intros Hl. symmetry in Hl.
    pose proof (NoDup_lookup _ _ _ _ Hnd Hj Hl) as E.
    apply lookup_lt_Some in Hj. lia.
  - intros E. rewrite <- Hj. f_equal. lia.
Qed.

Lemma TxSendPacket_loop_end rest N s :
  chain_ends rest ->
  TxSendPacket_loop rest N DRV_ETHMAC_RES_OK s = Some ((DRV_ETHMAC_RES_OK, N), s).
Proof.
  destruct rest as [|d rest]; [done|]. simpl. intros [->| ->]; [done|].
  by rewrite andb_false_r.
Qed.

Lemma wp_TxSendPacket_ok fuel pkts rest h ln lf' lb t s :
  length (h :: ln) = length pkts -> Forall tx_buffer_ok pkts -> chain_ends rest ->
  is_list (mem s) (_EnetTxFreeList s) ((h :: ln) ++ lf') ->
  is_list (mem s) (_EnetTxBusyList s) (lb ++ [t]) ->
  NoDup (((h :: ln) ++ lf') ++ lb ++ [t]) -> (length ln < fuel)%nat ->
  wp (DRV_ETHMAC_LibTxSendPacket fuel (pkts ++ rest))
     (fun res s' =>
        res = DRV_ETHMAC_RES_OK /\
        is_list (mem s') (_EnetTxFreeList s') lf' /\
        is_list (mem s') (_EnetTxBusyList s') (lb ++ [t] ++ ln ++ [h]) /\
        (forall j a u d,
           (t :: ln) !! j = Some a -> (h :: ln) !! j = Some u -> pkts !! j = Some d ->
           payload_at (mem s') a =
             (fun x => mark_dcpt (bool_decide (j = 0%nat))
                         (bool_decide (S j = length pkts)) (tx_dcpt d x))
               <$> mem s !! u) /\
        hdr_at (mem s') h = Some 0 /\ pEDBuff_at (mem s') h = Some 0 /\
        (forall a, a ∉ t :: h :: ln -> payload_at (mem s') a = payload_at (mem s) a) /\
        (forall a, a ∉ ((h :: ln) ++ lf') ++ lb ++ [t] -> mem s' !! a = mem s !! a) /\
        pEthReg s' = tx_started (hd t lb) (pEthReg s) /\
        _EnetRxFreeList s' = _EnetRxFreeList s /\
        _EnetRxBusyList s' = _EnetRxBusyList s) s.
Proof.
  intros Hlen Hok Hend HF HB Hnd Hfuel.
  unfold DRV_ETHMAC_LibTxSendPacket. apply wp_bind.
  destruct s as [m0 tf tb rf rb r]. msimpl.
  pose proof Hnd as Hnd0.
  apply NoDup_app in Hnd as (HndF & Hdisj & HndB).
  pose proof HndF as HndF0.
  apply NoDup_app in HndF as (HndU & HdisjU & Hndlf).
  eapply wp_TxSendPacket_loop with (used := h :: ln) (ln := []) (lf' := lf'); msimpl;
    [done|done|done|by apply is_list_nil|by rewrite app_nil_r|].
  intros m1 F1 N1 HF1 HN1 Hused Hother Hframe. msimpl. simpl in HN1.
  eexists _, _. split; [by apply TxSendPacket_loop_end|].
  unfold TxSend_finish. rewrite decide_True by done. apply wp_bind.
  assert (HB1 : is_list m1 tb (lb ++ [t])).
  { eapply is_list_ext; [exact HB|]. intros a Ha. rewrite Hframe; [done| |set_solver].
    intros Hin. eapply (Hdisj a); [|done]. set_solver. }
  eapply wp_EthTxSchedList with (h := h) (ln := ln) (lb := lb) (t := t); msimpl.
  { done. }
  { done. }
  { apply NoDup_app. split; [done|]. split; [|done].
    intros a Ha Ha'. eapply (Hdisj a); [|done]. set_solver. }
  { done. }
  intros m2 B2 HB2 Hhd Hpt Hpl Hh0 Hb0 Hpo Hfr. msimpl. apply wp_ret. msimpl.
  assert (Hhdb : head tb = hd t lb).
  { rewrite (is_list_head _ _ _ HB). by destruct lb. }
  split; [done|]. split.
  { eapply is_list_ext; [exact HF1|]. intros a Ha. rewrite Hfr; [done|].
    intros Hin. apply elem_of_app in Hin as [Hin|Hin].
    - eapply (Hdisj a); [|done]. set_solver.
    - eapply (HdisjU a); [|done]. done. }
  split; [done|]. split; [|split; [done|split; [done|split; [|split]]]].
  - intros j a u d Ha Hu Hd. destruct j as [|j]; simpl in Ha, Hu.
    + injection Ha as <-. injection Hu as <-.
      rewrite Hpt, (Hused 0%nat h d) by done.
      destruct (m0 !! h) as [nh|]; [|done]. simpl. f_equal.
      rewrite ?bool_decide_eq_true_2 by done.
      assert (bool_decide (ln = []) = bool_decide (1%nat = length pkts)) as ->.
      { apply bool_decide_ext. rewrite <- Hlen. simpl. split; [by intros ->|].
        intros E. destruct ln; [done|simpl in E; lia]. }
      by rewrite tx_marked_owned by apply tx_hdr_EOWN.
    + rewrite Hu in Ha. injection Ha as ->.
      assert (Hin : a ∈ ln) by by eapply list_elem_of_lookup_2.
      rewrite Hpl by done. rewrite (Hused (S j) a d) by done.
      destruct (m0 !! a) as [na|]; [|done]. simpl. f_equal.
      rewrite ?bool_decide_eq_false_2 by done.
      assert (bool_decide (Some a = last ln) = bool_decide (S (S j) = length pkts)) as ->.
      { apply bool_decide_ext. apply NoDup_cons in HndU as [_ HndL].
        rewrite (last_NoDup_lookup ln j a HndL Hu). rewrite <- Hlen. simpl. lia. }
      done.
  - intros a Ha. rewrite Hpo by set_solver. apply Hother. set_solver.
  - intros a Ha. rewrite Hfr by set_solver. apply Hframe; set_solver.
  - by rewrite Hhd, Hhdb.
Qed.

Lemma tx_marked_SOP last w : Hdr.SOP (tx_marked true last w) = true.
Proof.
  unfold tx_marked, Hdr.SOP. destruct last; rewrite !Hdr_get_set by done.
  - rewrite decide_False by done. by rewrite decide_True.
  - by rewrite decide_True.
Qed.

Lemma tx_marked_EOP first w : Hdr.EOP (tx_marked first true w) = true.
Proof.
  unfold tx_marked, Hdr.EOP. rewrite Hdr_get_set by done. by rewrite decide_True.
Qed.

Lemma TxGetBufferStatus_run fuel b v l s :
  is_list (mem s) (_EnetTxBusyList s) l -> (length l < fuel)%nat ->
  DRV_ETHMAC_LibTxGetBufferStatus fuel b (Some v) s =
    Some (match List.find (starts_packet (mem s) (KVA_TO_PA b)) l with
          | Some a =>
            if flag_at Hdr.EOWN_POS (mem s) a
            then (DRV_ETHMAC_RES_PACKET_QUEUED, Some 0)
            else (DRV_ETHMAC_RES_OK, Some (stat_addr a))
          | None => (DRV_ETHMAC_RES_NO_PACKET, Some 0)
          end, s).
Proof.
  intros (Hseg & _ & _) Hf. unfold DRV_ETHMAC_LibTxGetBufferStatus, _EnetFindPacket.
  unfold bind at 1. unfold gets. unfold bind at 1.
  rewrite (EnetFindPacket_loop_run fuel _ _ l s Hseg Hf).
  destruct (List.find _ l) as [a|] eqn:Efind; simpl; [|done].
  apply find_some in Efind as [Hin Hst].
  assert (a <> 0) as Ha by (eapply lseg_nonnull; [exact Hseg|by apply list_elem_of_In]).
  destruct (Z.eqb_spec a 0) as [|_]; [done|]. simpl.
  unfold starts_packet in Hst. unfold bind, load, flag_at.
  destruct (Z.eqb_spec a 0) as [|_]; [done|].
  destruct (mem s !! a) as [n|]; [|done]. unfold Hdr.EOWN.
  by destruct (Hdr.get Hdr.EOWN_POS (hdr (hwDcpt n))).
Qed.

(** X5: a packet of [length pkts] schedulable elements, with as many free
    TX descriptors [h :: ln] and the busy list [lb ++ [t]], goes out whole.
    [DRV_ETHMAC_LibTxSendPacket] returns [OK]; the busy chain is then
    [lb ++ [t] ++ ln ++ [h]]: from the old sentinel slot [t] on, the [j]-th
    descriptor carries the physical address and size of the [j]-th element,
    Hardware-owned, the start-of-packet mark set on the first and the
    end-of-packet mark on the last; [h] is the new empty sentinel; the
    descriptors of [lb] are untouched; the transmit request is raised, and
    the descriptor start address is written if it was still null. *)
Theorem TxSendPacket_schedules fuel pkts rest h ln lf' lb t s :
  length (h :: ln) = length pkts -> Forall tx_buffer_ok pkts -> chain_ends rest ->
  is_list (mem s) (_EnetTxFreeList s) ((h :: ln) ++ lf') ->
  is_list (mem s) (_EnetTxBusyList s) (lb ++ [t]) ->
  NoDup (((h :: ln) ++ lf') ++ lb ++ [t]) -> (length ln < fuel)%nat ->
  exists s',
    DRV_ETHMAC_LibTxSendPacket fuel (pkts ++ rest) s = Some (DRV_ETHMAC_RES_OK, s') /\
    is_list (mem s') (_EnetTxFreeList s') lf' /\
    is_list (mem s') (_EnetTxBusyList s') (lb ++ [t] ++ ln ++ [h]) /\
    (forall j a u d,
       (t :: ln) !! j = Some a -> (h :: ln) !! j = Some u -> pkts !! j = Some d ->
       payload_at (mem s') a =
         (fun x => mark_dcpt (bool_decide (j = 0%nat))
                     (bool_decide (S j = length pkts)) (tx_dcpt d x))
           <$> mem s !! u) /\
    Forall (fun a => flag_at Hdr.EOWN_POS (mem s') a = true) (t :: ln) /\
    flag_at Hdr.SOP_POS (mem s') t = true /\
    flag_at Hdr.EOP_POS (mem s') (default t (last ln)) = true /\
    hdr_at (mem s') h = Some 0 /\ pEDBuff_at (mem s') h = Some 0 /\
    (forall a, a ∈ lb -> payload_at (mem s') a = payload_at (mem s) a) /\
    pEthReg s' = tx_started (hd t lb) (pEthReg s) /\
    _EnetRxFreeList s' = _EnetRxFreeList s /\
    _EnetRxBusyList s' = _EnetRxBusyList s.
Proof.
  intros Hlen Hok Hend HF HB Hnd Hfuel.
  destruct (wp_TxSendPacket_ok fuel pkts rest h ln lf' lb t s)
    as (res & s' & Hrun & -> & HF' & HB' & Hpay & Hh0 & Hb0 & Hoth & _ & Hreg & Hrf & Hrb);
    [done..|].
  assert (Hdesc : forall j a, (t :: ln) !! j = Some a ->
            exists d st, pkts !! j = Some d /\
              payload_at (mem s') a =
                Some (mark_dcpt (bool_decide (j = 0%nat))
                        (bool_decide (S j = length pkts))
                        (tx_hdr (pBuff d) (nBytes d), KVA_TO_PA (pBuff d), st))).
  { intros j a Ha.
    assert (Hj : (j < length pkts)%nat).
    { apply lookup_lt_Some in Ha. rewrite <- Hlen. simpl in *. lia. }
    destruct (lookup_lt_is_Some_2 pkts j Hj) as [d Hd].
    assert (Hju : (j < length (h :: ln))%nat) by by rewrite Hlen.
    destruct (lookup_lt_is_Some_2 (h :: ln) j Hju) as [u Hu].
    destruct (is_list_is_Some _ _ _ u HF) as [nu Hnu].
    { apply elem_of_app. left. by eapply list_elem_of_lookup_2. }
    exists d, (stat (hwDcpt nu)). split; [done|].
    rewrite (Hpay j a u d Ha Hu Hd), Hnu. done. }
  assert (Hflag : forall j a pos, (t :: ln) !! j = Some a ->
            pos <> Hdr.SOP_POS -> pos <> Hdr.EOP_POS ->
            exists d, pkts !! j = Some d /\
              flag_at pos (mem s') a = Hdr.get pos (tx_hdr (pBuff d) (nBytes d))).
  { intros j a pos Ha H1 H2. destruct (Hdesc j a Ha) as (d & st & Hd & Hp).
    exists d. split; [done|]. unfold mark_dcpt in Hp.
    rewrite (flag_at_hdr_at _ _ _ _ (payload_at_hdr_at _ _ _ _ _ Hp)).
    by apply tx_marked_get. }
  exists s'. split; [exact Hrun|]. split; [done|]. split; [done|]. split; [done|].
  split; [|split; [|split; [|split; [done|split; [done|split; [|done]]]]]].
  - apply Forall_lookup. intros j a Ha.
    destruct (Hflag j a Hdr.EOWN_POS Ha) as (d & _ & ->); [done..|]. apply tx_hdr_EOWN.
  - destruct (Hdesc 0%nat t eq_refl) as (d & st & _ & Hp). unfold mark_dcpt in Hp.
    rewrite (flag_at_hdr_at _ _ _ _ (payload_at_hdr_at _ _ _ _ _ Hp)).
    rewrite bool_decide_eq_true_2 by done. apply tx_marked_SOP.
  - assert (Hl : (t :: ln) !! length ln = Some (default t (last ln))).
    { destruct ln as [|x ln] using rev_ind; [done|]. rewrite last_snoc. simpl.
      rewrite length_app. simpl. rewrite Nat.add_1_r. simpl.
      by rewrite lookup_app_r, Nat.sub_diag. }
    destruct (Hdesc _ _ Hl) as (d & st & _ & Hp). unfold mark_dcpt in Hp.
    rewrite (flag_at_hdr_at _ _ _ _ (payload_at_hdr_at _ _ _ _ _ Hp)).
    rewrite (bool_decide_eq_true_2 (S (length ln) = length pkts)) by by rewrite <- Hlen.
    apply tx_marked_EOP.
  - intros a Ha. apply Hoth. apply NoDup_app in Hnd as (HndF & Hdisj & HndB).
    apply NoDup_app in HndB as (_ & Hdt & _).
    intros Hin. apply elem_of_cons in Hin as [->|Hin].
    + eapply (Hdt t); set_solver.
    + eapply (Hdisj a); set_solver.
Qed.

Lemma starts_packet_payload m a w pa st pa' :
  payload_at m a = Some (w, pa, st) ->
  starts_packet m pa' a = Hdr.SOP w && (pa' =? pa).
Proof.
  unfold payload_at, payload, starts_packet. destruct (m !! a) as [n|]; [|done].
  simpl. by intros [= <- <- _].
Qed.

Lemma TxSendBuffer_as_packet fuel b n s :
  b <> 0 -> n <> 0 ->
  DRV_ETHMAC_LibTxSendBuffer fuel b n s = DRV_ETHMAC_LibTxSendPacket fuel [mkPkt b n] s.
Proof.
  intros Hb Hn. unfold DRV_ETHMAC_LibTxSendBuffer, DRV_ETHMAC_LibTxSendPacket.
  cbn [TxSendPacket_loop pBuff nBytes].
  destruct (Z.eqb_spec b 0) as [|_]; [done|].
  destruct (Z.eqb_spec n 0) as [|_]; [done|].
  rewrite bool_decide_eq_true_2 by done. cbn [negb andb]. unfold bind.
  by destruct (_EthTxSchedBuffer b n DRV_ETHMAC_LIB_ListInit s) as [[[r N] s1]|].
Qed.

(** X6: send, then ask.  [DRV_ETHMAC_LibTxSendBuffer] of a kernel buffer with
    a free descriptor [h] returns [OK] and the buffer sits in the old
    sentinel slot [t] as a one-descriptor packet (start and end marks,
    physical address, Hardware-owned), [h] being the new sentinel; asked
    about that buffer right after, [DRV_ETHMAC_LibTxGetBufferStatus] says
    [PACKET_QUEUED], provided no earlier node of the busy list starts a
    packet in the same buffer. *)
Theorem TxSendBuffer_then_queued fuel b n v h lf' lb t s :
  b <> 0 -> n <> 0 -> IS_KVA b = true ->
  is_list (mem s) (_EnetTxFreeList s) (h :: lf') ->
  is_list (mem s) (_EnetTxBusyList s) (lb ++ [t]) ->
  NoDup ((h :: lf') ++ lb ++ [t]) ->
  Forall (fun a => starts_packet (mem s) (KVA_TO_PA b) a = false) lb ->
  (S (length (lb ++ [t])) < fuel)%nat ->
  exists s' st,
    DRV_ETHMAC_LibTxSendBuffer fuel b n s = Some (DRV_ETHMAC_RES_OK, s') /\
    is_list (mem s') (_EnetTxFreeList s') lf' /\
    is_list (mem s') (_EnetTxBusyList s') (lb ++ [t; h]) /\
    payload_at (mem s') t = Some (tx_marked true true (tx_hdr b n), KVA_TO_PA b, st) /\
    flag_at Hdr.EOWN_POS (mem s') t = true /\
    hdr_at (mem s') h = Some 0 /\ pEDBuff_at (mem s') h = Some 0 /\
    TXRTS (pEthReg s') = true /\
    DRV_ETHMAC_LibTxGetBufferStatus fuel b (Some v) s'
      = Some ((DRV_ETHMAC_RES_PACKET_QUEUED, Some 0), s').
Proof.
  intros Hb Hn Hkva HF HB Hnd Hfree Hfuel.
  rewrite TxSendBuffer_as_packet by done.
  destruct (wp_TxSendPacket_ok fuel [mkPkt b n] [] h [] lf' lb t s)
    as (res & s' & Hrun & -> & HF' & HB' & Hpay & Hh0 & Hb0 & Hoth & _ & Hreg & _);
    [done|by repeat constructor|done|done|done|done|simpl; lia|].
  rewrite app_nil_r in Hrun. simpl in HB'.
  destruct (is_list_is_Some _ _ _ h HF) as [nh Hnh]; [set_solver|].
  pose proof (Hpay 0%nat t h (mkPkt b n) eq_refl eq_refl eq_refl) as Hpt.
  rewrite Hnh in Hpt. change (payload_at (mem s') t =
    Some (tx_marked true true (tx_hdr b n), KVA_TO_PA b, stat (hwDcpt nh))) in Hpt.
  assert (Hown : flag_at Hdr.EOWN_POS (mem s') t = true).
  { rewrite (flag_at_hdr_at _ _ _ _ (payload_at_hdr_at _ _ _ _ _ Hpt)).
    rewrite tx_marked_get by done. apply tx_hdr_EOWN. }
  exists s', (stat (hwDcpt nh)). split; [exact Hrun|]. split; [done|].
  split; [done|]. split; [done|]. split; [done|]. split; [done|]. split; [done|].
  split; [by rewrite Hreg|].
  rewrite (TxGetBufferStatus_run fuel b v (lb ++ [t; h]) s' HB')
    by (rewrite length_app in *; simpl in *; lia).
  assert (Hfind : List.find (starts_packet (mem s') (KVA_TO_PA b)) (lb ++ [t; h])
                  = Some t).
  { apply NoDup_app in Hnd as (_ & Hdisj & HndB).
    apply NoDup_app in HndB as (_ & Hdt & _).
    assert (Hlb : forall a, a ∈ lb ->
              starts_packet (mem s') (KVA_TO_PA b) a = false).
    { intros a Ha. rewrite Forall_forall in Hfree. rewrite <- (Hfree a Ha).
      assert (Hp : payload_at (mem s') a = payload_at (mem s) a).
      { apply Hoth. intros Hin. apply elem_of_cons in Hin as [->|Hin].
        - eapply (Hdt t); set_solver.
        - eapply (Hdisj a); set_solver. }
      unfold starts_packet. unfold payload_at, payload in Hp.
      destruct (mem s' !! a) as [n1|], (mem s !! a) as [n0|]; simpl in Hp; try done.
      by injection Hp as -> -> _. }
    clear -Hlb Hpt. induction lb as [|a lb IH]; simpl.
    - rewrite (starts_packet_payload _ _ _ _ _ _ Hpt).
      by rewrite tx_marked_SOP, Z.eqb_refl.
    - rewrite Hlb by set_solver. apply IH. intros x Hx. apply Hlb. set_solver. }
  by rewrite Hfind, Hown.
Qed.

(** X7: calls that schedule nothing change nothing.  A chain that ends at
    once makes [DRV_ETHMAC_LibTxSendPacket] return [OK]; a buffer outside
    the kernel windows makes [DRV_ETHMAC_LibTxSendBuffer] return
    [USPACE_ERR], before it looks at the free list; an empty TX free list
    makes it return [NO_DESCRIPTORS].  Each time the machine returned is the
    machine given. *)
Theorem TxSend_nothing_to_do :
  (forall fuel rest s,
      chain_ends rest ->
      DRV_ETHMAC_LibTxSendPacket fuel rest s = Some (DRV_ETHMAC_RES_OK, s)) /\
  (forall fuel b n s,
      IS_KVA b = false ->
      DRV_ETHMAC_LibTxSendBuffer fuel b n s = Some (DRV_ETHMAC_RES_USPACE_ERR, s)) /\
  (forall fuel b n s,
      IS_KVA b = true -> is_list (mem s) (_EnetTxFreeList s) [] ->
      DRV_ETHMAC_LibTxSendBuffer fuel b n s = Some (DRV_ETHMAC_RES_NO_DESCRIPTORS, s)).
Proof.
  split; [|split].
  - intros fuel rest s Hend. unfold DRV_ETHMAC_LibTxSendPacket, bind.
    by rewrite TxSendPacket_loop_end.
  - intros fuel b n s Hk. unfold DRV_ETHMAC_LibTxSendBuffer, _EthTxSchedBuffer, bind.
    by rewrite Hk.
  - intros fuel b n s Hk HF. apply is_list_nil in HF.
    unfold DRV_ETHMAC_LibTxSendBuffer, _EthTxSchedBuffer. rewrite Hk.
    destruct s as [m0 tf tb rf rb r]. simpl in HF. subst tf.
    by unfold bind, gets, modify, ret, DRV_ETHMAC_LIB_ListRemoveHead.
Qed.

End TxSend.

Section RxGetMore.
Context {K : KMem}.
Implicit Types (m : gmap Z DRV_ETHMAC_DCPT_NODE) (l : list ptr) (p q a : ptr).
Implicit Types (s : machine) (L : DRV_ETHMAC_DCPT_LIST).
Implicit Types (pPkt : list DRV_ETHMAC_PKT_DCPT).

Lemma chain_fill_full pPkt i frs :
  (length pPkt <= i)%nat -> chain_fill pPkt i frs = pPkt.
Proof.
  intros Hi. destruct frs; simpl;
    by destruct (Nat.ltb_spec i (length pPkt)) as [?|_]; [lia|].
Qed.

Lemma length_chain_fill frs : forall pPkt i, length (chain_fill pPkt i frs) = length pPkt.
Proof.
  induction frs as [|f frs IH]; intros pPkt i; simpl;
    destruct (i <? length pPkt)%nat; try done.
  - by rewrite length_insert.
  - by rewrite IH, length_insert.
Qed.

(** The walk over the nodes [body ++ [e]] of one packet, entered with the
    chain cursor at [i], for any [pnBuffs]. *)
Lemma RxGetPacket_parse_any pHead nH res pnBuffs body e :
  forall fuel pEDcpt q pPkt (i : nat) nb rb s,
    (length body < fuel)%nat ->
    lseg (mem s) pEDcpt (body ++ [e]) q ->
    Forall (fun a => flag_at Hdr.EOWN_POS (mem s) a = false) (body ++ [e]) ->
    Forall (fun a => flag_at Hdr.EOP_POS (mem s) a = false) body ->
    flag_at Hdr.EOP_POS (mem s) e = true ->
    rb = Z.of_nat i -> (i <= length pPkt)%nat -> rb <= nb ->
    ((i < length pPkt)%nat -> nb = rb) ->
    pHead <> 0 -> mem s !! pHead = Some nH ->
    RxGetPacket_parse fuel pHead pEDcpt pPkt i pnBuffs nb rb res s =
      Some
        (if (i + length body + 1 <=? length pPkt)%nat then
           ((res, chain_fill pPkt i (fragments (mem s) (body ++ [e])),
             (fun _ => nb + Z.of_nat (length body + 1)) <$> pnBuffs),
            set_mem (<[pHead := with_hdr (Hdr.set Hdr.rx_wack_POS true) nH]> (mem s)) s)
         else
           match pnBuffs with
           | Some _ =>
             ((match pPkt with [] => res | _ => DRV_ETHMAC_RES_RX_PKT_SPLIT_ERR end,
               chain_fill pPkt i (fragments (mem s) (body ++ [e])),
               Some (nb + Z.of_nat (length body + 1))), s)
           | None =>
             ((res, chain_fill pPkt i (fragments (mem s) (body ++ [e])), None), s)
           end).
Proof.
  induction body as [|a body IH];
    intros fuel pEDcpt q pPkt i nb rb s Hfuel Hseg Hown Heop Hlast Hrb Hi Hle Heq
      HpH HnH;
    (destruct fuel as [|fuel]; [simpl in Hfuel; lia|]); simpl in Hseg.
  - destruct Hseg as (-> & He & Hseg).
    destruct (mem s !! e) as [n|] eqn:En; [|done].
    apply Forall_cons in Hown as [Heown _].
    unfold flag_at in Heown, Hlast. rewrite En in Heown, Hlast.
    fold (Hdr.EOWN (hdr (hwDcpt n))) in Heown. fold (Hdr.EOP (hdr (hwDcpt n))) in Hlast.
    cbn [RxGetPacket_parse app length fragments map]. rewrite En. rewrite Nat.add_0_r.
    cbn [chain_fill].
    destruct (Nat.ltb_spec i (length pPkt)) as [Hlt|Hge].
    + cbn [orb]. unfold bind at 1. unfold load.
      destruct (Z.eqb_spec e 0) as [|_]; [done|]. rewrite En.
      destruct (Nat.ltb_spec i (length pPkt)) as [_|?]; [|lia].
      rewrite Heown, Hlast. rewrite !length_insert.
      destruct (Nat.leb_spec (i + 1) (length pPkt)) as [_|?]; [|lia].
      unfold fragment, dcpt_kva.
      set (pPkt1 := <[i := _]> pPkt).
      set (pPkt2 := if (S i <? length pPkt)%nat then _ else pPkt1).
      assert (Hlen2 : length pPkt2 = length pPkt).
      { unfold pPkt2, pPkt1. destruct (S i <? length pPkt)%nat;
          by rewrite ?length_insert. }
      clearbody pPkt2. destruct pPkt2 as [|d pPkt2']; [simpl in Hlen2; lia|].
      assert ((rb + 1 =? nb + 1) = true) as -> by (apply Z.eqb_eq; rewrite Heq; lia).
      cbn [negb]. unfold bind, update, load, store, bind, ret. cbv beta.
      destruct (Z.eqb_spec pHead 0) as [|_]; [done|].
      repeat (rewrite HnH; cbv beta iota).
      replace (Z.of_nat (0 + 1)) with 1 by lia. by destruct pnBuffs.
    + destruct (Nat.leb_spec (i + 1) (length pPkt)) as [?|_]; [lia|].
      destruct pnBuffs as [v|].
      * rewrite bool_decide_eq_true_2 by done. rewrite orb_true_r.
        unfold bind at 1. unfold load.
        destruct (Z.eqb_spec e 0) as [|_]; [done|]. rewrite En.
        destruct (Nat.ltb_spec i (length pPkt)) as [?|_]; [lia|].
        rewrite Heown, Hlast.
        destruct pPkt as [|d pPkt']; unfold ret;
          replace (Z.of_nat (0 + 1)) with 1 by lia; [done|].
        by assert ((rb =? nb + 1) = false) as -> by (apply Z.eqb_neq; lia).
      * rewrite bool_decide_eq_false_2 by (by intros [? ?]). by rewrite orb_false_r.
  - destruct Hseg as (-> & Ha & Hseg).
    destruct (mem s !! a) as [n|] eqn:En; [|done].
    apply Forall_cons in Hown as [Haown Hown].
    apply Forall_cons in Heop as [Haeop Heop].
    unfold flag_at in Haown, Haeop. rewrite En in Haown, Haeop.
    fold (Hdr.EOWN (hdr (hwDcpt n))) in Haown. fold (Hdr.EOP (hdr (hwDcpt n))) in Haeop.
    simpl in Hfuel.
    cbn [RxGetPacket_parse app length fragments map]. rewrite En.
    fold (fragments (mem s) (body ++ [e])).
    cbn [chain_fill].
    destruct (Nat.ltb_spec i (length pPkt)) as [Hlt|Hge].
    + cbn [orb]. unfold bind at 1. unfold load.
      destruct (Z.eqb_spec a 0) as [|_]; [done|]. rewrite En.
      destruct (Nat.ltb_spec i (length pPkt)) as [_|?]; [|lia].
      rewrite Haown, Haeop. unfold fragment at 1 2 3. unfold dcpt_kva.
      set (pPkt1 := <[i := _]> pPkt).
      rewrite (IH fuel (next n) q pPkt1 (S i) (nb + 1) (rb + 1) s); try done.
      * unfold pPkt1. rewrite length_insert.
        replace (S i + length body + 1)%nat with (i + S (length body) + 1)%nat by lia.
        replace (nb + 1 + Z.of_nat (length body + 1))
          with (nb + Z.of_nat (S (length body) + 1)) by lia.
        destruct (i + S (length body) + 1 <=? length pPkt)%nat; [done|].
        destruct pnBuffs; [|done]. destruct pPkt as [|d pPkt']; [simpl in Hlt; lia|].
        by destruct i.
      * lia.
      * lia.
      * unfold pPkt1. rewrite length_insert. lia.
      * lia.
      * intros _. rewrite Heq by done. lia.
    + destruct (Nat.leb_spec (i + S (length body) + 1) (length pPkt)) as [?|_]; [lia|].
      destruct pnBuffs as [v|].
      * rewrite bool_decide_eq_true_2 by done. rewrite orb_true_r.
        unfold bind at 1. unfold load.
        destruct (Z.eqb_spec a 0) as [|_]; [done|]. rewrite En.
        destruct (Nat.ltb_spec i (length pPkt)) as [?|_]; [lia|].
        rewrite Haown, Haeop.
        rewrite (IH fuel (next n) q pPkt i (nb + 1) rb s); try done; try lia.
        destruct (Nat.leb_spec (i + length body + 1) (length pPkt)) as [?|_]; [lia|].
        rewrite chain_fill_full by done.
        replace (nb + 1 + Z.of_nat (length body + 1))
          with (nb + Z.of_nat (S (length body) + 1)) by lia.
        done.
      * rewrite bool_decide_eq_false_2 by (by intros [? ?]). by rewrite orb_false_r.
Qed.

Lemma chain_fill_closed frs :
  forall pPkt i,
    (i <= length pPkt)%nat ->
    chain_fill pPkt i frs =
      take (length pPkt)
        (take i pPkt ++ frs ++ mkPkt 0 0 :: drop (S (i + length frs)) pPkt).
Proof.
  induction frs as [|f frs IH]; intros pPkt i Hi; simpl.
  - destruct (Nat.ltb_spec i (length pPkt)) as [Hlt|Hge].
    + rewrite Nat.add_0_r, <- insert_take_drop by done.
      by rewrite take_ge by (by rewrite length_insert).
    + rewrite (take_ge pPkt i) by done. by rewrite take_app_length.
  - destruct (Nat.ltb_spec i (length pPkt)) as [Hlt|Hge].
    + rewrite IH by (rewrite length_insert; lia). rewrite length_insert.
      rewrite (take_S_r _ i f) by (by apply list_lookup_insert_eq).
      rewrite take_insert_ge by done. rewrite drop_insert_lt by lia.
      rewrite <- app_assoc. simpl.
      by replace (S (i + S (length frs))) with (S (S (i + length frs))) by lia.
    + rewrite (take_ge pPkt i) by done. by rewrite take_app_length.
Qed.

Lemma length_fragments m l : length (fragments m l) = length l.
Proof. unfold fragments. by rewrite length_map. Qed.

Lemma RxGetPacket_any_run fuel pPkt pnBuffs pRxStat pre body e rest s :
  is_list (mem s) (_EnetRxBusyList s) (pre ++ (body ++ [e]) ++ rest) ->
  (length (pre ++ (body ++ [e]) ++ rest) < fuel)%nat ->
  Forall (passed_over (mem s)) pre -> rx_packet (mem s) body e ->
  exists nH,
    mem s !! hd e body = Some nH /\
    DRV_ETHMAC_LibRxGetPacket fuel pPkt pnBuffs pRxStat s =
      Some
        (let out :=
           mkOut (take (length pPkt)
                    (fragments (mem s) (body ++ [e]) ++
                     mkPkt 0 0 :: drop (S (length (body ++ [e]))) pPkt))
                 ((fun _ => Z.of_nat (length (body ++ [e]))) <$> pnBuffs)
                 ((fun _ => stat_addr (hd e body)) <$> pRxStat) in
         if (length (body ++ [e]) <=? length pPkt)%nat then
           ((DRV_ETHMAC_RES_OK, out),
            set_mem (<[hd e body := with_hdr (Hdr.set Hdr.rx_wack_POS true) nH]>
                       (mem s)) s)
         else
           ((match pPkt, pnBuffs with
             | _ :: _, Some _ => DRV_ETHMAC_RES_RX_PKT_SPLIT_ERR
             | _, _ => DRV_ETHMAC_RES_OK
             end, out), s)).
Proof.
  intros HL Hfuel Hpre (Hsop & Hwack & Hown & Heop & Hlast).
  set (a1 := hd e body) in *.
  assert (Ha1 : a1 ∈ pre ++ (body ++ [e]) ++ rest).
  { unfold a1. destruct body; set_solver. }
  pose proof (is_list_nonnull _ _ _ _ HL Ha1) as Ha10.
  destruct (is_list_is_Some _ _ _ _ HL Ha1) as [nH HnH].
  exists nH. split; [done|].
  destruct HL as (Hseg & _ & _).
  apply lseg_app in Hseg as (p1 & Hseg1 & Hseg2).
  apply lseg_app in Hseg2 as (p2 & Hseg2 & _).
  assert (p1 = a1) as ->.
  { unfold a1. destruct body; simpl in Hseg2; by destruct Hseg2 as (-> & _). }
  rewrite !length_app in Hfuel. simpl in Hfuel.
  unfold DRV_ETHMAC_LibRxGetPacket. unfold bind, gets.
  set (pPkt0 := match pPkt with [] => pPkt | _ => _ end).
  assert (Hlen0 : length pPkt0 = length pPkt).
  { unfold pPkt0. destruct pPkt; [done|]. by rewrite length_insert. }
  assert (Hdrop0 : forall j, drop (S j) pPkt0 = drop (S j) pPkt).
  { intros j. unfold pPkt0. destruct pPkt; [done|]. by rewrite drop_insert_lt by lia. }
  assert (Hnil0 : pPkt0 = [] <-> pPkt = []).
  { split; intros E; [rewrite E in Hlen0|rewrite E in Hlen0].
    - by destruct pPkt.
    - by destruct pPkt0. }
  clearbody pPkt0.
  replace fuel with (length pre + (fuel - length pre))%nat by lia.
  rewrite (RxGetPacket_scan_skip pre _ _ a1) by done.
  destruct (fuel - length pre)%nat as [|fuel'] eqn:Ef; [lia|].
  cbn [RxGetPacket_scan]. destruct (Z.eqb_spec a1 0) as [|_]; [done|].
  unfold bind at 1. unfold load. destruct (Z.eqb_spec a1 0) as [|_]; [done|].
  rewrite HnH.
  assert (Hown1 : flag_at Hdr.EOWN_POS (mem s) a1 = false).
  { rewrite Forall_forall in Hown. apply Hown. unfold a1. destruct body; set_solver. }
  unfold flag_at in Hown1, Hsop, Hwack. rewrite HnH in Hown1, Hsop, Hwack.
  fold (Hdr.EOWN (hdr (hwDcpt nH))) in Hown1. fold (Hdr.SOP (hdr (hwDcpt nH))) in Hsop.
  fold (Hdr.rx_wack (hdr (hwDcpt nH))) in Hwack.
  rewrite Hown1, Hsop, Hwack. cbn [andb negb out_pPkt out_pnBuffs out_pRxStat].
  unfold bind.
  rewrite (RxGetPacket_parse_any a1 nH DRV_ETHMAC_RES_OK pnBuffs body e fuel'
             a1 p2 pPkt0 0 0 0 s); try done; try lia.
  rewrite chain_fill_closed by lia. rewrite Hlen0.
  change (take 0 pPkt0) with (@nil DRV_ETHMAC_PKT_DCPT).
  rewrite app_nil_l, !Nat.add_0_l, length_fragments, Hdrop0.
  rewrite length_app. simpl length. rewrite Z.add_0_l.
  assert (Hstat : match pRxStat with Some _ => Some (stat_addr a1) | None => None end
                  = (fun _ => stat_addr a1) <$> pRxStat) by by destruct pRxStat.
  rewrite Hstat.
  destruct (length body + 1 <=? length pPkt)%nat; [done|].
  destruct pnBuffs as [v|]; [|by destruct pPkt].
  by destruct pPkt0 as [|d0 pPkt0'], pPkt as [|d pPkt'].
Qed.

(** X8: what [DRV_ETHMAC_LibRxGetPacket] reports for a packet it has room
    for.  A complete, unreported packet of fragments [body ++ [e]] is first
    in line and the chain has at least as many elements.  The call returns
    [OK]; the chain holds, in order, the virtual address and byte count of
    each fragment, then a zero element if an element is left for it, then
    the caller's elements untouched; [pnBuffs] and [pRxStat], where
    supplied, receive the fragment count and the address of the status
    block of the first fragment; and the only change to the machine is the
    reported flag set on the first fragment. *)
Theorem RxGetPacket_reports_fragments fuel pPkt pnBuffs pRxStat pre body e rest s :
  is_list (mem s) (_EnetRxBusyList s) (pre ++ (body ++ [e]) ++ rest) ->
  (length (pre ++ (body ++ [e]) ++ rest) < fuel)%nat ->
  Forall (passed_over (mem s)) pre -> rx_packet (mem s) body e ->
  (length (body ++ [e]) <= length pPkt)%nat ->
  exists nH out,
    mem s !! hd e body = Some nH /\
    DRV_ETHMAC_LibRxGetPacket fuel pPkt pnBuffs pRxStat s =
      Some ((DRV_ETHMAC_RES_OK, out),
            set_mem (<[hd e body := with_hdr (Hdr.set Hdr.rx_wack_POS true) nH]>
                       (mem s)) s) /\
    out_pPkt out =
      take (length pPkt)
        (fragments (mem s) (body ++ [e]) ++
         mkPkt 0 0 :: drop (S (length (body ++ [e]))) pPkt) /\
    take (length (body ++ [e])) (out_pPkt out) = fragments (mem s) (body ++ [e]) /\
    out_pnBuffs out = (fun _ => Z.of_nat (length (body ++ [e]))) <$> pnBuffs /\
    out_pRxStat out = (fun _ => stat_addr (hd e body)) <$> pRxStat.
Proof.
  intros HL Hfuel Hpre Hpk Hroom.
  destruct (RxGetPacket_any_run fuel pPkt pnBuffs pRxStat pre body e rest s)
    as (nH & HnH & Hrun); [done..|].
  destruct (Nat.leb_spec (length (body ++ [e])) (length pPkt)) as [_|?]; [|lia].
  eexists nH, _. split; [done|]. split; [exact Hrun|].
  cbn [out_pPkt out_pnBuffs out_pRxStat]. split; [done|]. split; [|done].
  rewrite take_take, Nat.min_l by done.
  rewrite <- (length_fragments (mem s) (body ++ [e])). by rewrite take_app_length.
Qed.

(** X9: a chain too short for the packet is an error only when both a chain
    and [pnBuffs] are passed (the code finds the mismatch at the end of the
    packet, which it reaches only to count).  With a null chain, or with a
    short chain and a null [pnBuffs], [DRV_ETHMAC_LibRxGetPacket] returns
    [OK]: the chain holds the first fragments, as many as it has elements,
    the count is stored where [pnBuffs] is supplied, and the machine is
    unchanged, so the packet is not marked reported and the next call finds
    it again. *)
Theorem RxGetPacket_short_chain_ok fuel pPkt pnBuffs pRxStat pre body e rest s :
  is_list (mem s) (_EnetRxBusyList s) (pre ++ (body ++ [e]) ++ rest) ->
  (length (pre ++ (body ++ [e]) ++ rest) < fuel)%nat ->
  Forall (passed_over (mem s)) pre -> rx_packet (mem s) body e ->
  (length pPkt < length (body ++ [e]))%nat ->
  pPkt = [] \/ pnBuffs = None ->
  exists out,
    DRV_ETHMAC_LibRxGetPacket fuel pPkt pnBuffs pRxStat s
      = Some ((DRV_ETHMAC_RES_OK, out), s) /\
    out_pPkt out = take (length pPkt) (fragments (mem s) (body ++ [e])) /\
    out_pnBuffs out = (fun _ => Z.of_nat (length (body ++ [e]))) <$> pnBuffs /\
    out_pRxStat out = (fun _ => stat_addr (hd e body)) <$> pRxStat /\
    flag_at Hdr.rx_wack_POS (mem s) (hd e body) = false.
Proof.
  intros HL Hfuel Hpre Hpk Hshort Hnull.
  destruct (RxGetPacket_any_run fuel pPkt pnBuffs pRxStat pre body e rest s)
    as (nH & HnH & Hrun); [done..|].
  destruct (Nat.leb_spec (length (body ++ [e])) (length pPkt)) as [?|_]; [lia|].
  eexists. split.
  { rewrite Hrun. destruct Hnull as [->| ->]; [done|]. by destruct pPkt. }
  cbn [out_pPkt out_pnBuffs out_pRxStat]. split; [|split; [done|split; [done|]]].
  - rewrite take_app_le; [done|]. rewrite length_fragments. lia.
  - by destruct Hpk as (_ & ? & _).
Qed.

Lemma RxGetPacket_scan_end fuel o res s :
  RxGetPacket_scan (S fuel) 0 o res s = Some ((res, o), s).
Proof. done. Qed.

(** X10: nothing to retrieve.  Every node of the RX busy list up to [rest] is
    Software-owned and either no start of packet or already reported.  If
    the list ends there, [DRV_ETHMAC_LibRxGetPacket] returns [NO_PACKET];
    if the next node is Hardware-owned it returns [PACKET_QUEUED].  The
    machine, [pnBuffs] and [pRxStat] are as they were; the first element of
    the chain has been zeroed. *)
Theorem RxGetPacket_nothing_ready fuel pPkt pnBuffs pRxStat pre rest s :
  is_list (mem s) (_EnetRxBusyList s) (pre ++ rest) ->
  (length pre < fuel)%nat ->
  Forall (passed_over (mem s)) pre ->
  match rest with
  | [] => True
  | a :: _ => flag_at Hdr.EOWN_POS (mem s) a = true
  end ->
  DRV_ETHMAC_LibRxGetPacket fuel pPkt pnBuffs pRxStat s =
    Some ((match rest with
           | [] => DRV_ETHMAC_RES_NO_PACKET
           | _ :: _ => DRV_ETHMAC_RES_PACKET_QUEUED
           end,
           mkOut (match pPkt with _ :: _ => <[0%nat := mkPkt 0 0]> pPkt | [] => [] end)
                 pnBuffs pRxStat), s).
Proof.
  intros HL Hfuel Hpre Hrest.
  assert (Hsome : forall a, a ∈ pre ++ rest -> is_Some (mem s !! a) /\ a <> 0).
  { intros a Ha. split; [by eapply is_list_is_Some|by eapply is_list_nonnull]. }
  destruct HL as (Hseg & _ & _). apply lseg_app in Hseg as (p1 & Hseg1 & Hseg2).
  unfold DRV_ETHMAC_LibRxGetPacket, bind, gets.
  replace fuel with (length pre + (fuel - length pre))%nat by lia.
  rewrite (RxGetPacket_scan_skip pre _ _ p1) by done.
  destruct (fuel - length pre)%nat as [|fuel'] eqn:Ef; [lia|].
  destruct rest as [|a rest]; simpl in Hseg2.
  - subst p1. rewrite RxGetPacket_scan_end. by destruct pPkt.
  - destruct Hseg2 as (-> & Ha & _).
    destruct (Hsome a) as [[n Hn] _]; [set_solver|].
    cbn [RxGetPacket_scan]. destruct (Z.eqb_spec a 0) as [|_]; [done|].
    unfold bind, load. destruct (Z.eqb_spec a 0) as [|_]; [done|]. rewrite Hn.
    unfold flag_at in Hrest. rewrite Hn in Hrest.
    fold (Hdr.EOWN (hdr (hwDcpt n))) in Hrest. rewrite Hrest. by destruct pPkt.
Qed.

(** X11: [DRV_ETHMAC_LibRxGetBuffer] is [DRV_ETHMAC_LibRxGetPacket] with a
    chain of one element.  For a packet in one buffer it returns [OK] with
    the virtual address of that buffer and marks the packet reported; for a
    packet that spans several buffers it returns [RX_PKT_SPLIT_ERR], leaves
    the machine as it was, and still hands out the address of the first
    buffer.  What the uninitialised locals held does not matter. *)
Theorem RxGetBuffer_single_or_split fuel pktDcpt nBuffs pRxStat pre body e rest s :
  is_list (mem s) (_EnetRxBusyList s) (pre ++ (body ++ [e]) ++ rest) ->
  (length (pre ++ (body ++ [e]) ++ rest) < fuel)%nat ->
  Forall (passed_over (mem s)) pre -> rx_packet (mem s) body e ->
  exists nH,
    mem s !! hd e body = Some nH /\
    DRV_ETHMAC_LibRxGetBuffer fuel pktDcpt nBuffs pRxStat s =
      Some (match body with
            | [] =>
              ((DRV_ETHMAC_RES_OK, dcpt_kva nH,
                (fun _ => stat_addr e) <$> pRxStat),
               set_mem (<[e := with_hdr (Hdr.set Hdr.rx_wack_POS true) nH]> (mem s)) s)
            | a :: _ =>
              ((DRV_ETHMAC_RES_RX_PKT_SPLIT_ERR, dcpt_kva nH,
                (fun _ => stat_addr a) <$> pRxStat), s)
            end).
Proof.
  intros HL Hfuel Hpre Hpk.
  destruct (RxGetPacket_any_run fuel [pktDcpt] (Some nBuffs) pRxStat pre body e rest s)
    as (nH & HnH & Hrun); [done..|].
  exists nH. split; [done|]. unfold DRV_ETHMAC_LibRxGetBuffer, bind. rewrite Hrun.
  destruct body as [|a body]; simpl in HnH |- *.
  - unfold ret, fragments. simpl. by rewrite HnH.
  - rewrite length_app. simpl.
    replace (length body + 1 <=? 0)%nat with false
      by (symmetry; apply Nat.leb_gt; lia).
    unfold ret, fragments. simpl. by rewrite HnH.
Qed.

End RxGetMore.

Section RxAppendMore.
Context {K : KMem}.
Implicit Types (m : gmap Z DRV_ETHMAC_DCPT_NODE) (l : list ptr) (p q a : ptr).
Implicit Types (s : machine) (L : DRV_ETHMAC_DCPT_LIST).

(** [length used] turns of the loop, each with an acceptable buffer and a
    free descriptor, then whatever the loop does next. *)
Lemma wp_RxBuffersAppend_steps ppBuff rxFlags res used :
  forall fuel (i : nat) nBuffs N ln lf' Q s,
    is_list (mem s) (_EnetRxFreeList s) (used ++ lf') -> is_list (mem s) N ln ->
    NoDup ((used ++ lf') ++ ln) ->
    (forall j, (j < length used)%nat -> rx_buffer_ok (ppBuff (i + j)%nat)) ->
    Z.of_nat (length used) <= nBuffs ->
    (forall m' F' N',
        is_list m' F' lf' -> is_list m' N' (ln ++ used) ->
        (forall j a, used !! j = Some a ->
           payload_at m' a =
             (fun n => (rx_hdr rxFlags (ppBuff (i + j)%nat),
                        KVA_TO_PA (ppBuff (i + j)%nat), stat (hwDcpt n)))
               <$> mem s !! a) ->
        (forall a, a ∉ used -> payload_at m' a = payload_at (mem s) a) ->
        (forall a, a ∉ used -> a ∉ ln -> m' !! a = mem s !! a) ->
        wp (RxBuffersAppend_loop fuel ppBuff (i + length used)
              (ppBuff (i + length used)%nat) (nBuffs - Z.of_nat (length used))
              rxFlags N' res) Q
           (set_RxFree F' (set_mem m' s))) ->
    wp (RxBuffersAppend_loop (length used + fuel) ppBuff i (ppBuff i) nBuffs rxFlags N res)
       Q s.
Proof.
  induction used as [|a used IH];
    intros fuel i nBuffs N ln lf' Q s HF HN Hnd Hbufs Hcnt HQ.
  - specialize (HQ (mem s) (_EnetRxFreeList s) N). rewrite app_nil_r in HQ.
    simpl in HQ. rewrite Z.sub_0_r, Nat.add_0_r in HQ. destruct s. by apply HQ.
  - destruct s as [m0 tf tb rf rb r]. msimpl.
    destruct (Hbufs 0%nat) as [Hb0 Hkva]; [simpl; lia|]. rewrite Nat.add_0_r in Hb0, Hkva.
    cbn [length Nat.add RxBuffersAppend_loop].
    destruct (Z.eqb_spec (ppBuff i) 0) as [|_]; [done|].
    destruct (Z.eqb_spec nBuffs 0) as [Hz|_]; [simpl in Hcnt; lia|].
    cbn [negb andb].
    assert (a <> 0) as Ha by (eapply is_list_nonnull; [exact HF|set_solver]).
    destruct (is_list_is_Some _ _ _ a HF) as [n Hn]; [set_solver|].
    pose proof Hnd as Hnd0.
    apply NoDup_app in Hnd as (HndF & Hdisj & Hndl).
    assert (a ∉ ln) as Hal by (apply Hdisj; set_solver).
    simpl in HndF. apply NoDup_cons in HndF as [HaF HndF].
    apply wp_bind, wp_gets. msimpl.
    apply wp_bind. eapply wp_ListRemoveHead_cons; [done|]. intros F1 HF1. msimpl.
    apply wp_bind, wp_modify. msimpl.
    destruct (Z.eqb_spec a 0) as [|_]; [done|].
    apply wp_bind. eapply wp_update; [done..|]. msimpl.
    apply wp_bind. eapply wp_update; [done|msimpl; apply lookup_insert_eq|]. msimpl.
    rewrite insert_insert_eq.
    apply wp_bind. eapply wp_update_if; [done|msimpl; apply lookup_insert_eq|]. msimpl.
    rewrite insert_insert_eq.
    apply wp_bind. eapply wp_update_if; [done|msimpl; apply lookup_insert_eq|]. msimpl.
    rewrite insert_insert_eq.
    set (n3 := if negb (Z.land rxFlags DRV_ETHMAC_BUFF_FLAG_RX_UNACK =? 0) then _ else _).
    set (continue := bind (DRV_ETHMAC_LIB_ListAddTail N a) _).
    set (n4 := if IS_KVA0 (ppBuff i) then with_hdr (Hdr.set Hdr.kv0_POS true) n3 else n3).
    assert (Hn4 : next n4 = next n /\
              payload n4 = (rx_hdr rxFlags (ppBuff i), KVA_TO_PA (ppBuff i),
                            stat (hwDcpt n))).
    { unfold n4, n3, rx_hdr, payload.
      destruct (IS_KVA0 (ppBuff i)),
        (negb (Z.land rxFlags DRV_ETHMAC_BUFF_FLAG_RX_UNACK =? 0)),
        (negb (Z.land rxFlags DRV_ETHMAC_BUFF_FLAG_RX_STICKY =? 0)); done. }
    destruct Hn4 as [Hn4n Hn4p].
    cut (wp continue Q (mkMachine (<[a := n4]> m0) tf tb F1 rb r)).
    { intros Hcont. unfold n4 in Hcont. destruct (IS_KVA0 (ppBuff i)) eqn:E0.
      - apply wp_bind. eapply wp_update; [done|msimpl; apply lookup_insert_eq|].
        msimpl. by rewrite insert_insert_eq.
      - simpl in Hkva. rewrite Hkva. simpl negb. cbv iota. exact Hcont. }
    clearbody n4. clear n3.
    assert (Hext : forall b, b <> a -> <[a := n4]> m0 !! b = m0 !! b).
    { intros b Hb. by rewrite lookup_insert_ne. }
    unfold continue. apply wp_bind. eapply wp_ListAddTail with (l := ln); msimpl.
    { eapply is_list_ext; [exact HN|]. intros b Hb. rewrite Hext; [done|by intros ->]. }
    { done. }
    { done. }
    { by rewrite lookup_insert_eq. }
    intros m1 N1 HN1 _ Hpay1 Hframe1. msimpl.
    replace (S i) with (i + 1)%nat by lia.
    eapply IH with (ln := ln ++ [a]) (lf' := lf'); msimpl.
    + eapply is_list_ext; [exact HF1|]. intros b Hb.
      assert (b <> a) by (intros ->; set_solver).
      rewrite Hframe1, Hext; [done..|].
      intros Hbl. eapply (Hdisj b); [set_solver|done].
    + done.
    + rewrite app_assoc. apply NoDup_app. split; [|split; [|apply NoDup_singleton]].
      * apply NoDup_app. split; [done|]. split; [|done].
        intros x Hx. apply Hdisj. set_solver.
      * intros x Hx. apply elem_of_app in Hx as [Hx|Hx]; set_solver.
    + intros j Hj. replace (i + 1 + j)%nat with (i + S j)%nat by lia.
      apply Hbufs. simpl. lia.
    + simpl length in Hcnt. lia.
    + intros m' F' N' HF' HN' Hused Hother Hframe.
      replace (nBuffs - 1 - Z.of_nat (length used))
        with (nBuffs - Z.of_nat (length (a :: used))) by (simpl length; lia).
      replace (i + 1 + length used)%nat with (i + length (a :: used))%nat
        by (simpl; lia).
      apply (HQ m' F' N').
      * done.
      * by rewrite <- app_assoc in HN'.
      * intros j a' E. destruct j as [|j]; simpl in E.
        -- injection E as <-. rewrite Hother by set_solver. rewrite Hpay1.
           unfold payload_at. rewrite lookup_insert_eq, Hn, Nat.add_0_r. simpl.
           by rewrite Hn4p.
        -- rewrite (Hused j a' E). replace (i + 1 + j)%nat with (i + S j)%nat by lia.
           assert (a' ∈ used) as Hin by (by eapply list_elem_of_lookup_2).
           assert (a' <> a) by (intros ->; set_solver).
           rewrite Hframe1, Hext; [done|done|done|].
           intros Hbl. eapply (Hdisj a'); [set_solver|done].
      * intros b Hb. rewrite Hother by set_solver. rewrite Hpay1.
        unfold payload_at. rewrite Hext; [done|set_solver].
      * intros b Hb1 Hb2. rewrite Hframe by set_solver.
        rewrite Hframe1, Hext; [done|set_solver..].
Qed.

Lemma rx_hdr_flags rxFlags b :
  Hdr.EOWN (rx_hdr rxFlags b) = true /\
  Hdr.rx_nack (rx_hdr rxFlags b)
    = negb (Z.land rxFlags DRV_ETHMAC_BUFF_FLAG_RX_UNACK =? 0) /\
  Hdr.sticky (rx_hdr rxFlags b)
    = negb (Z.land rxFlags DRV_ETHMAC_BUFF_FLAG_RX_STICKY =? 0) /\
  Hdr.kv0 (rx_hdr rxFlags b) = IS_KVA0 b /\
  Hdr.SOP (rx_hdr rxFlags b) = false /\ Hdr.EOP (rx_hdr rxFlags b) = false /\
  Hdr.rx_wack (rx_hdr rxFlags b) = false.
Proof.
  unfold rx_hdr, Hdr.EOWN, Hdr.rx_nack, Hdr.sticky, Hdr.kv0, Hdr.SOP, Hdr.EOP,
    Hdr.rx_wack.
  destruct (IS_KVA0 b), (negb (Z.land rxFlags DRV_ETHMAC_BUFF_FLAG_RX_UNACK =? 0)),
    (negb (Z.land rxFlags DRV_ETHMAC_BUFF_FLAG_RX_STICKY =? 0));
    rewrite ?Hdr_get_set by done; repeat split; by vm_compute.
Qed.

Lemma acked_all m l :
  Forall (fun a => flag_at Hdr.rx_nack_POS m a = false) l -> acked m l = l.
Proof.
  intros H. unfold acked. induction H as [|a l Ha H IH]; [done|].
  rewrite filter_cons, decide_True by done. by rewrite IH.
Qed.

Lemma acked_none m l :
  Forall (fun a => flag_at Hdr.rx_nack_POS m a = true) l -> acked m l = [].
Proof.
  intros H. unfold acked. induction H as [|a l Ha H IH]; [done|].
  rewrite filter_cons, decide_False by (by rewrite Ha). by rewrite IH.
Qed.

Lemma wp_RxBuffersAppend_ok fuel ppBuff nBuffs rxFlags u used lf' lb t s :
  is_list (mem s) (_EnetRxFreeList s) ((u :: used) ++ lf') ->
  is_list (mem s) (_EnetRxBusyList s) (lb ++ [t]) ->
  NoDup (((u :: used) ++ lf') ++ lb ++ [t]) ->
  (forall j, (j < S (length used))%nat -> rx_buffer_ok (ppBuff j)) ->
  Z.of_nat (S (length used)) <= rx_limit nBuffs ->
  ppBuff (S (length used)) = 0 \/ rx_limit nBuffs = Z.of_nat (S (length used)) ->
  (S (length used) < fuel)%nat ->
  wp (DRV_ETHMAC_LibRxBuffersAppend fuel ppBuff nBuffs rxFlags)
     (fun res s' =>
        res = DRV_ETHMAC_RES_OK /\
        is_list (mem s') (_EnetRxFreeList s') lf' /\
        is_list (mem s') (_EnetRxBusyList s') (lb ++ [t] ++ used ++ [u]) /\
        (forall j a v,
           (t :: used) !! j = Some a -> (u :: used) !! j = Some v ->
           payload_at (mem s') a =
             (fun n => (rx_hdr rxFlags (ppBuff j), KVA_TO_PA (ppBuff j),
                        stat (hwDcpt n))) <$> mem s !! v) /\
        hdr_at (mem s') u = Some 0 /\ pEDBuff_at (mem s') u = Some 0 /\
        (forall a, a ∉ t :: u :: used -> payload_at (mem s') a = payload_at (mem s) a) /\
        pEthReg s' =
          rx_started (hd t lb)
            (if Z.land rxFlags DRV_ETHMAC_BUFF_FLAG_RX_UNACK =? 0
             then S (length used) else 0) (pEthReg s) /\
        _EnetTxFreeList s' = _EnetTxFreeList s /\
        _EnetTxBusyList s' = _EnetTxBusyList s) s.
Proof.
  intros HF HB Hnd Hbufs Hcnt Hstop Hfuel.
  unfold DRV_ETHMAC_LibRxBuffersAppend. fold (rx_limit nBuffs).
  destruct s as [m0 tf tb rf rb r]. msimpl.
  pose proof Hnd as Hnd0.
  apply NoDup_app in Hnd as (HndF & Hdisj & HndB).
  apply wp_bind.
  replace fuel with (length (u :: used) + (fuel - length (u :: used)))%nat at 1
    by (simpl; lia).
  eapply wp_RxBuffersAppend_steps with (used := u :: used) (ln := []) (lf' := lf');
    msimpl.
  { done. }
  { by apply is_list_nil. }
  { by rewrite app_nil_r. }
  { intros j Hj. apply Hbufs. simpl in Hj. lia. }
  { done. }
  intros m1 F1 N1 HF1 HN1 Hused Hother Hframe. simpl in HN1.
  destruct (fuel - length (u :: used))%nat as [|fuel'] eqn:Ef; [simpl in Ef; lia|].
  cbn [RxBuffersAppend_loop Nat.add].
  set (pB := ppBuff (length (u :: used))).
  set (nB := rx_limit nBuffs - Z.of_nat (length (u :: used))).
  assert (Hexit : negb (pB =? 0) && negb (nB =? 0) = false).
  { unfold pB, nB. simpl length. destruct Hstop as [-> | ->]; [done|].
    rewrite Z.sub_diag. simpl. by rewrite andb_false_r. }
  rewrite Hexit. apply wp_ret. rewrite Hexit.
  assert (head N1 <> 0) as HN1h.
  { destruct HN1 as (Hs & _). simpl in Hs. destruct Hs as (-> & ? & _). done. }
  unfold DRV_ETHMAC_LIB_ListIsEmpty.
  destruct (Z.eqb_spec (head N1) 0) as [|_]; [done|]. cbn [negb].
  assert (HB1 : is_list m1 rb (lb ++ [t])).
  { eapply is_list_ext; [exact HB|]. intros a Ha. rewrite Hframe; [done| |set_solver].
    intros Hin. eapply (Hdisj a); [set_solver|done]. }
  assert (Hnd1 : NoDup ((lb ++ [t]) ++ u :: used)).
  { apply NoDup_app. split; [done|]. split.
    - intros x Hx Hx'. eapply (Hdisj x); [set_solver|done].
    - apply NoDup_app in HndF as (? & _). done. }
  assert (Hut : t <> u).
  { intros ->. eapply (Hdisj u); set_solver. }
  assert (Huu : u ∉ used).
  { apply NoDup_app in HndF as (HndU & _). by apply NoDup_cons in HndU as []. }
  assert (Hsome0 : forall a, a ∈ u :: used -> is_Some (m0 !! a)).
  { intros a Ha. eapply (is_list_is_Some _ _ _ a HF). set_solver. }
  assert (Hnack : forall a, a ∈ u :: used ->
            flag_at Hdr.rx_nack_POS m1 a
              = negb (Z.land rxFlags DRV_ETHMAC_BUFF_FLAG_RX_UNACK =? 0)).
  { intros a Ha. apply list_elem_of_lookup_1 in Ha as [j Hj].
    pose proof (Hused j a Hj) as Hp. destruct (Hsome0 a) as [na Hna].
    { by eapply list_elem_of_lookup_2. }
    rewrite Hna in Hp. simpl in Hp.
    rewrite (flag_at_hdr_at Hdr.rx_nack_POS m1 a _ (payload_at_hdr_at m1 a _ _ _ Hp)).
    by destruct (rx_hdr_flags rxFlags (ppBuff j)) as (_ & ? & _). }
  assert (Hack : ack_count true m1 (u :: used)
                 = if Z.land rxFlags DRV_ETHMAC_BUFF_FLAG_RX_UNACK =? 0
                   then S (length used) else 0%nat).
  { unfold ack_count. destruct (Z.land rxFlags DRV_ETHMAC_BUFF_FLAG_RX_UNACK =? 0).
    - rewrite acked_all; [done|]. apply Forall_forall. intros a Ha. by rewrite Hnack.
    - rewrite acked_none; [done|]. apply Forall_forall. intros a Ha. by rewrite Hnack. }
  apply wp_bind. apply wp_bind, wp_gets. msimpl.
  apply wp_bind. eapply wp_AppendBusyList with (lb := lb) (t := t) (h := u) (ln := used);
    msimpl; [done..|lia|].
  intros m2 B2 (HB2 & Hhd2 & Hpt2 & Hh2 & Hb2 & Hpay2 & Hframe2). msimpl.
  rewrite Hack.
  apply wp_bind, wp_modify. msimpl.
  assert (Hhdb : head B2 = hd t lb).
  { rewrite Hhd2, (is_list_head _ _ _ HB). by destruct lb. }
  assert (Hfinal :
    is_list m2 F1 lf' /\
    (forall j a v,
       (t :: used) !! j = Some a -> (u :: used) !! j = Some v ->
       payload_at m2 a =
         (fun n => (rx_hdr rxFlags (ppBuff j), KVA_TO_PA (ppBuff j),
                    stat (hwDcpt n))) <$> m0 !! v) /\
    (forall a, a ∉ t :: u :: used -> payload_at m2 a = payload_at m0 a)).
  { split; [|split].
    - eapply is_list_ext; [exact HF1|]. intros a Ha. rewrite Hframe2; [done|].
      apply NoDup_app in HndF as (_ & HdF & _).
      intros Hin. apply elem_of_app in Hin as [Hin|Hin].
      + eapply (Hdisj a); set_solver.
      + apply elem_of_app in Hin as [Hin|Hin]; [eapply (Hdisj a); set_solver|].
        eapply (HdF a); [exact Hin|done].
    - intros j a v Ha Hv. destruct j as [|j]; simpl in Ha, Hv.
      + injection Ha as <-. injection Hv as <-.
        destruct (is_list_is_Some _ _ _ u HN1) as [nu Hnu]; [set_solver|].
        rewrite Hpt2, Hnu. simpl.
        pose proof (Hused 0%nat u eq_refl) as Hp. simpl in Hp.
        unfold payload_at in Hp. rewrite Hnu in Hp.
        destruct (m0 !! u) as [nu0|]; simpl in Hp |- *; [|done].
        unfold payload in Hp. injection Hp as Hw Hb Hs. rewrite Hw, Hb, Hs.
        f_equal. f_equal. f_equal. apply Hdr_set_id; [done|].
        by destruct (rx_hdr_flags rxFlags (ppBuff 0%nat)) as (? & _).
      + rewrite Hv in Ha. injection Ha as ->.
        assert (a ∈ used) as Hin by (by eapply list_elem_of_lookup_2).
        assert (a <> t) by (intros ->; eapply (Hdisj t); set_solver).
        assert (a <> u) by (intros ->; done).
        rewrite Hpay2 by done. by rewrite (Hused (S j) a Hv).
    - intros a Ha. rewrite Hpay2 by set_solver. apply Hother. set_solver. }
  destruct Hfinal as (Hf1 & Hf2 & Hf3).
  apply wp_bind, wp_gets. msimpl. cbn [ETHRXST add_BUFCDEC].
  unfold rx_started. rewrite <- Hhdb. cbn [ETHRXST ETHTXST TXRTS BUFCDEC].
  apply wp_bind. destruct (ETHRXST r =? 0).
  - apply wp_bind, wp_gets. apply wp_modify. msimpl.
    apply wp_modify. msimpl. by apply wp_ret.
  - apply wp_ret. apply wp_modify. msimpl. by apply wp_ret.
Qed.

(** X12: [DRV_ETHMAC_LibRxBuffersAppend] hands over buffers until the array
    ends with a null entry or the limit is reached, whichever comes first
    (a limit of [0] stands for [0x7fffffff]).  Each node taken from the RX
    free list then carries its buffer with the flags asked for, the chain is
    behind the old busy list with a cleared sentinel at its end, the
    decrement register received one request per buffer unless
    [DRV_ETHMAC_BUFF_FLAG_RX_UNACK] was given, reception is enabled and the
    TX lists are as they were. *)
Theorem RxBuffersAppend_hands_over fuel ppBuff nBuffs rxFlags u used lf' lb t s :
  is_list (mem s) (_EnetRxFreeList s) ((u :: used) ++ lf') ->
  is_list (mem s) (_EnetRxBusyList s) (lb ++ [t]) ->
  NoDup (((u :: used) ++ lf') ++ lb ++ [t]) ->
  (forall j, (j < S (length used))%nat -> rx_buffer_ok (ppBuff j)) ->
  Z.of_nat (S (length used)) <= rx_limit nBuffs ->
  ppBuff (S (length used)) = 0 \/ rx_limit nBuffs = Z.of_nat (S (length used)) ->
  (S (length used) < fuel)%nat ->
  exists s',
    DRV_ETHMAC_LibRxBuffersAppend fuel ppBuff nBuffs rxFlags s
      = Some (DRV_ETHMAC_RES_OK, s') /\
    is_list (mem s') (_EnetRxFreeList s') lf' /\
    is_list (mem s') (_EnetRxBusyList s') (lb ++ [t] ++ used ++ [u]) /\
    (forall j a v,
       (t :: used) !! j = Some a -> (u :: used) !! j = Some v ->
       payload_at (mem s') a =
         (fun n => (rx_hdr rxFlags (ppBuff j), KVA_TO_PA (ppBuff j),
                    stat (hwDcpt n))) <$> mem s !! v) /\
    hdr_at (mem s') u = Some 0 /\ pEDBuff_at (mem s') u = Some 0 /\
    (forall a, a ∉ t :: u :: used -> payload_at (mem s') a = payload_at (mem s) a) /\
    pEthReg s' =
      rx_started (hd t lb)
        (if Z.land rxFlags DRV_ETHMAC_BUFF_FLAG_RX_UNACK =? 0
         then S (length used) else 0) (pEthReg s) /\
    _EnetTxFreeList s' = _EnetTxFreeList s /\
    _EnetTxBusyList s' = _EnetTxBusyList s.
Proof.
  intros HF HB Hnd Hbufs Hcnt Hstop Hfuel.
  destruct (wp_RxBuffersAppend_ok fuel ppBuff nBuffs rxFlags u used lf' lb t s)
    as (res & s' & Hrun & -> & H); try done.
  by exists s'.
Qed.

(** X13: when the RX free list runs out while the array still offers a buffer
    and the limit is not reached, [DRV_ETHMAC_LibRxBuffersAppend] returns
    [DRV_ETHMAC_RES_NO_DESCRIPTORS] and appends nothing: every node it had
    taken is back on the free list in the old order, the busy list, the
    registers and all other nodes are as before.  The nodes it had prepared
    keep the buffer and header written to them. *)
Theorem RxBuffersAppend_no_descriptors fuel ppBuff nBuffs rxFlags used s :
  is_list (mem s) (_EnetRxFreeList s) used ->
  (forall j, (j < length used)%nat -> rx_buffer_ok (ppBuff j)) ->
  ppBuff (length used) <> 0 ->
  Z.of_nat (length used) < rx_limit nBuffs ->
  (length used < fuel)%nat ->
  exists s',
    DRV_ETHMAC_LibRxBuffersAppend fuel ppBuff nBuffs rxFlags s
      = Some (DRV_ETHMAC_RES_NO_DESCRIPTORS, s') /\
    is_list (mem s') (_EnetRxFreeList s') used /\
    _EnetRxBusyList s' = _EnetRxBusyList s /\
    pEthReg s' = pEthReg s /\
    _EnetTxFreeList s' = _EnetTxFreeList s /\
    _EnetTxBusyList s' = _EnetTxBusyList s /\
    (forall j a, used !! j = Some a ->
       payload_at (mem s') a =
         (fun n => (rx_hdr rxFlags (ppBuff j), KVA_TO_PA (ppBuff j),
                    stat (hwDcpt n))) <$> mem s !! a) /\
    (forall a, a ∉ used -> mem s' !! a = mem s !! a).
Proof.
  intros HF Hbufs Hnext Hcnt Hfuel.
  cut (wp (DRV_ETHMAC_LibRxBuffersAppend fuel ppBuff nBuffs rxFlags)
         (fun res s' => res = DRV_ETHMAC_RES_NO_DESCRIPTORS /\
            is_list (mem s') (_EnetRxFreeList s') used /\
            _EnetRxBusyList s' = _EnetRxBusyList s /\
            pEthReg s' = pEthReg s /\
            _EnetTxFreeList s' = _EnetTxFreeList s /\
            _EnetTxBusyList s' = _EnetTxBusyList s /\
            (forall j a, used !! j = Some a ->
               payload_at (mem s') a =
                 (fun n => (rx_hdr rxFlags (ppBuff j), KVA_TO_PA (ppBuff j),
                            stat (hwDcpt n))) <$> mem s !! a) /\
            (forall a, a ∉ used -> mem s' !! a = mem s !! a)) s).
  { intros (res & s' & Hrun & -> & H). by exists s'. }
  unfold DRV_ETHMAC_LibRxBuffersAppend. fold (rx_limit nBuffs).
  destruct s as [m0 tf tb rf rb r]. msimpl.
  assert (HndF : NoDup used) by (by destruct HF as (_ & _ & ?)).
  apply wp_bind.
  replace fuel with (length used + (fuel - length used))%nat at 1 by lia.
  eapply wp_RxBuffersAppend_steps with (used := used) (ln := []) (lf' := []);
    msimpl.
  { by rewrite app_nil_r. }
  { by apply is_list_nil. }
  { by rewrite !app_nil_r. }
  { intros j Hj. by apply Hbufs. }
  { lia. }
  intros m1 F1 N1 HF1 HN1 Hused Hother Hframe. simpl in HN1.
  destruct (fuel - length used)%nat as [|fuel'] eqn:Ef; [lia|].
  cbn [RxBuffersAppend_loop Nat.add].
  destruct (Z.eqb_spec (ppBuff (length used)) 0) as [|_]; [done|].
  destruct (Z.eqb_spec (rx_limit nBuffs - Z.of_nat (length used)) 0) as [|_]; [lia|].
  cbn [negb andb].
  apply wp_bind, wp_gets. msimpl.
  apply wp_bind. eapply wp_ListRemoveHead_nil; [done|]. msimpl.
  apply wp_bind, wp_modify. msimpl.
  apply wp_ret.
  destruct (Z.eqb_spec (ppBuff (length used)) 0) as [|_]; [done|].
  destruct (Z.eqb_spec (rx_limit nBuffs - Z.of_nat (length used)) 0) as [|_]; [lia|].
  cbn [negb andb].
  apply wp_bind, wp_gets. msimpl.
  apply wp_bind. eapply wp_ListAppendTail with (l := []) (la := used); msimpl.
  { by apply is_list_nil. }
  { done. }
  { done. }
  { lia. }
  intros m2 F2 HF2 Hpay2 Hframe2. msimpl.
  apply wp_bind, wp_modify. msimpl. apply wp_ret.
  split; [done|]. split; [done|]. do 4 (split; [done|]). split.
  - intros j a Ha. rewrite Hpay2. by apply Hused.
  - intros a Ha. rewrite Hframe2 by set_solver. apply Hframe; set_solver.
Qed.

Lemma DescriptorGetBuffer_run a w pa st s :
  a <> 0 -> payload_at (mem s) a = Some (w, pa, st) ->
  DRV_ETHMAC_LibDescriptorGetBuffer a s
    = Some (if negb (pa =? 0)
            then if Hdr.kv0 w then PA_TO_KVA0 pa else PA_TO_KVA1 pa else 0, s).
Proof.
  intros Ha.
  unfold payload_at, payload, DRV_ETHMAC_LibDescriptorGetBuffer, bind, load, ret, dcpt_kva.
  destruct (mem s !! a) as [n|]; simpl; [|done]. intros [= <- <- _].
  by destruct (Z.eqb_spec a 0).
Qed.

(** X14: [DRV_ETHMAC_LibDescriptorGetBuffer] reads back what
    [DRV_ETHMAC_LibRxBuffersAppend] attached.  After a successful append of
    buffers the address translation brings back from their physical
    address, the [j]-th descriptor of the appended chain yields the [j]-th
    buffer of the caller's array, the new sentinel yields [0], and asking
    changes nothing. *)
Theorem DescriptorGetBuffer_after_append fuel ppBuff nBuffs rxFlags u used lf' lb t s :
  is_list (mem s) (_EnetRxFreeList s) ((u :: used) ++ lf') ->
  is_list (mem s) (_EnetRxBusyList s) (lb ++ [t]) ->
  NoDup (((u :: used) ++ lf') ++ lb ++ [t]) ->
  (forall j, (j < S (length used))%nat ->
     rx_buffer_ok (ppBuff j) /\ kva_round_trip (ppBuff j)) ->
  Z.of_nat (S (length used)) <= rx_limit nBuffs ->
  ppBuff (S (length used)) = 0 \/ rx_limit nBuffs = Z.of_nat (S (length used)) ->
  (S (length used) < fuel)%nat ->
  exists s',
    DRV_ETHMAC_LibRxBuffersAppend fuel ppBuff nBuffs rxFlags s
      = Some (DRV_ETHMAC_RES_OK, s') /\
    (forall j a, (t :: used) !! j = Some a ->
       DRV_ETHMAC_LibDescriptorGetBuffer a s' = Some (ppBuff j, s')) /\
    DRV_ETHMAC_LibDescriptorGetBuffer u s' = Some (0, s').
Proof.
  intros HF HB Hnd Hbufs Hcnt Hstop Hfuel.
  destruct (wp_RxBuffersAppend_ok fuel ppBuff nBuffs rxFlags u used lf' lb t s)
    as (res & s' & Hrun & -> & _ & HB' & Hpay & Hh & Hb & _); try done.
  { intros j Hj. by apply Hbufs. }
  exists s'. split; [done|]. split.
  - intros j a Ha.
    assert (Hj : (j < S (length used))%nat) by (apply lookup_lt_Some in Ha; simpl in Ha; lia).
    destruct (lookup_lt_is_Some_2 (u :: used) j) as [v Hv]; [simpl; lia|].
    destruct (is_list_is_Some _ _ _ v HF) as [nv Hnv].
    { apply elem_of_app. left. by eapply list_elem_of_lookup_2. }
    pose proof (Hpay j a v Ha Hv) as Hp. rewrite Hnv in Hp. simpl in Hp.
    assert (a <> 0) as Ha0.
    { eapply (is_list_nonnull _ _ _ a HB'). apply list_elem_of_lookup_2 in Ha. set_solver. }
    rewrite (DescriptorGetBuffer_run _ _ _ _ _ Ha0 Hp).
    destruct (Hbufs j Hj) as (_ & Hpa & Hrt).
    destruct (Z.eqb_spec (KVA_TO_PA (ppBuff j)) 0) as [|_]; [done|]. cbn [negb].
    destruct (rx_hdr_flags rxFlags (ppBuff j)) as (_ & _ & _ & -> & _).
    by rewrite Hrt.
  - destruct (is_list_is_Some _ _ _ u HB') as [nu Hnu]; [set_solver|].
    assert (Hp : payload_at (mem s') u = Some (0, 0, stat (hwDcpt nu))).
    { unfold hdr_at in Hh. unfold pEDBuff_at in Hb. unfold payload_at, payload.
      rewrite Hnu in *. simpl in *. injection Hh as ->. by injection Hb as ->. }
    assert (u <> 0) as Hu0 by (eapply (is_list_nonnull _ _ _ u HB'); set_solver).
    by rewrite (DescriptorGetBuffer_run _ _ _ _ _ Hu0 Hp).
Qed.

End RxAppendMore.

Section SingleList.
Implicit Types (s : sgl_heap) (l : list ptr) (p q a n : ptr).

Lemma sgl_chain_ext nx nx' l :
  sgl_chain nx l -> (forall a, a ∈ l -> nx' !! a = nx !! a) -> sgl_chain nx' l.
Proof.
  induction l as [|a l IH]; [done|]. simpl. intros (Ha & Hn & Hc) Hext.
  split; [done|]. split.
  - rewrite Hext by set_solver. done.
  - apply IH; [done|]. intros b Hb. apply Hext. set_solver.
Qed.

Lemma sgl_chain_nonnull nx l a : sgl_chain nx l -> a ∈ l -> a <> 0.
Proof.
  induction l as [|b l IH]; [set_solver|]. simpl. intros (Hb & _ & Hc) Hin.
  apply elem_of_cons in Hin as [->|Hin]; [done|]. by apply IH.
Qed.

Lemma sgl_chain_is_Some nx l a : sgl_chain nx l -> a ∈ l -> is_Some (nx !! a).
Proof.
  induction l as [|b l IH]; [set_solver|]. simpl. intros (Hb & Hn & Hc) Hin.
  apply elem_of_cons in Hin as [->|Hin]; [|by apply IH].
  destruct l; [done|]. by rewrite Hn.
Qed.

Lemma sgl_chain_snoc nx l t n :
  sgl_chain nx (l ++ [t]) -> n <> 0 -> n ∉ l ++ [t] -> t ≠ n -> NoDup (l ++ [t]) ->
  sgl_chain (<[t := n]> (<[n := 0]> nx)) ((l ++ [t]) ++ [n]).
Proof.
  intros Hc Hn Hnin Htn Hnd. induction l as [|a l IH]; simpl in *.
  - destruct Hc as (Ht & _ & _). split; [done|]. split; [by rewrite lookup_insert_eq|].
    split; [done|]. split; [|done].
    rewrite lookup_insert_ne by done. by rewrite lookup_insert_eq.
  - destruct Hc as (Ha & Hnx & Hc). apply NoDup_cons in Hnd as [Hal Hnd].
    split; [done|]. split.
    + assert (a <> t) by set_solver. assert (a <> n) by set_solver.
      rewrite !lookup_insert_ne by done.
      destruct l; simpl in *; done.
    + apply IH; [done|set_solver|done].
Qed.

Lemma sgl_is_list_frame s s' q l :
  sgl_is_list s q l ->
  sgl_lists s' !! q = sgl_lists s !! q ->
  (forall a, a ∈ l -> sgl_next s' !! a = sgl_next s !! a) ->
  sgl_is_list s' q l.
Proof.
  intros (L & HL & Hh & Ht & Hn & Hc & Hnd) Hq Hext. exists L.
  rewrite Hq. repeat split; try done. by eapply sgl_chain_ext.
Qed.

Lemma SingleListHeadRemove_nil s p :
  sgl_is_list s p [] -> DRV_ETHMAC_SingleListHeadRemove p s = Some (0, s).
Proof.
  intros (L & HL & Hh & _). unfold DRV_ETHMAC_SingleListHeadRemove.
  rewrite HL. simpl in *. by rewrite Hh.
Qed.

Lemma SingleListHeadRemove_cons s p a l :
  sgl_is_list s p (a :: l) ->
  exists s', DRV_ETHMAC_SingleListHeadRemove p s = Some (a, s') /\
    sgl_is_list s' p l /\ sgl_next s' = sgl_next s /\
    (forall q, q <> p -> sgl_lists s' !! q = sgl_lists s !! q).
Proof.
  intros (L & HL & Hh & Ht & Hn & Hc & Hnd). unfold DRV_ETHMAC_SingleListHeadRemove.
  rewrite HL. simpl in *. destruct Hc as (Ha & Hnx & Hc). rewrite Hh.
  destruct (Z.eqb_spec a 0) as [|_]; [done|]. cbn [negb].
  apply NoDup_cons in Hnd as [Hal Hnd].
  destruct l as [|b l].
  - simpl in Ht. rewrite Ht, Z.eqb_refl. eexists. split; [done|]. split; [|split; [done|]].
    + eexists. simpl. rewrite lookup_insert_eq. repeat split; simpl in *; try done. lia.
    + intros q Hq. simpl. by rewrite lookup_insert_ne.
  - assert (a <> sgl_tail L).
    { rewrite Ht. intros Heq. apply Hal.
      destruct (last (a :: b :: l)) as [x|] eqn:El; simpl in Heq; [|done]. subst x.
      rewrite last_cons_cons in El. by apply last_Some_elem_of in El. }
    destruct (Z.eqb_spec a (sgl_tail L)) as [|_]; [done|].
    rewrite Hnx. simpl. eexists. split; [done|]. split; [|split; [done|]].
    + eexists. simpl. rewrite lookup_insert_eq. split; [done|]. simpl.
      split; [done|]. split; [by rewrite Ht, last_cons_cons|].
      split; [|done]. simpl length in *. lia.
    + intros q Hq. simpl. by rewrite lookup_insert_ne.
Qed.

Lemma SingleListTailAdd_snoc s p l n :
  sgl_is_list s p l -> n <> 0 -> is_Some (sgl_next s !! n) -> n ∉ l ->
  exists s', DRV_ETHMAC_SingleListTailAdd p n s = Some s' /\
    sgl_is_list s' p (l ++ [n]) /\
    (forall q, q <> p -> sgl_lists s' !! q = sgl_lists s !! q) /\
    (forall a, a <> n -> a ∉ l -> sgl_next s' !! a = sgl_next s !! a).
Proof.
  intros (L & HL & Hh & Ht & Hn & Hc & Hnd) Hn0 [v Hv] Hnin.
  unfold DRV_ETHMAC_SingleListTailAdd, sgl_set_next.
  destruct (Z.eqb_spec n 0) as [|_]; [done|]. rewrite Hv. simpl. rewrite HL. simpl.
  destruct l as [|a l] using rev_ind.
  - simpl in Ht. rewrite Ht. simpl. eexists. split; [done|]. split; [|split].
    + eexists. simpl. rewrite lookup_insert_eq. split; [done|]. simpl.
      simpl in Hn. repeat split; try done; [lia|by rewrite lookup_insert_eq|apply NoDup_singleton].
    + intros q Hq. simpl. by rewrite lookup_insert_ne.
    + intros b Hb _. simpl. by rewrite lookup_insert_ne.
  - clear IHl. rewrite last_snoc in Ht. simpl in Ht.
    assert (a <> 0) as Ha0 by (eapply sgl_chain_nonnull; [done|set_solver]).
    assert (a <> n) as Han by set_solver.
    rewrite Ht. destruct (Z.eqb_spec a 0) as [|_]; [done|]. simpl.
    rewrite lookup_insert_ne by done.
    destruct (sgl_chain_is_Some _ _ a Hc) as [va Hva]; [set_solver|]. rewrite Hva. simpl.
    eexists. split; [done|]. split; [|split].
    + eexists. simpl. rewrite lookup_insert_eq. split; [done|]. simpl.
      split; [by rewrite Hh; destruct l|]. split; [by rewrite last_snoc|].
      split; [rewrite !length_app in *; simpl in *; lia|].
      split; [by apply sgl_chain_snoc|].
      apply NoDup_app. split; [done|]. split; [|apply NoDup_singleton].
      intros x Hx Hx'. apply list_elem_of_singleton in Hx'. by subst x.
    + intros q Hq. simpl. by rewrite lookup_insert_ne.
    + intros b Hb Hb'. simpl. assert (b <> a) by set_solver.
      by rewrite !lookup_insert_ne.
Qed.

(** X15: [DRV_ETHMAC_SingleListAppend] moves every node of [pAList] behind the
    nodes of a different list [pDstL], in order: [pDstL] then holds
    [ld ++ la] with the node count [length ld + length la], and [pAList] is
    empty with count [0]. *)
Theorem SingleListAppend_moves_all fuel pDstL pAList ld la s :
  pDstL <> pAList ->
  sgl_is_list s pDstL ld -> sgl_is_list s pAList la -> NoDup (ld ++ la) ->
  (length la < fuel)%nat ->
  exists s',
    DRV_ETHMAC_SingleListAppend fuel pDstL pAList s = SglDone s' /\
    sgl_is_list s' pDstL (ld ++ la) /\ sgl_is_list s' pAList [] /\
    (nNodes <$> sgl_lists s' !! pDstL) = Some (Z.of_nat (length ld + length la)) /\
    (nNodes <$> sgl_lists s' !! pAList) = Some 0 /\
    (forall q, q <> pDstL -> q <> pAList -> sgl_lists s' !! q = sgl_lists s !! q) /\
    (forall a, a ∉ ld ++ la -> sgl_next s' !! a = sgl_next s !! a).
Proof.
  intros Hpq. revert ld la s.
  induction fuel as [|fuel IH]; intros ld la s HD HA Hnd Hfuel; [lia|].
  simpl. destruct la as [|a la].
  - rewrite (SingleListHeadRemove_nil _ _ HA). simpl. exists s.
    rewrite app_nil_r, Nat.add_0_r. split; [done|]. split; [done|]. split; [done|].
    destruct HD as (L & HL & _ & _ & HnL & _). destruct HA as (L' & HL' & _ & _ & HnL' & _).
    rewrite HL, HL'. simpl. by rewrite HnL, HnL'.
  - destruct (SingleListHeadRemove_cons _ _ _ _ HA) as (s1 & -> & HA1 & Hnx1 & Hl1).
    assert (Ha0 : a <> 0).
    { destruct HA as (_ & _ & _ & _ & _ & Hc & _). by destruct Hc. }
    destruct (Z.eqb_spec a 0) as [|_]; [done|]. cbn [negb].
    assert (HD1 : sgl_is_list s1 pDstL ld).
    { eapply sgl_is_list_frame; [exact HD|by apply Hl1|]. intros b _. by rewrite Hnx1. }
    assert (Hsome : is_Some (sgl_next s1 !! a)).
    { rewrite Hnx1. destruct HA as (_ & _ & _ & _ & _ & Hc & _).
      eapply sgl_chain_is_Some; [exact Hc|set_solver]. }
    assert (Hald : a ∉ ld).
    { apply NoDup_app in Hnd as (_ & Hdisj & _). intros Hin.
      eapply (Hdisj a); [done|set_solver]. }
    destruct (SingleListTailAdd_snoc _ _ _ _ HD1 Ha0 Hsome Hald)
      as (s2 & -> & HD2 & Hl2 & Hnx2).
    assert (HndA : NoDup (a :: la)) by (by apply NoDup_app in Hnd as (_ & _ & ?)).
    assert (HA2 : sgl_is_list s2 pAList la).
    { eapply sgl_is_list_frame; [exact HA1|by apply Hl2|].
      intros b Hb. apply Hnx2.
      - apply NoDup_cons in HndA as [Hn _]. by intros ->.
      - intros Hin. apply NoDup_app in Hnd as (_ & Hdisj & _).
        eapply (Hdisj b); [done|set_solver]. }
    destruct (IH (ld ++ [a]) la s2 HD2 HA2) as (s' & Hrun & HD' & HA' & HnD & HnA & Hl' & Hnx').
    { rewrite <- app_assoc. done. }
    { simpl in Hfuel. lia. }
    exists s'. rewrite <- app_assoc in HD'. simpl in HD'.
    split; [done|]. split; [done|]. split; [done|]. split.
    { rewrite HnD. f_equal. rewrite length_app. simpl. lia. }
    split; [done|]. split.
    + intros q Hq1 Hq2. rewrite Hl', Hl2, Hl1 by done. done.
    + intros b Hb. rewrite Hnx'.
      * rewrite Hnx2, Hnx1; [done|set_solver|set_solver].
      * rewrite <- app_assoc. done.
Qed.

(** X16: appending a list to itself.  An empty list is left as it is; with a
    node in it the loop of [DRV_ETHMAC_SingleListAppend] moves the head
    behind the tail for ever: no number of iterations ends it. *)
Theorem SingleListAppend_to_itself pL l s :
  sgl_is_list s pL l ->
  forall fuel,
    DRV_ETHMAC_SingleListAppend (S fuel) pL pL s
      = if bool_decide (l = []) then SglDone s else SglOutOfFuel.
Proof.
  intros HL fuel. destruct l as [|a l].
  { simpl. by rewrite (SingleListHeadRemove_nil _ _ HL). }
  rewrite bool_decide_eq_false_2 by done.
  generalize (S fuel). clear fuel. intros fuel. revert a l s HL.
  induction fuel as [|fuel IH]; intros a l s HL; [done|].
  simpl. destruct (SingleListHeadRemove_cons _ _ _ _ HL) as (s1 & -> & HL1 & Hnx1 & _).
  destruct HL as (_ & _ & _ & _ & _ & Hc & Hnd).
  assert (Ha0 : a <> 0) by (by destruct Hc).
  destruct (Z.eqb_spec a 0) as [|_]; [done|]. cbn [negb].
  assert (Hsome : is_Some (sgl_next s1 !! a)).
  { rewrite Hnx1. eapply sgl_chain_is_Some; [exact Hc|set_solver]. }
  apply NoDup_cons in Hnd as [Hal _].
  destruct (SingleListTailAdd_snoc _ _ _ _ HL1 Ha0 Hsome Hal) as (s2 & -> & HL2 & _).
  destruct l as [|b l]; simpl in HL2; by eapply IH.
Qed.

Lemma sgl_drain_all s p l :
  sgl_is_list s p l ->
  exists s', sgl_drain (length l) p s = Some (l, s') /\ sgl_is_list s' p [] /\
    sgl_next s' = sgl_next s /\
    (forall q, q <> p -> sgl_lists s' !! q = sgl_lists s !! q).
Proof.
  revert s. induction l as [|a l IH]; intros s HL.
  - by exists s.
  - destruct (SingleListHeadRemove_cons _ _ _ _ HL) as (s1 & Hrun & HL1 & Hnx1 & Hl1).
    destruct (IH s1 HL1) as (s' & Hd & HL' & Hnx' & Hl').
    exists s'. simpl. rewrite Hrun. simpl. rewrite Hd. simpl.
    split; [done|]. split; [done|]. split; [congruence|].
    intros q Hq. by rewrite Hl', Hl1.
Qed.

(** X17: the list is a queue.  A node added with
    [DRV_ETHMAC_SingleListTailAdd] comes out of
    [DRV_ETHMAC_SingleListHeadRemove] after the nodes that were in the list
    before it, in their order; the list is then empty with count [0], and a
    further removal returns null and changes nothing. *)
Theorem SingleList_is_queue pL l n s :
  sgl_is_list s pL l -> n <> 0 -> is_Some (sgl_next s !! n) -> n ∉ l ->
  exists s1 s2,
    DRV_ETHMAC_SingleListTailAdd pL n s = Some s1 /\
    (nNodes <$> sgl_lists s1 !! pL) = Some (Z.of_nat (length l) + 1) /\
    sgl_drain (S (length l)) pL s1 = Some (l ++ [n], s2) /\
    sgl_lists s2 !! pL = Some (mkSglList 0 0 0) /\
    DRV_ETHMAC_SingleListHeadRemove pL s2 = Some (0, s2).
Proof.
  intros HL Hn0 Hsome Hnin.
  destruct (SingleListTailAdd_snoc _ _ _ _ HL Hn0 Hsome Hnin) as (s1 & Hadd & HL1 & _).
  destruct (sgl_drain_all _ _ _ HL1) as (s2 & Hd & HL2 & _).
  exists s1, s2. split; [done|]. split.
  { destruct HL1 as (L & -> & _ & _ & Hn & _). simpl. rewrite Hn, length_app. simpl.
    f_equal. lia. }
  split.
  { rewrite length_app in Hd. simpl in Hd. by rewrite Nat.add_1_r in Hd. }
  split.
  { destruct HL2 as (L & -> & Hh & Ht & Hn & _). destruct L. simpl in *. by subst. }
  by apply SingleListHeadRemove_nil.
Qed.

End SingleList.

(** ** The claims at concrete machines

    From here on the address translation is that of the PIC32. *)

#[local] Existing Instance pic32_kmem.

Lemma arena_calloc_like slots : calloc_like (arena_calloc slots).
Proof.
  intros s. unfold arena_calloc.
  destruct (List.find _ slots) as [p|] eqn:E; [|by left].
  right. exists p. apply find_some in E as [_ E].
  apply andb_true_iff in E as [E1 E2]. apply bool_decide_eq_true in E2.
  split; [|done]. apply negb_true_iff in E1. by apply Z.eqb_neq in E1.
Qed.

Lemma arena_free_like : free_like arena_free.
Proof. by intros p s. Qed.

Lemma bump_calloc_like : calloc_like bump_calloc.
Proof.
  intros s. right. unfold bump_calloc.
  set (p := fresh ({[0]} ∪ dom (mem s) : gset Z)).
  assert (Hp : p ∉ ({[0]} ∪ dom (mem s) : gset Z)) by apply is_fresh.
  exists p. split; [set_solver|]. split; [|done].
  apply not_elem_of_dom. set_solver.
Qed.

Lemma bump_calloc_never_fails n : never_fails (PoolAdd n bump_calloc).
Proof.
  intros s. unfold bump_calloc.
  set (p := fresh ({[0]} ∪ dom (mem s) : gset Z)).
  assert (Hp : p ∉ ({[0]} ∪ dom (mem s) : gset Z)) by apply is_fresh.
  intros [= H0 _]. apply Hp. rewrite H0. set_solver.
Qed.

(** C1 at a failing input.  RX free list [0x120; 0x140]; the array holds an
    acceptable buffer, then a user-space address.  The call returns
    [USPACE_ERR]; the free list is then [0x120] alone: node [0x140], taken
    off for the rejected buffer, is on no list and still carries that
    buffer's address, and the restored node [0x120] is still attached to the
    first buffer with EOWN set.  On the TX side a two-buffer packet with one
    free node returns [NO_DESCRIPTORS]; the node is put back, with the
    first buffer still attached and EOWN set. *)
Theorem RxBuffersAppend_leaks_on_uspace_error :
  (exists s',
      DRV_ETHMAC_LibRxBuffersAppend 5 (buffers [0x80001000; 0x2000]) 0 0 rx_machine
        = Some (DRV_ETHMAC_RES_USPACE_ERR, s') /\
      is_list (mem s') (_EnetRxFreeList s') [0x120] /\
      is_list (mem s') (_EnetRxBusyList s') [0x100] /\
      is_list (mem rx_machine) (_EnetRxFreeList rx_machine) [0x120; 0x140] /\
      pEDBuff_at (mem s') 0x140 = Some 0x2000 /\
      pEDBuff_at (mem s') 0x120 = Some 0x1000 /\
      flag_at Hdr.EOWN_POS (mem s') 0x120 = true) /\
  (exists s',
      DRV_ETHMAC_LibTxSendPacket 5 [mkPkt 0x80001000 64; mkPkt 0x80002000 64] tx_machine
        = Some (DRV_ETHMAC_RES_NO_DESCRIPTORS, s') /\
      is_list (mem s') (_EnetTxFreeList s') [0x200] /\
      pEDBuff_at (mem s') 0x200 = Some 0x1000 /\
      flag_at Hdr.EOWN_POS (mem s') 0x200 = true).
Proof.
  split.
  - eexists. split; [vm_compute; reflexivity|].
    repeat split; try by_compute; vm_compute; reflexivity.
  - eexists. split; [vm_compute; reflexivity|].
    repeat split; try by_compute; vm_compute; reflexivity.
Qed.

Lemma EthAppendBusyList_sentinel_witness :
  exists B' s',
    _EthAppendBusyList 3 (mkList 0x100 0x100) (mkList 0x200 0x300) true
      (append_machine 0x1180) = Some ((B', mkList 0 0), s') /\
    is_list (mem s') B' [0x100; 0x300; 0x200] /\
    tail B' = 0x200 /\
    hdr_at (mem s') 0x200 = Some 0 /\
    pEDBuff_at (mem s') 0x200 = Some 0 /\
    flag_at Hdr.EOWN_POS (mem s') 0x200 = false /\
    Forall (fun a => flag_at Hdr.EOWN_POS (mem s') a = true) [0x100; 0x300].
Proof.
  apply (EthAppendBusyList_sentinel 3%nat (mkList 0x100 0x100) (mkList 0x200 0x300)
           [] 0x100 0x200 [0x300] true (append_machine 0x1180));
    [by_compute | by_compute | by_compute | simpl; lia | by_compute].
Defined.

(** C2 as stated fails: the new list [0x200; 0x300] arrives with node
    [0x300] Software-owned, as the contract of the protocol describes its
    input; after the append [0x300] lies between the old sentinel slot
    [0x100] and the new tail [0x200], and is still Software-owned. *)
Lemma EthAppendBusyList_software_node_stays :
  exists B' s',
    is_list (mem (append_machine 0x1100)) (mkList 0x100 0x100) [0x100] /\
    hdr_at (mem (append_machine 0x1100)) 0x100 = Some 0 /\
    pEDBuff_at (mem (append_machine 0x1100)) 0x100 = Some 0 /\
    is_list (mem (append_machine 0x1100)) (mkList 0x200 0x300) [0x200; 0x300] /\
    _EthAppendBusyList 3 (mkList 0x100 0x100) (mkList 0x200 0x300) true
      (append_machine 0x1100) = Some ((B', mkList 0 0), s') /\
    is_list (mem s') B' [0x100; 0x300; 0x200] /\
    flag_at Hdr.EOWN_POS (mem s') 0x300 = false.
Proof.
  do 2 eexists.
  split; [by_compute|]. split; [by_compute|]. split; [by_compute|].
  split; [by_compute|]. split; [vm_compute; reflexivity|].
  split; [by_compute | vm_compute; reflexivity].
Qed.

Lemma EthAppendBusyList_rx_decrements_witness :
  exists B' s',
    _EthAppendBusyList 3 (mkList 0x100 0x100) (mkList 0x200 0x300) true
      (append_machine 0x1180) = Some ((B', mkList 0 0), s') /\
    BUFCDEC (pEthReg s') = 1%nat /\
    flag_at Hdr.rx_nack_POS (mem s') 0x200 = false.
Proof.
  destruct (EthAppendBusyList_rx_decrements 3%nat (mkList 0x100 0x100) (mkList 0x200 0x300)
              [] 0x100 0x200 [0x300] (append_machine 0x1180))
    as (B' & s' & Hrun & Hdec & _ & _ & Hnack);
    [by_compute | by_compute | by_compute | simpl; lia |].
  exists B', s'. split; [exact Hrun|]. split; [exact Hdec | exact Hnack].
Defined.

Lemma EthTxSched_ownership_order_witness :
  (exists L' s',
      _EthTxSchedBuffer 0x80001000 64 no_list tx_machine
        = Some ((DRV_ETHMAC_RES_OK, L'), s') /\
      is_list (mem s') L' [0x200] /\
      flag_at Hdr.EOWN_POS (mem s') 0x200 = true) /\
  (exists B' s1 s2 nt,
      _EthAppendBusyList_link 3 (mkList 0x100 0x100) (mkList 0x200 0x300) false
        (append_machine 0x1180) = Some ((0x100, B', mkList 0 0), s1) /\
      is_list (mem s1) B' [0x100; 0x300; 0x200] /\
      flag_at Hdr.EOWN_POS (mem s1) 0x100 = false /\
      flag_at Hdr.EOWN_POS (mem s1) 0x200 = false /\
      Forall (fun a => flag_at Hdr.EOWN_POS (mem s1) a
                       = flag_at Hdr.EOWN_POS (mem (append_machine 0x1180)) a) [0x300] /\
      mem s1 !! 0x100 = Some nt /\
      _EthAppendBusyList 3 (mkList 0x100 0x100) (mkList 0x200 0x300) false
        (append_machine 0x1180) = Some ((B', mkList 0 0), s2) /\
      mem s2 = <[0x100 := with_hdr (Hdr.set Hdr.EOWN_POS true) nt]> (mem s1)).
Proof.
  split.
  - apply (proj1 EthTxSched_ownership_order 0x80001000 64 no_list 0x200 [] [] tx_machine);
      [by_compute | by_compute | by_compute | vm_compute; reflexivity].
  - apply (proj2 EthTxSched_ownership_order 3%nat (mkList 0x100 0x100) (mkList 0x200 0x300)
             [] 0x100 0x200 [0x300] false (append_machine 0x1180));
      [by_compute | by_compute | by_compute | simpl; lia].
Defined.

(** C3 as stated fails: the node [_EthTxSchedBuffer] prepares for the new
    list is Hardware-owned (EOWN set) before the append protocol sees it. *)
Lemma EthTxSchedBuffer_prepares_hardware_owned :
  exists L' s',
    _EthTxSchedBuffer 0x80001000 64 no_list tx_machine
      = Some ((DRV_ETHMAC_RES_OK, L'), s') /\
    is_list (mem s') L' [0x200] /\
    flag_at Hdr.EOWN_POS (mem s') 0x200 = true /\
    flag_at Hdr.EOWN_POS (mem s') 0x200 <> false.
Proof.
  do 2 eexists. split; [vm_compute; reflexivity|].
  split; [by_compute|]. split; [vm_compute; reflexivity | by vm_compute].
Qed.

Lemma TxGetBufferStatus_pure_query_witness :
  exists res st,
    DRV_ETHMAC_LibTxGetBufferStatus 4 0x80002000 (Some 0) tx_busy_machine
      = Some ((res, st), tx_busy_machine) /\
    res = DRV_ETHMAC_RES_PACKET_QUEUED /\ st = Some 0.
Proof.
  destruct (TxGetBufferStatus_pure_query 4%nat 0x80002000 (Some 0) [0x100; 0x120; 0x140]
              tx_busy_machine) as (res & st & Hrun & Hres);
    [by_compute | simpl; lia |].
  exists res, st. split; [exact Hrun | exact Hres].
Defined.

Lemma pool_add_remove_count_witness :
  (exists s' lnew lbz' p,
      DRV_ETHMAC_LibDescriptorsPoolAdd 5 2 DRV_ETHMAC_DCPT_TYPE_RX
        (Some (arena_calloc [0x100; 0x120])) empty_machine
        = Some (Z.of_nat (length lnew), s') /\
      pool_wf RxFree RxBusy s' lnew lbz' /\
      lbz' = [p] /\ payload_at (mem s') p = Some (0, 0, 0) /\
      Z.of_nat (length lnew) <= 2 /\
      (Z.of_nat (length lnew) < 2 -> arena_calloc [0x100; 0x120] s' = Some (0, s'))) /\
  (exists s',
      DRV_ETHMAC_LibDescriptorsPoolRemove 5 3 DRV_ETHMAC_DCPT_TYPE_RX (Some arena_free)
        rx_machine = Some (2, s') /\
      pool_wf RxFree RxBusy s' [] [0x100]) /\
  (exists s' lf' lbz',
      run_pool 5 DRV_ETHMAC_DCPT_TYPE_TX
        [PoolAdd 2 bump_calloc; PoolRemove 1 (Some arena_free)] empty_machine
        = Some ([2; 1], s') /\
      pool_wf TxFree TxBusy s' lf' lbz' /\
      Z.of_nat (length lf') = 1).
Proof.
  split; [|split].
  - destruct (proj1 pool_add_remove_count 5%nat 2 DRV_ETHMAC_DCPT_TYPE_RX
                (arena_calloc [0x100; 0x120]) RxFree RxBusy [] [] empty_machine)
      as (s' & lnew & lbz' & Hrun & Hwf & Hle & Hstop & Hs & _);
      [by right | repeat split; by_compute | apply arena_calloc_like | lia | simpl; lia |].
    destruct Hs as [(Hfail & _)|(p & _ & _ & Hl & _ & Hp)]; [discriminate Hfail|].
    exists s', lnew, lbz', p. split; [exact Hrun|]. split; [exact Hwf|].
    split; [exact Hl|]. split; [exact Hp|]. split; [exact Hle | exact Hstop].
  - destruct (proj1 (proj2 pool_add_remove_count) 5%nat 3 DRV_ETHMAC_DCPT_TYPE_RX
                (Some arena_free) RxFree RxBusy [0x120; 0x140] [0x100] rx_machine)
      as (s' & Hrun & Hwf);
      [by right | repeat split; by_compute | apply arena_free_like | lia | simpl; lia |].
    exists s'. split; [exact Hrun | exact Hwf].
  - destruct (proj2 (proj2 pool_add_remove_count) 5%nat DRV_ETHMAC_DCPT_TYPE_TX
                TxFree TxBusy [PoolAdd 2 bump_calloc; PoolRemove 1 (Some arena_free)]
                [] [] empty_machine)
      as (rets & s' & lf' & lbz' & Hrun & Hwf & _ & Hsum & _ & Hrets).
    + by left.
    + repeat split; by_compute.
    + apply Forall_cons. split.
      { split; [lia|]. split; [simpl; lia | apply bump_calloc_like]. }
      apply Forall_cons. split; [|constructor].
      split; [lia|]. split; [simpl; lia | apply arena_free_like].
    + assert (rets = [2; 1]) as Hr.
      { apply Hrets. apply Forall_cons. split; [apply bump_calloc_never_fails|].
        apply Forall_cons. split; [exact I | constructor]. }
      subst rets. exists s', lf', lbz'. split; [exact Hrun|]. split; [exact Hwf|].
      exact Hsum.
Defined.

(** C8 as stated fails: add 1, remove 2, add 1 on a fresh TX direction.  The
    adds created 2 nodes and 2 removals were requested, so the stated count
    is [max 0 (2 - 2) = 0]; the free list holds 1 node. *)
Lemma pool_count_not_clamped_difference :
  let ops := [PoolAdd 1 (arena_calloc [0x100; 0x120; 0x140]);
              PoolRemove 2 (Some arena_free);
              PoolAdd 1 (arena_calloc [0x100; 0x120; 0x140])] in
  exists rets s',
    run_pool 5 DRV_ETHMAC_DCPT_TYPE_TX ops empty_machine = Some (rets, s') /\
    is_list (mem s') (_EnetTxFreeList s') [0x120] /\
    sum_adds ops rets = 2 /\ sum_requested_removes ops = 2 /\
    Z.of_nat (length [0x120]) <> Z.max 0 (sum_adds ops rets - sum_requested_removes ops).
Proof.
  do 2 eexists. split; [vm_compute; reflexivity|].
  split; [by_compute|]. split; [vm_compute; reflexivity|].
  split; [vm_compute; reflexivity | by vm_compute].
Qed.

Lemma pool_rejects_bad_arguments_witness :
  DRV_ETHMAC_LibDescriptorsPoolAdd 5 2 DRV_ETHMAC_DCPT_TYPE_RX None rx_machine
    = Some (0, rx_machine) /\
  DRV_ETHMAC_LibDescriptorsPoolAdd 5 2 3 (Some (arena_calloc [0x200])) rx_machine
    = Some (0, rx_machine) /\
  DRV_ETHMAC_LibDescriptorsPoolRemove 5 2 0 (Some arena_free) rx_machine
    = Some (0, rx_machine).
Proof.
  split; [|split].
  - apply (proj1 pool_rejects_bad_arguments).
  - apply (proj1 (proj2 pool_rejects_bad_arguments)); by vm_compute.
  - apply (proj2 (proj2 pool_rejects_bad_arguments)); by vm_compute.
Defined.

Lemma RxGetPacket_split_error_witness :
  exists out,
    DRV_ETHMAC_LibRxGetPacket 4 [mkPkt 0 0] (Some 0) None rx_packet_machine
      = Some ((DRV_ETHMAC_RES_RX_PKT_SPLIT_ERR, out), rx_packet_machine) /\
    out_pnBuffs out = Some 2 /\
    flag_at Hdr.rx_wack_POS (mem rx_packet_machine) 0x100 = false.
Proof.
  destruct (RxGetPacket_split_error 4%nat [mkPkt 0 0] 0 None [] [0x100] 0x120 [0x140]
              rx_packet_machine) as (out & Hrun & Hn & _ & Hw & _).
  - by_compute.
  - simpl; lia.
  - constructor.
  - repeat split; by_compute.
  - by vm_compute.
  - simpl; lia.
  - exists out. split; [exact Hrun|]. split; [exact Hn | exact Hw].
Defined.

Lemma RxBuffersAppend_zero_is_unlimited_witness :
  exists s',
    DRV_ETHMAC_LibRxBuffersAppend 4 (buffers [0x80001000; 0xA0002000]) 0 0 rx_machine
      = Some (DRV_ETHMAC_RES_OK, s') /\
    is_list (mem s') (_EnetRxFreeList s') [] /\
    is_list (mem s') (_EnetRxBusyList s') [0x100; 0x140; 0x120] /\
    map (pEDBuff_at (mem s')) [0x100; 0x140] = [Some 0x1000; Some 0x2000] /\
    pEDBuff_at (mem s') 0x120 = Some 0 /\
    RXEN (pEthReg s') = true.
Proof.
  destruct (RxBuffersAppend_zero_is_unlimited 4%nat (buffers [0x80001000; 0xA0002000]) 0
              0x120 [0x140] [] [] 0x100 rx_machine)
    as (s' & Hrun & Hf & Hb & Hm & Hu & Hen).
  - by_compute.
  - by_compute.
  - by_compute.
  - intros [|[|j]] Hj; [split; by vm_compute | split; by vm_compute | simpl in Hj; lia].
  - reflexivity.
  - simpl; lia.
  - simpl; lia.
  - exists s'. split; [exact Hrun|]. split; [exact Hf|]. split; [exact Hb|].
    split; [exact Hm|]. split; [exact Hu | exact Hen].
Defined.

Lemma RxAcknowledgeBuffer_recycles_witness :
  exists s',
    DRV_ETHMAC_LibRxAcknowledgeBuffer 4 0 rx_ack_machine = Some (DRV_ETHMAC_RES_OK, s') /\
    rx_acknowledged rx_ack_machine s' [0x160] [0x100; 0x120] [] 0x140.
Proof.
  destruct (RxAcknowledgeBuffer_recycles 4%nat 0 [0x100; 0x120] 0x140 [0x160]
              [0x100; 0x120] [0x140] 2 true rx_ack_machine)
    as (s' & kept' & Hrun & Hk & Hack & _).
  - by_compute.
  - by_compute.
  - by_compute.
  - vm_compute; reflexivity.
  - vm_compute; reflexivity.
  - vm_compute; reflexivity.
  - simpl; lia.
  - exists s'. split; [exact Hrun|].
    destruct kept' as [|? [|? ?]]; [exact Hack | discriminate Hk | discriminate Hk].
Defined.

(** ** The further properties at concrete machines *)

Lemma BuffersGet_counts_witness :
  DRV_ETHMAC_LibRxPendingBuffersGet 5 (Some 0) pool_machine
    = Some ((DRV_ETHMAC_RES_OK, Some 1), pool_machine) /\
  DRV_ETHMAC_LibRxScheduledBuffersGet 5 (Some 0) pool_machine
    = Some ((DRV_ETHMAC_RES_OK, Some 1), pool_machine) /\
  DRV_ETHMAC_LibTxPendingBuffersGet 5 (Some 0) pool_machine
    = Some ((DRV_ETHMAC_RES_OK, Some 1), pool_machine).
Proof.
  destruct (BuffersGet_counts 5%nat 0 [0x300; 0x320] [0x100] 0x340 0x120 pool_machine)
    as (pend & sched & Hp & Hs & Ht & -> & -> & _);
    [by_compute | by_compute | simpl; lia | simpl; lia |].
  split; [exact Hp|]. split; [exact Hs | exact Ht].
Defined.

Lemma PoolCleanUp_releases_witness :
  exists s',
    DRV_ETHMAC_LibDescriptorsPoolCleanUp 5 DRV_ETHMAC_DCPT_TYPE_TX (Some arena_free)
      pool_machine = Some (tt, s') /\
    _EnetTxFreeList s' = mkList 0 0 /\ _EnetTxBusyList s' = mkList 0 0 /\
    _EnetRxFreeList s' = mkList 0x160 0x160 /\ _EnetRxBusyList s' = mkList 0x300 0x340 /\
    mem s' !! 0x100 = None /\ mem s' !! 0x300 = mem pool_machine !! 0x300.
Proof.
  pose proof (PoolCleanUp_releases 5%nat DRV_ETHMAC_DCPT_TYPE_TX (Some arena_free)
                [0x200] [0x100; 0x120] [0x160] [0x300; 0x320; 0x340] pool_machine) as H.
  destruct H as (s' & Hrun & Htf & Htb & Hrf & Hrb & _ & Hmem);
    [by_compute | by_compute | by_compute | by_compute | by_compute
    | simpl; lia | simpl; lia | simpl; lia | simpl; lia | apply arena_free_like |].
  exists s'. split; [exact Hrun|]. split; [exact Htf|]. split; [exact Htb|].
  split; [exact Hrf|]. split; [exact Hrb|].
  split; [exact (Hmem 0x100) | exact (Hmem 0x300)].
Defined.

Lemma TxAcknowledgeBuffer_returns_nodes_witness :
  exists s',
    DRV_ETHMAC_LibTxAcknowledgeBuffer 5 0 true tx_busy_machine
      = Some ((DRV_ETHMAC_RES_OK, [0xA0001000]), s') /\
    is_list (mem s') (_EnetTxBusyList s') [0x120; 0x140] /\
    is_list (mem s') (_EnetTxFreeList s') [0x100].
Proof.
  destruct (TxAcknowledgeBuffer_returns_nodes 5%nat 0 true [0x100; 0x120] 0x140 []
              [0x100] [0x120; 0x140] 1 true tx_busy_machine)
    as (s' & kept' & Hrun & _ & Hb & Hf & _).
  - by_compute.
  - by_compute.
  - by_compute.
  - vm_compute; reflexivity.
  - vm_compute; reflexivity.
  - vm_compute; reflexivity.
  - simpl; lia.
  - exists s'. split; [exact Hrun|]. split; [exact Hb | exact Hf].
Defined.

Lemma TxSendPacket_failure_restores_witness :
  exists s',
    DRV_ETHMAC_LibTxSendPacket 5 [mkPkt 0x80001000 64; mkPkt 0x2000 64] tx_machine
      = Some (DRV_ETHMAC_RES_USPACE_ERR, s') /\
    is_list (mem s') (_EnetTxFreeList s') [0x200] /\
    _EnetTxBusyList s' = _EnetTxBusyList tx_machine /\
    pEthReg s' = pEthReg tx_machine.
Proof.
  destruct (TxSendPacket_failure_restores 5%nat [mkPkt 0x80001000 64] (mkPkt 0x2000 64) []
              [0x200] [] tx_machine)
    as (s' & Hrun & Hf & _ & _ & _ & _ & Hb & _ & _ & Hr).
  - reflexivity.
  - apply Forall_cons. split; [|constructor]. repeat split; by vm_compute.
  - by vm_compute.
  - by vm_compute.
  - left. vm_compute; reflexivity.
  - by_compute.
  - simpl; lia.
  - exists s'. split; [exact Hrun|]. split; [exact Hf|]. split; [exact Hb | exact Hr].
Defined.

Lemma TxSendPacket_schedules_witness :
  exists s',
    DRV_ETHMAC_LibTxSendPacket 5 [mkPkt 0x80001000 64] tx_machine
      = Some (DRV_ETHMAC_RES_OK, s') /\
    is_list (mem s') (_EnetTxBusyList s') [0x100; 0x200] /\
    flag_at Hdr.SOP_POS (mem s') 0x100 = true /\
    flag_at Hdr.EOP_POS (mem s') 0x100 = true /\
    hdr_at (mem s') 0x200 = Some 0.
Proof.
  destruct (TxSendPacket_schedules 5%nat [mkPkt 0x80001000 64] [] 0x200 [] [] [] 0x100
              tx_machine)
    as (s' & Hrun & _ & Hb & _ & _ & Hs & He & Hh & _).
  - reflexivity.
  - apply Forall_cons. split; [|constructor]. repeat split; by vm_compute.
  - exact I.
  - by_compute.
  - by_compute.
  - by_compute.
  - simpl; lia.
  - exists s'. split; [exact Hrun|]. split; [exact Hb|]. split; [exact Hs|].
    split; [exact He | exact Hh].
Defined.

Lemma TxSendBuffer_then_queued_witness :
  exists s',
    DRV_ETHMAC_LibTxSendBuffer 5 0x80001000 64 tx_machine
      = Some (DRV_ETHMAC_RES_OK, s') /\
    DRV_ETHMAC_LibTxGetBufferStatus 5 0x80001000 (Some 0) s'
      = Some ((DRV_ETHMAC_RES_PACKET_QUEUED, Some 0), s').
Proof.
  destruct (TxSendBuffer_then_queued 5%nat 0x80001000 64 0 0x200 [] [] 0x100 tx_machine)
    as (s' & st & Hrun & _ & _ & _ & _ & _ & _ & _ & Hq).
  - by vm_compute.
  - by vm_compute.
  - vm_compute; reflexivity.
  - by_compute.
  - by_compute.
  - by_compute.
  - constructor.
  - simpl; lia.
  - exists s'. split; [exact Hrun | exact Hq].
Defined.

Lemma TxSend_nothing_to_do_witness :
  DRV_ETHMAC_LibTxSendPacket 5 [mkPkt 0 64] tx_machine
    = Some (DRV_ETHMAC_RES_OK, tx_machine) /\
  DRV_ETHMAC_LibTxSendBuffer 5 0x2000 64 tx_machine
    = Some (DRV_ETHMAC_RES_USPACE_ERR, tx_machine) /\
  DRV_ETHMAC_LibTxSendBuffer 5 0x80001000 64 rx_machine
    = Some (DRV_ETHMAC_RES_NO_DESCRIPTORS, rx_machine).
Proof.
  split; [|split].
  - apply (proj1 TxSend_nothing_to_do). by left.
  - apply (proj1 (proj2 TxSend_nothing_to_do)). vm_compute; reflexivity.
  - apply (proj2 (proj2 TxSend_nothing_to_do)); [vm_compute; reflexivity | by_compute].
Defined.

Lemma RxGetPacket_reports_fragments_witness :
  exists out s',
    DRV_ETHMAC_LibRxGetPacket 4 [mkPkt 0 0; mkPkt 0 0; mkPkt 7 7] (Some 0) (Some 0)
      rx_packet_machine = Some ((DRV_ETHMAC_RES_OK, out), s') /\
    out_pPkt out = [mkPkt 0x80001000 0x40; mkPkt 0x80002000 0x20; mkPkt 0 0] /\
    out_pnBuffs out = Some 2.
Proof.
  destruct (RxGetPacket_reports_fragments 4%nat [mkPkt 0 0; mkPkt 0 0; mkPkt 7 7]
              (Some 0) (Some 0) [] [0x100] 0x120 [0x140] rx_packet_machine)
    as (nH & out & _ & Hrun & Hp & _ & Hn & _).
  - by_compute.
  - simpl; lia.
  - constructor.
  - repeat split; by_compute.
  - simpl; lia.
  - exists out. eexists. split; [exact Hrun|]. split; [exact Hp | exact Hn].
Defined.

Lemma RxGetPacket_short_chain_ok_witness :
  exists out,
    DRV_ETHMAC_LibRxGetPacket 4 [mkPkt 0 0] None None rx_packet_machine
      = Some ((DRV_ETHMAC_RES_OK, out), rx_packet_machine) /\
    out_pPkt out = [mkPkt 0x80001000 0x40].
Proof.
  destruct (RxGetPacket_short_chain_ok 4%nat [mkPkt 0 0] None None [] [0x100] 0x120
              [0x140] rx_packet_machine)
    as (out & Hrun & Hp & _).
  - by_compute.
  - simpl; lia.
  - constructor.
  - repeat split; by_compute.
  - simpl; lia.
  - by right.
  - exists out. split; [exact Hrun | exact Hp].
Defined.

Lemma RxGetPacket_nothing_ready_witness :
  DRV_ETHMAC_LibRxGetPacket 4 [mkPkt 7 7] (Some 9) None rx_machine
    = Some ((DRV_ETHMAC_RES_NO_PACKET, mkOut [mkPkt 0 0] (Some 9) None), rx_machine) /\
  DRV_ETHMAC_LibRxGetPacket 4 [mkPkt 7 7] (Some 9) None pool_machine
    = Some ((DRV_ETHMAC_RES_PACKET_QUEUED, mkOut [mkPkt 0 0] (Some 9) None), pool_machine).
Proof.
  split.
  - apply (RxGetPacket_nothing_ready 4%nat [mkPkt 7 7] (Some 9) None [0x100] [] rx_machine).
    + by_compute.
    + simpl; lia.
    + apply Forall_cons. split; [|constructor]. split; vm_compute; reflexivity.
    + exact I.
  - apply (RxGetPacket_nothing_ready 4%nat [mkPkt 7 7] (Some 9) None []
             [0x300; 0x320; 0x340] pool_machine).
    + by_compute.
    + simpl; lia.
    + constructor.
    + vm_compute; reflexivity.
Defined.

Lemma RxGetBuffer_single_or_split_witness :
  DRV_ETHMAC_LibRxGetBuffer 4 (mkPkt 0 0) 0 None rx_packet_machine
    = Some ((DRV_ETHMAC_RES_RX_PKT_SPLIT_ERR, 0x80001000, None), rx_packet_machine).
Proof.
  destruct (RxGetBuffer_single_or_split 4%nat (mkPkt 0 0) 0 None [] [0x100] 0x120 [0x140]
              rx_packet_machine) as (nH & HnH & Hrun).
  - by_compute.
  - simpl; lia.
  - constructor.
  - repeat split; by_compute.
  - injection HnH as <-. exact Hrun.
Defined.

Lemma RxBuffersAppend_hands_over_witness :
  exists s',
    DRV_ETHMAC_LibRxBuffersAppend 4 (buffers [0x80001000; 0xA0002000]) 1 0 rx_machine
      = Some (DRV_ETHMAC_RES_OK, s') /\
    is_list (mem s') (_EnetRxFreeList s') [0x140] /\
    is_list (mem s') (_EnetRxBusyList s') [0x100; 0x120] /\
    BUFCDEC (pEthReg s') = 1%nat.
Proof.
  destruct (RxBuffersAppend_hands_over 4%nat (buffers [0x80001000; 0xA0002000]) 1 0
              0x120 [] [0x140] [] 0x100 rx_machine)
    as (s' & Hrun & Hf & Hb & _ & _ & _ & _ & Hr & _).
  - by_compute.
  - by_compute.
  - by_compute.
  - intros [|j] Hj; [split; by vm_compute | simpl in Hj; lia].
  - by vm_compute.
  - right. reflexivity.
  - simpl; lia.
  - exists s'. split; [exact Hrun|]. split; [exact Hf|]. split; [exact Hb|].
    by rewrite Hr.
Defined.

Lemma RxBuffersAppend_no_descriptors_witness :
  exists s',
    DRV_ETHMAC_LibRxBuffersAppend 4
      (buffers [0x80001000; 0xA0002000; 0x80003000]) 0 0 rx_machine
      = Some (DRV_ETHMAC_RES_NO_DESCRIPTORS, s') /\
    is_list (mem s') (_EnetRxFreeList s') [0x120; 0x140] /\
    _EnetRxBusyList s' = _EnetRxBusyList rx_machine /\
    pEthReg s' = pEthReg rx_machine.
Proof.
  destruct (RxBuffersAppend_no_descriptors 4%nat
              (buffers [0x80001000; 0xA0002000; 0x80003000]) 0 0 [0x120; 0x140] rx_machine)
    as (s' & Hrun & Hf & Hb & Hr & _).
  - by_compute.
  - intros [|[|j]] Hj; [split; by vm_compute | split; by vm_compute | simpl in Hj; lia].
  - by vm_compute.
  - by vm_compute.
  - simpl; lia.
  - exists s'. split; [exact Hrun|]. split; [exact Hf|]. split; [exact Hb | exact Hr].
Defined.

Lemma DescriptorGetBuffer_after_append_witness :
  exists s',
    DRV_ETHMAC_LibRxBuffersAppend 4 (buffers [0x80001000; 0xA0002000]) 0 0 rx_machine
      = Some (DRV_ETHMAC_RES_OK, s') /\
    DRV_ETHMAC_LibDescriptorGetBuffer 0x100 s' = Some (0x80001000, s') /\
    DRV_ETHMAC_LibDescriptorGetBuffer 0x140 s' = Some (0xA0002000, s') /\
    DRV_ETHMAC_LibDescriptorGetBuffer 0x120 s' = Some (0, s').
Proof.
  destruct (DescriptorGetBuffer_after_append 4%nat (buffers [0x80001000; 0xA0002000]) 0 0
              0x120 [0x140] [] [] 0x100 rx_machine)
    as (s' & Hrun & Hget & Hu).
  - by_compute.
  - by_compute.
  - by_compute.
  - intros [|[|j]] Hj; [repeat split; by vm_compute | repeat split; by vm_compute
                        | simpl in Hj; lia].
  - by vm_compute.
  - left. reflexivity.
  - simpl; lia.
  - exists s'. split; [exact Hrun|].
    split; [exact (Hget 0%nat 0x100 eq_refl)|].
    split; [exact (Hget 1%nat 0x140 eq_refl) | exact Hu].
Defined.

Lemma SingleListAppend_moves_all_witness :
  exists s',
    DRV_ETHMAC_SingleListAppend 3 0x20 0x10 sgl_example = SglDone s' /\
    sgl_is_list s' 0x20 [0x200; 0x100; 0x120] /\ sgl_is_list s' 0x10 [] /\
    (nNodes <$> sgl_lists s' !! 0x20) = Some 3 /\
    (nNodes <$> sgl_lists s' !! 0x10) = Some 0.
Proof.
  destruct (SingleListAppend_moves_all 3%nat 0x20 0x10 [0x200] [0x100; 0x120] sgl_example)
    as (s' & Hrun & HD & HA & HnD & HnA & _);
    [done | by_compute | by_compute | by_compute | simpl; lia |].
  exists s'. split; [exact Hrun|]. split; [exact HD|]. split; [exact HA|].
  split; [exact HnD | exact HnA].
Defined.

Lemma SingleListAppend_to_itself_witness :
  DRV_ETHMAC_SingleListAppend 1000 0x10 0x10 sgl_example = SglOutOfFuel.
Proof.
  apply (SingleListAppend_to_itself 0x10 [0x100; 0x120] sgl_example); by_compute.
Defined.

Lemma SingleList_is_queue_witness :
  exists s1 s2,
    DRV_ETHMAC_SingleListTailAdd 0x10 0x300 sgl_example = Some s1 /\
    sgl_drain 3 0x10 s1 = Some ([0x100; 0x120; 0x300], s2) /\
    DRV_ETHMAC_SingleListHeadRemove 0x10 s2 = Some (0, s2).
Proof.
  destruct (SingleList_is_queue 0x10 [0x100; 0x120] 0x300 sgl_example)
    as (s1 & s2 & Hadd & _ & Hd & _ & Hrm);
    [by_compute | done | by_compute | by_compute |].
  exists s1, s2. split; [exact Hadd|]. split; [exact Hd | exact Hrm].
Defined.
